(** * backrefs.bregex: search preprocessor and replacement templates

    A shallow embedding of [backrefs/bregex.py] and the properties its
    specification states about it.

    Python strings are [string]s of 8-bit characters (text that fits
    latin-1; byte strings are decoded as latin-1 by the source itself).
    Mutable objects ([RegexSearchTokens], [RegexSearchTemplate],
    [ReplaceTemplate]) are records threaded through an outcome monad in
    which a raised exception keeps the mutated state, as in Python.
    Loops that the source bounds only by its input (the retry loops, the
    token loops, the mutual recursion between handlers) take a fuel
    argument; running out of it is the separate outcome [OutOfFuel]. *)

From Stdlib Require Import String Ascii List ZArith Lia Bool Arith.
Import ListNotations.
Open Scope string_scope.

(** ** Python values and builtins used by the module *)

Module Py.

(** Exceptions the module raises or catches. *)
Inductive exn : Type :=
| StopIteration
| RetryException
| GlobalRetryException
| ValueError (msg : string)
| TypeError (msg : string)
| IndexError (msg : string)
| SyntaxError (msg : string)
| KeyError (msg : string)
| HostError (msg : string).

(** Outcome of a call on a mutable object of type [S]. *)
Inductive outcome (S A : Type) : Type :=
| Ok (a : A) (s : S)
| Raise (e : exn) (s : S)
| OutOfFuel.
Arguments Ok {S A} a s.
Arguments Raise {S A} e s.
Arguments OutOfFuel {S A}.

Definition M (S A : Type) : Type := S -> outcome S A.

Definition ret {S A} (a : A) : M S A := fun s => Ok a s.
Definition raise {S A} (e : exn) : M S A := fun s => Raise e s.
Definition bind {S A B} (c : M S A) (k : A -> M S B) : M S B :=
  fun s => match c s with
           | Ok a s' => k a s'
           | Raise e s' => Raise e s'
           | OutOfFuel => OutOfFuel
           end.
Definition get {S} : M S S := fun s => Ok s s.
Definition put {S} (s : S) : M S unit := fun _ => Ok tt s.

(** What the caller of a top-level function sees. *)
Inductive returned (A : Type) : Type :=
| Returns (a : A)
| Raises (e : exn)
| NoFuel.
Arguments Returns {A} a.
Arguments Raises {A} e.
Arguments NoFuel {A}.

Definition seen {S A} (o : outcome S A) : returned A :=
  match o with
  | Ok a _ => Returns a
  | Raise e _ => Raises e
  | OutOfFuel => NoFuel
  end.

(** Loop control. *)
Inductive flow (A : Type) : Type :=
| Continue (a : A)
| Break (a : A).
Arguments Continue {A} a.
Arguments Break {A} a.

(** [chr c] as a one-character string. *)
Definition str (c : ascii) : string := String c "".

(** ["".join(l)] *)
Definition join (l : list string) : string := String.concat "" l.

(** [s[n:]] for [0 <= n]. *)
Fixpoint drop (n : nat) (s : string) : string :=
  match n, s with
  | O, _ => s
  | S n', String _ s' => drop n' s'
  | S _, EmptyString => EmptyString
  end.

(** [s[:n]] for [0 <= n]. *)
Fixpoint take (n : nat) (s : string) : string :=
  match n, s with
  | O, _ => EmptyString
  | S n', String c s' => String c (take n' s')
  | S _, EmptyString => EmptyString
  end.

(** [s[a:-1]] *)
Definition slice_to_last (a : nat) (s : string) : string :=
  take (String.length s - 1 - a) (drop a s).

(** [s.startswith(sub)] *)
Fixpoint startswith (sub s : string) {struct sub} : bool :=
  match sub with
  | EmptyString => true
  | String a sub' =>
      match s with
      | String b s' => Ascii.eqb a b && startswith sub' s'
      | EmptyString => false
      end
  end.

(** [sub in s] *)
Fixpoint contains (sub s : string) : bool :=
  startswith sub s ||
  match s with
  | EmptyString => false
  | String _ s' => contains sub s'
  end.

(** [c in cs] for a character and a string of candidates. *)
Definition in_chars (cs : string) (c : ascii) : bool :=
  existsb (Ascii.eqb c) (list_ascii_of_string cs).

Definition is_digit (c : ascii) : bool :=
  (48 <=? nat_of_ascii c)%nat && (nat_of_ascii c <=? 57)%nat.
Definition is_octal (c : ascii) : bool :=
  (48 <=? nat_of_ascii c)%nat && (nat_of_ascii c <=? 55)%nat.
Definition is_lower (c : ascii) : bool :=
  (97 <=? nat_of_ascii c)%nat && (nat_of_ascii c <=? 122)%nat.
Definition is_upper (c : ascii) : bool :=
  (65 <=? nat_of_ascii c)%nat && (nat_of_ascii c <=? 90)%nat.
Definition is_alpha (c : ascii) : bool := is_lower c || is_upper c.
Definition is_hex (c : ascii) : bool :=
  is_digit c || in_chars "abcdefABCDEF" c.
(** [\w] under ASCII matching. *)
Definition is_word (c : ascii) : bool :=
  is_alpha c || is_digit c || Ascii.eqb c "_".
(** [str.isspace] on 8-bit characters. *)
Definition is_space (c : ascii) : bool :=
  let n := nat_of_ascii c in
  ((9 <=? n)%nat && (n <=? 13)%nat) || ((28 <=? n)%nat && (n <=? 32)%nat)
  || (n =? 133)%nat || (n =? 160)%nat.

(** [str.upper] and [str.lower]: the mapping is the ASCII one; a
    character outside [a-zA-Z] is left as it is. *)
Definition upper_char (c : ascii) : ascii :=
  if is_lower c then ascii_of_nat (nat_of_ascii c - 32) else c.
Definition lower_char (c : ascii) : ascii :=
  if is_upper c then ascii_of_nat (nat_of_ascii c + 32) else c.
Fixpoint upper (s : string) : string :=
  match s with
  | EmptyString => EmptyString
  | String c s' => String (upper_char c) (upper s')
  end.
Fixpoint lower (s : string) : string :=
  match s with
  | EmptyString => EmptyString
  | String c s' => String (lower_char c) (lower s')
  end.

(** [str.upper] and [str.lower] of the one-character string [chr(n)],
    as a code point. *)
Definition upper_ord (n : Z) : Z :=
  if (97 <=? n)%Z && (n <=? 122)%Z then (n - 32)%Z else n.
Definition lower_ord (n : Z) : Z :=
  if (65 <=? n)%Z && (n <=? 90)%Z then (n + 32)%Z else n.

(** The longest prefix of characters satisfying [p], and the rest. *)
Fixpoint span (p : ascii -> bool) (s : string) : string * string :=
  match s with
  | String c r =>
      if p c then let (m, r') := span p r in (String c m, r')
      else (EmptyString, s)
  | EmptyString => (EmptyString, s)
  end.

(** [str.strip()] *)
Fixpoint lstrip (s : string) : string :=
  match s with
  | String c r => if is_space c then lstrip r else s
  | EmptyString => EmptyString
  end.
Fixpoint rstrip (s : string) : string :=
  match s with
  | String c r =>
      match rstrip r with
      | EmptyString => if is_space c then EmptyString else str c
      | r' => String c r'
      end
  | EmptyString => EmptyString
  end.
Definition strip (s : string) : string := rstrip (lstrip s).

(** [s.index(c)] for a character; [None] is the [ValueError]. *)
Fixpoint index_of (c : ascii) (s : string) : option nat :=
  match s with
  | String d r => if Ascii.eqb c d then Some O else option_map S (index_of c r)
  | EmptyString => None
  end.

(** The value of an alphanumeric character as a digit. *)
Definition digit_val (c : ascii) : option Z :=
  let n := Z.of_nat (nat_of_ascii c) in
  if is_digit c then Some (n - 48)%Z
  else if is_lower c then Some (n - 87)%Z
  else if is_upper c then Some (n - 55)%Z
  else None.

(** Digits of [int(text, base)], single underscores allowed between
    them; [sep] says that the previous character was an underscore. *)
Fixpoint int_digits (base : Z) (s : string) (acc : Z) (sep : bool) : option Z :=
  match s with
  | EmptyString => if sep then None else Some acc
  | String c r =>
      if Ascii.eqb c "_" then
        if sep then None else int_digits base r acc true
      else
        match digit_val c with
        | Some d =>
            if (d <? base)%Z then int_digits base r (acc * base + d)%Z false
            else None
        | None => None
        end
  end.

(** The digits after the sign: an optional base prefix that agrees
    with [base], then at least one digit. *)
Definition int_unsigned (base : Z) (s : string) : option Z :=
  let body (s : string) (prefixed : bool) :=
    match s with
    | EmptyString => None
    | String "_" r => if prefixed then
                        match r with
                        | EmptyString => None
                        | _ => int_digits base r 0%Z true
                        end
                      else None
    | _ => int_digits base s 0%Z false
    end in
  match s with
  | String "0" (String p r) =>
      if ((base =? 16)%Z && in_chars "xX" p)
         || ((base =? 8)%Z && in_chars "oO" p)
         || ((base =? 2)%Z && in_chars "bB" p)
      then body r true else body s false
  | _ => body s false
  end.

(** [int(text, base)] for a base among 2, 8, 10 and 16; [None] is the
    [ValueError]. *)
Definition int (text : string) (base : Z) : option Z :=
  match strip text with
  | String "-" r => option_map Z.opp (int_unsigned base r)
  | String "+" r => int_unsigned base r
  | r => int_unsigned base r
  end.

(** Digits of a natural number in a base up to sixteen, lower case. *)
Definition digit_char (d : Z) : ascii :=
  if (d <? 10)%Z then ascii_of_nat (Z.to_nat (d + 48))
  else ascii_of_nat (Z.to_nat (d + 87)).

Fixpoint to_base (fuel : nat) (base n : Z) (acc : string) : string :=
  match fuel with
  | O => acc
  | S fuel' =>
      let acc := String (digit_char (n mod base)) acc in
      if (n / base =? 0)%Z then acc else to_base fuel' base (n / base)%Z acc
  end.

Definition digits (base n : Z) : string :=
  to_base (S (Z.to_nat (Z.log2 n))) base n EmptyString.

Fixpoint zeros (n : nat) : string :=
  match n with
  | O => EmptyString
  | S n' => String "0" (zeros n')
  end.

(** ['%0<width><o|x>' % n] for [0 <= n]. *)
Definition zero_padded (width : nat) (base n : Z) : string :=
  let d := digits base n in
  zeros (width - String.length d) ++ d.

(** ['%d' % n] and [compat.int2str(n)]. *)
Definition int2str (n : Z) : string :=
  if (n <? 0)%Z then "-" ++ digits 10 (- n) else digits 10 n.

(** [l[k]] on a list; [None] is the [IndexError]. *)
Definition getitem {A} (l : list A) (k : Z) : option A :=
  let n := Z.of_nat (List.length l) in
  if (0 <=? k)%Z then nth_error l (Z.to_nat k)
  else if (0 <=? n + k)%Z then nth_error l (Z.to_nat (n + k))
  else None.

(** [l[-1] if l else None] *)
Definition top {A} (l : list A) : option A := List.last (map Some l) None.

End Py.

Import Py.

Declare Scope py_scope.
Notation "x <- c ;; k" := (bind c (fun x => k))
  (at level 61, c at next level, right associativity) : py_scope.
Notation "c ;;; k" := (bind c (fun _ => k))
  (at level 61, right associativity) : py_scope.
Open Scope py_scope.

(** ** The search preprocessor *)

Module Search.

(** [regex.V0], [regex.V1] and [regex.DEFAULT_VERSION]. *)
Definition VERSION0 : Z := 8192.
Definition VERSION1 : Z := 256.
Definition V0 : Z := VERSION0.
Definition V1 : Z := VERSION1.
Definition DEFAULT_VERSION : Z := VERSION0.

(** *** Lexemes of [RegexSearchTokens]

    Each function below is the anchored match of one of the class's
    compiled patterns on the text that starts at the match position;
    it returns the matched text. Every pattern is a greedy run of
    items followed by a closing character that starts no item, so the
    greedy run is the only candidate. *)

(** Items of [(?:[Laberup]|V0|V1|-?[imsfwx])+]; [globals] enables the
    first three alternatives, [dash] the optional minus. *)
Fixpoint flag_items (globals dash : bool) (s : string) : string * string :=
  match s with
  | String c r =>
      if globals && in_chars "Laberup" c then
        let (m, r') := flag_items globals dash r in (String c m, r')
      else if in_chars "imsfwx" c then
        let (m, r') := flag_items globals dash r in (String c m, r')
      else
        match r with
        | String d r2 =>
            if globals && Ascii.eqb c "V" && in_chars "01" d then
              let (m, r') := flag_items globals dash r2 in
              (String c (String d m), r')
            else if dash && Ascii.eqb c "-" && in_chars "imsfwx" d then
              let (m, r') := flag_items globals dash r2 in
              (String c (String d m), r')
            else (EmptyString, s)
        | EmptyString => (EmptyString, s)
        end
  | EmptyString => (EmptyString, s)
  end.

Definition match_flag_group (globals dash : bool) (close : ascii) (s : string)
  : option string :=
  match s with
  | String "(" (String "?" r) =>
      match flag_items globals dash r with
      | (EmptyString, _) => None
      | (m, String c _) =>
          if Ascii.eqb c close then Some ("(?" ++ m ++ str close) else None
      | (_, EmptyString) => None
      end
  | _ => None
  end.

(** [_regex_flags]: [\(\?(?:[Laberup]|V0|V1|-?[imsfwx])+\)] *)
Definition _regex_flags : string -> option string :=
  match_flag_group true true ")".
(** [_regex_flags_v0]: [\(\?(?:[Laberup]|V0|V1|[imsfwx])+\)] *)
Definition _regex_flags_v0 : string -> option string :=
  match_flag_group true false ")".
(** [_scoped_regex_flags]: [\(\?(?:-?[ixmsfw])+:] *)
Definition _scoped_regex_flags : string -> option string :=
  match_flag_group false true ":".
(** [_scoped_regex_flags_v0]: [\(\?(?:[imsfwx])+:] *)
Definition _scoped_regex_flags_v0 : string -> option string :=
  match_flag_group false false ":".

(** The run [[^)]*]. *)
Fixpoint until_paren (s : string) : string * string :=
  match s with
  | String c r =>
      if Ascii.eqb c ")" then (EmptyString, s)
      else let (m, r') := until_paren r in (String c m, r')
  | EmptyString => (EmptyString, s)
  end.

(** [_re_comments]: [\(\?\#[^)]*\)] *)
Definition _re_comments (s : string) : option string :=
  match s with
  | String "(" (String "?" (String "#" r)) =>
      match until_paren r with
      | (m, String _ _) => Some ("(?#" ++ m ++ ")")
      | (_, EmptyString) => None
      end
  | _ => None
  end.

(** Items of [(?:\\.|[^\\:}]+)+]: an escaped character other than a
    newline, or characters other than backslash, colon and closing
    brace. *)
Fixpoint posix_items (s : string) : string * string :=
  match s with
  | String c r =>
      if Ascii.eqb c "\" then
        match r with
        | String d r2 =>
            if Ascii.eqb d "010" then (EmptyString, s)
            else let (m, r') := posix_items r2 in (String c (String d m), r')
        | EmptyString => (EmptyString, s)
        end
      else if in_chars ":}" c then (EmptyString, s)
      else let (m, r') := posix_items r in (String c m, r')
  | EmptyString => (EmptyString, s)
  end.

(** [_re_posix]: [(?i)\[:(?:\\.|[^\\:}]+)+:\]] *)
Definition _re_posix (s : string) : option string :=
  match s with
  | String "[" (String ":" r) =>
      match posix_items r with
      | (EmptyString, _) => None
      | (m, String ":" (String "]" _)) => Some ("[:" ++ m ++ ":]")
      | _ => None
      end
  | _ => None
  end.

(** *** [RegexSearchTokens]: the cursor

    [max_index] is [len(string) - 1]; [binary] and [current] are
    written by the class and read by nobody. *)
Record RegexSearchTokens : Type := mkTokens {
  tok_string : string;
  index : nat
}.

(** *** [RegexSearchTemplate]: the fields [apply] mutates, with the
    cursor the handlers share. *)
Record state : Type := mkState {
  i : RegexSearchTokens;
  verbose : bool;
  version : Z
}.

Definition set_index (n : nat) (st : state) : state :=
  mkState (mkTokens (tok_string (i st)) n) (verbose st) (version st).
Definition set_verbose (b : bool) (st : state) : state :=
  mkState (i st) b (version st).
Definition set_version (v : Z) (st : state) : state :=
  mkState (i st) (verbose st) v.

(** [RegexSearchTokens.iternext] *)
Definition iternext : M state string := fun st =>
  match String.get (index (i st)) (tok_string (i st)) with
  | None => Raise StopIteration st
  | Some char => Ok (str char) (set_index (S (index (i st))) st)
  end.

(** [next(i)] *)
Definition next : M state string := iternext.

(** [RegexSearchTokens.rewind] *)
Definition rewind (n : nat) : M state unit := fun st => Ok tt (set_index n st).

(** The shared body of [get_flags], [get_scoped_flags], [get_comments]
    and [get_posix]: match at [index - 1], move past the match. *)
Definition get_lexeme (pattern : string -> option string) : M state (option string) :=
  fun st =>
    let pos := (index (i st) - 1)%nat in
    match pattern (drop pos (tok_string (i st))) with
    | Some text => Ok (Some text) (set_index (pos + String.length text) st)
    | None => Ok None st
    end.

Definition get_scoped_flags (version0 : bool) : M state (option string) :=
  get_lexeme (if negb version0 then _scoped_regex_flags else _scoped_regex_flags_v0).
Definition get_flags (version0 : bool) : M state (option string) :=
  get_lexeme (if negb version0 then _regex_flags else _regex_flags_v0).
Definition get_comments : M state (option string) := get_lexeme _re_comments.
Definition get_posix : M state (option string) := get_lexeme _re_posix.

(** *** [RegexSearchTemplate] *)

Definition _new_refs : list string := ["e"; "R"; "Q"; "E"; "<"; ">"].
Definition _re_escape : string := "\x1b".
Definition _re_start_wb : string := "\b(?=\w)".
Definition _re_end_wb : string := "\b(?<=\w)".
Definition _line_break : string := "(?>\r\n|\n|\x0b|\f|\r|\x85|\u2028|\u2029)".
Definition _binary_line_break : string := "(?>\r\n|\n|\x0b|\f|\r|\x85)".

Definition in_list (t : string) (l : list string) : bool :=
  existsb (String.eqb t) l.

(** The characters of a string, one string each ([list.extend(str)]). *)
Fixpoint chars (s : string) : list string :=
  match s with
  | EmptyString => []
  | String c s' => str c :: chars s'
  end.

Section Host.

(** [regex.escape], the host engine's own escape function. *)
Variable escape : string -> string.

(** Whether the search pattern is a byte string. *)
Variable binary : bool.

Definition _re_line_break : string :=
  if binary then _binary_line_break else _line_break.

(** **** [process_quotes] *)

Record quotes : Type := mkQuotes {
  q_escaped : bool;
  q_in_quotes : bool;
  q_current : list string;
  q_quoted : list string
}.

(** One turn of the [for t in i] loop. *)
Definition process_quotes_step (q : quotes) (t : string) : quotes :=
  let '(mkQuotes escaped in_quotes current quoted) := q in
  if negb escaped && (t =? "\") then mkQuotes true in_quotes current quoted
  else if escaped then
    if t =? "E" then
      if in_quotes then
        mkQuotes false false (current ++ [escape (join quoted)])%list []
      else mkQuotes false in_quotes current quoted
    else if (t =? "Q") && negb in_quotes then mkQuotes false true current quoted
    else if in_quotes then mkQuotes false in_quotes current (quoted ++ ["\"; t])%list
    else mkQuotes false in_quotes (current ++ ["\"; t])%list quoted
  else if in_quotes then mkQuotes escaped in_quotes current (quoted ++ chars t)%list
  else mkQuotes escaped in_quotes (current ++ [t])%list quoted.

(** The loop over the tokens of the string, one per character. *)
Fixpoint process_quotes_loop (s : string) (q : quotes) : quotes :=
  match s with
  | EmptyString => q
  | String c s' => process_quotes_loop s' (process_quotes_step q (str c))
  end.

(** What follows the loop. *)
Definition process_quotes_finish (q : quotes) : string :=
  let '(mkQuotes escaped in_quotes current quoted) := q in
  let quoted := if in_quotes && escaped then (quoted ++ ["\"])%list else quoted in
  let current :=
    if in_quotes && escaped then current
    else if escaped then (current ++ ["\"])%list else current in
  let current :=
    match quoted with
    | [] => current
    | _ :: _ => (current ++ [escape (join quoted)])%list
    end in
  join current.

Definition process_quotes (s : string) : string :=
  process_quotes_finish (process_quotes_loop s (mkQuotes false false [] [])).

(** **** [flags] *)
Definition flags (text : string) : M state unit := fun st =>
  let '(retry, st1) :=
    if (version st =? VERSION1)%Z && contains "-x" text && verbose st
    then (true, set_verbose false st)
    else if contains "x" text && negb (verbose st)
    then (true, set_verbose true st)
    else (false, st) in
  let '(global_retry, st2) :=
    if contains "V0" text && (version st1 =? VERSION1)%Z
    then (true, set_version VERSION0 st1)
    else if contains "V1" text && (version st1 =? VERSION0)%Z
    then (true, set_version VERSION1 st1)
    else (false, st1) in
  if global_retry then Raise GlobalRetryException st2
  else if retry then Raise RetryException st2
  else Ok tt st2.

(** **** [reference] *)
Definition reference (t : string) : M state (list string) := fun st =>
  match next st with
  | Raise StopIteration st' => Ok [t] st'
  | Raise e st' => Raise e st'
  | OutOfFuel => OutOfFuel
  | Ok t st' =>
      Ok (if t =? "<" then [_re_start_wb]
          else if t =? ">" then [_re_end_wb]
          else if t =? "R" then [_re_line_break]
          else if t =? "e" then chars _re_escape
          else ["\"; t]) st'
  end.

(** **** [verbose_comment] *)
Definition NL : string := str "010".

(** The [while t != "\n"] loop inside its [try]; returns the last
    [t] and [current]. *)
Fixpoint verbose_comment_loop (fuel : nat) (t : string) (escaped : bool)
    (current : list string) {struct fuel} : M state (string * list string) :=
  fun st =>
    match fuel with
    | O => OutOfFuel
    | S fuel' =>
        if t =? NL then Ok (t, current) st
        else
          let '(escaped, current) :=
            if negb escaped && (t =? "\") then (true, current ++ [t])%list
            else if escaped then
              (false,
               (if in_list t _new_refs then current ++ ["\"] else current)
                 ++ [t])%list
            else (escaped, current ++ [t])%list in
          match next st with
          | Ok t' st' => verbose_comment_loop fuel' t' escaped current st'
          | Raise StopIteration st' => Ok (t, current) st'
          | Raise e st' => Raise e st'
          | OutOfFuel => OutOfFuel
          end
    end.

Definition verbose_comment (fuel : nat) (t : string) : M state (list string) :=
  r <- verbose_comment_loop fuel t false [] ;;
  let '(t, current) := r in
  ret (if t =? NL then current ++ [t] else current)%list.

(** **** [char_groups] *)

(** The locals of [char_groups]. *)
Record class_vars : Type := mkClass {
  cg_current : list string;
  cg_pos : Z;
  cg_found : Z;
  cg_sub_first : option Z;
  cg_escaped : bool;
  cg_first : option Z
}.

(** [pos == x + 1] and [pos != x + 1]; [None + 1] is a [TypeError]. *)
Definition eq_succ (pos : Z) (x : option Z) : option bool :=
  option_map (fun x => (pos =? x + 1)%Z) x.
Definition ne_succ (pos : Z) (x : option Z) : option bool :=
  option_map (fun x => negb (pos =? x + 1)%Z) x.

Definition none_plus_int : exn :=
  TypeError "unsupported operand type(s) for +: 'NoneType' and 'int'".

(** [None if self.binary else i.get_posix()] *)
Definition class_posix : M state (option string) :=
  if binary then ret None else get_posix.

(** One turn of the [while True] loop, up to [pos += 1]. *)
Definition char_groups_step (t : string) (v : class_vars)
  : M state (flow class_vars) := fun st =>
  let '(mkClass current pos found sub_first escaped first) := v in
  if negb escaped && (t =? "\") then
    Ok (Continue (mkClass current pos found sub_first true first)) st
  else if escaped then
    Ok (Continue (mkClass
          (current ++ (if t =? "e" then [_re_escape] else ["\"; t]))%list
          pos found sub_first false first)) st
  else if (t =? "[") && (found =? 0)%Z then
    Ok (Continue (mkClass (current ++ [t])%list pos (found + 1)%Z sub_first
          escaped (Some pos))) st
  else if (t =? "[") && negb (found =? 0)%Z && (version st =? V1)%Z then
    match class_posix st with
    | Ok (Some posix) st' =>
        Ok (Continue (mkClass (current ++ [posix])%list
              (Z.of_nat (index (i st')) - 2)%Z found sub_first escaped first)) st'
    | Ok None st' =>
        Ok (Continue (mkClass (current ++ [t])%list pos (found + 1)%Z
              (Some pos) escaped first)) st'
    | Raise e st' => Raise e st'
    | OutOfFuel => OutOfFuel
    end
  else if t =? "[" then
    match class_posix st with
    | Ok (Some posix) st' =>
        Ok (Continue (mkClass (current ++ [posix])%list
              (Z.of_nat (index (i st')) - 2)%Z found sub_first escaped first)) st'
    | Ok None st' =>
        Ok (Continue (mkClass (current ++ [t])%list pos found sub_first
              escaped first)) st'
    | Raise e st' => Raise e st'
    | OutOfFuel => OutOfFuel
    end
  else
    match (if (t =? "^") && (found =? 1)%Z then eq_succ pos first
           else Some false) with
    | None => Raise none_plus_int st
    | Some true =>
        Ok (Continue (mkClass (current ++ [t])%list pos found sub_first
              escaped (Some pos))) st
    | Some false =>
    match (if (version st =? V1)%Z && (t =? "^") && (1 <? found)%Z
           then eq_succ pos sub_first else Some false) with
    | None => Raise none_plus_int st
    | Some true =>
        Ok (Continue (mkClass (current ++ [t])%list pos found (Some pos)
              escaped first)) st
    | Some false =>
    match (if (t =? "]") && (found =? 1)%Z then ne_succ pos first
           else Some false) with
    | None => Raise none_plus_int st
    | Some true =>
        Ok (Break (mkClass (current ++ [t])%list pos 0%Z sub_first
              escaped first)) st
    | Some false =>
    match (if (version st =? V1)%Z && (t =? "]") && (1 <? found)%Z
           then ne_succ pos sub_first else Some false) with
    | None => Raise none_plus_int st
    | Some true =>
        Ok (Continue (mkClass (current ++ [t])%list pos (found - 1)%Z
              sub_first escaped first)) st
    | Some false =>
        Ok (Continue (mkClass (current ++ [t])%list pos found sub_first
              escaped first)) st
    end end end end.

(** [if escaped: current.append(t)], then [return current]. *)
Definition char_groups_finish (t : string) (v : class_vars) : list string :=
  if cg_escaped v then (cg_current v ++ [t])%list else cg_current v.

Definition advance (v : class_vars) : class_vars :=
  mkClass (cg_current v) (cg_pos v + 1)%Z (cg_found v) (cg_sub_first v)
    (cg_escaped v) (cg_first v).

Fixpoint char_groups_loop (fuel : nat) (t : string) (v : class_vars)
    {struct fuel} : M state (list string) :=
  fun st =>
    match fuel with
    | O => OutOfFuel
    | S fuel' =>
        match char_groups_step t v st with
        | Ok (Break v) st' => Ok (char_groups_finish t v) st'
        | Ok (Continue v) st' =>
            let v := advance v in
            match next st' with
            | Ok t' st'' => char_groups_loop fuel' t' v st''
            | Raise StopIteration st'' => Ok (char_groups_finish t v) st''
            | Raise e st'' => Raise e st''
            | OutOfFuel => OutOfFuel
            end
        | Raise e st' => Raise e st'
        | OutOfFuel => OutOfFuel
        end
    end.

Definition char_groups (fuel : nat) (t : string) : M state (list string) :=
  fun st =>
    char_groups_loop fuel t
      (mkClass [] (Z.of_nat (index (i st)) - 1)%Z 0%Z None false None) st.

(** **** [normal] and [subgroup]

    [subgroup_body] is the inner [while t != ")"] loop with its
    [except StopIteration]; [subgroup_retry] the [while retry] loop
    around it with its [except RetryException]. Both return the last
    [t] and [current]. *)
Fixpoint normal (fuel : nat) (t : string) {struct fuel} : M state (list string) :=
  fun st =>
    match fuel with
    | O => OutOfFuel
    | S fuel' =>
        if t =? "\" then reference t st
        else if t =? "(" then subgroup fuel' t st
        else if verbose st && (t =? "#") then verbose_comment fuel' t st
        else if t =? "[" then char_groups fuel' t st
        else Ok [t] st
    end

with subgroup (fuel : nat) (t : string) {struct fuel} : M state (list string) :=
  fun st =>
    match fuel with
    | O => OutOfFuel
    | S fuel' =>
        match get_flags (version st =? VERSION0)%Z st with
        | Ok (Some fl) st1 =>
            (flags (slice_to_last 2 fl) ;;; ret [fl]) st1
        | Ok None st1 =>
            match get_comments st1 with
            | Ok (Some comments) st2 => Ok [comments] st2
            | Ok None st2 =>
                let saved := verbose st2 in
                let scoped :=
                  match get_scoped_flags (version st2 =? VERSION0)%Z st2 with
                  | Ok (Some fl) st3 =>
                      match flags (slice_to_last 2 fl) st3 with
                      | Ok _ st4 => Ok fl st4
                      | Raise RetryException st4 => Ok fl st4
                      | Raise e st4 => Raise e st4
                      | OutOfFuel => OutOfFuel
                      end
                  | Ok None st3 => Ok t st3
                  | Raise e st3 => Raise e st3
                  | OutOfFuel => OutOfFuel
                  end in
                match scoped with
                | Ok start st5 =>
                    match subgroup_retry fuel' start (index (i st5)) st5 with
                    | Ok (t, current) st6 =>
                        Ok (if t =? ")" then current ++ [t] else current)%list
                           (set_verbose saved st6)
                    | Raise e st6 => Raise e st6
                    | OutOfFuel => OutOfFuel
                    end
                | Raise e st5 => Raise e st5
                | OutOfFuel => OutOfFuel
                end
            | Raise e st2 => Raise e st2
            | OutOfFuel => OutOfFuel
            end
        | Raise e st1 => Raise e st1
        | OutOfFuel => OutOfFuel
        end
    end

with subgroup_retry (fuel : nat) (start : string) (index0 : nat)
    {struct fuel} : M state (string * list string) :=
  fun st =>
    match fuel with
    | O => OutOfFuel
    | S fuel' =>
        match subgroup_body fuel' start [] st with
        | Ok r st' => Ok r st'
        | Raise RetryException st' =>
            subgroup_retry fuel' start index0 (set_index index0 st')
        | Raise e st' => Raise e st'
        | OutOfFuel => OutOfFuel
        end
    end

with subgroup_body (fuel : nat) (t : string) (current : list string)
    {struct fuel} : M state (string * list string) :=
  fun st =>
    match fuel with
    | O => OutOfFuel
    | S fuel' =>
        if t =? ")" then Ok (t, current) st
        else
          let extended :=
            match current with
            | [] => Ok [t] st
            | _ :: _ =>
                match normal fuel' t st with
                | Ok out st' => Ok (current ++ out)%list st'
                | Raise e st' => Raise e st'
                | OutOfFuel => OutOfFuel
                end
            end in
          match extended with
          | Ok current' st' =>
              match next st' with
              | Ok t' st'' => subgroup_body fuel' t' current' st''
              | Raise StopIteration st'' => Ok (t, current') st''
              | Raise e st'' => Raise e st''
              | OutOfFuel => OutOfFuel
              end
          | Raise StopIteration st' => Ok (t, current) st'
          | Raise e st' => Raise e st'
          | OutOfFuel => OutOfFuel
          end
    end.

(** **** [main_group] *)
Fixpoint main_group_loop (fuel : nat) (current : list string) {struct fuel}
  : M state (list string) :=
  fun st =>
    match fuel with
    | O => OutOfFuel
    | S fuel' =>
        match next st with
        | Ok t st' =>
            match normal fuel' t st' with
            | Ok out st'' => main_group_loop fuel' (current ++ out)%list st''
            | Raise StopIteration st'' => Ok current st''
            | Raise e st'' => Raise e st''
            | OutOfFuel => OutOfFuel
            end
        | Raise StopIteration st' => Ok current st'
        | Raise e st' => Raise e st'
        | OutOfFuel => OutOfFuel
        end
    end.

Definition main_group (fuel : nat) : M state (list string) :=
  main_group_loop fuel [].

(** **** [apply] *)

(** The [while retry] loop of [apply]. *)
Fixpoint apply_loop (fuel : nat) {struct fuel} : M state (list string) :=
  fun st =>
    match fuel with
    | O => OutOfFuel
    | S fuel' =>
        match main_group fuel' st with
        | Ok new_pattern st' => Ok new_pattern st'
        | Raise RetryException st' => apply_loop fuel' (set_index 0 st')
        | Raise GlobalRetryException st' => apply_loop fuel' (set_index 0 st')
        | Raise e st' => Raise e st'
        | OutOfFuel => OutOfFuel
        end
    end.

(** [RegexSearchTemplate(search, re_verbose, re_version).apply()] *)
Definition apply (fuel : nat) (re_verbose : bool) (re_version : Z)
    (search : string) : returned string :=
  let st :=
    mkState (mkTokens (process_quotes search) 0) re_verbose
      (if (re_version =? 0)%Z then DEFAULT_VERSION else re_version) in
  match apply_loop fuel st with
  | Ok new_pattern _ => Returns (join new_pattern)
  | Raise e _ => Raises e
  | OutOfFuel => NoFuel
  end.

End Host.

End Search.

(** ** Replacement templates *)

Module Replace.

(** Replace flags and the two cases. *)
Definition FORMAT : Z := 1.
Definition _UPPER : Z := 0.
Definition _LOWER : Z := 1.

(** [sys.maxunicode == 0xFFFF]; false on every Python since 3.3. *)
Definition NARROW : bool := false.

(** A compiled pattern of the host engine, as far as the module looks
    at it: [hash(pattern)] and what identifies it. *)
Record RegexPattern : Type := mkPattern {
  pattern_text : string;
  pattern_flags : Z;
  pattern_hash : Z
}.

(** *** Lexemes of [ReplaceTokens] *)

(** The groups of a match of one of the reference patterns. *)
Record ref_match : Type := mkRef {
  group0 : string;
  group1 : option string;
  group2 : option string;
  group3 : option string;
  group4 : option string
}.

(** [<(?:[a-zA-Z]+[a-zA-Z\d_]*|0+|0*[1-9][0-9]?)>] *)
Definition is_zero (c : ascii) : bool := Ascii.eqb c "0".
Definition is_nonzero_digit (c : ascii) : bool := is_digit c && negb (is_zero c).

Definition closed_by (close : ascii) (name rest : string) : option string :=
  match rest with
  | String c _ => if Ascii.eqb c close then Some (name ++ str close) else None
  | EmptyString => None
  end.

Definition group_name (s : string) : option string :=
  match s with
  | String "<" (String c r as body) =>
      if is_alpha c then
        let (w, r1) := span is_word r in
        closed_by ">" (String "<" (String c w)) r1
      else
        let (z, r1) := span is_zero body in
        match r1 with
        | String d r2 =>
            if Ascii.eqb d ">" then
              match z with
              | EmptyString => None
              | _ => Some ("<" ++ z ++ ">")
              end
            else if is_nonzero_digit d then
              match r2 with
              | String e r3 =>
                  if is_digit e then
                    closed_by ">" ("<" ++ z ++ String d (str e)) r3
                  else closed_by ">" ("<" ++ z ++ str d) r2
              | EmptyString => None
              end
            else None
        | EmptyString => None
        end
  | _ => None
  end.

(** [n] characters of class [p], exactly. *)
Fixpoint exactly (n : nat) (p : ascii -> bool) (s : string) : option string :=
  match n with
  | O => Some EmptyString
  | S n' =>
      match s with
      | String c r =>
          if p c then option_map (String c) (exactly n' p r) else None
      | EmptyString => None
      end
  end.

(** At most [n] characters of class [p], greedily. *)
Fixpoint at_most (n : nat) (p : ascii -> bool) (s : string) : string :=
  match n with
  | O => EmptyString
  | S n' =>
      match s with
      | String c r => if p c then String c (at_most n' p r) else EmptyString
      | EmptyString => EmptyString
      end
  end.

(** A letter with an optional tail: [x(?:[0-9a-fA-F]{2})?] and the like. *)
Definition with_tail (c : ascii) (tail : option string) : string :=
  match tail with
  | Some t => String c t
  | None => str c
  end.

(** [\{[\w ]+\}] *)
Definition char_name (s : string) : option string :=
  match s with
  | String "{" r =>
      match span (fun c => is_word c || Ascii.eqb c " ") r with
      | (EmptyString, _) => None
      | (w, r1) => closed_by "}" (String "{" w) r1
      end
  | _ => None
  end.

Definition only2 (text : string) : ref_match :=
  mkRef text None (Some text) None None.

(** [_replace_group_ref] and [_binary_replace_group_ref], matched on
    the text after the backslash. *)
Definition replace_group_ref (binary : bool) (s : string) : option ref_match :=
  match s with
  | String c r =>
      if Ascii.eqb c "\" then Some (mkRef "\" (Some "\") None None None)
      else
        match exactly 3 is_octal s with
        | Some o => Some (only2 o)
        | None =>
            if is_nonzero_digit c then
              Some (only2 (String c (at_most 1 is_digit r)))
            else if in_chars "cClLEabfrtnv" c then Some (only2 (str c))
            else if Ascii.eqb c "g" then
              Some (only2 (with_tail c (group_name r)))
            else if negb binary && Ascii.eqb c "U" then
              Some (only2 (with_tail c (exactly 8 is_hex r)))
            else if negb binary && Ascii.eqb c "u" then
              Some (only2 (with_tail c (exactly 4 is_hex r)))
            else if Ascii.eqb c "x" then
              Some (only2 (with_tail c (exactly 2 is_hex r)))
            else if negb binary && Ascii.eqb c "N" then
              Some (only2 (with_tail c (char_name r)))
            else None
        end
  | EmptyString => None
  end.

(** [_format_replace_ref] and [_binary_format_replace_ref], matched on
    the text after the backslash. *)
Definition format_replace_ref (binary : bool) (s : string) : option ref_match :=
  match s with
  | String c r =>
      if Ascii.eqb c "\" then Some (mkRef "\" (Some "\") None None None)
      else if in_chars "cClLEabfrtnv" c then Some (only2 (str c))
      else if negb binary && Ascii.eqb c "U" then
        Some (only2 (with_tail c (exactly 8 is_hex r)))
      else if negb binary && Ascii.eqb c "u" then
        Some (only2 (with_tail c (exactly 4 is_hex r)))
      else if Ascii.eqb c "x" then
        Some (only2 (with_tail c (exactly 2 is_hex r)))
      else if is_octal c then Some (only2 (at_most 3 is_octal s))
      else if Ascii.eqb c "g" then
        let text := with_tail c (group_name r) in
        Some (mkRef text None (Some text) (Some text) None)
      else if negb binary && Ascii.eqb c "N" then
        Some (only2 (with_tail c (char_name r)))
      else if Ascii.eqb c "{" then Some (mkRef "{" None None None (Some "{"))
      else None
  | EmptyString => None
  end.

(** The optional [(?:\[[^\]]+\])?]: the bracketed text, if any, and the
    rest. *)
Definition subscript (s : string) : string * string :=
  match s with
  | String "[" r =>
      match span (fun c => negb (Ascii.eqb c "]")) r with
      | (EmptyString, _) => (EmptyString, s)
      | (body, String _ r1) => ("[" ++ body ++ "]", r1)
      | (_, EmptyString) => (EmptyString, s)
      end
  | _ => (EmptyString, s)
  end.

(** The optional [(?:[a-zA-Z]+[a-zA-Z\d_]*|0*(?:[1-9][0-9]?)?)?]. *)
Definition field_name (s : string) : string * string :=
  match s with
  | String c r =>
      if is_alpha c then
        let (w, r1) := span is_word r in (String c w, r1)
      else
        let (z, r1) := span is_zero s in
        match r1 with
        | String d r2 =>
            if is_nonzero_digit d then
              match r2 with
              | String e r3 =>
                  if is_digit e then (z ++ String d (str e), r3)
                  else (z ++ str d, r2)
              | EmptyString => (z ++ str d, r2)
              end
            else (z, r1)
        | EmptyString => (z, r1)
        end
  | EmptyString => (EmptyString, s)
  end.

(** [_format_replace_group], matched at the bracket: groups 1 and 2. *)
Definition _format_replace_group (s : string)
  : option (option string * option string) :=
  match s with
  | String "{" (String "{" _) => Some (Some "{{", None)
  | String "}" (String "}" _) => Some (Some "}}", None)
  | String "{" r =>
      let (name, r1) := field_name r in
      let (sub, r2) := subscript r1 in
      match r2 with
      | String "}" _ => Some (None, Some ("{" ++ name ++ sub ++ "}"))
      | _ => None
      end
  | _ => None
  end.

Definition _long_replace_refs : list string := ["u"; "U"; "g"; "x"; "N"].

(** *** [ReplaceTokens]: the cursor. *)
Record ReplaceTokens : Type := mkTokens {
  tok_string : string;
  index : nat
}.

(** *** [ReplaceTemplate] while [parse_template] runs: the fields it
    mutates, with the token cursor [i] its handlers share. *)
Record compiler : Type := mkCompiler {
  i : ReplaceTokens;
  end_found : bool;
  group_slots : list (Z * (option Z * option Z * Z));
  literal_slots : list string;
  result : list string;
  span_stack : list Z;
  single_stack : list Z;
  slot : Z;
  manual : bool;
  auto : bool;
  auto_index : Z
}.

Definition set_i (x : ReplaceTokens) (s : compiler) : compiler :=
  mkCompiler x (end_found s) (group_slots s) (literal_slots s) (result s)
    (span_stack s) (single_stack s) (slot s) (manual s) (auto s) (auto_index s).
Definition set_end_found (x : bool) (s : compiler) : compiler :=
  mkCompiler (i s) x (group_slots s) (literal_slots s) (result s)
    (span_stack s) (single_stack s) (slot s) (manual s) (auto s) (auto_index s).
Definition set_group_slots x (s : compiler) : compiler :=
  mkCompiler (i s) (end_found s) x (literal_slots s) (result s)
    (span_stack s) (single_stack s) (slot s) (manual s) (auto s) (auto_index s).
Definition set_literal_slots x (s : compiler) : compiler :=
  mkCompiler (i s) (end_found s) (group_slots s) x (result s)
    (span_stack s) (single_stack s) (slot s) (manual s) (auto s) (auto_index s).
Definition set_result x (s : compiler) : compiler :=
  mkCompiler (i s) (end_found s) (group_slots s) (literal_slots s) x
    (span_stack s) (single_stack s) (slot s) (manual s) (auto s) (auto_index s).
Definition set_span_stack x (s : compiler) : compiler :=
  mkCompiler (i s) (end_found s) (group_slots s) (literal_slots s) (result s)
    x (single_stack s) (slot s) (manual s) (auto s) (auto_index s).
Definition set_single_stack x (s : compiler) : compiler :=
  mkCompiler (i s) (end_found s) (group_slots s) (literal_slots s) (result s)
    (span_stack s) x (slot s) (manual s) (auto s) (auto_index s).
Definition set_slot x (s : compiler) : compiler :=
  mkCompiler (i s) (end_found s) (group_slots s) (literal_slots s) (result s)
    (span_stack s) (single_stack s) x (manual s) (auto s) (auto_index s).
Definition set_manual x (s : compiler) : compiler :=
  mkCompiler (i s) (end_found s) (group_slots s) (literal_slots s) (result s)
    (span_stack s) (single_stack s) (slot s) x (auto s) (auto_index s).
Definition set_auto x (s : compiler) : compiler :=
  mkCompiler (i s) (end_found s) (group_slots s) (literal_slots s) (result s)
    (span_stack s) (single_stack s) (slot s) (manual s) x (auto_index s).
Definition set_auto_index x (s : compiler) : compiler :=
  mkCompiler (i s) (end_found s) (group_slots s) (literal_slots s) (result s)
    (span_stack s) (single_stack s) (slot s) (manual s) (auto s) x.

Definition modify (f : compiler -> compiler) : M compiler unit :=
  fun s => Ok tt (f s).

(** [self.result.append(x)] *)
Definition result_append (x : string) : M compiler unit :=
  modify (fun s => set_result (result s ++ [x])%list s).

Definition truthy (o : option string) : bool :=
  match o with
  | Some (String _ _) => true
  | _ => false
  end.

Definition text_of (o : option string) : string :=
  match o with
  | Some t => t
  | None => EmptyString
  end.

Definition in_list (t : string) (l : list string) : bool :=
  existsb (String.eqb t) l.

(** [s[0:1]] and [s[-1:]] *)
Definition first_char (s : string) : string := take 1 s.
Fixpoint last_char (s : string) : string :=
  match s with
  | EmptyString => EmptyString
  | String c EmptyString => str c
  | String _ r => last_char r
  end.

(** [s[0:1].isdigit()] *)
Definition starts_with_digit (s : string) : bool :=
  match s with
  | String c _ => is_digit c
  | EmptyString => false
  end.

Section Template.

(** Whether the template is a byte string, and the [use_format]
    argument. *)
Variable binary : bool.
Variable use_format : bool.

(** [unicodedata.lookup], as the code point of the named character;
    [None] is its [KeyError]. *)
Variable unicodedata_lookup : string -> option Z.

Definition _replace_ref : string -> option ref_match :=
  if use_format then format_replace_ref binary else replace_group_ref binary.

(** **** [ReplaceTokens.iternext] *)
Definition iternext : M compiler string := fun s =>
  let text := tok_string (i s) in
  let idx := index (i s) in
  (* [self.index -= back; self.index += len(char); return char] *)
  let yield (char : string) (back : nat) : outcome compiler string :=
    Ok char (set_i (mkTokens text (idx + String.length char - back)) s) in
  match String.get idx text with
  | None => Raise StopIteration s
  | Some ch =>
      if Ascii.eqb ch "\" then
        match _replace_ref (drop (S idx) text) with
        | Some m =>
            let ref := group0 m in
            if (String.length ref =? 1)%nat && in_list ref _long_replace_refs then
              if ref =? "x" then Raise (SyntaxError "Format for byte is \xXX!") s
              else if ref =? "g" then
                Raise (SyntaxError "Format for group is \g<group_name_or_index>!") s
              else if ref =? "N" then
                Raise (SyntaxError "Format for Unicode name is \N{name}!") s
              else if ref =? "u" then
                Raise (SyntaxError "Format for Unicode is \uXXXX!") s
              else Raise (SyntaxError "Format for wide Unicode is \UXXXXXXXX!") s
            else
              let shifted :=
                use_format && (truthy (group3 m) || truthy (group4 m)) in
              let char := if shifted then "\\" else "\" in
              let char :=
                if negb use_format || negb (truthy (group4 m)) then
                  char ++ (if truthy (group1 m) then text_of (group1 m)
                           else text_of (group2 m))
                else char in
              yield char (if shifted then 1 else 0)%nat
        | None => yield "\" 0%nat
        end
      else if use_format && (Ascii.eqb ch "{" || Ascii.eqb ch "}") then
        match _format_replace_group (drop idx text) with
        | Some (_, g2) =>
            if truthy g2 then yield (text_of g2) 0%nat
            else
              Ok (str ch) (set_i (mkTokens text (idx + 1 + 1)) s)
        | None => Raise (ValueError "Single unmatched curly bracket!") s
        end
      else yield (str ch) 0%nat
  end.

(** [next(i)] *)
Definition next : M compiler string := iternext.

(** **** [convert_case] *)
Definition convert_case (value : string) (case : option Z) : string :=
  let lowering :=
    match case with
    | Some c => (c =? _LOWER)%Z
    | None => false
    end in
  if binary then
    (fix each (v : string) : string :=
       match v with
       | EmptyString => EmptyString
       | String c r =>
           String (if is_alpha c
                   then (if lowering then lower_char c else upper_char c)
                   else c) (each r)
       end) value
  else if lowering then lower value else upper value.

(** [ord(self.convert_case(chr(n), case))] *)
Definition convert_ord (n : Z) (case : option Z) : Z :=
  match case with
  | Some c => if (c =? _LOWER)%Z then lower_ord n else upper_ord n
  | None => upper_ord n
  end.

(** **** [get_single_stack]: pop until the stack is empty, return the
    last item popped. *)
Definition get_single_stack : M compiler (option Z) := fun s =>
  Ok (fold_left (fun _ item => Some item) (rev (single_stack s)) None)
     (set_single_stack [] s).

(** **** [handle_group] *)
Definition handle_group (text : string) : M compiler unit :=
  modify (fun s =>
    if (1 <? List.length (result s))%nat then
      set_slot (slot s + 1)%Z
        (set_result [EmptyString]
           (set_literal_slots
              (literal_slots s ++ [join (result s); text])%list s))
    else set_literal_slots (literal_slots s ++ [text])%list s) ;;;
  single <- get_single_stack ;;
  modify (fun s =>
    set_slot (slot s + 1)%Z
      (set_group_slots
         (group_slots s ++ [(slot s, (top (span_stack s), single, (-1)%Z))])%list
         s)).

(** **** [handle_format_group] *)

(** The [try] block: the field name, the subscript text if there is
    one, and the base its prefix selects. *)
Definition split_subscript (text : string) : string * option string * Z :=
  match index_of "[" text with
  | None => (text, None, 10%Z)
  | Some idx =>
      let capture := slice_to_last (S idx) text in
      let prefix :=
        if first_char capture =? "-" then take 2 (drop 1 capture)
        else take 2 capture in
      let base :=
        if first_char prefix =? "0" then
          let char := last_char prefix in
          if char =? "b" then 2%Z
          else if char =? "o" then 8%Z
          else if char =? "x" then 16%Z
          else 10%Z
        else 10%Z in
      (take idx text, Some capture, base)
  end.

Definition handle_format_group (text : string) : M compiler unit :=
  let '(text, capture, base) := split_subscript text in
  capture <-
    match capture with
    | None => ret (-1)%Z
    | Some c =>
        match Py.int c base with
        | Some n => ret n
        | None => raise (ValueError "Capture index must be an integer!")
        end
    end ;;
  text <-
    (fun s =>
       if text =? "" then
         if auto s then
           Ok (int2str (auto_index s)) (set_auto_index (auto_index s + 1)%Z s)
         else if negb (manual s) && negb (auto s) then
           Ok (int2str (auto_index s))
              (set_auto_index (auto_index s + 1)%Z (set_auto true s))
         else
           Raise (ValueError "Cannot switch to auto format during manual format!") s
       else if negb (manual s) && negb (auto s) then Ok text (set_manual true s)
       else if negb (manual s) then
         Raise (ValueError "Cannot switch to manual format during auto format!") s
       else Ok text s) ;;
  modify (fun s =>
    if (1 <? List.length (result s))%nat then
      set_slot (slot s + 1)%Z
        (set_result [EmptyString]
           (set_literal_slots
              (literal_slots s ++ [join (result s); "\g<"; text; ">"])%list s))
    else set_literal_slots (literal_slots s ++ ["\g<"; text; ">"])%list s) ;;;
  single <- get_single_stack ;;
  modify (fun s =>
    set_slot (slot s + 1)%Z
      (set_group_slots
         (group_slots s ++ [(slot s, (top (span_stack s), single, capture))])%list
         s)).

(** [int(text, base)] where the source lets the [ValueError] through. *)
Definition int_or_raise (text : string) (base : Z) : M compiler Z :=
  match Py.int text base with
  | Some n => ret n
  | None => raise (ValueError "invalid literal for int()")
  end.

Definition lookup_or_raise (name : string) : M compiler Z :=
  match unicodedata_lookup name with
  | Some n => ret n
  | None => raise (KeyError "undefined character name")
  end.

Definition octal_out_of_range : exn :=
  ValueError "octal escape value outside of range 0-0o377!".

(** ["\\u%04x" if value <= 0xFFFF else "\\U%08x"] *)
Definition unicode_escape (value : Z) : string :=
  if (value <=? 65535)%Z then "\u" ++ zero_padded 4 16 value
  else "\U" ++ zero_padded 8 16 value.

(** ['\\%03o' if value <= 0xFF else '\\u%04x'] *)
Definition octal_escape (value : Z) : string :=
  if (value <=? 255)%Z then "\" ++ zero_padded 3 8 value
  else "\u" ++ zero_padded 4 16 value.

Definition push_span (case : Z) : M compiler unit :=
  modify (fun s => set_span_stack (span_stack s ++ [case])%list s).
Definition pop_span : M compiler unit :=
  modify (fun s => set_span_stack (removelast (span_stack s)) s).
Definition push_single (case : Z) : M compiler unit :=
  modify (fun s => set_single_stack (single_stack s ++ [case])%list s).

(** [value] cased by the span, then by the pending single case if
    there is one. *)
Definition span_then_single (value case : Z) : M compiler Z :=
  let text := convert_ord value (Some case) in
  single <- get_single_stack ;;
  ret (match single with
       | Some _ => convert_ord text single
       | None => text
       end).

(** **** [span_case] and [single_case]

    [span_loop] is the [while t != "\\E"] loop of [span_case]; the
    [StopIteration] its [next(i)] raises ends it. *)
Fixpoint span_case (fuel : nat) (case : Z) {struct fuel} : M compiler unit :=
  match fuel with
  | O => fun _ => OutOfFuel
  | S fuel' =>
      push_span case ;;;
      (fun s =>
         match next s with
         | Ok t s' => span_loop fuel' case t s'
         | Raise StopIteration s' => Ok tt s'
         | Raise e s' => Raise e s'
         | OutOfFuel => OutOfFuel
         end) ;;;
      pop_span
  end

with span_loop (fuel : nat) (case : Z) (t : string) {struct fuel}
  : M compiler unit :=
  match fuel with
  | O => fun _ => OutOfFuel
  | S fuel' =>
      if t =? "\E" then ret tt
      else
        (if (1 <? String.length t)%nat then
           if use_format && (first_char t =? "{") then
             handle_format_group (strip (slice_to_last 1 t))
           else
             let c := drop 1 t in
             let first := first_char c in
             if starts_with_digit first
                && (use_format || (String.length c =? 3)%nat) then
               value <- int_or_raise c 8 ;;
               if binary then
                 if (255 <? value)%Z then raise octal_out_of_range
                 else
                   let text := convert_ord value (Some case) in
                   single <- get_single_stack ;;
                   match single with
                   | Some _ => raise (TypeError "'str' object is not callable")
                   | None => result_append ("\" ++ zero_padded 3 8 text)
                   end
               else
                 value <- span_then_single value case ;;
                 result_append (octal_escape value)
             else if negb use_format
                     && (starts_with_digit first || (first =? "g")) then
               handle_group t
             else if c =? "c" then single_case fuel' _UPPER
             else if c =? "l" then single_case fuel' _LOWER
             else if c =? "C" then span_case fuel' _UPPER
             else if c =? "L" then span_case fuel' _LOWER
             else if negb binary && (first =? "N") then
               uc <- lookup_or_raise (slice_to_last 3 t) ;;
               value <- span_then_single uc case ;;
               result_append (unicode_escape value)
             else if negb binary
                     && ((first =? "u") || (negb NARROW && (first =? "U"))) then
               uc <- int_or_raise (drop 2 t) 16 ;;
               value <- span_then_single uc case ;;
               result_append (unicode_escape value)
             else if first =? "x" then
               hc <- int_or_raise (drop 2 t) 16 ;;
               value <- span_then_single hc case ;;
               result_append ("\x" ++ zero_padded 2 16 value)
             else
               get_single_stack ;;; result_append t
         else
           (fun s =>
              match single_stack s with
              | _ :: _ =>
                  (single <- get_single_stack ;;
                   let text := convert_case t (Some case) in
                   match single with
                   | Some _ =>
                       result_append
                         (convert_case (first_char text) single ++ drop 1 text)
                   | None => ret tt
                   end) s
              | [] => result_append (convert_case t (Some case)) s
              end)) ;;;
        (fun s =>
           if end_found s then Ok tt (set_end_found false s)
           else
             match next s with
             | Ok t' s' => span_loop fuel' case t' s'
             | Raise StopIteration s' => Ok tt s'
             | Raise e s' => Raise e s'
             | OutOfFuel => OutOfFuel
             end)
  end

with single_case (fuel : nat) (case : Z) {struct fuel} : M compiler unit :=
  match fuel with
  | O => fun _ => OutOfFuel
  | S fuel' =>
      push_single case ;;;
      (fun s =>
         match next s with
         | Raise StopIteration s' => Ok tt s'
         | Raise e s' => Raise e s'
         | OutOfFuel => OutOfFuel
         | Ok t s' =>
             (if (1 <? String.length t)%nat then
                if use_format && (first_char t =? "{") then
                  handle_format_group (strip (slice_to_last 1 t))
                else
                  let c := drop 1 t in
                  let first := first_char c in
                  if starts_with_digit first
                     && (use_format || (String.length c =? 3)%nat) then
                    value <- int_or_raise c 8 ;;
                    if binary then
                      if (255 <? value)%Z then raise octal_out_of_range
                      else
                        single <- get_single_stack ;;
                        result_append
                          ("\" ++ zero_padded 3 8 (convert_ord value single))
                    else
                      single <- get_single_stack ;;
                      result_append (octal_escape (convert_ord value single))
                  else if negb use_format
                          && (starts_with_digit first || (first =? "g")) then
                    handle_group t
                  else if c =? "c" then single_case fuel' _UPPER
                  else if c =? "l" then single_case fuel' _LOWER
                  else if c =? "C" then span_case fuel' _UPPER
                  else if c =? "L" then span_case fuel' _LOWER
                  else if c =? "E" then modify (set_end_found true)
                  else if negb binary && (first =? "N") then
                    uc <- lookup_or_raise (slice_to_last 3 t) ;;
                    single <- get_single_stack ;;
                    result_append (unicode_escape (convert_ord uc single))
                  else if negb binary
                          && ((first =? "u") || (negb NARROW && (first =? "U"))) then
                    uc <- int_or_raise (drop 2 t) 16 ;;
                    single <- get_single_stack ;;
                    result_append (unicode_escape (convert_ord uc single))
                  else if first =? "x" then
                    hc <- int_or_raise (drop 2 t) 16 ;;
                    single <- get_single_stack ;;
                    result_append
                      ("\x" ++ zero_padded 2 16 (convert_ord hc single))
                  else
                    get_single_stack ;;; result_append t
              else
                single <- get_single_stack ;;
                result_append (convert_case t single)) s'
         end)
  end.

(** **** [parse_template] *)

(** One turn of its [for t in i] loop. *)
Definition parse_token (fuel : nat) (t : string) : M compiler unit :=
  if (1 <? String.length t)%nat then
    if use_format && (first_char t =? "{") then
      handle_format_group (strip (slice_to_last 1 t))
    else
      let c := drop 1 t in
      if starts_with_digit (first_char c)
         && (use_format || (String.length c =? 3)%nat) then
        value <- int_or_raise c 8 ;;
        if (255 <? value)%Z then
          if binary then raise octal_out_of_range
          else result_append ("\u" ++ zero_padded 4 16 value)
        else result_append ("\" ++ zero_padded 3 8 value)
      else if negb use_format
              && (starts_with_digit (first_char c) || (first_char c =? "g")) then
        handle_group t
      else if c =? "l" then single_case fuel _LOWER
      else if c =? "L" then span_case fuel _LOWER
      else if c =? "c" then single_case fuel _UPPER
      else if c =? "C" then span_case fuel _UPPER
      else if c =? "E" then ret tt
      else result_append t
  else result_append t.

Fixpoint parse_loop (fuel : nat) {struct fuel} : M compiler unit :=
  match fuel with
  | O => fun _ => OutOfFuel
  | S fuel' =>
      fun s =>
        match next s with
        | Ok t s' => (parse_token fuel' t ;;; parse_loop fuel') s'
        | Raise StopIteration s' => Ok tt s'
        | Raise e s' => Raise e s'
        | OutOfFuel => OutOfFuel
        end
  end.

(** The state [__init__] leaves, with [self.result = [""]] and the
    cursor on the template. *)
Definition initial (template : string) : compiler :=
  mkCompiler (mkTokens template 0) false [] [] [EmptyString] [] [] 0%Z
    false false 0%Z.

(** [parse_template] up to the call of [regex_parse_template]: the
    loop and the last flush of [result]. *)
Definition parse_tokens (fuel : nat) (template : string) : outcome compiler unit :=
  (parse_loop fuel ;;;
   modify (fun s =>
     if (1 <? List.length (result s))%nat then
       set_slot (slot s + 1)%Z
         (set_result [EmptyString]
            (set_literal_slots (literal_slots s ++ [join (result s)])%list s))
     else s)) (initial template).

End Template.

(** *** The finished [ReplaceTemplate], the expander and the public
    functions *)

(** A [ReplaceTemplate] after [__init__]: what the expander and the
    public functions read. *)
Record ReplaceTemplate : Type := mkTemplate {
  rt_binary : bool;
  rt_use_format : bool;
  rt_original : string;
  rt_pattern_hash : Z;
  rt_group_slots : list (Z * (option Z * option Z * Z));
  rt_template : string;
  rt_groups : list (Z * Z);
  rt_literals : list (option string)
}.

(** A match object of the host engine: [m.string], [m.re] and
    [m.captures]; the latter answers a group index ([None] when the
    caller has none) with the captured texts or raises. *)
Record Match : Type := mkMatch {
  m_string : string;
  m_re : RegexPattern;
  m_captures : option Z -> exn + list string
}.

(** [Replace]: [func] is always [partial(_apply_replace_backrefs,
    repl=template)], kept as the bound template. *)
Record Replace : Type := mkReplace {
  func : ReplaceTemplate;
  use_format : bool;
  pattern_hash_of : Z
}.

(** The Python values an argument of the public functions can be. *)
Inductive value : Type :=
| Str (s : string)
| Bytes (s : string)
| ReplaceObj (r : Replace)
| TemplateObj (t : ReplaceTemplate)
| PatternObj (p : RegexPattern)
| NoneObj
| OtherObj.

Section Host.

(** [regex._compile_replacement_helper]: the host engine's own
    template grammar, which answers a list of group indices and
    literal texts or raises. *)
Variable _compile_replacement_helper :
  RegexPattern -> string -> exn + list (Z + string).

Variable unicodedata_lookup : string -> option Z.

(** **** [regex_parse_template] *)
Fixpoint split_parts (parts : list (Z + string)) (count : Z)
  : list (Z * Z) * list (option string) :=
  match parts with
  | [] => ([], [])
  | inl part :: rest =>
      let (groups, literals) := split_parts rest (count + 1)%Z in
      ((count, part) :: groups, None :: literals)
  | inr part :: rest =>
      let (groups, literals) := split_parts rest (count + 1)%Z in
      (groups, Some part :: literals)
  end.

Definition regex_parse_template (template : string) (pattern : RegexPattern)
  : exn + (list (Z * Z) * list (option string)) :=
  match _compile_replacement_helper pattern template with
  | inl e => inl e
  | inr replacements => inr (split_parts replacements 0%Z)
  end.

(** **** [ReplaceTemplate(pattern, template, use_format)] *)
Definition new_template (fuel : nat) (pattern : RegexPattern)
    (binary : bool) (template : string) (use_format : bool)
  : returned ReplaceTemplate :=
  match parse_tokens binary use_format unicodedata_lookup fuel template with
  | Ok _ s =>
      let _template := join (literal_slots s) in
      match regex_parse_template _template pattern with
      | inr (groups, literals) =>
          Returns (mkTemplate binary use_format template (pattern_hash pattern)
                     (group_slots s) _template groups literals)
      | inl e => Raises e
      end
  | Raise e _ => Raises e
  | OutOfFuel => NoFuel
  end.

(** **** [get_group_index] and [get_group_attributes] *)
Fixpoint get_group_index (groups : list (Z * Z)) (idx : Z) : option Z :=
  match groups with
  | [] => None
  | (k, g) :: rest => if (k =? idx)%Z then Some g else get_group_index rest idx
  end.

Fixpoint get_group_attributes (slots : list (Z * (option Z * option Z * Z)))
    (idx : Z) : option Z * option Z * Z :=
  match slots with
  | [] => (None, None, (-1)%Z)
  | (k, g_case) :: rest =>
      if (k =? idx)%Z then g_case else get_group_attributes rest idx
  end.

(** **** [ReplaceTemplateExpander.expand] *)

(** The text a group slot expands to. *)
Definition expand_group (m : Match) (template : ReplaceTemplate) (x : Z)
  : exn + string :=
  let g_index := get_group_index (rt_groups template) x in
  let '(span_case, single_case, capture) :=
    get_group_attributes (rt_group_slots template) x in
  let out_of_range :=
    IndexError ("'" ++ int2str capture ++ "' is out of range!") in
  match m_captures m g_index with
  | inl (IndexError _) => inl out_of_range
  | inl e => inl e
  | inr captures =>
      match getitem captures capture with
      | None => inl out_of_range
      | Some l =>
          let l :=
            match span_case with
            | Some c => if (c =? _LOWER)%Z then lower l else upper l
            | None => l
            end in
          let l :=
            match single_case with
            | Some c =>
                if (c =? _LOWER)%Z then lower (take 1 l) ++ drop 1 l
                else upper (take 1 l) ++ drop 1 l
            | None => l
            end in
          inr l
      end
  end.

(** The [for x in range(0, len(self.template.literals))] loop. *)
Fixpoint expand_loop (m : Match) (template : ReplaceTemplate)
    (literals : list (option string)) (x : Z) (text : list string)
  : returned string :=
  match literals with
  | [] => Returns (join text)
  | Some l :: rest => expand_loop m template rest (x + 1)%Z (text ++ [l])%list
  | None :: rest =>
      match expand_group m template x with
      | inr l => expand_loop m template rest (x + 1)%Z (text ++ [l])%list
      | inl e => Raises e
      end
  end.

Definition expander_expand (m : Match) (template : ReplaceTemplate)
  : returned string :=
  expand_loop m template (rt_literals template) 0%Z [].

(** **** [_apply_replace_backrefs]; the answer [None] is Python's,
    for a replacement of no known type. *)
Definition _apply_replace_backrefs (fuel : nat) (m : option Match)
    (repl : value) (flags : Z) : returned (option string) :=
  let some (r : returned string) : returned (option string) :=
    match r with
    | Returns text => Returns (Some text)
    | Raises e => Raises e
    | NoFuel => NoFuel
    end in
  match m with
  | None => Raises (ValueError "Match is None!")
  | Some m =>
      match repl with
      | ReplaceObj r =>
          (* [repl(m)], that is [_apply_replace_backrefs(m, repl=func)] *)
          some (expander_expand m (func r))
      | TemplateObj t => some (expander_expand m t)
      | Str text | Bytes text =>
          let binary := match repl with Bytes _ => true | _ => false end in
          match new_template fuel (m_re m) binary text
                  (negb (Z.land flags FORMAT =? 0)%Z) with
          | Returns t => some (expander_expand m t)
          | Raises e => Raises e
          | NoFuel => NoFuel
          end
      | _ => Returns None
      end
  end.

(** **** [compile_replace] *)
Definition compile_replace (fuel : nat) (pattern repl : value) (flags : Z)
  : returned Replace :=
  match pattern with
  | PatternObj pattern =>
      match repl with
      | Str text | Bytes text =>
          let binary := match repl with Bytes _ => true | _ => false end in
          match new_template fuel pattern binary text
                  (negb (Z.land flags FORMAT =? 0)%Z) with
          | Returns t =>
              Returns (mkReplace t (rt_use_format t) (rt_pattern_hash t))
          | Raises e => Raises e
          | NoFuel => NoFuel
          end
      | ReplaceObj r =>
          if negb (flags =? 0)%Z then
            Raises (ValueError
              "Cannot process flags argument with a compiled pattern!")
          else if negb (pattern_hash_of r =? pattern_hash pattern)%Z then
            Raises (ValueError
              "Pattern hash doesn't match hash in compiled replace!")
          else Returns r
      | TemplateObj t =>
          if negb (flags =? 0)%Z then
            Raises (ValueError
              "Cannot process flags argument with a ReplaceTemplate!")
          else Returns (mkReplace t (rt_use_format t) (rt_pattern_hash t))
      | _ => Raises (TypeError "Not a valid type!")
      end
  | _ => Raises (TypeError "Pattern must be a compiled regular expression!")
  end.

(** **** [expand] and [expandf] *)
Definition expand (fuel : nat) (m : option Match) (repl : value)
  : returned (option string) :=
  let compiled_as_format :=
    match repl with
    | ReplaceObj r => Some (use_format r)
    | TemplateObj t => Some (rt_use_format t)
    | _ => None
    end in
  match compiled_as_format, repl with
  | Some true, _ =>
      Raises (ValueError "Replace should not be compiled as a format replace!")
  | Some false, _ => _apply_replace_backrefs fuel m repl 0%Z
  | None, (Str _ | Bytes _) => _apply_replace_backrefs fuel m repl 0%Z
  | None, _ => Raises (TypeError "Expected string, buffer, or compiled replace!")
  end.

Definition expandf (fuel : nat) (m : option Match) (format : value)
  : returned (option string) :=
  let compiled_as_format :=
    match format with
    | ReplaceObj r => Some (use_format r)
    | TemplateObj t => Some (rt_use_format t)
    | _ => None
    end in
  match compiled_as_format, format with
  | Some false, _ =>
      Raises (ValueError "Replace not compiled as a format replace")
  | Some true, _ => _apply_replace_backrefs fuel m format FORMAT
  | None, (Str _ | Bytes _) => _apply_replace_backrefs fuel m format FORMAT
  | None, _ => Raises (TypeError "Expected string, buffer, or compiled replace!")
  end.

End Host.

End Replace.

(** ** Host capabilities, instantiated

    The host engine is outside the module. The definitions above take
    its functions as parameters; the instances here let them run on
    concrete inputs. *)

Module Host.

(** [regex.escape(pattern)] with its defaults: a backslash before each
    metacharacter and each whitespace character, [\000] for NUL. *)
Definition _METACHARS : string := "()[]{}?*+|^$\.-#&~".

Fixpoint regex_escape (s : string) : string :=
  match s with
  | EmptyString => EmptyString
  | String c r =>
      if in_chars _METACHARS c || is_space c then
        String "\" (String c (regex_escape r))
      else if Ascii.eqb c "000" then "\000" ++ regex_escape r
      else String c (regex_escape r)
  end.

(** A template grammar that knows numbered references only: [\N],
    [\NN] and [\g<N>] are groups, every other character is literal
    text. *)
Definition number_of (s : string) : Z :=
  match Py.int s 10 with
  | Some n => n
  | None => 0%Z
  end.

Fixpoint numbered_parts (fuel : nat) (s : string) (literal : string)
  : list (Z + string) :=
  let flush (parts : list (Z + string)) :=
    match literal with
    | EmptyString => parts
    | _ => inr literal :: parts
    end in
  match fuel with
  | O => flush []
  | S fuel' =>
      match s with
      | EmptyString => flush []
      | String "\" (String "g" (String "<" r)) =>
          let (name, r1) := span is_digit r in
          flush (inl (number_of name) :: numbered_parts fuel' (drop 1 r1) EmptyString)
      | String "\" (String d r) =>
          if is_digit d then
            let tail := Replace.at_most 1 is_digit r in
            flush (inl (number_of (String d tail))
                     :: numbered_parts fuel' (drop (String.length tail) r) EmptyString)
          else numbered_parts fuel' r (literal ++ String "\" (str d))
      | String c r => numbered_parts fuel' r (literal ++ str c)
      end
  end.

Definition numbered_helper (pattern : Replace.RegexPattern) (template : string)
  : exn + list (Z + string) :=
  inr (numbered_parts (S (String.length template)) template EmptyString).

(** A character-name table with no entries. *)
Definition no_names (name : string) : option Z := None.

(** A match whose every group captured the texts [captures], in order. *)
Definition match_with (captures : list string) : Replace.Match :=
  Replace.mkMatch EmptyString (Replace.mkPattern "(\w+)" 0 0)
    (fun _ => inr captures).

End Host.

(** ** Shapes of patterns and templates that the statements speak of *)

Module Shapes.

(** The number of backslashes a text ends with, counted along a scan
    from [n] pending ones. *)
Fixpoint trailing_from (n : nat) (s : string) : nat :=
  match s with
  | EmptyString => n
  | String c r => trailing_from (if Ascii.eqb c "\" then S n else O) r
  end.

Definition trailing_backslashes (s : string) : nat := trailing_from 0 s.

(** Every character of a text satisfies [p]. *)
Fixpoint all (p : ascii -> bool) (s : string) : bool :=
  match s with
  | EmptyString => true
  | String c r => p c && all p r
  end.

(** A text with no live [\Q] and no live [\E]: no [Q] or [E] follows an
    unpaired backslash; [pending] says that a backslash is waiting for
    its partner. *)
Fixpoint quote_free (pending : bool) (s : string) : bool :=
  match s with
  | EmptyString => true
  | String c r =>
      if pending then
        negb (Ascii.eqb c "Q") && negb (Ascii.eqb c "E") && quote_free false r
      else if Ascii.eqb c "\" then quote_free true r
      else quote_free false r
  end.

(** A character that [normal] passes on as it is: neither a backslash
    nor the start of a group or of a class, nor, in verbose mode, the
    start of a comment. *)
Definition plainb (v : bool) (c : ascii) : bool :=
  negb (Ascii.eqb c "\" || Ascii.eqb c "(" || Ascii.eqb c "["
        || (v && Ascii.eqb c "#")).

(** A plain character other than the newline. *)
Definition line_char (c : ascii) : bool :=
  plainb true c && negb (Ascii.eqb c "010").

(** A character that a verbose comment copies and goes on after:
    neither the newline nor a backslash. *)
Definition comment_char (c : ascii) : bool :=
  negb (Ascii.eqb c "010") && negb (Ascii.eqb c "\").

Definition no_backslash (c : ascii) : bool := negb (Ascii.eqb c "\").

(** The members of a character class, as the class loop reads them: a
    character on its own, or a backslash and the character it escapes. *)
Inductive member : Type :=
| Plain (c : ascii)
| Esc (c : ascii).

Definition member_text (m : member) : string :=
  match m with
  | Plain c => str c
  | Esc c => String "\" (str c)
  end.

Fixpoint members_text (ms : list member) : string :=
  match ms with
  | [] => EmptyString
  | m :: ms' => member_text m ++ members_text ms'
  end.

(** A member that neither opens nor closes a bracket and is no quote
    mark and no [\e]. *)
Definition class_member (m : member) : bool :=
  match m with
  | Plain c => negb (Ascii.eqb c "\" || Ascii.eqb c "[" || Ascii.eqb c "]")
  | Esc c => negb (Ascii.eqb c "e" || Ascii.eqb c "Q" || Ascii.eqb c "E")
  end.

(** The tokens the class loop appends for its members. *)
Fixpoint member_tokens (ms : list member) : list string :=
  match ms with
  | [] => []
  | Plain c :: ms' => str c :: member_tokens ms'
  | Esc c :: ms' => "\" :: str c :: member_tokens ms'
  end.

(** Members of which the first is no caret. *)
Definition leading (ms : list member) : bool :=
  match ms with
  | [] => false
  | Plain c :: _ => negb (Ascii.eqb c "^")
  | Esc _ :: _ => true
  end.

(** The single-character case directives of a template: [\c] and [\l]. *)
Inductive directive : Type :=
| UpperNext
| LowerNext.

Definition case_of (d : directive) : Z :=
  match d with
  | UpperNext => Replace._UPPER
  | LowerNext => Replace._LOWER
  end.

Definition directive_text (d : directive) : string :=
  match d with
  | UpperNext => "\c"
  | LowerNext => "\l"
  end.

Fixpoint directives_text (ds : list directive) : string :=
  match ds with
  | [] => EmptyString
  | d :: ds' => directive_text d ++ directives_text ds'
  end.

(** A character that the template tokenizer yields on its own: no
    backslash and, in format mode, no brace. *)
Definition literal_char (use_format : bool) (c : ascii) : bool :=
  negb (Ascii.eqb c "\")
  && negb (use_format && (Ascii.eqb c "{" || Ascii.eqb c "}")).

End Shapes.

(** ** Further shapes of patterns and templates *)

Module Forms.
Import Search Shapes.

(** What [reference] puts out for a backslash followed by [c]. *)
Definition reference_tokens (binary : bool) (c : ascii) : list string :=
  if Ascii.eqb c "<" then [_re_start_wb]
  else if Ascii.eqb c ">" then [_re_end_wb]
  else if Ascii.eqb c "R" then [_re_line_break binary]
  else if Ascii.eqb c "e" then chars _re_escape
  else ["\"; str c].

(** The tokens the main loop puts out for a run of members outside
    groups, classes and comments. *)
Fixpoint expansion_tokens (binary : bool) (ms : list member) : list string :=
  match ms with
  | [] => []
  | Plain c :: ms' => str c :: expansion_tokens binary ms'
  | Esc c :: ms' => (reference_tokens binary c ++ expansion_tokens binary ms')%list
  end.

(** A member the main loop handles on its own: a plain character, or an
    escaped character that is no quote mark. *)
Definition pattern_member (v : bool) (m : member) : bool :=
  match m with
  | Plain c => plainb v c
  | Esc c => negb (Ascii.eqb c "Q" || Ascii.eqb c "E")
  end.

(** A member the main loop puts out as it is: as above, and no
    shorthand. *)
Definition stable_member (v : bool) (m : member) : bool :=
  pattern_member v m
  && match m with
     | Plain _ => true
     | Esc c => negb (in_chars "<>Re" c)
     end.

(** A member of the body of an inline comment [(?#...)]: no closing
    parenthesis, bare or escaped, and no quote mark. *)
Definition comment_member (m : member) : bool :=
  match m with
  | Plain c => negb (Ascii.eqb c "\" || Ascii.eqb c ")")
  | Esc c => negb (Ascii.eqb c "Q" || Ascii.eqb c "E" || Ascii.eqb c ")")
  end.

(** Members of which the first, if there is one, is no caret. *)
Definition no_caret (ms : list member) : bool :=
  match ms with
  | Plain c :: _ => negb (Ascii.eqb c "^")
  | _ => true
  end.

(** Members of which the first, if there is one, is no colon: behind an
    opening bracket they start no POSIX class. *)
Definition no_colon (ms : list member) : bool :=
  match ms with
  | Plain c :: _ => negb (Ascii.eqb c ":")
  | _ => true
  end.

(** A character of the name of a POSIX class [[:name:]], as
    [_re_posix] takes it unescaped. *)
Definition name_char (c : ascii) : bool := negb (in_chars "\:}" c).

(** A member of a verbose comment before its line break: a character
    other than the newline and the backslash, or an escaped character
    other than the newline and the quote marks. *)
Definition remark_member (m : member) : bool :=
  match m with
  | Plain c => comment_char c
  | Esc c => negb (Ascii.eqb c "010" || Ascii.eqb c "Q" || Ascii.eqb c "E")
  end.

(** What [verbose_comment] appends for such members: the backslash of
    an escaped character that is one of [_new_refs] is put out twice. *)
Fixpoint remark_tokens (ms : list member) : list string :=
  match ms with
  | [] => []
  | Plain c :: ms' => str c :: remark_tokens ms'
  | Esc c :: ms' =>
      "\" :: (if in_list (str c) _new_refs then ["\"] else [])
          ++ str c :: remark_tokens ms'
  end.

(** A member of the body of a group: a pattern member other than the
    closing parenthesis. *)
Definition group_member (v : bool) (m : member) : bool :=
  pattern_member v m
  && match m with
     | Plain c => negb (Ascii.eqb c ")")
     | Esc _ => true
     end.

(** The body of a group that is no flag group and no comment: it does
    not begin with a question mark, or the question mark is followed by
    one of [:], [=], [!], [<], [>], [P] and [|]. *)
Definition group_opening (ms : list member) : bool :=
  match ms with
  | Plain c :: ms' =>
      negb (Ascii.eqb c "?")
      || match ms' with
         | Plain c2 :: _ => in_chars ":=!<>P|" c2
         | _ => false
         end
  | _ => true
  end.

(** What [char_groups] keeps true of its locals: the depth is never
    negative, and a position that it may add one to has been set. *)
Definition class_invariant (v : class_vars) : Prop :=
  (0 <= cg_found v)%Z
  /\ ((1 <= cg_found v)%Z -> cg_first v <> None)
  /\ ((1 < cg_found v)%Z -> cg_sub_first v <> None).

(** The pieces of a template that holds no group reference: a
    literal character, an end mark outside any span, a single-character
    directive with the literal character it applies to, a span of
    literal text with its end mark and, in format mode, a doubled
    brace. *)
Inductive piece : Type :=
| Lit (a : ascii)
| Stray
| Single (d : directive) (a : ascii)
| Span (lower : bool) (text : string)
| Brace (closing : bool).

Definition span_mark (lower : bool) : string := if lower then "\L" else "\C".

Definition span_case_of (lower : bool) : Z :=
  if lower then Replace._LOWER else Replace._UPPER.

Definition piece_text (p : piece) : string :=
  match p with
  | Lit a => str a
  | Stray => "\E"
  | Single d a => directive_text d ++ str a
  | Span lower text => span_mark lower ++ text ++ "\E"
  | Brace closing => if closing then "}}" else "{{"
  end.

Fixpoint pieces_text (ps : list piece) : string :=
  match ps with
  | [] => EmptyString
  | p :: ps' => piece_text p ++ pieces_text ps'
  end.

(** The text a piece stands for. *)
Definition piece_out (binary : bool) (p : piece) : string :=
  match p with
  | Lit a => str a
  | Stray => EmptyString
  | Single d a => Replace.convert_case binary (str a) (Some (case_of d))
  | Span lower text =>
      Replace.convert_case binary text (Some (span_case_of lower))
  | Brace closing => if closing then "}" else "{"
  end.

Fixpoint pieces_out (binary : bool) (ps : list piece) : string :=
  match ps with
  | [] => EmptyString
  | p :: ps' => piece_out binary p ++ pieces_out binary ps'
  end.

Definition piece_ok (use_format : bool) (p : piece) : bool :=
  match p with
  | Lit a => literal_char use_format a
  | Stray => true
  | Single _ a => literal_char use_format a
  | Span _ text => all (literal_char use_format) text
  | Brace _ => use_format
  end.

(** The references of a template that take an argument: [\xXX],
    [\g<name>], [\N{name}], [\uXXXX] and [\UXXXXXXXX]; the last three
    exist in text templates only. *)
Inductive long_ref : Type :=
| ByteRef
| GroupRef
| NameRef
| UnicodeRef
| WideRef.

Definition long_letter (r : long_ref) : ascii :=
  match r with
  | ByteRef => "x"
  | GroupRef => "g"
  | NameRef => "N"
  | UnicodeRef => "u"
  | WideRef => "U"
  end.

(** The argument of a reference, as the patterns of the tokenizer read
    it at the head of [s]. *)
Definition long_argument (r : long_ref) (s : string) : option string :=
  match r with
  | ByteRef => Replace.exactly 2 is_hex s
  | GroupRef => Replace.group_name s
  | NameRef => Replace.char_name s
  | UnicodeRef => Replace.exactly 4 is_hex s
  | WideRef => Replace.exactly 8 is_hex s
  end.

Definition text_only (r : long_ref) : bool :=
  match r with
  | ByteRef | GroupRef => false
  | NameRef | UnicodeRef | WideRef => true
  end.

Definition long_message (r : long_ref) : string :=
  match r with
  | ByteRef => "Format for byte is \xXX!"
  | GroupRef => "Format for group is \g<group_name_or_index>!"
  | NameRef => "Format for Unicode name is \N{name}!"
  | UnicodeRef => "Format for Unicode is \uXXXX!"
  | WideRef => "Format for wide Unicode is \UXXXXXXXX!"
  end.

(** The part the host engine's template grammar makes of literal
    text: none when the text is empty. *)
Definition literal_part (x : string) : list (Z + string) :=
  match x with
  | EmptyString => []
  | _ => [inr x]
  end.

(** A capture under an optional single-character directive. *)
Definition first_cased (d : option directive) (l : string) : string :=
  match d with
  | None => l
  | Some UpperNext => upper (take 1 l) ++ drop 1 l
  | Some LowerNext => lower (take 1 l) ++ drop 1 l
  end.

Definition optional_directive (d : option directive) : string :=
  match d with
  | None => EmptyString
  | Some d => directive_text d
  end.

(** The replacement fields of a format template that the properties
    speak of: the empty field, numbered by the template itself, and a
    field that names its group by one digit. *)
Inductive field : Type :=
| AutoField
| ManualField (g : ascii).

Definition field_text (fd : field) : string :=
  match fd with
  | AutoField => "{}"
  | ManualField g => String "{" (String g "}")
  end.

Definition field_ok (fd : field) : bool :=
  match fd with
  | AutoField => true
  | ManualField g => is_digit g
  end.

(** The group names that two fields of one kind stand for: an empty
    field is numbered from zero by the template; two fields of different
    kinds have none. *)
Definition field_names (f1 f2 : field) : option (string * string) :=
  match f1, f2 with
  | AutoField, AutoField => Some ("0", "1")
  | ManualField g1, ManualField g2 => Some (str g1, str g2)
  | _, _ => None
  end.

(** A numbered field with a subscript of one digit, counted from the
    start or, with a minus sign, from the end: [{g[k]}] and [{g[-k]}]. *)
Definition indexed_field (g : ascii) (back : bool) (k : ascii) : string :=
  String "{" (String g (String "["
    ((if back then "-" else "") ++ String k "]}"))).

(** The index such a subscript stands for. *)
Definition index_value (back : bool) (k : ascii) : Z :=
  let n := (Z.of_nat (nat_of_ascii k) - 48)%Z in
  if back then (- n)%Z else n.

End Forms.

(** ** Facts about strings and the builtins *)

Module StringFacts.

Lemma app_nil_r (s : string) : s ++ "" = s.
Proof. induction s as [|c s IH]; simpl; [reflexivity | now rewrite IH]. Qed.

Lemma app_assoc (a b c : string) : (a ++ b) ++ c = a ++ b ++ c.
Proof. induction a as [|x a IH]; simpl; [reflexivity | now rewrite IH]. Qed.

Lemma length_app (a b : string) :
  String.length (a ++ b) = (String.length a + String.length b)%nat.
Proof. induction a as [|x a IH]; simpl; [reflexivity | now rewrite IH]. Qed.

Lemma join_cons (x : string) (l : list string) : join (x :: l) = x ++ join l.
Proof.
  unfold join. destruct l as [|y l]; simpl; [now rewrite app_nil_r | reflexivity].
Qed.

Lemma join_app (l1 l2 : list string) : join (l1 ++ l2) = join l1 ++ join l2.
Proof.
  induction l1 as [|x l1 IH]; [reflexivity|].
  change ((x :: l1) ++ l2)%list with (x :: (l1 ++ l2))%list.
  now rewrite !join_cons, IH, app_assoc.
Qed.

Lemma join_snoc (l : list string) (x : string) : join (l ++ [x]) = join l ++ x.
Proof. rewrite join_app. reflexivity. Qed.

Lemma str_eqb (c d : ascii) : (str c =? str d) = Ascii.eqb c d.
Proof.
  unfold str. simpl. destruct (Ascii.eqb c d); reflexivity.
Qed.

Lemma contains_tail (sub : string) (c : ascii) (s : string) :
  contains sub (String c s) = false -> contains sub s = false.
Proof.
  simpl. intros H. apply orb_false_iff in H. apply H.
Qed.

End StringFacts.

Module QuoteFacts.
Import Search Shapes StringFacts.

Section Quotes.
Variable escape : string -> string.

Abbreviation step := (process_quotes_step escape).
Abbreviation loop := (process_quotes_loop escape).
Abbreviation finish := (process_quotes_finish escape).
Abbreviation in_front pre q :=
  (mkQuotes (q_escaped q) (q_in_quotes q) (List.app pre (q_current q)) (q_quoted q)).

(** The loop only appends to [current]: what was there stays in front. *)
Lemma step_frame (pre : list string) (q : quotes) (t : string) :
  step (in_front pre q) t = in_front pre (step q t).
Proof.
  destruct q as [e iq cur qd]; simpl.
  destruct e, iq, (t =? "\"), (t =? "E"), (t =? "Q"); simpl;
    rewrite ?List.app_assoc; reflexivity.
Qed.

Lemma loop_frame (s : string) : forall (pre : list string) (q : quotes),
  loop s (in_front pre q) = in_front pre (loop s q).
Proof.
  induction s as [|c s IH]; intros pre q; cbn [process_quotes_loop].
  - reflexivity.
  - rewrite <- IH. f_equal. apply step_frame.
Qed.

Lemma finish_frame (pre : list string) (q : quotes) :
  finish (in_front pre q) = join pre ++ finish q.
Proof.
  destruct q as [e iq cur qd]; unfold process_quotes_finish; simpl.
  destruct (iq && e), e; simpl;
    repeat match goal with
           | |- context [match ?l with [] => _ | _ :: _ => _ end] => destruct l
           end;
    rewrite <- ?List.app_assoc, ?join_app; reflexivity.
Qed.

Lemma loop_app (a b : string) : forall q, loop (a ++ b) q = loop b (loop a q).
Proof. induction a as [|c a IH]; intros q; simpl; [reflexivity | apply IH]. Qed.

(** After an unquoted prefix that leaves [current = pre], the rest is
    processed on its own. *)
Lemma process_quotes_after (a b : string) (pre : list string) :
  loop a (mkQuotes false false [] []) = mkQuotes false false pre [] ->
  process_quotes escape (a ++ b) = join pre ++ process_quotes escape b.
Proof.
  intros Ha. unfold process_quotes. rewrite loop_app, Ha.
  pose proof (loop_frame b pre (mkQuotes false false [] [])) as F.
  simpl in F. rewrite List.app_nil_r in F. rewrite F.
  apply finish_frame.
Qed.

(** Inside a quoting span, text without [\E] is collected as it is. *)
Lemma loop_in_quotes (s : string) :
  forall (e : bool) (cur quoted : list string) (n : nat),
    e = Nat.odd n ->
    contains "\E" ((if e then "\" else "") ++ s) = false ->
    exists quoted',
      loop s (mkQuotes e true cur quoted)
      = mkQuotes (Nat.odd (trailing_from n s)) true cur quoted'
      /\ join quoted' ++ (if Nat.odd (trailing_from n s) then "\" else "")
         = join quoted ++ (if e then "\" else "") ++ s.
Proof.
  induction s as [|c s IH]; intros e cur quoted n He Hc.
  - exists quoted. simpl. rewrite <- He. split; [reflexivity|].
    now rewrite app_nil_r.
  - cbn [process_quotes_loop trailing_from]. unfold process_quotes_step.
    change (str c =? "\") with (str c =? str "\").
    change (str c =? "E") with (str c =? str "E").
    change (str c =? "Q") with (str c =? str "Q").
    rewrite !str_eqb.
    destruct e; simpl negb; cbv iota beta.
    + (* an escape is pending *)
      simpl andb.
      destruct (Ascii.eqb_spec c "E") as [->|HE].
      { simpl in Hc. discriminate. }
      rewrite andb_false_r.
      assert (Hn : false = Nat.odd (if Ascii.eqb c "\" then S n else 0)).
      { destruct (Ascii.eqb c "\"); [|reflexivity].
        rewrite Nat.odd_succ, <- Nat.negb_odd, <- He. reflexivity. }
      destruct (IH false cur (quoted ++ ["\"; str c])%list _ Hn) as (q' & Hl & Hj).
      { change (contains "\E" (String "\" (String c s)) = false) in Hc.
        apply contains_tail in Hc. apply contains_tail in Hc. exact Hc. }
      exists q'. split; [exact Hl|].
      rewrite Hj. rewrite join_app. simpl.
      rewrite !app_assoc. reflexivity.
    + destruct (Ascii.eqb_spec c "\") as [->|HB]; simpl andb; cbv iota.
      * assert (Hn : true = Nat.odd (S n)).
        { rewrite Nat.odd_succ, <- Nat.negb_odd, <- He. reflexivity. }
        destruct (IH true cur quoted _ Hn) as (q' & Hl & Hj).
        { exact Hc. }
        exists q'. split; [exact Hl|]. rewrite Hj. reflexivity.
      * destruct (IH false cur (quoted ++ chars (str c))%list 0%nat eq_refl)
          as (q' & Hl & Hj).
        { change (contains "\E" (String c s) = false) in Hc.
          apply contains_tail in Hc. exact Hc. }
        exists q'. split; [exact Hl|].
        rewrite Hj. rewrite join_app. simpl. rewrite !app_assoc. reflexivity.
Qed.

(** The body of a span whose last backslash, if any, is paired. *)
Lemma span_body (s : string) (cur quoted : list string) :
  contains "\E" s = false ->
  Nat.even (trailing_backslashes s) = true ->
  exists quoted',
    loop s (mkQuotes false true cur quoted) = mkQuotes false true cur quoted'
    /\ join quoted' = join quoted ++ s.
Proof.
  intros Hc Hev.
  destruct (loop_in_quotes s false cur quoted 0%nat eq_refl Hc) as (q' & Hl & Hj).
  fold (trailing_backslashes s) in *.
  rewrite <- Nat.negb_even, Hev in *. simpl negb in *. cbv iota in Hj.
  rewrite app_nil_r in Hj.
  exists q'. split; [exact Hl | exact Hj].
Qed.

(** From inside a span: its body, the [\E] that closes it, the rest. *)
Lemma close_from (cur quoted : list string) (s rest : string) :
  contains "\E" s = false ->
  Nat.even (trailing_backslashes s) = true ->
  finish (loop (s ++ "\E" ++ rest) (mkQuotes false true cur quoted))
  = join cur ++ escape (join quoted ++ s) ++ process_quotes escape rest.
Proof.
  intros Hc Hev.
  destruct (span_body s cur quoted Hc Hev) as (q' & Hl & Hj).
  rewrite loop_app, Hl.
  change ("\E" ++ rest) with (String "\" (String "E" rest)).
  cbn [process_quotes_loop].
  change (step (step (mkQuotes false true cur q') (str "\")) (str "E"))
    with (mkQuotes false false (cur ++ [escape (join q')]) []).
  pose proof (loop_frame rest (cur ++ [escape (join q')])
                (mkQuotes false false [] [])) as F.
  cbn [q_escaped q_in_quotes q_current q_quoted] in F.
  rewrite List.app_nil_r in F. rewrite F.
  rewrite finish_frame, join_snoc, Hj, app_assoc.
  reflexivity.
Qed.

(** A terminated span, followed by anything. *)
Lemma quoted_span_then (s rest : string) :
  contains "\E" s = false ->
  Nat.even (trailing_backslashes s) = true ->
  process_quotes escape ("\Q" ++ s ++ "\E" ++ rest)
  = escape s ++ process_quotes escape rest.
Proof.
  intros Hc Hev.
  exact (close_from [] [] s rest Hc Hev).
Qed.

(** A span that the end of the input closes. *)
Lemma open_span (s : string) :
  contains "\E" s = false ->
  s <> "" ->
  process_quotes escape ("\Q" ++ s) = escape s.
Proof.
  intros Hc Hne.
  unfold process_quotes.
  change ("\Q" ++ s) with (String "\" (String "Q" s)).
  cbn [process_quotes_loop].
  change (process_quotes_step escape
            (process_quotes_step escape (mkQuotes false false [] []) (str "\"))
            (str "Q")) with (mkQuotes false true [] []).
  destruct (loop_in_quotes s false [] [] 0%nat eq_refl Hc) as (q' & Hl & Hj).
  rewrite Hl. simpl in Hj. unfold process_quotes_finish.
  destruct (Nat.odd (trailing_from 0 s)); simpl andb; cbv iota.
  - destruct (q' ++ ["\"])%list eqn:E.
    + destruct q'; discriminate.
    + rewrite <- E. change (escape (join (q' ++ ["\"])) = escape s).
      now rewrite join_snoc, Hj.
  - rewrite app_nil_r in Hj. destruct q' as [|x q'].
    + exfalso. apply Hne. symmetry. exact Hj.
    + change (escape (join (x :: q')) = escape s). now rewrite Hj.
Qed.

End Quotes.

(** C1 (amended). For every [s] that contains no [\E]: when [s] does
    not end in an unpaired backslash, preprocessing [\Q s \E] gives the
    host's [escape(s)]; and when [s] is not empty, the unterminated
    [\Q s] gives [escape(s)] as well. *)
Theorem process_quotes_span (escape : string -> string) (s : string) :
  contains "\E" s = false ->
  (Nat.even (trailing_backslashes s) = true ->
     process_quotes escape ("\Q" ++ s ++ "\E") = escape s)
  /\ (s <> "" -> process_quotes escape ("\Q" ++ s) = escape s).
Proof.
  intros Hc. split.
  - intros Hev.
    pose proof (quoted_span_then escape s "" Hc Hev) as H.
    change (process_quotes escape "") with "" in H.
    rewrite !app_nil_r in H. exact H.
  - intros Hne. now apply open_span.
Qed.

Lemma process_quotes_span_witness :
  process_quotes Host.regex_escape "\Q(a+b)\E" = Host.regex_escape "(a+b)"
  /\ process_quotes Host.regex_escape "\Q(a+b)" = Host.regex_escape "(a+b)".
Proof.
  destruct (process_quotes_span Host.regex_escape "(a+b)" eq_refl) as [H1 H2].
  split; [apply H1; reflexivity | apply H2; discriminate].
Defined.

(** C1 as stated fails: [s] may end in a backslash, which pairs with
    the backslash of the closing [\E]; the span then stays open and the
    [E] is quoted with the rest. *)
Lemma process_quotes_span_counterexample :
  ~ (forall (escape : string -> string) (s : string),
       contains "\E" s = false ->
       process_quotes escape ("\Q" ++ s ++ "\E") = escape s).
Proof.
  intros H. specialize (H Host.regex_escape "\" eq_refl).
  vm_compute in H. discriminate.
Qed.

(** C5 (amended). A [\Q] met while a span is open starts no nested
    span: the first [\E] after it closes the one span, and what follows
    is processed outside quotes; the [\Q] itself joins the quoted
    content as a backslash followed by [Q]. *)
Theorem nested_quote_is_backslash_q (escape : string -> string)
    (s1 s2 rest : string) :
  contains "\E" s1 = false ->
  contains "\E" s2 = false ->
  Nat.even (trailing_backslashes s1) = true ->
  Nat.even (trailing_backslashes s2) = true ->
  process_quotes escape ("\Q" ++ s1 ++ "\Q" ++ s2 ++ "\E" ++ rest)
  = escape (s1 ++ "\Q" ++ s2) ++ process_quotes escape rest.
Proof.
  intros Hc1 Hc2 He1 He2.
  destruct (span_body escape s1 [] [] Hc1 He1) as (q1 & Hl & Hj).
  unfold process_quotes.
  replace ("\Q" ++ s1 ++ "\Q" ++ s2 ++ "\E" ++ rest)
    with ("\Q" ++ (s1 ++ "\Q") ++ s2 ++ "\E" ++ rest)
    by (simpl; now rewrite !app_assoc).
  change ("\Q" ++ (s1 ++ "\Q") ++ s2 ++ "\E" ++ rest)
    with (String "\" (String "Q" ((s1 ++ "\Q") ++ s2 ++ "\E" ++ rest))).
  cbn [process_quotes_loop].
  change (process_quotes_step escape
            (process_quotes_step escape (mkQuotes false false [] []) (str "\"))
            (str "Q")) with (mkQuotes false true [] []).
  rewrite (loop_app escape (s1 ++ "\Q")), (loop_app escape s1), Hl.
  change (process_quotes_loop escape "\Q" (mkQuotes false true [] q1))
    with (mkQuotes false true [] (q1 ++ ["\"; "Q"])).
  rewrite (close_from escape [] (q1 ++ ["\"; "Q"]) s2 rest Hc2 He2).
  rewrite join_app, Hj. simpl. rewrite !app_assoc. reflexivity.
Qed.

Lemma nested_quote_is_backslash_q_witness :
  process_quotes Host.regex_escape ("\Q" ++ "a" ++ "\Q" ++ "b" ++ "\E" ++ "c")
  = Host.regex_escape ("a" ++ "\Q" ++ "b") ++ process_quotes Host.regex_escape "c".
Proof.
  apply (nested_quote_is_backslash_q Host.regex_escape "a" "b" "c");
    reflexivity.
Defined.

(** C5 as stated fails: the quoted content holds the backslash too. *)
Lemma nested_quote_is_backslash_q_counterexample :
  ~ (forall (escape : string -> string) (s1 s2 : string),
       contains "\E" s1 = false ->
       contains "\E" s2 = false ->
       Nat.even (trailing_backslashes s1) = true ->
       Nat.even (trailing_backslashes s2) = true ->
       process_quotes escape ("\Q" ++ s1 ++ "\Q" ++ s2 ++ "\E")
       = escape (s1 ++ "Q" ++ s2)).
Proof.
  intros H.
  specialize (H Host.regex_escape "a" "b" eq_refl eq_refl eq_refl eq_refl).
  vm_compute in H. discriminate.
Qed.

End QuoteFacts.

(** ** Facts about the cursor and the handlers of the search preprocessor *)

Module SearchFacts.
Import Search Shapes StringFacts.

Abbreviation at_ s n v ver := (mkState (Search.mkTokens s n) v ver).

Lemma get_drop (n : nat) : forall s : string,
  String.get n s = match drop n s with
                   | String c _ => Some c
                   | EmptyString => None
                   end.
Proof.
  induction n as [|n IH]; intros [|c s]; simpl; try reflexivity. apply IH.
Qed.

Lemma drop_succ (n : nat) : forall (s : string) (c : ascii) (r : string),
  drop n s = String c r -> drop (S n) s = r.
Proof.
  induction n as [|n IH]; intros s c r H.
  - simpl in H. subst s. reflexivity.
  - destruct s as [|d s]; [discriminate|].
    change (drop (S n) s = r). apply IH with c. exact H.
Qed.

Lemma drop_add (k : nat) : forall (n : nat) (s a r : string),
  drop n s = a ++ r -> String.length a = k -> drop (n + k) s = r.
Proof.
  induction k as [|k IH]; intros n s a r H L.
  - destruct a; [|discriminate]. now rewrite Nat.add_0_r.
  - destruct a as [|c a]; [discriminate|]. simpl in *.
    rewrite Nat.add_succ_r, <- Nat.add_succ_l.
    apply IH with a; [|lia]. now apply drop_succ with c.
Qed.

Lemma next_char (s : string) (n : nat) (v : bool) (ver : Z) (c : ascii) (r : string) :
  drop n s = String c r ->
  next (at_ s n v ver) = Ok (str c) (at_ s (S n) v ver).
Proof.
  intros H. unfold next, iternext. cbn [i index tok_string].
  rewrite get_drop, H. reflexivity.
Qed.

Lemma next_stop (s : string) (n : nat) (v : bool) (ver : Z) :
  drop n s = "" ->
  next (at_ s n v ver) = Raise StopIteration (at_ s n v ver).
Proof.
  intros H. unfold next, iternext. cbn [i index tok_string].
  rewrite get_drop, H. reflexivity.
Qed.

Lemma join_chars (a : string) : join (chars a) = a.
Proof.
  induction a as [|c a IH]; [reflexivity|].
  cbn [chars]. rewrite join_cons, IH. reflexivity.
Qed.

Lemma chars_app (a b : string) : chars (a ++ b) = (chars a ++ chars b)%list.
Proof. induction a as [|c a IH]; simpl; [reflexivity | now rewrite IH]. Qed.

Lemma all_app (p : ascii -> bool) (a b : string) :
  all p (a ++ b) = all p a && all p b.
Proof.
  induction a as [|c a IH]; simpl; [reflexivity | now rewrite IH, andb_assoc].
Qed.

Section Handlers.
Variable binary : bool.

Lemma normal_plain (f : nat) (c : ascii) (st : state) :
  plainb (verbose st) c = true ->
  normal binary (S f) (str c) st = Ok [str c] st.
Proof.
  unfold plainb. intros H. apply negb_true_iff in H.
  repeat (apply orb_false_iff in H; destruct H as [H ?]).
  cbn [normal].
  change (str c =? "\") with (str c =? str "\").
  change (str c =? "(") with (str c =? str "(").
  change (str c =? "#") with (str c =? str "#").
  change (str c =? "[") with (str c =? str "[").
  rewrite !str_eqb.
  repeat match goal with
         | E : _ = false |- _ => rewrite E; clear E
         end.
  reflexivity.
Qed.

(** The main loop over a run of such characters. *)
Lemma main_loop_plain (a : string) :
  forall (f : nat) (cur : list string) (s : string) (n : nat) (v : bool)
         (ver : Z) (rest : string),
    all (plainb v) a = true ->
    drop n s = a ++ rest ->
    main_group_loop binary (String.length a + f) cur (at_ s n v ver)
    = main_group_loop binary f (cur ++ chars a) (at_ s (n + String.length a) v ver).
Proof.
  induction a as [|c a IH]; intros f cur s n v ver rest Hp Hd.
  - simpl. now rewrite Nat.add_0_r, List.app_nil_r.
  - simpl in Hp. apply andb_true_iff in Hp. destruct Hp as [Hc Hp].
    cbn [String.length Nat.add main_group_loop].
    rewrite (next_char s n v ver c (a ++ rest) Hd).
    destruct (String.length a + f)%nat as [|k] eqn:E.
    + destruct a; [|discriminate]. destruct f; [|discriminate].
      reflexivity.
    + rewrite normal_plain by exact Hc.
      rewrite <- E.
      rewrite (IH f (cur ++ [str c])%list s (S n) v ver rest Hp
                 (drop_succ _ _ _ _ Hd)).
      rewrite <- List.app_assoc. cbn [chars List.app].
      now rewrite Nat.add_succ_r.
Qed.

(** The main loop at a shorthand. *)
Lemma main_loop_start_wb (f : nat) (cur : list string) (s : string) (n : nat)
    (v : bool) (ver : Z) (rest : string) :
  drop n s = "\<" ++ rest ->
  main_group_loop binary (S f) cur (at_ s n v ver)
  = main_group_loop binary f (cur ++ [_re_start_wb]) (at_ s (S (S n)) v ver).
Proof.
  intros Hd. cbn [main_group_loop].
  rewrite (next_char s n v ver "\" ("<" ++ rest) Hd).
  destruct f as [|f]; [reflexivity|].
  cbn [normal]. change (str "\" =? "\") with true. cbv iota.
  unfold reference.
  rewrite (next_char s (S n) v ver "<" rest (drop_succ _ _ _ _ Hd)).
  reflexivity.
Qed.

(** The main loop at the end of the input. *)
Lemma main_loop_end (f : nat) (cur : list string) (s : string) (n : nat)
    (v : bool) (ver : Z) :
  drop n s = "" ->
  main_group_loop binary (S f) cur (at_ s n v ver) = Ok cur (at_ s n v ver).
Proof.
  intros Hd. cbn [main_group_loop]. now rewrite (next_stop s n v ver Hd).
Qed.

End Handlers.

(** *** Lexemes *)

Lemma get_lexeme_some (p : string -> option string) (s : string) (n : nat)
    (v : bool) (ver : Z) (text : string) :
  p (drop n s) = Some text ->
  get_lexeme p (at_ s (S n) v ver)
  = Ok (Some text) (at_ s (n + String.length text) v ver).
Proof.
  intros H. unfold get_lexeme. cbn [i index tok_string].
  replace (S n - 1)%nat with n by lia. now rewrite H.
Qed.

Lemma get_lexeme_none (p : string -> option string) (s : string) (n : nat)
    (v : bool) (ver : Z) :
  p (drop n s) = None ->
  get_lexeme p (at_ s (S n) v ver) = Ok None (at_ s (S n) v ver).
Proof.
  intros H. unfold get_lexeme. cbn [i index tok_string].
  replace (S n - 1)%nat with n by lia. now rewrite H.
Qed.

(** [(?x)] before a character that is no flag is an inline flag group
    in either dialect. *)
Lemma get_flags_x (version0 : bool) (s : string) (n : nat) (v : bool) (ver : Z)
    (rest : string) :
  drop n s = "(?x)#" ++ rest ->
  get_flags version0 (at_ s (S n) v ver) = Ok (Some "(?x)") (at_ s (n + 4) v ver).
Proof.
  intros Hd. unfold get_flags.
  apply (get_lexeme_some _ s n v ver "(?x)").
  rewrite Hd. destruct version0; reflexivity.
Qed.

(** [flags("x")]: raises the retry when verbose is off, does nothing when
    it is on. *)
Lemma flags_x_off (s : string) (n : nat) (ver : Z) :
  flags "x" (at_ s n false ver) = Raise RetryException (at_ s n true ver).
Proof.
  unfold flags. cbn [verbose version set_verbose i].
  rewrite andb_false_r. reflexivity.
Qed.

Lemma flags_x_on (s : string) (n : nat) (ver : Z) :
  flags "x" (at_ s n true ver) = Ok tt (at_ s n true ver).
Proof.
  unfold flags. cbn [verbose version set_verbose i].
  rewrite andb_false_r. reflexivity.
Qed.

Section Restart.
Variable binary : bool.

(** The main loop at [(?x)] with verbose off: the retry signal, raised
    with verbose switched on. *)
Lemma main_loop_x_off (f : nat) (cur : list string) (s : string) (n : nat)
    (ver : Z) (rest : string) :
  drop n s = "(?x)#" ++ rest ->
  main_group_loop binary (S (S (S f))) cur (at_ s n false ver)
  = Raise RetryException (at_ s (n + 4) true ver).
Proof.
  intros Hd. cbn [main_group_loop].
  rewrite (next_char s n false ver "(" ("?x)#" ++ rest) Hd).
  cbn [normal]. change (str "(" =? "\") with false.
  change (str "(" =? "(") with true. cbv iota.
  cbn [subgroup]. cbn [version].
  rewrite (get_flags_x _ s n false ver rest Hd).
  unfold bind. change (slice_to_last 2 "(?x)") with "x".
  rewrite flags_x_off. reflexivity.
Qed.

(** The same with verbose on: the group is copied. *)
Lemma main_loop_x_on (f : nat) (cur : list string) (s : string) (n : nat)
    (ver : Z) (rest : string) :
  drop n s = "(?x)#" ++ rest ->
  main_group_loop binary (S (S (S f))) cur (at_ s n true ver)
  = main_group_loop binary (S (S f)) (cur ++ ["(?x)"]) (at_ s (n + 4) true ver).
Proof.
  intros Hd. cbn [main_group_loop].
  rewrite (next_char s n true ver "(" ("?x)#" ++ rest) Hd).
  cbn [normal]. change (str "(" =? "\") with false.
  change (str "(" =? "(") with true. cbv iota.
  cbn [subgroup]. cbn [version].
  rewrite (get_flags_x _ s n true ver rest Hd).
  unfold bind. change (slice_to_last 2 "(?x)") with "x".
  rewrite flags_x_on. reflexivity.
Qed.

End Restart.

(** *** The quote pass on a text without live quote marks *)

Section QuoteFree.
Variable escape : string -> string.

Lemma loop_quote_free (s : string) : forall (e : bool) (cur : list string),
  quote_free e s = true ->
  exists (e' : bool) (cur' : list string),
    process_quotes_loop escape s (mkQuotes e false cur [])
    = mkQuotes e' false cur' []
    /\ join cur' ++ (if e' then "\" else "")
       = join cur ++ (if e then "\" else "") ++ s.
Proof.
  induction s as [|c s IH]; intros e cur Hq.
  - exists e, cur. split; [reflexivity | now rewrite app_nil_r].
  - cbn [process_quotes_loop quote_free] in *. unfold process_quotes_step.
    change (str c =? "\") with (str c =? str "\").
    change (str c =? "E") with (str c =? str "E").
    change (str c =? "Q") with (str c =? str "Q").
    rewrite !str_eqb.
    destruct e; cbn [negb andb].
    + apply andb_true_iff in Hq. destruct Hq as [Hq Hr].
      apply andb_true_iff in Hq. destruct Hq as [HQ HE].
      apply negb_true_iff in HQ, HE. rewrite HQ, HE. cbn [andb].
      destruct (IH false (cur ++ ["\"; str c])%list Hr) as (e' & cur' & Hl & Hj).
      exists e', cur'. split; [exact Hl|].
      rewrite Hj, join_app. simpl. now rewrite !app_assoc.
    + destruct (Ascii.eqb c "\") eqn:E.
      * apply Ascii.eqb_eq in E. subst c.
        destruct (IH true cur Hq) as (e' & cur' & Hl & Hj).
        exists e', cur'. split; [exact Hl | exact Hj].
      * destruct (IH false (cur ++ [str c])%list Hq) as (e' & cur' & Hl & Hj).
        exists e', cur'. split; [exact Hl|].
        rewrite Hj, join_snoc. simpl. now rewrite !app_assoc.
Qed.

(** Such a text comes out of [process_quotes] as it went in. *)
Lemma process_quotes_quote_free (s : string) :
  quote_free false s = true -> process_quotes escape s = s.
Proof.
  intros Hq. unfold process_quotes.
  destruct (loop_quote_free s false [] Hq) as (e' & cur' & Hl & Hj).
  rewrite Hl. unfold process_quotes_finish. cbn [andb].
  destruct e'.
  - rewrite join_snoc. exact Hj.
  - rewrite app_nil_r in Hj. exact Hj.
Qed.

End QuoteFree.

Lemma all_impl (p q : ascii -> bool) (a : string) :
  (forall c, p c = true -> q c = true) -> all p a = true -> all q a = true.
Proof.
  intros H. induction a as [|c a IH]; [reflexivity|].
  simpl. intros Ha. apply andb_true_iff in Ha. destruct Ha as [Hc Ha].
  now rewrite (H c Hc), IH.
Qed.

Lemma quote_free_skip (a r : string) :
  all no_backslash a = true ->
  quote_free false (a ++ r) = quote_free false r.
Proof.
  induction a as [|c a IH]; [reflexivity|].
  simpl. intros Ha. apply andb_true_iff in Ha. destruct Ha as [Hc Ha].
  unfold no_backslash in Hc. apply negb_true_iff in Hc. rewrite Hc. now apply IH.
Qed.

Lemma quote_free_plain (a : string) :
  all no_backslash a = true -> quote_free false a = true.
Proof.
  induction a as [|c a IH]; [reflexivity|].
  simpl. intros Ha. apply andb_true_iff in Ha. destruct Ha as [Hc Ha].
  unfold no_backslash in Hc. apply negb_true_iff in Hc. rewrite Hc. now apply IH.
Qed.

Lemma plain_no_backslash (v : bool) (a : string) :
  all (plainb v) a = true -> all no_backslash a = true.
Proof.
  apply all_impl. intros c H. unfold plainb in H. unfold no_backslash.
  apply negb_true_iff in H. apply orb_false_iff in H. destruct H as [H _].
  apply orb_false_iff in H. destruct H as [H _].
  apply orb_false_iff in H. destruct H as [H _].
  now rewrite H.
Qed.

Lemma comment_no_backslash (a : string) :
  all comment_char a = true -> all no_backslash a = true.
Proof.
  apply all_impl. intros c H. unfold comment_char in H.
  apply andb_true_iff in H. apply H.
Qed.

(** *** Verbose comments *)

Lemma comment_char_step (c : ascii) :
  comment_char c = true -> (str c =? NL) = false /\ (str c =? "\") = false.
Proof.
  unfold comment_char. intros H. apply andb_true_iff in H. destruct H as [H1 H2].
  apply negb_true_iff in H1, H2.
  change NL with (str "010"). change "\" with (str "\").
  now rewrite !str_eqb.
Qed.

Lemma verbose_comment_loop_S (f : nat) (t : string) (e : bool)
    (cur : list string) (st : state) :
  verbose_comment_loop (S f) t e cur st
  = if t =? NL then Ok (t, cur) st
    else
      let '(escaped, current) :=
        if negb e && (t =? "\") then (true, cur ++ [t])%list
        else if e then
          (false, (if in_list t _new_refs then cur ++ ["\"] else cur) ++ [t])%list
        else (e, cur ++ [t])%list in
      match next st with
      | Ok t' st' => verbose_comment_loop f t' escaped current st'
      | Raise StopIteration st' => Ok (t, current) st'
      | Raise e st' => Raise e st'
      | OutOfFuel => OutOfFuel
      end.
Proof. reflexivity. Qed.

(** The comment loop over copied characters, up to the token [x] after
    them; the current token is the head of the text. *)
Lemma comment_loop_run (a : string) :
  forall (f : nat) (h : ascii) (tl : string) (cur : list string) (s : string)
         (n : nat) (v : bool) (ver : Z) (x : ascii) (rest : string),
    all comment_char a = true ->
    a ++ String x rest = String h tl ->
    drop n s = tl ->
    verbose_comment_loop (String.length a + f) (str h) false cur (at_ s n v ver)
    = verbose_comment_loop f (str x) false (cur ++ chars a)
        (at_ s (n + String.length a) v ver).
Proof.
  induction a as [|c a IH]; intros f h tl cur s n v ver x rest Ha He Hd.
  - simpl in He. injection He as Hh Ht. subst h. simpl.
    now rewrite Nat.add_0_r, List.app_nil_r.
  - simpl in He. injection He as Hh Ht. subst h. rewrite <- Ht in Hd. clear Ht.
    simpl in Ha. apply andb_true_iff in Ha. destruct Ha as [Hc Ha].
    destruct (comment_char_step c Hc) as [E1 E2].
    cbn [String.length Nat.add verbose_comment_loop].
    rewrite E1, E2. cbn [negb andb].
    destruct (a ++ String x rest) as [|h' tl'] eqn:E.
    { destruct a; discriminate. }
    rewrite (next_char s n v ver h' tl' Hd).
    rewrite (IH f h' tl' (cur ++ [str c])%list s (S n) v ver x rest Ha E
               (drop_succ _ _ _ _ Hd)).
    rewrite <- List.app_assoc. cbn [chars List.app].
    now rewrite Nat.add_succ_r.
Qed.

(** The comment loop at [\<]: the backslash is copied, and once more
    before the [<]. *)
Lemma comment_loop_start_wb (f : nat) (cur : list string) (s : string) (n : nat)
    (v : bool) (ver : Z) (x : ascii) (rest : string) :
  drop n s = String "<" (String x rest) ->
  verbose_comment_loop (S (S f)) (str "\") false cur (at_ s n v ver)
  = verbose_comment_loop f (str x) false (cur ++ ["\"; "\"; "<"])
      (at_ s (S (S n)) v ver).
Proof.
  intros Hd. cbn [verbose_comment_loop].
  change (str "\" =? NL) with false. change (str "\" =? "\") with true.
  cbn [negb andb].
  rewrite (next_char s n v ver "<" (String x rest) Hd).
  change (str "<" =? NL) with false. change (str "<" =? "\") with false.
  cbn [negb andb]. change (in_list (str "<") _new_refs) with true. cbv iota.
  rewrite (next_char s (S n) v ver x rest (drop_succ _ _ _ _ Hd)).
  rewrite <- !List.app_assoc. reflexivity.
Qed.

(** The comment loop over copied characters that end the input. *)
Lemma comment_loop_to_end (tl : string) :
  forall (f : nat) (h : ascii) (cur : list string) (s : string) (n : nat)
         (v : bool) (ver : Z),
    comment_char h = true ->
    all comment_char tl = true ->
    drop n s = tl ->
    exists t,
      (t =? NL) = false
      /\ verbose_comment_loop (S (String.length tl) + f) (str h) false cur
           (at_ s n v ver)
         = Ok (t, (cur ++ chars (String h tl))%list)
              (at_ s (n + String.length tl) v ver).
Proof.
  induction tl as [|c tl IH]; intros f h cur s n v ver Hh Ha Hd;
    destruct (comment_char_step h Hh) as [E1 E2].
  - exists (str h). split; [exact E1|].
    cbn [String.length Nat.add verbose_comment_loop].
    rewrite E1, E2. cbn [negb andb].
    rewrite (next_stop s n v ver Hd). now rewrite Nat.add_0_r.
  - simpl in Ha. apply andb_true_iff in Ha. destruct Ha as [Hc Ha].
    destruct (IH f c (cur ++ [str h])%list s (S n) v ver Hc Ha
                (drop_succ _ _ _ _ Hd)) as (t & Ht & Hl).
    exists t. split; [exact Ht|].
    cbn [String.length Nat.add]. rewrite verbose_comment_loop_S.
    rewrite E1, E2. cbn [negb andb].
    rewrite (next_char s n v ver c tl Hd).
    cbn [Nat.add] in Hl. rewrite Hl.
    rewrite <- List.app_assoc. cbn [chars List.app].
    now rewrite Nat.add_succ_r.
Qed.


(** *** The main loop in verbose mode *)

Section Verbose.
Variable binary : bool.

Lemma main_group_loop_S (f : nat) (cur : list string) (st : state) :
  main_group_loop binary (S f) cur st
  = match next st with
    | Ok t st' =>
        match normal binary f t st' with
        | Ok out st'' => main_group_loop binary f (cur ++ out)%list st''
        | Raise StopIteration st'' => Ok cur st''
        | Raise e st'' => Raise e st''
        | OutOfFuel => OutOfFuel
        end
    | Raise StopIteration st' => Ok cur st'
    | Raise e st' => Raise e st'
    | OutOfFuel => OutOfFuel
    end.
Proof. reflexivity. Qed.

Lemma normal_hash_verbose (f : nat) (s : string) (n : nat) (ver : Z) :
  normal binary (S f) "#" (at_ s n true ver)
  = verbose_comment f "#" (at_ s n true ver).
Proof. reflexivity. Qed.

(** One plain character. *)
Lemma main_loop_char (f : nat) (cur : list string) (s : string) (n : nat)
    (v : bool) (ver : Z) (c : ascii) (rest : string) :
  plainb v c = true ->
  drop n s = String c rest ->
  main_group_loop binary (S f) cur (at_ s n v ver)
  = main_group_loop binary f (cur ++ [str c]) (at_ s (S n) v ver).
Proof.
  intros Hc Hd.
  pose proof (main_loop_plain binary (str c) f cur s n v ver rest) as H.
  cbn [all str String.length Nat.add chars] in H.
  rewrite H; [now rewrite Nat.add_1_r | now rewrite Hc | exact Hd].
Qed.

(** A comment that holds one [\<] and ends with its line. *)
Lemma main_loop_comment_line (k : nat) (cur : list string) (s : string)
    (n : nat) (ver : Z) (c1 c2 rest : string) :
  all comment_char c1 = true ->
  all comment_char c2 = true ->
  drop n s = "#" ++ c1 ++ "\<" ++ c2 ++ String "010" rest ->
  (String.length c1 + String.length c2 + 4 <= k)%nat ->
  main_group_loop binary (S (S k)) cur (at_ s n true ver)
  = main_group_loop binary (S k)
      (cur ++ (chars ("#" ++ c1) ++ ["\"; "\"; "<"] ++ chars c2 ++ [NL]))
      (at_ s (n + (String.length c1 + String.length c2 + 4)) true ver).
Proof.
  intros H1 H2 Hd Hk.
  rewrite main_group_loop_S.
  rewrite (next_char s n true ver "#" _ Hd).
  rewrite normal_hash_verbose. unfold verbose_comment, bind.
  replace k with (String.length ("#" ++ c1)
                  + (S (S (String.length c2 + S (k - String.length c1
                                                   - String.length c2 - 4)))))%nat
    at 1 by (simpl; lia).
  assert (Hd1 : drop (S n) s = c1 ++ "\<" ++ c2 ++ String "010" rest)
    by (apply (drop_succ _ _ _ _ Hd)).
  rewrite (comment_loop_run ("#" ++ c1) _ "#" (c1 ++ "\<" ++ c2 ++ String "010" rest)
             [] s (S n) true ver "\" ("<" ++ c2 ++ String "010" rest)).
  2:{ simpl. exact H1. }
  2:{ reflexivity. }
  2:{ exact Hd1. }
  assert (Hd2 : drop (S n + String.length ("#" ++ c1)) s
                = String "<" (c2 ++ String "010" rest)).
  { replace (S n + String.length ("#" ++ c1))%nat
      with (S n + String.length (c1 ++ "\"))%nat
      by (simpl; rewrite length_app; simpl; lia).
    apply (drop_add _ (S n) s (c1 ++ "\") _); [|reflexivity].
    rewrite Hd1. now rewrite app_assoc. }
  destruct (c2 ++ String "010" rest) as [|y tl'] eqn:E.
  { destruct c2; discriminate. }
  rewrite (comment_loop_start_wb _ _ s _ true ver y tl' Hd2).
  rewrite (comment_loop_run c2 _ y tl' _ s _ true ver "010" rest H2 E).
  2:{ apply drop_succ with y. apply drop_succ with "<"%char. exact Hd2. }
  rewrite verbose_comment_loop_S. change (str "010" =? NL) with true. cbv iota.
  cbn beta iota. change (NL =? NL) with true. cbv iota.
  cbn [ret]. unfold ret.
  f_equal.
  - f_equal. cbn [List.app]. rewrite <- !List.app_assoc. reflexivity.
  - f_equal. f_equal. simpl. lia.
Qed.

(** A comment of copied characters that ends the input. *)
Lemma main_loop_comment_end (k : nat) (cur : list string) (s : string)
    (n : nat) (ver : Z) (d : string) :
  all comment_char d = true ->
  drop n s = "#" ++ d ->
  (String.length d + 1 <= k)%nat ->
  main_group_loop binary (S (S k)) cur (at_ s n true ver)
  = main_group_loop binary (S k) (cur ++ chars ("#" ++ d))
      (at_ s (n + (String.length d + 1)) true ver).
Proof.
  intros H1 Hd Hk.
  rewrite main_group_loop_S.
  rewrite (next_char s n true ver "#" _ Hd).
  rewrite normal_hash_verbose. unfold verbose_comment, bind.
  destruct (comment_loop_to_end d (k - String.length d - 1) "#" [] s (S n) true ver
              eq_refl H1 (drop_succ _ _ _ _ Hd)) as (t & Ht & Hl).
  replace k with (S (String.length d) + (k - String.length d - 1))%nat at 1 by lia.
  unfold str in Hl. rewrite Hl. rewrite Ht. unfold ret. cbn [List.app].
  f_equal. f_equal. f_equal. lia.
Qed.

End Verbose.


Lemma apply_loop_S (binary : bool) (f : nat) (st : state) :
  apply_loop binary (S f) st
  = match main_group binary f st with
    | Ok new_pattern st' => Ok new_pattern st'
    | Raise RetryException st' => apply_loop binary f (set_index 0 st')
    | Raise GlobalRetryException st' => apply_loop binary f (set_index 0 st')
    | Raise e st' => Raise e st'
    | OutOfFuel => OutOfFuel
    end.
Proof. reflexivity. Qed.

Lemma plain_weaken (a : string) :
  all (plainb true) a = true -> all (plainb false) a = true.
Proof.
  apply all_impl. intros c. unfold plainb.
  destruct (Ascii.eqb c "\"), (Ascii.eqb c "("), (Ascii.eqb c "[");
    simpl; intros H; try discriminate; reflexivity.
Qed.

Lemma line_plain (a : string) :
  all line_char a = true -> all (plainb true) a = true.
Proof.
  apply all_impl. intros c H. unfold line_char in H.
  apply andb_true_iff in H. apply H.
Qed.

Lemma line_comment (a : string) :
  all line_char a = true -> all comment_char a = true.
Proof.
  apply all_impl. intros c H. unfold line_char, plainb in H. unfold comment_char.
  apply andb_true_iff in H. destruct H as [H1 H2]. rewrite H2.
  apply negb_true_iff in H1.
  repeat (apply orb_false_iff in H1; destruct H1 as [H1 ?]).
  now rewrite H1.
Qed.


End SearchFacts.

(** ** Inline flags: the restart and its failure to converge *)

Module RestartFacts.
Import Search Shapes StringFacts SearchFacts.


(** With enough fuel the preprocessor answers this for [#\<], a newline
    and [(?x)#c]. *)
Lemma rescan_example (k : nat) :
  apply Host.regex_escape false (12 + k) false 0 ("#\<" ++ NL ++ "(?x)#c")
  = Returns ("#\\<" ++ NL ++ "(?x)#c").
Proof. vm_compute. reflexivity. Qed.


(** In dialect 1 with verbose on, [flags("-x")] switches verbose off and
    asks for a retry; with verbose off it switches verbose on, because
    [-x] contains [x], and asks for a retry again. *)
Lemma apply_loop_minus_x (binary : bool) (fuel : nat) : forall v : bool,
  apply_loop binary fuel (at_ "(?-x)" 0 v VERSION1) = OutOfFuel.
Proof.
  induction fuel as [|fuel IH]; intros v; [reflexivity|].
  rewrite apply_loop_S. unfold main_group.
  destruct fuel as [|f1]; [reflexivity|].
  rewrite main_group_loop_S.
  rewrite (next_char "(?-x)" 0 v VERSION1 "(" "?-x)" eq_refl).
  destruct f1 as [|f2]; [reflexivity|].
  destruct f2 as [|f3]; [reflexivity|].
  assert (E : normal binary (S (S f3)) (str "(") (at_ "(?-x)" 1 v VERSION1)
              = Raise RetryException (at_ "(?-x)" 5 (negb v) VERSION1)).
  { destruct v; reflexivity. }
  rewrite E. apply IH.
Qed.

(** C6, at the failing input: the pattern [(?-x)] holds no extended
    escape, yet with the flags [VERBOSE | V1] the preprocessor never
    returns it: every amount of fuel runs out. *)
Theorem apply_minus_x_never_returns (escape : string -> string) (binary : bool)
    (fuel : nat) :
  apply escape binary fuel true V1 "(?-x)" = NoFuel.
Proof.
  unfold apply.
  change (process_quotes escape "(?-x)") with "(?-x)".
  change (if (V1 =? 0)%Z then DEFAULT_VERSION else V1) with VERSION1.
  now rewrite (apply_loop_minus_x binary fuel true).
Qed.

End RestartFacts.

(** ** Character classes *)

Module ClassFacts.
Import Search Shapes StringFacts SearchFacts.

Section Class.
Variable binary : bool.

Lemma char_groups_loop_S (f : nat) (t : string) (v : class_vars) (st : state) :
  char_groups_loop binary (S f) t v st
  = match char_groups_step binary t v st with
    | Ok (Break v) st' => Ok (char_groups_finish t v) st'
    | Ok (Continue v) st' =>
        let v := advance v in
        match next st' with
        | Ok t' st'' => char_groups_loop binary f t' v st''
        | Raise StopIteration st'' => Ok (char_groups_finish t v) st''
        | Raise e st'' => Raise e st''
        | OutOfFuel => OutOfFuel
        end
    | Raise e st' => Raise e st'
    | OutOfFuel => OutOfFuel
    end.
Proof. reflexivity. Qed.

(** A member on its own is appended. *)
Lemma step_plain (c : ascii) (cur : list string) (pos p : Z) (sf : option Z)
    (st : state) :
  class_member (Plain c) = true ->
  (c <> "^"%char \/ pos <> p + 1)%Z ->
  char_groups_step binary (str c) (mkClass cur pos 1 sf false (Some p)) st
  = Ok (Continue (mkClass (cur ++ [str c]) pos 1 sf false (Some p))) st.
Proof.
  intros Hm Hc. unfold class_member in Hm. apply negb_true_iff in Hm.
  apply orb_false_iff in Hm. destruct Hm as [Hm H3].
  apply orb_false_iff in Hm. destruct Hm as [H1 H2].
  unfold char_groups_step.
  change (str c =? "\") with (str c =? str "\").
  change (str c =? "[") with (str c =? str "[").
  change (str c =? "]") with (str c =? str "]").
  change (str c =? "^") with (str c =? str "^").
  rewrite !str_eqb, H1, H2, H3. cbn [negb andb].
  change (1 =? 1)%Z with true. change (1 <? 1)%Z with false.
  destruct (version st =? V1)%Z;
    (destruct (Ascii.eqb c "^") eqn:E; cbn [andb eq_succ option_map];
     [ apply Ascii.eqb_eq in E;
       assert (Hne : (pos =? p + 1)%Z = false)
         by (apply Z.eqb_neq; destruct Hc as [Hc|Hc]; [contradiction | exact Hc]);
       rewrite Hne; reflexivity
     | reflexivity ]).
Qed.

(** The backslash of an escaped member is held back. *)
Lemma step_backslash (cur : list string) (pos fd : Z) (sf fi : option Z)
    (st : state) :
  char_groups_step binary "\" (mkClass cur pos fd sf false fi) st
  = Ok (Continue (mkClass cur pos fd sf true fi)) st.
Proof. reflexivity. Qed.

(** The escaped character is appended behind its backslash. *)
Lemma step_escaped (c : ascii) (cur : list string) (pos fd : Z)
    (sf fi : option Z) (st : state) :
  class_member (Esc c) = true ->
  char_groups_step binary (str c) (mkClass cur pos fd sf true fi) st
  = Ok (Continue (mkClass (cur ++ ["\"; str c]) pos fd sf false fi)) st.
Proof.
  intros Hm. unfold class_member in Hm. apply negb_true_iff in Hm.
  apply orb_false_iff in Hm. destruct Hm as [Hm _].
  apply orb_false_iff in Hm. destruct Hm as [H1 _].
  unfold char_groups_step. cbn [negb andb].
  change (str c =? "e") with (str c =? str "e"). rewrite str_eqb, H1.
  reflexivity.
Qed.

(** The bracket that closes the class. *)
Lemma step_close (cur : list string) (pos p : Z) (sf : option Z) (st : state) :
  (pos <> p + 1)%Z ->
  char_groups_step binary "]" (mkClass cur pos 1 sf false (Some p)) st
  = Ok (Break (mkClass (cur ++ ["]"]) pos 0 sf false (Some p))) st.
Proof.
  intros Hne. apply Z.eqb_neq in Hne.
  unfold char_groups_step. cbn [negb andb].
  change ("]" =? "\") with false. change ("]" =? "[") with false.
  change ("]" =? "^") with false. change ("]" =? "]") with true.
  change (1 =? 1)%Z with true. change (1 <? 1)%Z with false.
  destruct (version st =? V1)%Z; cbn [andb ne_succ option_map];
    rewrite Hne; reflexivity.
Qed.

(** The bracket that opens the class. *)
Lemma step_open (pos : Z) (st : state) :
  char_groups_step binary "[" (mkClass [] pos 0 None false None) st
  = Ok (Continue (mkClass ["["] pos 1 None false (Some pos))) st.
Proof. reflexivity. Qed.

(** The caret right behind it. *)
Lemma step_caret (cur : list string) (pos : Z) (sf : option Z) (st : state) :
  char_groups_step binary "^" (mkClass cur (pos + 1)%Z 1 sf false (Some pos)) st
  = Ok (Continue (mkClass (cur ++ ["^"]) (pos + 1)%Z 1 sf false
                    (Some (pos + 1)%Z))) st.
Proof.
  unfold char_groups_step. cbn [negb andb].
  change ("^" =? "\") with false. change ("^" =? "[") with false.
  change ("^" =? "^") with true. change (1 =? 1)%Z with true.
  cbn [andb eq_succ option_map]. rewrite Z.eqb_refl. reflexivity.
Qed.

Lemma leading_length (ms : list member) :
  leading ms = true -> (1 <= String.length (members_text ms))%nat.
Proof.
  destruct ms as [|[c|c] ms]; [discriminate| |]; intros _; simpl; lia.
Qed.

(** The class loop over members, up to the token [x] after them; the
    current token is the head of the text, [p] the position the class
    counts as its start. *)
Lemma class_loop_run (ms : list member) :
  forall (f : nat) (h : ascii) (tl : string) (cur : list string) (pos p : Z)
         (sf : option Z) (s : string) (n : nat) (v : bool) (ver : Z)
         (x : ascii) (rest : string),
    forallb class_member ms = true ->
    (p < pos)%Z ->
    (p + 1 < pos)%Z \/ leading ms = true ->
    members_text ms ++ String x rest = String h tl ->
    drop n s = tl ->
    char_groups_loop binary (String.length (members_text ms) + f) (str h)
      (mkClass cur pos 1 sf false (Some p)) (at_ s n v ver)
    = char_groups_loop binary f (str x)
        (mkClass (cur ++ member_tokens ms)
           (pos + Z.of_nat (String.length (members_text ms))) 1 sf false (Some p))
        (at_ s (n + String.length (members_text ms)) v ver).
Proof.
  induction ms as [|m ms IH];
    intros f h tl cur pos p sf s n v ver x rest Hm Hp Hl He Hd.
  - simpl in He. injection He as Hh Ht. subst h. simpl.
    now rewrite Nat.add_0_r, List.app_nil_r, Z.add_0_r.
  - cbn [forallb] in Hm. apply andb_true_iff in Hm. destruct Hm as [Hm Hms].
    destruct (members_text ms ++ String x rest) as [|h' tl'] eqn:E.
    { destruct (members_text ms); discriminate. }
    destruct m as [c|c].
    + cbn [members_text member_text str append] in He.
      rewrite E in He. injection He as Hh Ht. subst h. rewrite <- Ht in Hd.
      cbn [members_text member_text str append String.length Nat.add].
      rewrite char_groups_loop_S, step_plain; [|exact Hm|].
      2:{ destruct Hl as [Hl|Hl]; [right; lia|].
          left. simpl in Hl. apply negb_true_iff in Hl.
          now apply Ascii.eqb_neq. }
      cbv zeta. unfold advance;
        cbn [cg_current cg_pos cg_found cg_sub_first cg_escaped cg_first].
      rewrite (next_char s n v ver h' tl' Hd).
      unfold advance;
        cbn [cg_current cg_pos cg_found cg_sub_first cg_escaped cg_first].
      rewrite (IH f h' tl' _ (pos + 1)%Z p sf s (S n) v ver x rest Hms);
        [| lia | left; lia | exact E | apply (drop_succ _ _ _ _ Hd)].
      rewrite <- List.app_assoc. cbn [member_tokens List.app].
      replace (pos + Z.of_nat (S (String.length (members_text ms))))%Z
        with (pos + 1 + Z.of_nat (String.length (members_text ms)))%Z by lia.
      replace (n + S (String.length (members_text ms)))%nat
        with (S n + String.length (members_text ms))%nat by lia.
      reflexivity.
    + cbn [members_text member_text str append] in He.
      rewrite E in He. injection He as Hh Ht. subst h. rewrite <- Ht in Hd.
      cbn [members_text member_text str append String.length Nat.add].
      rewrite char_groups_loop_S.
      change (str "\") with "\". rewrite step_backslash.
      cbv zeta. unfold advance;
        cbn [cg_current cg_pos cg_found cg_sub_first cg_escaped cg_first].
      rewrite (next_char s n v ver c (String h' tl') Hd).
      unfold advance;
        cbn [cg_current cg_pos cg_found cg_sub_first cg_escaped cg_first].
      rewrite char_groups_loop_S, step_escaped by exact Hm.
      cbv zeta. unfold advance;
        cbn [cg_current cg_pos cg_found cg_sub_first cg_escaped cg_first].
      rewrite (next_char s (S n) v ver h' tl' (drop_succ _ _ _ _ Hd)).
      unfold advance;
        cbn [cg_current cg_pos cg_found cg_sub_first cg_escaped cg_first].
      rewrite (IH f h' tl' _ (pos + 1 + 1)%Z p sf s (S (S n)) v ver x rest Hms);
        [| lia | left; lia | exact E |].
      2:{ apply drop_succ with h'. apply (drop_succ _ _ _ _ Hd). }
      rewrite <- List.app_assoc. cbn [member_tokens List.app].
      replace (pos + Z.of_nat (S (S (String.length (members_text ms)))))%Z
        with (pos + 1 + 1 + Z.of_nat (String.length (members_text ms)))%Z by lia.
      replace (n + S (S (String.length (members_text ms))))%nat
        with (S (S n) + String.length (members_text ms))%nat by lia.
      reflexivity.
Qed.

(** The members of a class and the bracket that closes it. *)
Lemma class_body (ms : list member) (f : nat) (h : ascii) (tl : string)
    (cur : list string) (p : Z) (sf : option Z) (s : string) (n : nat)
    (v : bool) (ver : Z) (rest : string) :
  forallb class_member ms = true ->
  leading ms = true ->
  members_text ms ++ String "]" rest = String h tl ->
  drop n s = tl ->
  char_groups_loop binary (String.length (members_text ms) + S f) (str h)
    (mkClass cur (p + 1)%Z 1 sf false (Some p)) (at_ s n v ver)
  = Ok (cur ++ member_tokens ms ++ ["]"])%list
       (at_ s (n + String.length (members_text ms)) v ver).
Proof.
  intros Hm Hl He Hd.
  rewrite (class_loop_run ms (S f) h tl cur (p + 1)%Z p sf s n v ver "]" rest Hm);
    [| lia | right; exact Hl | exact He | exact Hd].
  rewrite char_groups_loop_S.
  change (str "]") with "]".
  rewrite step_close.
  2:{ pose proof (leading_length ms Hl). lia. }
  unfold char_groups_finish. cbn [cg_escaped cg_current].
  now rewrite <- List.app_assoc.
Qed.

Lemma normal_bracket (f : nat) (st : state) :
  normal binary (S f) "[" st = char_groups binary f "[" st.
Proof.
  cbn [normal]. change ("[" =? "\") with false. change ("[" =? "(") with false.
  change ("[" =? "#") with false. rewrite andb_false_r. reflexivity.
Qed.

(** The main loop at a class, negated or not. *)
Lemma main_loop_class (negated : bool) (ms : list member) (k : nat)
    (cur : list string) (s : string) (n : nat) (v : bool) (ver : Z)
    (rest : string) :
  forallb class_member ms = true ->
  leading ms = true ->
  drop n s
  = "[" ++ (if negated then "^" else "") ++ members_text ms ++ "]" ++ rest ->
  (String.length (members_text ms) + 3 <= k)%nat ->
  main_group_loop binary (S (S k)) cur (at_ s n v ver)
  = main_group_loop binary (S k)
      (cur ++ "[" :: (if negated then ["^"] else []) ++ member_tokens ms ++ ["]"])
      (at_ s (n + ((if negated then 1 else 0) + String.length (members_text ms) + 2))
         v ver).
Proof.
  intros Hm Hl Hd Hk.
  rewrite main_group_loop_S.
  rewrite (next_char s n v ver "[" _ Hd).
  unfold advance;
    cbn [cg_current cg_pos cg_found cg_sub_first cg_escaped cg_first].
  change (str "[") with "[". rewrite normal_bracket.
  unfold char_groups. cbn [i index].
  set (p := (Z.of_nat (S n) - 1)%Z).
  assert (Hd1 : drop (S n) s
                = (if negated then "^" else "") ++ members_text ms ++ "]" ++ rest)
    by (apply (drop_succ _ _ _ _ Hd)).
  destruct (members_text ms ++ String "]" rest) as [|h tl] eqn:E.
  { destruct (members_text ms); discriminate. }
  destruct negated.
  - replace k with (S (S (String.length (members_text ms)
                          + S (k - String.length (members_text ms) - 3)))) at 1
      by lia.
    rewrite char_groups_loop_S, step_open. cbv zeta.
    unfold advance;
        cbn [cg_current cg_pos cg_found cg_sub_first cg_escaped cg_first].
    rewrite (next_char s (S n) v ver "^" _ Hd1).
    unfold advance;
      cbn [cg_current cg_pos cg_found cg_sub_first cg_escaped cg_first].
    rewrite char_groups_loop_S. change (str "^") with "^". rewrite step_caret.
    cbv zeta.
    unfold advance;
        cbn [cg_current cg_pos cg_found cg_sub_first cg_escaped cg_first].
    assert (Hd2 : drop (S (S n)) s = String h tl).
    { rewrite <- E. apply (drop_succ _ _ _ _ Hd1). }
    rewrite (next_char s (S (S n)) v ver h tl Hd2).
    unfold advance;
      cbn [cg_current cg_pos cg_found cg_sub_first cg_escaped cg_first].
    rewrite (class_body ms _ h tl _ (p + 1)%Z None s (S (S (S n))) v ver rest Hm Hl E
               (drop_succ _ _ _ _ Hd2)).
    f_equal. f_equal. f_equal. lia.
  - replace k with (S (String.length (members_text ms)
                       + S (k - String.length (members_text ms) - 2))) at 1
      by lia.
    rewrite char_groups_loop_S, step_open. cbv zeta.
    unfold advance;
        cbn [cg_current cg_pos cg_found cg_sub_first cg_escaped cg_first].
    assert (Hd2 : drop (S n) s = String h tl).
    { rewrite <- E. exact Hd1. }
    rewrite (next_char s (S n) v ver h tl Hd2).
    unfold advance;
      cbn [cg_current cg_pos cg_found cg_sub_first cg_escaped cg_first].
    rewrite (class_body ms _ h tl _ p None s (S (S n)) v ver rest Hm Hl E
               (drop_succ _ _ _ _ Hd2)).
    f_equal. f_equal. f_equal. lia.
Qed.

End Class.

Lemma quote_free_members (ms : list member) (r : string) :
  forallb class_member ms = true ->
  quote_free false (members_text ms ++ r) = quote_free false r.
Proof.
  induction ms as [|[c|c] ms IH]; intros Hm; [reflexivity| |];
    cbn [forallb] in Hm; apply andb_true_iff in Hm; destruct Hm as [Hc Hm];
    unfold class_member in Hc; apply negb_true_iff in Hc;
    apply orb_false_iff in Hc; destruct Hc as [Hc H3];
    apply orb_false_iff in Hc; destruct Hc as [H1 H2];
    cbn [members_text member_text str append quote_free].
  - rewrite H1. now apply IH.
  - change (Ascii.eqb "\" "\") with true. cbv iota.
    rewrite H2, H3. cbn [negb andb]. now apply IH.
Qed.

Lemma join_member_tokens (ms : list member) :
  join (member_tokens ms) = members_text ms.
Proof.
  induction ms as [|[c|c] ms IH]; [reflexivity| |];
    cbn [member_tokens members_text member_text];
    rewrite !join_cons, IH; reflexivity.
Qed.



(** With enough fuel the preprocessor answers this for [[\Q.\E]]. *)
Lemma quoted_class_example (k : nat) :
  apply Host.regex_escape false (8 + k) false 0 "[\Q.\E]" = Returns "[\.]".
Proof. vm_compute. reflexivity. Qed.


End ClassFacts.

(** ** The template compiler *)

Module TemplateFacts.
Import Replace Shapes StringFacts SearchFacts.

Section Compiler.
Variable binary : bool.
Variable use_format : bool.
Variable unicodedata_lookup : string -> option Z.

Abbreviation next_ := (next binary use_format).
Abbreviation single_ := (single_case binary use_format unicodedata_lookup).

(** *** The tokenizer *)

Lemma directive_ref (d : directive) (rest : string) :
  _replace_ref binary use_format (drop 1 (directive_text d) ++ rest)
  = Some (only2 (drop 1 (directive_text d))).
Proof. unfold _replace_ref. destruct d, use_format; reflexivity. Qed.

Lemma next_directive (d : directive) (text : string) (idx : nat) (rest : string)
    ef gs ls res sp stk sl ma au ai :
  drop idx text = directive_text d ++ rest ->
  next_ (mkCompiler (Replace.mkTokens text idx) ef gs ls res sp stk sl ma au ai)
  = Ok (directive_text d)
       (mkCompiler (Replace.mkTokens text (idx + 2)) ef gs ls res sp stk sl ma au ai).
Proof.
  intros Hd. unfold next, iternext. cbn [i Replace.tok_string Replace.index].
  rewrite get_drop, Hd.
  assert (Hd1 : drop (S idx) text = drop 1 (directive_text d) ++ rest).
  { destruct d; apply (drop_succ _ _ _ _ Hd). }
  assert (Hh : directive_text d ++ rest
               = String "\" (drop 1 (directive_text d) ++ rest))
    by (destruct d; reflexivity).
  rewrite Hh. change (Ascii.eqb "\" "\") with true. cbv iota.
  rewrite Hd1, directive_ref.
  cbn [group0 group1 group2 group3 group4 only2 truthy text_of].
  rewrite andb_false_r, orb_true_r.
  destruct d; cbn; rewrite Nat.sub_0_r; reflexivity.
Qed.

Lemma next_literal (a : ascii) (text : string) (idx : nat) (rest : string)
    ef gs ls res sp stk sl ma au ai :
  literal_char use_format a = true ->
  drop idx text = String a rest ->
  next_ (mkCompiler (Replace.mkTokens text idx) ef gs ls res sp stk sl ma au ai)
  = Ok (str a)
       (mkCompiler (Replace.mkTokens text (idx + 1)) ef gs ls res sp stk sl ma au ai).
Proof.
  intros Ha Hd. unfold literal_char in Ha.
  apply andb_true_iff in Ha. destruct Ha as [H1 H2].
  apply negb_true_iff in H1, H2.
  unfold next, iternext. cbn [i Replace.tok_string Replace.index].
  rewrite get_drop, Hd, H1, H2. cbn. rewrite Nat.sub_0_r. reflexivity.
Qed.

Lemma next_at_end (text : string) (idx : nat)
    ef gs ls res sp stk sl ma au ai :
  drop idx text = "" ->
  next_ (mkCompiler (Replace.mkTokens text idx) ef gs ls res sp stk sl ma au ai)
  = Raise StopIteration
      (mkCompiler (Replace.mkTokens text idx) ef gs ls res sp stk sl ma au ai).
Proof.
  intros Hd. unfold next, iternext. cbn [i Replace.tok_string Replace.index].
  now rewrite get_drop, Hd.
Qed.

(** *** [get_single_stack] *)

Lemma last_popped (stack : list Z) :
  fold_left (fun (_ : option Z) item => Some item) (rev stack) None
  = hd_error stack.
Proof.
  destruct stack as [|x stack]; [reflexivity|].
  cbn [rev]. now rewrite fold_left_app.
Qed.

Lemma hd_error_app (l1 l2 : list Z) :
  l1 <> [] -> hd_error (l1 ++ l2) = hd_error l1.
Proof. destruct l1; [congruence | reflexivity]. Qed.

(** *** [single_case] over directives in a row *)

(** At another directive: the pending case stays on the stack, the new
    one is handled in turn. *)
Lemma single_at_directive (d : directive) (f : nat) (case : Z) (text : string)
    (idx : nat) (rest : string) ef gs ls res sp stk sl ma au ai :
  drop idx text = directive_text d ++ rest ->
  single_ (S f) case
    (mkCompiler (Replace.mkTokens text idx) ef gs ls res sp stk sl ma au ai)
  = single_ f (case_of d)
      (mkCompiler (Replace.mkTokens text (idx + 2)) ef gs ls res sp
         (stk ++ [case]) sl ma au ai).
Proof.
  intros Hd. cbn [single_case]. unfold bind, push_single, modify.
  unfold set_single_stack;
    cbn [i end_found group_slots literal_slots result span_stack
           single_stack slot manual auto auto_index].
  rewrite (next_directive d text idx rest _ _ _ _ _ _ _ _ _ _ Hd).
  destruct d, use_format; reflexivity.
Qed.

(** At a literal character: the stack is emptied and the character cased
    by the item at its bottom. *)
Lemma single_at_literal (a : ascii) (f : nat) (case : Z) (text : string)
    (idx : nat) (rest : string) ef gs ls res sp stk sl ma au ai :
  literal_char use_format a = true ->
  drop idx text = String a rest ->
  single_ (S f) case
    (mkCompiler (Replace.mkTokens text idx) ef gs ls res sp stk sl ma au ai)
  = Ok tt
      (mkCompiler (Replace.mkTokens text (idx + 1)) ef gs ls
         (res ++ [convert_case binary (str a) (hd_error (stk ++ [case]))])
         sp [] sl ma au ai).
Proof.
  intros Ha Hd. cbn [single_case]. unfold bind, push_single, modify.
  unfold set_single_stack;
    cbn [i end_found group_slots literal_slots result span_stack
           single_stack slot manual auto auto_index].
  rewrite (next_literal a text idx rest _ _ _ _ _ _ _ _ _ _ Ha Hd).
  cbn [str String.length Nat.ltb Nat.leb].
  unfold get_single_stack, result_append, modify.
  unfold set_single_stack, set_result;
    cbn [i end_found group_slots literal_slots result
           span_stack single_stack slot manual auto auto_index].
  now rewrite last_popped.
Qed.

Lemma single_chain_literal (a : ascii) (ds : list directive) :
  forall (f : nat) (case : Z) (text : string) (idx : nat) (rest : string)
         ef gs ls res sp stk sl ma au ai,
    literal_char use_format a = true ->
    drop idx text = directives_text ds ++ String a rest ->
    single_ (S (List.length ds) + f) case
      (mkCompiler (Replace.mkTokens text idx) ef gs ls res sp stk sl ma au ai)
    = Ok tt
        (mkCompiler (Replace.mkTokens text (idx + 2 * List.length ds + 1)) ef gs ls
           (res ++ [convert_case binary (str a) (hd_error (stk ++ [case]))])
           sp [] sl ma au ai).
Proof.
  induction ds as [|d ds IH];
    intros f case text idx rest ef gs ls res sp stk sl ma au ai Ha Hd.
  - cbn [List.length Nat.add Nat.mul].
    rewrite Nat.add_0_r.
    now apply single_at_literal with rest.
  - cbn [directives_text] in Hd. rewrite app_assoc in Hd.
    cbn [List.length Nat.add].
    rewrite (single_at_directive d _ case text idx _ _ _ _ _ _ _ _ _ _ _ Hd).
    rewrite (IH f (case_of d) text (idx + 2)%nat rest _ _ _ _ _ _ _ _ _ _ Ha).
    2:{ apply (drop_add 2 idx text (directive_text d) _ Hd).
        destruct d; reflexivity. }
    rewrite hd_error_app by (destruct stk; discriminate).
    do 3 f_equal. lia.
Qed.

Lemma parse_token_directive (d : directive) (f : nat) :
  parse_token binary use_format unicodedata_lookup f (directive_text d)
  = single_ f (case_of d).
Proof. destruct d, use_format; reflexivity. Qed.

Lemma parse_loop_S (f : nat) (s : compiler) :
  parse_loop binary use_format unicodedata_lookup (S f) s
  = match next_ s with
    | Ok t s' =>
        (parse_token binary use_format unicodedata_lookup f t ;;;
         parse_loop binary use_format unicodedata_lookup f) s'
    | Raise StopIteration s' => Ok tt s'
    | Raise e s' => Raise e s'
    | OutOfFuel => OutOfFuel
    end.
Proof. reflexivity. Qed.

(** Directives in a row before a literal character, as a whole
    template. *)
Lemma directives_then_literal (d : directive) (ds : list directive) (a : ascii)
    (fuel : nat) :
  literal_char use_format a = true ->
  (List.length ds + 3 <= fuel)%nat ->
  parse_tokens binary use_format unicodedata_lookup fuel
    (directives_text (d :: ds) ++ str a)
  = Ok tt
      (mkCompiler
         (Replace.mkTokens (directives_text (d :: ds) ++ str a)
            (0 + 2 + 2 * List.length ds + 1))
         false [] [convert_case binary (str a) (Some (case_of d))]
         [EmptyString] [] [] 1%Z false false 0%Z).
Proof.
  intros Ha Hfuel. unfold parse_tokens, initial.
  set (text := directives_text (d :: ds) ++ str a).
  assert (D0 : drop 0 text = directive_text d ++ directives_text ds ++ str a).
  { unfold text. cbn [directives_text drop]. now rewrite app_assoc. }
  destruct fuel as [|F]; [lia|].
  unfold bind at 1. rewrite parse_loop_S.
  rewrite (next_directive d text 0 _ _ _ _ _ _ _ _ _ _ _ D0).
  unfold bind at 1. rewrite parse_token_directive.
  replace F with (S (List.length ds) + (F - List.length ds - 1))%nat at 1 by lia.
  rewrite (single_chain_literal a ds _ (case_of d) text (0 + 2)%nat "").
  2:{ exact Ha. }
  2:{ apply (drop_add 2 0 text (directive_text d) _ D0). destruct d; reflexivity. }
  destruct F as [|F']; [lia|].
  rewrite parse_loop_S, next_at_end.
  2:{ apply (drop_add 1 _ text (str a) "").
      - apply (drop_add (2 * List.length ds) _ text (directives_text ds) _).
        + apply (drop_add 2 0 text (directive_text d) _ D0).
          destruct d; reflexivity.
        + clear. induction ds as [|x ds IH]; [reflexivity|].
          cbn [directives_text List.length]. rewrite length_app, IH.
          destruct x; simpl; lia.
      - reflexivity. }
  reflexivity.
Qed.

End Compiler.

(** *** Directives in a row before a group reference *)

Section Group.
Variable binary : bool.
Variable unicodedata_lookup : string -> option Z.

Lemma group_ref (g : ascii) :
  is_nonzero_digit g = true ->
  replace_group_ref binary (str g) = Some (only2 (str g))
  /\ in_list (str g) _long_replace_refs = false.
Proof.
  intros Hg.
  destruct g as [[] [] [] [] [] [] [] []]; try discriminate Hg;
    destruct binary; split; vm_compute; reflexivity.
Qed.

Lemma next_group (g : ascii) (text : string) (idx : nat)
    ef gs ls res sp stk sl ma au ai :
  is_nonzero_digit g = true ->
  drop idx text = String "\" (str g) ->
  next binary false
    (mkCompiler (Replace.mkTokens text idx) ef gs ls res sp stk sl ma au ai)
  = Ok (String "\" (str g))
       (mkCompiler (Replace.mkTokens text (idx + 2)) ef gs ls res sp stk sl ma au ai).
Proof.
  intros Hg Hd. unfold next, iternext. cbn [i Replace.tok_string Replace.index].
  rewrite get_drop, Hd. change (Ascii.eqb "\" "\") with true. cbv iota.
  rewrite (drop_succ _ _ _ _ Hd). clear Hd.
  destruct (group_ref g Hg) as [E1 E2].
  unfold _replace_ref. rewrite E1.
  cbn [group0 group1 group2 group3 group4 only2 truthy text_of].
  rewrite E2, andb_false_r.
  cbn [andb orb negb truthy text_of str append String.length set_i i
         end_found group_slots literal_slots result span_stack single_stack
         slot manual auto auto_index].
  unfold set_i. cbn [i end_found group_slots literal_slots result span_stack
                       single_stack slot manual auto auto_index].
  now rewrite Nat.sub_0_r.
Qed.

Lemma nonzero_digit_is_digit (g : ascii) :
  is_nonzero_digit g = true -> is_digit g = true.
Proof. unfold is_nonzero_digit. intros H. apply andb_true_iff in H. apply H. Qed.

(** At a group reference: the stack is emptied and the slot of the group
    records the item at its bottom. *)
Lemma single_at_group (g : ascii) (f : nat) (case : Z) (text : string)
    (idx : nat) ef gs ls sp stk sl ma au ai :
  is_nonzero_digit g = true ->
  drop idx text = String "\" (str g) ->
  single_case binary false unicodedata_lookup (S f) case
    (mkCompiler (Replace.mkTokens text idx) ef gs ls [EmptyString] sp stk sl ma au ai)
  = Ok tt
      (mkCompiler (Replace.mkTokens text (idx + 2)) ef
         (gs ++ [(sl, (top sp, hd_error (stk ++ [case]), (-1)%Z))])
         (ls ++ [String "\" (str g)]) [EmptyString] sp [] (sl + 1)%Z ma au ai).
Proof.
  intros Hg Hd. cbn [single_case]. unfold bind, push_single, modify.
  unfold set_single_stack;
    cbn [i end_found group_slots literal_slots result span_stack
           single_stack slot manual auto auto_index].
  rewrite (next_group g text idx _ _ _ _ _ _ _ _ _ _ Hg Hd).
  cbn [str String.length Nat.ltb Nat.leb andb negb orb first_char take drop
         starts_with_digit Nat.eqb].
  rewrite (nonzero_digit_is_digit g Hg). cbn [andb orb].
  unfold handle_group, bind, get_single_stack, modify.
  unfold set_single_stack, set_literal_slots, set_group_slots, set_slot;
    cbn [i end_found group_slots literal_slots result span_stack
           single_stack slot manual auto auto_index List.length Nat.ltb Nat.leb].
  now rewrite last_popped.
Qed.

Lemma single_chain_group (g : ascii) (ds : list directive) :
  forall (f : nat) (case : Z) (text : string) (idx : nat)
         ef gs ls sp stk sl ma au ai,
    is_nonzero_digit g = true ->
    drop idx text = directives_text ds ++ String "\" (str g) ->
    single_case binary false unicodedata_lookup (S (List.length ds) + f) case
      (mkCompiler (Replace.mkTokens text idx) ef gs ls [EmptyString] sp stk sl
         ma au ai)
    = Ok tt
        (mkCompiler (Replace.mkTokens text (idx + 2 * List.length ds + 2)) ef
           (gs ++ [(sl, (top sp, hd_error (stk ++ [case]), (-1)%Z))])
           (ls ++ [String "\" (str g)]) [EmptyString] sp [] (sl + 1)%Z ma au ai).
Proof.
  induction ds as [|d ds IH];
    intros f case text idx ef gs ls sp stk sl ma au ai Hg Hd.
  - cbn [List.length Nat.add Nat.mul]. rewrite Nat.add_0_r.
    now apply single_at_group.
  - cbn [directives_text] in Hd. rewrite app_assoc in Hd.
    cbn [List.length Nat.add].
    rewrite (single_at_directive binary false unicodedata_lookup d _ case text idx
               _ _ _ _ _ _ _ _ _ _ _ Hd).
    rewrite (IH f (case_of d) text (idx + 2)%nat _ _ _ _ _ _ _ _ _ Hg).
    2:{ apply (drop_add 2 idx text (directive_text d) _ Hd).
        destruct d; reflexivity. }
    rewrite hd_error_app by (destruct stk; discriminate).
    do 3 f_equal. lia.
Qed.

Lemma directives_length (ds : list directive) :
  String.length (directives_text ds) = (2 * List.length ds)%nat.
Proof.
  induction ds as [|x ds IH]; [reflexivity|].
  cbn [directives_text List.length]. rewrite length_app, IH.
  destruct x; simpl; lia.
Qed.

Lemma directives_then_group (d : directive) (ds : list directive) (g : ascii)
    (fuel : nat) :
  is_nonzero_digit g = true ->
  (List.length ds + 3 <= fuel)%nat ->
  parse_tokens binary false unicodedata_lookup fuel
    (directives_text (d :: ds) ++ String "\" (str g))
  = Ok tt
      (mkCompiler
         (Replace.mkTokens (directives_text (d :: ds) ++ String "\" (str g))
            (0 + 2 + 2 * List.length ds + 2))
         false [(0%Z, (None, Some (case_of d), (-1)%Z))] [String "\" (str g)]
         [EmptyString] [] [] 1%Z false false 0%Z).
Proof.
  intros Hg Hfuel. unfold parse_tokens, initial.
  set (text := directives_text (d :: ds) ++ String "\" (str g)).
  assert (D0 : drop 0 text
               = directive_text d ++ directives_text ds ++ String "\" (str g)).
  { unfold text. cbn [directives_text drop]. now rewrite app_assoc. }
  assert (D1 : drop (0 + 2) text = directives_text ds ++ String "\" (str g)).
  { apply (drop_add 2 0 text (directive_text d) _ D0). destruct d; reflexivity. }
  destruct fuel as [|F]; [lia|].
  unfold bind at 1. rewrite parse_loop_S.
  rewrite (next_directive binary false d text 0 _ _ _ _ _ _ _ _ _ _ _ D0).
  unfold bind at 1. rewrite parse_token_directive.
  replace F with (S (List.length ds) + (F - List.length ds - 1))%nat at 1 by lia.
  rewrite (single_chain_group g ds _ (case_of d) text (0 + 2)%nat
             _ _ _ _ _ _ _ _ _ Hg D1).
  destruct F as [|F']; [lia|].
  rewrite parse_loop_S, next_at_end.
  2:{ apply (drop_add 2 _ text (String "\" (str g)) "").
      - apply (drop_add (2 * List.length ds) _ text (directives_text ds) _ D1).
        apply directives_length.
      - reflexivity. }
  reflexivity.
Qed.

End Group.



(** With enough fuel the compiler answers this for [\c\la]. *)
Lemma upper_lower_example (k : nat) :
  exists s,
    parse_tokens false false Host.no_names (4 + k) "\c\la" = Ok tt s
    /\ literal_slots s = ["A"].
Proof. eexists. split; [vm_compute; reflexivity | reflexivity]. Qed.


End TemplateFacts.

(** ** Expansion and the public functions *)

Module ExpandFacts.
Import Replace StringFacts.

(** [l[-1]] of a list that ends in [x]. *)
Lemma getitem_last {A} (l : list A) (x : A) :
  getitem (l ++ [x])%list (-1) = Some x.
Proof.
  unfold getitem. rewrite List.length_app. cbn [List.length].
  change (0 <=? -1)%Z with false. cbv iota.
  replace (Z.of_nat (List.length l + 1) + -1)%Z with (Z.of_nat (List.length l))
    by lia.
  destruct (Z.leb_spec 0 (Z.of_nat (List.length l))) as [_|H]; [|lia].
  rewrite Nat2Z.id, nth_error_app2 by lia.
  now rewrite Nat.sub_diag.
Qed.

(** [l[k]] past the end of a list. *)
Lemma getitem_beyond {A} (l : list A) (k : Z) :
  (Z.of_nat (List.length l) <= k)%Z -> getitem l k = None.
Proof.
  intros H. unfold getitem.
  destruct (Z.leb_spec 0 k) as [_|H0]; [|lia].
  apply nth_error_None. lia.
Qed.

Section Host.

Variable helper : RegexPattern -> string -> exn + list (Z + string).
Variable unicodedata_lookup : string -> option Z.

Abbreviation new_template_ := (new_template helper unicodedata_lookup).
Abbreviation expand_ := (expand helper unicodedata_lookup).
Abbreviation expandf_ := (expandf helper unicodedata_lookup).
Abbreviation compile_replace_ := (compile_replace helper unicodedata_lookup).

(** What the compiler leaves for a template that is one group reference
    under case directives. *)
Lemma new_template_of_slots (fuel : nat) (p : RegexPattern) (binary : bool)
    (template : string) (fmt : bool) (s : compiler) (ref : string)
    (slots : list (Z * (option Z * option Z * Z))) :
  parse_tokens binary fmt unicodedata_lookup fuel template = Ok tt s ->
  literal_slots s = [ref] ->
  group_slots s = slots ->
  helper p ref = inr [inl 1%Z] ->
  new_template_ fuel p binary template fmt
  = Returns (mkTemplate binary fmt template (pattern_hash p) slots ref
               [(0%Z, 1%Z)] [None]).
Proof.
  intros Hp Hl Hg Hh. unfold new_template. rewrite Hp, Hl, Hg.
  change (join [ref]) with ref. unfold regex_parse_template. rewrite Hh. reflexivity.
Qed.

Lemma compile_upper_next (k : nat) (p : RegexPattern) :
  helper p "\1" = inr [inl 1%Z] ->
  new_template_ (3 + k) p false "\c\1" false
  = Returns (mkTemplate false false "\c\1" (pattern_hash p)
               [(0%Z, (None, Some _UPPER, (-1)%Z))] "\1" [(0%Z, 1%Z)] [None]).
Proof.
  intros Hh.
  eapply new_template_of_slots; [vm_compute; reflexivity | reflexivity
                                | reflexivity | exact Hh].
Qed.

Lemma compile_upper_span (k : nat) (p : RegexPattern) :
  helper p "\1" = inr [inl 1%Z] ->
  new_template_ (4 + k) p false "\C\1\E" false
  = Returns (mkTemplate false false "\C\1\E" (pattern_hash p)
               [(0%Z, (Some _UPPER, None, (-1)%Z))] "\1" [(0%Z, 1%Z)] [None]).
Proof.
  intros Hh.
  eapply new_template_of_slots; [vm_compute; reflexivity | reflexivity
                                | reflexivity | exact Hh].
Qed.

Lemma compile_lower_span_upper_next (k : nat) (p : RegexPattern) :
  helper p "\1" = inr [inl 1%Z] ->
  new_template_ (5 + k) p false "\L\c\1\E" false
  = Returns (mkTemplate false false "\L\c\1\E" (pattern_hash p)
               [(0%Z, (Some _LOWER, Some _UPPER, (-1)%Z))] "\1"
               [(0%Z, 1%Z)] [None]).
Proof.
  intros Hh.
  eapply new_template_of_slots; [vm_compute; reflexivity | reflexivity
                                | reflexivity | exact Hh].
Qed.

(** Expansion of a template that is one reference to group 1. *)
Lemma expand_one_group (m : Match) (binary fmt : bool) (original ref : string)
    (h : Z) (attrs : option Z * option Z * Z) :
  expander_expand m
    (mkTemplate binary fmt original h [(0%Z, attrs)] ref [(0%Z, 1%Z)] [None])
  = match expand_group m
            (mkTemplate binary fmt original h [(0%Z, attrs)] ref
               [(0%Z, 1%Z)] [None]) 0 with
    | inr l => Returns l
    | inl e => Raises e
    end.
Proof.
  unfold expander_expand. cbn [rt_literals expand_loop].
  destruct (expand_group _ _ _); reflexivity.
Qed.

Lemma expand_group_last (m : Match) (binary fmt : bool) (original ref : string)
    (h : Z) (span single : option Z) (earlier : list string) (text : string) :
  m_captures m (Some 1%Z) = inr (earlier ++ [text])%list ->
  expand_group m
    (mkTemplate binary fmt original h [(0%Z, (span, single, (-1)%Z))] ref
       [(0%Z, 1%Z)] [None]) 0
  = inr (let l := match span with
                  | Some c => if (c =? _LOWER)%Z then lower text else upper text
                  | None => text
                  end in
         match single with
         | Some c => if (c =? _LOWER)%Z then lower (take 1 l) ++ drop 1 l
                     else upper (take 1 l) ++ drop 1 l
         | None => l
         end).
Proof.
  intros Hc. unfold expand_group.
  cbn [rt_groups rt_group_slots get_group_index get_group_attributes].
  change (0 =? 0)%Z with true. cbv iota.
  rewrite Hc, getitem_last. reflexivity.
Qed.

Lemma compile_bad_index (k : nat) (p : RegexPattern) :
  new_template_ (1 + k) p false "{1[0o3f]}" true
  = Raises (ValueError "Capture index must be an integer!").
Proof. unfold new_template. vm_compute. reflexivity. Qed.

Lemma compile_index_37 (k : nat) (p : RegexPattern) :
  helper p "\g<1>" = inr [inl 1%Z] ->
  new_template_ (2 + k) p false "{1[37]}" true
  = Returns (mkTemplate false true "{1[37]}" (pattern_hash p)
               [(0%Z, (None, None, 37%Z))] "\g<1>" [(0%Z, 1%Z)] [None]).
Proof.
  intros Hh. unfold new_template.
  assert (E : exists s,
             parse_tokens false true unicodedata_lookup (2 + k) "{1[37]}"
             = Ok tt s
             /\ literal_slots s = ["\g<"; "1"; ">"]
             /\ group_slots s = [(0%Z, (None, None, 37%Z))]).
  { eexists. split; [vm_compute; reflexivity | split; reflexivity]. }
  destruct E as (s & Hp & Hl & Hg). rewrite Hp, Hl, Hg.
  change (join ["\g<"; "1"; ">"]) with "\g<1>".
  unfold regex_parse_template. rewrite Hh. reflexivity.
Qed.

Lemma expand_group_beyond (m : Match) (binary fmt : bool)
    (original ref : string) (h : Z) (span single : option Z)
    (caps : list string) :
  m_captures m (Some 1%Z) = inr caps ->
  (List.length caps < 38)%nat ->
  expand_group m
    (mkTemplate binary fmt original h [(0%Z, (span, single, 37%Z))] ref
       [(0%Z, 1%Z)] [None]) 0
  = inl (IndexError "'37' is out of range!").
Proof.
  intros Hc Hn. unfold expand_group.
  cbn [rt_groups rt_group_slots get_group_index get_group_attributes].
  change (0 =? 0)%Z with true. cbv iota.
  rewrite Hc, getitem_beyond by lia. reflexivity.
Qed.

End Host.

(** C7. For a match whose group 1 captured [uppercase], [\c\1] expands
    to [Uppercase] and [\C\1\E] to [UPPERCASE]; for a match whose group 1
    captured [STACKING], [\L\c\1\E] expands to [Stacking]. The host
    engine's template grammar is assumed to read [\1] as group 1. *)
Theorem case_directives_expand
    (helper : RegexPattern -> string -> exn + list (Z + string))
    (unicodedata_lookup : string -> option Z)
    (m1 m2 : Match) (earlier1 earlier2 : list string) (fuel : nat) :
  helper (m_re m1) "\1" = inr [inl 1%Z] ->
  helper (m_re m2) "\1" = inr [inl 1%Z] ->
  m_captures m1 (Some 1%Z) = inr (earlier1 ++ ["uppercase"])%list ->
  m_captures m2 (Some 1%Z) = inr (earlier2 ++ ["STACKING"])%list ->
  (5 <= fuel)%nat ->
  expand helper unicodedata_lookup fuel (Some m1) (Str "\c\1")
  = Returns (Some "Uppercase")
  /\ expand helper unicodedata_lookup fuel (Some m1) (Str "\C\1\E")
     = Returns (Some "UPPERCASE")
  /\ expand helper unicodedata_lookup fuel (Some m2) (Str "\L\c\1\E")
     = Returns (Some "Stacking").
Proof.
  intros H1 H2 C1 C2 Hfuel.
  unfold expand, _apply_replace_backrefs.
  change (negb (Z.land 0 FORMAT =? 0)%Z) with false.
  repeat split.
  - replace fuel with (3 + (fuel - 3))%nat by lia.
    rewrite (compile_upper_next helper unicodedata_lookup _ _ H1).
    rewrite expand_one_group, (expand_group_last _ _ _ _ _ _ _ _ _ _ C1).
    reflexivity.
  - replace fuel with (4 + (fuel - 4))%nat by lia.
    rewrite (compile_upper_span helper unicodedata_lookup _ _ H1).
    rewrite expand_one_group, (expand_group_last _ _ _ _ _ _ _ _ _ _ C1).
    reflexivity.
  - replace fuel with (5 + (fuel - 5))%nat by lia.
    rewrite (compile_lower_span_upper_next helper unicodedata_lookup _ _ H2).
    rewrite expand_one_group, (expand_group_last _ _ _ _ _ _ _ _ _ _ C2).
    reflexivity.
Qed.

Lemma case_directives_expand_witness :
  expand Host.numbered_helper Host.no_names 8
    (Some (Host.match_with ["uppercase"])) (Str "\c\1")
  = Returns (Some "Uppercase")
  /\ expand Host.numbered_helper Host.no_names 8
       (Some (Host.match_with ["uppercase"])) (Str "\C\1\E")
     = Returns (Some "UPPERCASE")
  /\ expand Host.numbered_helper Host.no_names 8
       (Some (Host.match_with ["STACKING"])) (Str "\L\c\1\E")
     = Returns (Some "Stacking").
Proof.
  apply (case_directives_expand Host.numbered_helper Host.no_names
           (Host.match_with ["uppercase"]) (Host.match_with ["STACKING"])
           [] [] 8); [reflexivity | reflexivity | reflexivity | reflexivity |].
  lia.
Defined.

(** C9. In format mode [{1[0o3f]}] does not compile: the subscript is
    not an integer in base 8. [{1[37]}] compiles, and expanding it raises
    the out-of-range error for every match whose group 1 captured fewer
    than 38 times. The host engine's template grammar is assumed to read
    [\g<1>] as group 1. *)
Theorem format_capture_index
    (helper : RegexPattern -> string -> exn + list (Z + string))
    (unicodedata_lookup : string -> option Z)
    (m : Match) (caps : list string) (fuel : nat) :
  helper (m_re m) "\g<1>" = inr [inl 1%Z] ->
  m_captures m (Some 1%Z) = inr caps ->
  (List.length caps < 38)%nat ->
  (2 <= fuel)%nat ->
  compile_replace helper unicodedata_lookup fuel (PatternObj (m_re m))
    (Str "{1[0o3f]}") FORMAT
  = Raises (ValueError "Capture index must be an integer!")
  /\ (exists r,
        compile_replace helper unicodedata_lookup fuel (PatternObj (m_re m))
          (Str "{1[37]}") FORMAT = Returns r
        /\ expandf helper unicodedata_lookup fuel (Some m) (ReplaceObj r)
           = Raises (IndexError "'37' is out of range!"))
  /\ expandf helper unicodedata_lookup fuel (Some m) (Str "{1[37]}")
     = Raises (IndexError "'37' is out of range!").
Proof.
  intros Hh Hc Hn Hfuel.
  unfold compile_replace, expandf, _apply_replace_backrefs.
  change (negb (Z.land FORMAT FORMAT =? 0)%Z) with true.
  repeat split.
  - replace fuel with (1 + (fuel - 1))%nat by lia.
    now rewrite compile_bad_index.
  - replace fuel with (2 + (fuel - 2))%nat by lia.
    rewrite (compile_index_37 helper unicodedata_lookup _ _ Hh).
    eexists. split; [reflexivity|].
    cbn [use_format rt_use_format func].
    rewrite expand_one_group, (expand_group_beyond _ _ _ _ _ _ _ _ _ Hc Hn).
    reflexivity.
  - replace fuel with (2 + (fuel - 2))%nat by lia.
    rewrite (compile_index_37 helper unicodedata_lookup _ _ Hh).
    rewrite expand_one_group, (expand_group_beyond _ _ _ _ _ _ _ _ _ Hc Hn).
    reflexivity.
Qed.

Lemma format_capture_index_witness :
  compile_replace Host.numbered_helper Host.no_names 6
    (PatternObj (m_re (Host.match_with ["a"; "b"]))) (Str "{1[0o3f]}") FORMAT
  = Raises (ValueError "Capture index must be an integer!")
  /\ (exists r,
        compile_replace Host.numbered_helper Host.no_names 6
          (PatternObj (m_re (Host.match_with ["a"; "b"]))) (Str "{1[37]}") FORMAT
        = Returns r
        /\ expandf Host.numbered_helper Host.no_names 6
             (Some (Host.match_with ["a"; "b"])) (ReplaceObj r)
           = Raises (IndexError "'37' is out of range!"))
  /\ expandf Host.numbered_helper Host.no_names 6
       (Some (Host.match_with ["a"; "b"])) (Str "{1[37]}")
     = Raises (IndexError "'37' is out of range!").
Proof.
  apply (format_capture_index Host.numbered_helper Host.no_names
           (Host.match_with ["a"; "b"]) ["a"; "b"] 6);
    [reflexivity | reflexivity | simpl; lia | lia].
Defined.

(** C8. [compile_replace] checks the hash of a [Replace] against the
    pattern's, and refuses flags with either kind of compiled
    replacement; for a [ReplaceTemplate] it makes no hash check: with a
    hash that differs from the pattern's it answers a [Replace] that
    carries the template's hash. *)
Theorem compile_replace_precompiled
    (helper : RegexPattern -> string -> exn + list (Z + string))
    (unicodedata_lookup : string -> option Z) (fuel : nat)
    (p : RegexPattern) (t : ReplaceTemplate) (r : Replace) (flags : Z) :
  rt_pattern_hash t <> pattern_hash p ->
  pattern_hash_of r <> pattern_hash p ->
  flags <> 0%Z ->
  compile_replace helper unicodedata_lookup fuel (PatternObj p) (TemplateObj t) 0
  = Returns (mkReplace t (rt_use_format t) (rt_pattern_hash t))
  /\ compile_replace helper unicodedata_lookup fuel (PatternObj p) (ReplaceObj r) 0
     = Raises (ValueError "Pattern hash doesn't match hash in compiled replace!")
  /\ compile_replace helper unicodedata_lookup fuel (PatternObj p) (ReplaceObj r)
       flags
     = Raises (ValueError "Cannot process flags argument with a compiled pattern!")
  /\ compile_replace helper unicodedata_lookup fuel (PatternObj p) (TemplateObj t)
       flags
     = Raises (ValueError "Cannot process flags argument with a ReplaceTemplate!").
Proof.
  intros Ht Hr Hf. unfold compile_replace.
  apply Z.eqb_neq in Hr, Hf. rewrite Hr, Hf. repeat split.
Qed.

(** A template compiled for a pattern of hash 1, handed over with a
    pattern of hash 2. *)
Lemma compile_replace_precompiled_witness :
  let p1 := mkPattern "(a)" 0 1 in
  let p2 := mkPattern "(b)" 0 2 in
  let t := mkTemplate false false "\c\1" 1 [(0%Z, (None, Some _UPPER, (-1)%Z))]
             "\1" [(0%Z, 1%Z)] [None] in
  let r := mkReplace t false 1 in
  new_template Host.numbered_helper Host.no_names 4 p1 false "\c\1" false
  = Returns t
  /\ compile_replace Host.numbered_helper Host.no_names 4 (PatternObj p2)
       (TemplateObj t) 0
     = Returns r
  /\ compile_replace Host.numbered_helper Host.no_names 4 (PatternObj p2)
       (ReplaceObj r) 0
     = Raises (ValueError "Pattern hash doesn't match hash in compiled replace!")
  /\ compile_replace Host.numbered_helper Host.no_names 4 (PatternObj p2)
       (ReplaceObj r) FORMAT
     = Raises (ValueError "Cannot process flags argument with a compiled pattern!")
  /\ compile_replace Host.numbered_helper Host.no_names 4 (PatternObj p2)
       (TemplateObj t) FORMAT
     = Raises (ValueError "Cannot process flags argument with a ReplaceTemplate!").
Proof.
  intros p1 p2 t r. split; [reflexivity|].
  apply (compile_replace_precompiled Host.numbered_helper Host.no_names 4
           p2 t r FORMAT); discriminate.
Defined.

(** C10 (amended). With no match, [expand] and [expandf] raise
    [Match is None!] for a template given as text and for a compiled
    replacement of their own mode, without compiling or expanding
    anything; a compiled replacement of the other mode is refused first,
    with the error of the mode check. In every case the error is a
    [ValueError]. *)
Theorem expand_none
    (helper : RegexPattern -> string -> exn + list (Z + string))
    (unicodedata_lookup : string -> option Z) (fuel : nat)
    (text : string) (r : Replace) (t : ReplaceTemplate) :
  let expand_ := expand helper unicodedata_lookup fuel None in
  let expandf_ := expandf helper unicodedata_lookup fuel None in
  let match_is_none := Raises (ValueError "Match is None!") in
  expand_ (Str text) = match_is_none
  /\ expand_ (Bytes text) = match_is_none
  /\ expandf_ (Str text) = match_is_none
  /\ expandf_ (Bytes text) = match_is_none
  /\ expand_ (ReplaceObj r)
     = (if use_format r
        then Raises (ValueError
               "Replace should not be compiled as a format replace!")
        else match_is_none)
  /\ expand_ (TemplateObj t)
     = (if rt_use_format t
        then Raises (ValueError
               "Replace should not be compiled as a format replace!")
        else match_is_none)
  /\ expandf_ (ReplaceObj r)
     = (if use_format r then match_is_none
        else Raises (ValueError "Replace not compiled as a format replace"))
  /\ expandf_ (TemplateObj t)
     = (if rt_use_format t then match_is_none
        else Raises (ValueError "Replace not compiled as a format replace")).
Proof.
  unfold expand, expandf, _apply_replace_backrefs.
  destruct (use_format r), (rt_use_format t); repeat split.
Qed.

(** A replacement compiled in format mode. *)
Lemma format_replace_example (k : nat) :
  compile_replace Host.numbered_helper Host.no_names (2 + k)
    (PatternObj (mkPattern "(a)" 0 1)) (Str "{1}") FORMAT
  = Returns (mkReplace
               (mkTemplate false true "{1}" 1 [(0%Z, (None, None, (-1)%Z))]
                  "\g<1>" [(0%Z, 1%Z)] [None]) true 1).
Proof. vm_compute. reflexivity. Qed.

(** C10 as stated fails: [expand] with no match and a replacement
    compiled in format mode raises the error of the mode check, not
    [Match is None!]. *)
Lemma expand_none_counterexample :
  ~ (forall (fuel : nat) (r : Replace),
       compile_replace Host.numbered_helper Host.no_names fuel
         (PatternObj (mkPattern "(a)" 0 1)) (Str "{1}") FORMAT = Returns r ->
       expand Host.numbered_helper Host.no_names fuel None (ReplaceObj r)
       = Raises (ValueError "Match is None!")).
Proof.
  intros H. specialize (H 2%nat _ (format_replace_example 0)).
  vm_compute in H. discriminate.
Qed.

End ExpandFacts.

(** ** The search preprocessor outside groups and classes *)

Module PreprocessFacts.
Import Search Shapes Forms StringFacts SearchFacts.

Section Main.
Variable binary : bool.

(** The main loop at an escaped character. *)
Lemma main_loop_escape (f : nat) (cur : list string) (s : string) (n : nat)
    (v : bool) (ver : Z) (c : ascii) (rest : string) :
  drop n s = String "\" (String c rest) ->
  main_group_loop binary (S f) cur (at_ s n v ver)
  = main_group_loop binary f (cur ++ reference_tokens binary c)
      (at_ s (S (S n)) v ver).
Proof.
  intros Hd. cbn [main_group_loop].
  rewrite (next_char s n v ver "\" (String c rest) Hd).
  destruct f as [|f]; [reflexivity|].
  cbn [normal]. change (str "\" =? "\") with true. cbv iota.
  unfold reference.
  rewrite (next_char s (S n) v ver c rest (drop_succ _ _ _ _ Hd)).
  change (str c =? "<") with (str c =? str "<").
  change (str c =? ">") with (str c =? str ">").
  change (str c =? "R") with (str c =? str "R").
  change (str c =? "e") with (str c =? str "e").
  rewrite !str_eqb. reflexivity.
Qed.

(** The main loop over a run of members. *)
Lemma main_loop_members (ms : list member) :
  forall (f : nat) (cur : list string) (s : string) (n : nat) (v : bool)
         (ver : Z) (rest : string),
    forallb (pattern_member v) ms = true ->
    drop n s = members_text ms ++ rest ->
    main_group_loop binary (List.length ms + f) cur (at_ s n v ver)
    = main_group_loop binary f (cur ++ expansion_tokens binary ms)
        (at_ s (n + String.length (members_text ms)) v ver).
Proof.
  induction ms as [|m ms IH]; intros f cur s n v ver rest Hp Hd.
  - cbn. now rewrite Nat.add_0_r, List.app_nil_r.
  - cbn [forallb] in Hp. apply andb_true_iff in Hp. destruct Hp as [Hm Hp].
    cbn [members_text] in *. rewrite app_assoc in Hd.
    cbn [List.length Nat.add]. destruct m as [c|c].
    + cbn [member_text] in *.
      rewrite (main_loop_char binary _ cur s n v ver c _ Hm Hd).
      rewrite (IH f _ s (S n) v ver rest Hp (drop_succ _ _ _ _ Hd)).
      cbn [expansion_tokens]. rewrite <- List.app_assoc.
      rewrite length_app. cbn [String.length str Nat.add].
      now rewrite Nat.add_succ_r.
    + cbn [member_text] in *.
      rewrite (main_loop_escape _ cur s n v ver c _ Hd).
      rewrite (IH f _ s (S (S n)) v ver rest Hp).
      * cbn [expansion_tokens]. rewrite <- List.app_assoc.
        rewrite length_app. cbn [String.length str Nat.add].
        now rewrite !Nat.add_succ_r.
      * apply (drop_succ _ _ c). apply (drop_succ _ _ "\"%char). exact Hd.
Qed.

End Main.

Lemma quote_free_pattern_members (v : bool) (ms : list member) :
  forallb (pattern_member v) ms = true ->
  quote_free false (members_text ms) = true.
Proof.
  induction ms as [|m ms IH]; intros Hp; [reflexivity|].
  cbn [forallb] in Hp. apply andb_true_iff in Hp. destruct Hp as [Hm Hp].
  cbn [members_text]. destruct m as [c|c]; cbn [member_text append str].
  - unfold pattern_member, plainb in Hm. apply negb_true_iff in Hm.
    repeat (apply orb_false_iff in Hm; destruct Hm as [Hm ?]).
    cbn [quote_free]. rewrite Hm. now apply IH.
  - unfold pattern_member in Hm. apply negb_true_iff in Hm.
    apply orb_false_iff in Hm. destruct Hm as [HQ HE].
    cbn [quote_free]. change (Ascii.eqb "\" "\") with true. cbv iota.
    rewrite HQ, HE. now apply IH.
Qed.

(** Outside groups, classes and comments the preprocessor works member
    by member: a plain character is copied, [\<], [\>], [\R] and [\e]
    are replaced by their expansions, and any other escaped character
    is copied with its backslash, whatever the verbose mode and the
    dialect. *)
Theorem members_expand (escape : string -> string) (binary : bool)
    (re_verbose : bool) (re_version : Z) (ms : list member) (fuel : nat) :
  forallb (pattern_member re_verbose) ms = true ->
  (List.length ms + 2 <= fuel)%nat ->
  apply escape binary fuel re_verbose re_version (members_text ms)
  = Returns (join (expansion_tokens binary ms)).
Proof.
  intros Hp Hfuel. unfold apply.
  rewrite (process_quotes_quote_free escape _ (quote_free_pattern_members _ _ Hp)).
  replace fuel with (S (List.length ms + S (fuel - List.length ms - 2)))
    by lia.
  rewrite apply_loop_S. unfold main_group.
  rewrite (main_loop_members binary ms _ [] (members_text ms) 0 _ _ "" Hp)
    by (now rewrite app_nil_r).
  rewrite main_loop_end; [reflexivity|].
  cbn [Nat.add].
  assert (H : forall a, drop (String.length a) a = "")
    by (induction a; [reflexivity | assumption]).
  apply H.
Qed.

Lemma members_expand_witness :
  apply Host.regex_escape false 12 true V1
    (members_text [Plain "a"; Esc "<"; Plain "b"; Esc ">"; Esc "R"; Esc "e";
                   Esc "d"; Esc "#"])
  = Returns ("a" ++ _re_start_wb ++ "b" ++ _re_end_wb ++ _line_break
             ++ _re_escape ++ "\d" ++ "\#").
Proof.
  apply (members_expand Host.regex_escape false true V1
           [Plain "a"; Esc "<"; Plain "b"; Esc ">"; Esc "R"; Esc "e";
            Esc "d"; Esc "#"] 12); [reflexivity | simpl; lia].
Defined.

Lemma stable_is_pattern_member (v : bool) (ms : list member) :
  forallb (stable_member v) ms = true -> forallb (pattern_member v) ms = true.
Proof.
  induction ms as [|m ms IH]; [reflexivity|]. cbn [forallb].
  intros H. apply andb_true_iff in H. destruct H as [Hm H].
  unfold stable_member in Hm. apply andb_true_iff in Hm.
  rewrite (proj1 Hm). now apply IH.
Qed.

Lemma stable_tokens (binary v : bool) (ms : list member) :
  forallb (stable_member v) ms = true ->
  join (expansion_tokens binary ms) = members_text ms.
Proof.
  induction ms as [|m ms IH]; [reflexivity|]. cbn [forallb].
  intros H. apply andb_true_iff in H. destruct H as [Hm H].
  cbn [members_text]. destruct m as [c|c]; cbn [expansion_tokens member_text].
  - now rewrite join_cons, IH.
  - unfold stable_member in Hm. apply andb_true_iff in Hm.
    destruct Hm as [_ Hm]. apply negb_true_iff in Hm.
    unfold in_chars in Hm. cbn [list_ascii_of_string existsb] in Hm.
    repeat (apply orb_false_iff in Hm; destruct Hm as [? Hm]).
    unfold reference_tokens.
    repeat match goal with
           | E : Ascii.eqb c _ = false |- _ => rewrite E; clear E
           end.
    rewrite join_app, IH by exact H. reflexivity.
Qed.

(** Quoting protects a text through the whole preprocessor: when the
    host's escaped form of [s] is made of plain characters and escaped
    characters that are no shorthands, [\Q s \E] comes out as that
    escaped form, in either verbose mode and any dialect. *)
Theorem quoted_text_survives (escape : string -> string) (binary : bool)
    (re_verbose : bool) (re_version : Z) (s : string) (ms : list member)
    (fuel : nat) :
  contains "\E" s = false ->
  Nat.even (trailing_backslashes s) = true ->
  escape s = members_text ms ->
  forallb (stable_member re_verbose) ms = true ->
  (List.length ms + 2 <= fuel)%nat ->
  apply escape binary fuel re_verbose re_version ("\Q" ++ s ++ "\E")
  = Returns (escape s).
Proof.
  intros Hc Hev He Hs Hfuel. unfold apply.
  pose proof (QuoteFacts.quoted_span_then escape s "" Hc Hev) as Hq.
  change ("\E" ++ "") with "\E" in Hq. rewrite Hq.
  change (process_quotes escape "") with "". rewrite app_nil_r, He.
  pose proof (stable_is_pattern_member _ _ Hs) as Hp.
  replace fuel with (S (List.length ms + S (fuel - List.length ms - 2)))
    by lia.
  rewrite apply_loop_S. unfold main_group.
  rewrite (main_loop_members binary ms _ [] (members_text ms) 0 _ _ "" Hp)
    by (now rewrite app_nil_r).
  rewrite main_loop_end.
  - cbn [List.app]. now rewrite (stable_tokens binary _ ms Hs).
  - cbn [Nat.add].
    assert (H : forall a, drop (String.length a) a = "")
      by (induction a; [reflexivity | assumption]).
    apply H.
Qed.

Lemma quoted_text_survives_witness :
  apply Host.regex_escape false 12 true V1 ("\Q" ++ "a.b #(c)" ++ "\E")
  = Returns (Host.regex_escape "a.b #(c)").
Proof.
  apply (quoted_text_survives Host.regex_escape false true V1 "a.b #(c)"
           [Plain "a"; Esc "."; Plain "b"; Esc " "; Esc "#"; Esc "(";
            Plain "c"; Esc ")"] 12);
    [reflexivity | reflexivity | reflexivity | reflexivity | simpl; lia].
Defined.

End PreprocessFacts.

(** ** Exceptions of the search preprocessor *)

Module SafetyFacts.
Import Search Shapes Forms StringFacts SearchFacts.

Lemma next_raises (st st' : state) (e : exn) :
  next st = Raise e st' -> e = StopIteration.
Proof.
  unfold next, iternext.
  destruct (String.get _ _); intros H; [discriminate | now injection H].
Qed.

Lemma get_lexeme_returns (p : string -> option string) (st : state) :
  exists o st', get_lexeme p st = Ok o st'.
Proof. unfold get_lexeme. destruct (p _); eauto. Qed.

Lemma flags_raises (text : string) (st st' : state) (e : exn) :
  flags text st = Raise e st' ->
  e = RetryException \/ e = GlobalRetryException.
Proof.
  unfold flags.
  destruct ((version st =? VERSION1)%Z && contains "-x" text && verbose st);
    [|destruct (contains "x" text && negb (verbose st))];
    (match goal with
     | |- context [if ?b then (true, ?s) else _] =>
         destruct b; [|destruct (contains "V1" text && _)]
     end);
    intros H; first [discriminate H | injection H as <- _; auto].
Qed.

Section Handlers.
Variable binary : bool.

Lemma reference_returns (t : string) (st : state) :
  exists out st', reference binary t st = Ok out st'.
Proof.
  unfold reference. destruct (next st) as [t' s1|e s1|] eqn:E.
  - eauto.
  - apply next_raises in E. subst e. eauto.
  - unfold next, iternext in E. destruct (String.get _ _); discriminate.
Qed.

Lemma next_fuel (st : state) : next st <> OutOfFuel.
Proof. unfold next, iternext. destruct (String.get _ _); discriminate. Qed.

Lemma verbose_comment_loop_raises (fuel : nat) :
  forall (t : string) (esc : bool) (cur : list string) (st st' : state)
         (e : exn),
    verbose_comment_loop fuel t esc cur st <> Raise e st'.
Proof.
  induction fuel as [|f IH]; intros t esc cur st st' e; [discriminate|].
  rewrite verbose_comment_loop_S.
  destruct (t =? NL); [discriminate|].
  destruct (if negb esc && (t =? "\") then _ else _) as [esc' cur'].
  destruct (next st) as [t' s1|e1 s1|] eqn:E.
  - apply IH.
  - apply next_raises in E. subst e1. discriminate.
  - discriminate.
Qed.

Lemma verbose_comment_raises (fuel : nat) (t : string) (st st' : state)
    (e : exn) :
  verbose_comment fuel t st <> Raise e st'.
Proof.
  unfold verbose_comment, bind.
  destruct (verbose_comment_loop fuel t false [] st) as [[t' cur] s1|e1 s1|] eqn:E.
  - discriminate.
  - now apply verbose_comment_loop_raises in E.
  - discriminate.
Qed.

Lemma class_posix_returns (st : state) :
  exists o st', class_posix binary st = Ok o st'.
Proof.
  unfold class_posix. destruct binary; [unfold ret; eauto|].
  apply get_lexeme_returns.
Qed.

(** One turn of the class loop raises nothing and keeps the invariant. *)
Lemma char_groups_step_safe (t : string) (v : class_vars) (st : state) :
  class_invariant v ->
  match char_groups_step binary t v st with
  | Ok (Continue v') _ => class_invariant v'
  | Ok (Break _) _ => True
  | Raise _ _ => False
  | OutOfFuel => False
  end.
Proof.
  destruct v as [cur pos found sf esc fi]. unfold class_invariant.
  cbn [cg_found cg_first cg_sub_first]. intros (H0 & H1 & H2).
  unfold char_groups_step.
  destruct (class_posix_returns st) as (o & s1 & E). rewrite E.
  destruct (negb esc && (t =? "\")); [cbn; auto|].
  destruct esc; [cbn; auto|].
  destruct (Z.eqb_spec found 0) as [F0|F0].
  { rewrite andb_true_r.
    destruct (t =? "["); cbn.
    - repeat split; [lia | discriminate | lia].
    - subst found. change (0 =? 1)%Z with false. change (1 <? 0)%Z with false.
      rewrite !andb_false_r. cbn. repeat split; auto. }
  rewrite andb_false_r. cbn [negb andb]. rewrite andb_true_r.
  destruct (t =? "[").
  { cbn [andb]. destruct (version st =? V1)%Z; destruct o; cbn;
      repeat split; auto; try lia; try discriminate.
    intros _. apply H1. lia. }
  cbn [andb].
  destruct (Z.eqb_spec found 1) as [F1|F1].
  - subst found. destruct fi as [p|]; [|exfalso; apply H1; [lia | reflexivity]].
    change (1 <? 1)%Z with false. rewrite !andb_false_r.
    rewrite !andb_true_r. cbn [eq_succ ne_succ option_map].
    destruct (t =? "^"); [destruct (pos =? p + 1)%Z; cbn|];
      try (repeat split; auto; try lia; discriminate).
    + destruct (t =? "]"); cbn; repeat split; auto; try lia; discriminate.
    + destruct (t =? "]"); [destruct (pos =? p + 1)%Z|]; cbn;
        repeat split; auto; try lia; discriminate.
  - rewrite !andb_false_r.
    destruct ((version st =? V1)%Z && (t =? "^") && (1 <? found)%Z) eqn:Ec.
    + apply andb_true_iff in Ec. destruct Ec as [_ Ec].
      apply Z.ltb_lt in Ec.
      destruct sf as [p|]; [|exfalso; apply H2; [lia | reflexivity]].
      cbn [eq_succ option_map]. destruct (pos =? p + 1)%Z; cbn.
      * repeat split; auto; discriminate.
      * destruct ((version st =? V1)%Z && (t =? "]") && (1 <? found)%Z);
          cbn; [destruct (negb (pos =? p + 1)%Z); cbn|];
          repeat split; auto; try lia; try discriminate;
          intros; apply H1; lia.
    + destruct ((version st =? V1)%Z && (t =? "]") && (1 <? found)%Z) eqn:Ed.
      * apply andb_true_iff in Ed. destruct Ed as [_ Ed].
        apply Z.ltb_lt in Ed.
        destruct sf as [p|]; [|exfalso; apply H2; [lia | reflexivity]].
        cbn [ne_succ option_map]. destruct (negb (pos =? p + 1)%Z); cbn;
          repeat split; auto; try lia; try discriminate;
          intros; apply H1; lia.
      * cbn. repeat split; auto.
Qed.

Lemma char_groups_loop_raises (fuel : nat) :
  forall (t : string) (v : class_vars) (st st' : state) (e : exn),
    class_invariant v ->
    char_groups_loop binary fuel t v st <> Raise e st'.
Proof.
  induction fuel as [|f IH]; intros t v st st' e Hv; [discriminate|].
  rewrite ClassFacts.char_groups_loop_S.
  pose proof (char_groups_step_safe t v st Hv) as Hs.
  destruct (char_groups_step binary t v st) as [[v'|v'] s1|e1 s1|];
    try contradiction; [|discriminate].
  cbv zeta.
  destruct (next s1) as [t' s2|e2 s2|] eqn:E.
  - apply IH. destruct Hs as (H0 & H1 & H2). destruct v'. exact (conj H0 (conj H1 H2)).
  - apply next_raises in E. subst e2. discriminate.
  - discriminate.
Qed.

Lemma char_groups_raises (fuel : nat) (t : string) (st st' : state) (e : exn) :
  char_groups binary fuel t st <> Raise e st'.
Proof.
  unfold char_groups. apply char_groups_loop_raises.
  unfold class_invariant. cbn. repeat split; [lia | lia | lia].
Qed.

Lemma normal_S (f : nat) (t : string) (st : state) :
  normal binary (S f) t st
  = if t =? "\" then reference binary t st
    else if t =? "(" then subgroup binary f t st
    else if verbose st && (t =? "#") then verbose_comment f t st
    else if t =? "[" then char_groups binary f t st
    else Ok [t] st.
Proof. reflexivity. Qed.

Lemma subgroup_retry_S (f : nat) (start : string) (index0 : nat) (st : state) :
  subgroup_retry binary (S f) start index0 st
  = match subgroup_body binary f start [] st with
    | Ok r st' => Ok r st'
    | Raise RetryException st' =>
        subgroup_retry binary f start index0 (set_index index0 st')
    | Raise e st' => Raise e st'
    | OutOfFuel => OutOfFuel
    end.
Proof. reflexivity. Qed.

Lemma subgroup_body_S (f : nat) (t : string) (current : list string)
    (st : state) :
  subgroup_body binary (S f) t current st
  = if t =? ")" then Ok (t, current) st
    else
      let extended :=
        match current with
        | [] => Ok [t] st
        | _ :: _ =>
            match normal binary f t st with
            | Ok out st' => Ok (current ++ out)%list st'
            | Raise e st' => Raise e st'
            | OutOfFuel => OutOfFuel
            end
        end in
      match extended with
      | Ok current' st' =>
          match next st' with
          | Ok t' st'' => subgroup_body binary f t' current' st''
          | Raise StopIteration st'' => Ok (t, current') st''
          | Raise e st'' => Raise e st''
          | OutOfFuel => OutOfFuel
          end
      | Raise StopIteration st' => Ok (t, current) st'
      | Raise e st' => Raise e st'
      | OutOfFuel => OutOfFuel
      end.
Proof. reflexivity. Qed.

Lemma subgroup_S (f : nat) (t : string) (st : state) :
  subgroup binary (S f) t st
  = match get_flags (version st =? VERSION0)%Z st with
    | Ok (Some fl) st1 => (flags (slice_to_last 2 fl) ;;; ret [fl]) st1
    | Ok None st1 =>
        match get_comments st1 with
        | Ok (Some comments) st2 => Ok [comments] st2
        | Ok None st2 =>
            let saved := verbose st2 in
            let scoped :=
              match get_scoped_flags (version st2 =? VERSION0)%Z st2 with
              | Ok (Some fl) st3 =>
                  match flags (slice_to_last 2 fl) st3 with
                  | Ok _ st4 => Ok fl st4
                  | Raise RetryException st4 => Ok fl st4
                  | Raise e st4 => Raise e st4
                  | OutOfFuel => OutOfFuel
                  end
              | Ok None st3 => Ok t st3
              | Raise e st3 => Raise e st3
              | OutOfFuel => OutOfFuel
              end in
            match scoped with
            | Ok start st5 =>
                match subgroup_retry binary f start (index (i st5)) st5 with
                | Ok (t, current) st6 =>
                    Ok (if t =? ")" then current ++ [t] else current)%list
                       (set_verbose saved st6)
                | Raise e st6 => Raise e st6
                | OutOfFuel => OutOfFuel
                end
            | Raise e st5 => Raise e st5
            | OutOfFuel => OutOfFuel
            end
        | Raise e st2 => Raise e st2
        | OutOfFuel => OutOfFuel
        end
    | Raise e st1 => Raise e st1
    | OutOfFuel => OutOfFuel
    end.
Proof. reflexivity. Qed.

Abbreviation retrying e := (e = RetryException \/ e = GlobalRetryException).

(** The handlers let nothing out but the two retry signals. *)
Lemma handlers_raise (fuel : nat) :
  (forall t st e st', normal binary fuel t st = Raise e st' -> retrying e)
  /\ (forall t st e st', subgroup binary fuel t st = Raise e st' -> retrying e)
  /\ (forall start idx st e st',
        subgroup_retry binary fuel start idx st = Raise e st' -> retrying e)
  /\ (forall t cur st e st',
        subgroup_body binary fuel t cur st = Raise e st' -> retrying e).
Proof.
  induction fuel as [|f (IHn & IHs & IHr & IHb)].
  { repeat split; intros; discriminate. }
  assert (Hretry : forall start st5 saved e st',
             match subgroup_retry binary f start (index (i st5)) st5 with
             | Ok (t, current) st6 =>
                 Ok (if t =? ")" then current ++ [t] else current)%list
                   (set_verbose saved st6)
             | Raise e st6 => Raise e st6
             | OutOfFuel => OutOfFuel
             end = Raise e st' -> retrying e).
  { intros start st5 saved e st'.
    destruct (subgroup_retry binary f start (index (i st5)) st5)
      as [[t' cur] s6|e6 s6|] eqn:Er; intros H; try discriminate.
    injection H as <- _. eapply IHr; eauto. }
  repeat split.
  - intros t st e st'. rewrite normal_S.
    destruct (t =? "\").
    { destruct (reference_returns t st) as (o & s1 & E). rewrite E. discriminate. }
    destruct (t =? "("); [apply IHs|].
    destruct (verbose st && (t =? "#")).
    { intros H. now apply verbose_comment_raises in H. }
    destruct (t =? "["); [|discriminate].
    intros H. now apply char_groups_raises in H.
  - intros t st e st'. rewrite subgroup_S.
    unfold get_flags, get_comments, get_scoped_flags.
    destruct (get_lexeme_returns
                (if negb (version st =? VERSION0)%Z
                 then _regex_flags else _regex_flags_v0) st)
      as (o1 & s1 & E1). rewrite E1. destruct o1 as [fl|].
    { unfold bind, ret.
      destruct (flags (slice_to_last 2 fl) s1) as [u s2|e2 s2|] eqn:F;
        intros H; try discriminate.
      injection H as <- _. eapply flags_raises; eauto. }
    destruct (get_lexeme_returns _re_comments s1) as (o2 & s2 & E2).
    rewrite E2. destruct o2 as [comments|]; [discriminate|].
    cbv zeta.
    destruct (get_lexeme_returns
                (if negb (version s2 =? VERSION0)%Z
                 then _scoped_regex_flags else _scoped_regex_flags_v0) s2)
      as (o3 & s3 & E3). rewrite E3. destruct o3 as [fl|]; [|apply Hretry].
    destruct (flags (slice_to_last 2 fl) s3) as [u s4|e4 s4|] eqn:F;
      [apply Hretry| |discriminate].
    pose proof (flags_raises _ _ _ _ F) as [-> | ->]; [apply Hretry|].
    intros H. injection H as <- _. now right.
  - intros start idx st e st'. rewrite subgroup_retry_S.
    destruct (subgroup_body binary f start [] st) as [r s1|e1 s1|] eqn:Eb;
      try discriminate.
    pose proof (IHb _ _ _ _ _ Eb) as [-> | ->]; [apply IHr|].
    intros H. injection H as <- _. now right.
  - intros t cur st e st'. rewrite subgroup_body_S.
    destruct (t =? ")"); [discriminate|]. cbv zeta.
    assert (Hnext : forall cur' s1,
               match next s1 with
               | Ok t' st'' => subgroup_body binary f t' cur' st''
               | Raise StopIteration st'' => Ok (t, cur') st''
               | Raise e st'' => Raise e st''
               | OutOfFuel => OutOfFuel
               end = Raise e st' -> retrying e).
    { intros cur' s1. destruct (next s1) as [t' s2|e2 s2|] eqn:En;
        [apply IHb| |discriminate].
      apply next_raises in En. subst e2. discriminate. }
    destruct cur as [|x cur]; [apply Hnext|].
    destruct (normal binary f t st) as [out s1|e1 s1|] eqn:En;
      [apply Hnext| |discriminate].
    pose proof (IHn _ _ _ _ En) as [-> | ->];
      intros H; injection H as <- _; auto.
Qed.

Lemma main_group_loop_raises (fuel : nat) :
  forall (cur : list string) (st st' : state) (e : exn),
    main_group_loop binary fuel cur st = Raise e st' -> retrying e.
Proof.
  induction fuel as [|f IH]; intros cur st st' e; [discriminate|].
  rewrite main_group_loop_S.
  destruct (next st) as [t s1|e1 s1|] eqn:En; [| |discriminate].
  - destruct (normal binary f t s1) as [out s2|e2 s2|] eqn:E;
      [apply IH| |discriminate].
    destruct (proj1 (handlers_raise f) _ _ _ _ E) as [-> | ->];
      intros H; injection H as <- _; auto.
  - apply next_raises in En. subst e1. discriminate.
Qed.

Lemma apply_loop_raises (fuel : nat) :
  forall (st st' : state) (e : exn), apply_loop binary fuel st <> Raise e st'.
Proof.
  induction fuel as [|f IH]; intros st st' e; [discriminate|].
  rewrite apply_loop_S. unfold main_group.
  destruct (main_group_loop binary f [] st) as [out s1|e1 s1|] eqn:E;
    [discriminate| |discriminate].
  destruct (main_group_loop_raises _ _ _ _ _ E) as [-> | ->]; apply IH.
Qed.

End Handlers.


End SafetyFacts.

(** ** The quote pass in context *)

Module QuotePassFacts.
Import Search Shapes Forms StringFacts QuoteFacts SearchFacts.

Section Quotes.
Variable escape : string -> string.

(** The loop over a quote-free text, with the parity of the
    backslashes it ends with. *)
Lemma loop_quote_free_parity (s : string) :
  forall (e : bool) (cur : list string) (n : nat),
    e = Nat.odd n ->
    quote_free e s = true ->
    exists cur' : list string,
      process_quotes_loop escape s (mkQuotes e false cur [])
      = mkQuotes (Nat.odd (trailing_from n s)) false cur' []
      /\ join cur' ++ (if Nat.odd (trailing_from n s) then "\" else "")
         = join cur ++ (if e then "\" else "") ++ s.
Proof.
  induction s as [|c s IH]; intros e cur n He Hq.
  - exists cur. cbn [process_quotes_loop trailing_from]. rewrite <- He.
    split; [reflexivity | now rewrite app_nil_r].
  - cbn [process_quotes_loop quote_free trailing_from] in *.
    unfold process_quotes_step.
    change (str c =? "\") with (str c =? str "\").
    change (str c =? "E") with (str c =? str "E").
    change (str c =? "Q") with (str c =? str "Q").
    rewrite !str_eqb.
    destruct e; cbn [negb andb].
    + apply andb_true_iff in Hq. destruct Hq as [Hq Hr].
      apply andb_true_iff in Hq. destruct Hq as [HQ HE].
      apply negb_true_iff in HQ, HE. rewrite HQ, HE. cbn [andb].
      assert (Hn : false = Nat.odd (if Ascii.eqb c "\" then S n else 0)).
      { destruct (Ascii.eqb c "\"); [|reflexivity].
        rewrite Nat.odd_succ, <- Nat.negb_odd, <- He. reflexivity. }
      destruct (IH false (cur ++ ["\"; str c])%list _ Hn Hr) as (cur' & Hl & Hj).
      exists cur'. split; [exact Hl|].
      rewrite Hj, join_app. simpl. now rewrite !app_assoc.
    + destruct (Ascii.eqb c "\") eqn:E.
      * apply Ascii.eqb_eq in E. subst c.
        assert (Hn : true = Nat.odd (S n)).
        { rewrite Nat.odd_succ, <- Nat.negb_odd, <- He. reflexivity. }
        destruct (IH true cur _ Hn Hq) as (cur' & Hl & Hj).
        exists cur'. split; [exact Hl | exact Hj].
      * destruct (IH false (cur ++ [str c])%list 0%nat eq_refl Hq)
          as (cur' & Hl & Hj).
        exists cur'. split; [exact Hl|].
        rewrite Hj, join_snoc. simpl. now rewrite !app_assoc.
Qed.

(** After a quote-free text with no backslash left pending, the pass is
    where it started, with the text put out as it is. *)
Lemma process_quotes_prefix (a b : string) :
  quote_free false a = true ->
  Nat.even (trailing_backslashes a) = true ->
  process_quotes escape (a ++ b) = a ++ process_quotes escape b.
Proof.
  intros Hq Hev.
  destruct (loop_quote_free_parity a false [] 0 eq_refl Hq) as (cur' & Hl & Hj).
  fold (trailing_backslashes a) in Hl, Hj.
  rewrite <- Nat.negb_even, Hev in Hl, Hj. cbn [negb] in Hl, Hj.
  rewrite app_nil_r in Hj. cbn in Hj.
  rewrite (process_quotes_after escape a b cur' Hl). now rewrite Hj.
Qed.

End Quotes.

(** A quoted span is replaced by its escaped content where it stands:
    the text before it, when it has no live quote mark and no pending
    backslash, is put out as it is, and the text after it is processed
    on its own. *)
Theorem quoted_span_in_context (escape : string -> string) (a s b : string) :
  quote_free false a = true ->
  Nat.even (trailing_backslashes a) = true ->
  contains "\E" s = false ->
  Nat.even (trailing_backslashes s) = true ->
  process_quotes escape (a ++ "\Q" ++ s ++ "\E" ++ b)
  = a ++ escape s ++ process_quotes escape b.
Proof.
  intros Ha Hea Hs Hes.
  rewrite (process_quotes_prefix escape a _ Ha Hea).
  now rewrite (quoted_span_then escape s b Hs Hes).
Qed.

Lemma quoted_span_in_context_witness :
  process_quotes Host.regex_escape ("a\\" ++ "\Q" ++ "b.c" ++ "\E" ++ "d\Q*\E")
  = "a\\" ++ Host.regex_escape "b.c" ++ process_quotes Host.regex_escape "d\Q*\E".
Proof.
  apply (quoted_span_in_context Host.regex_escape "a\\" "b.c" "d\Q*\E");
    reflexivity.
Defined.

(** A [\E] that closes no span is dropped: the text before it is put
    out as it is and the text after it is processed on its own. *)
Theorem stray_end_mark_dropped (escape : string -> string) (a b : string) :
  quote_free false a = true ->
  Nat.even (trailing_backslashes a) = true ->
  process_quotes escape (a ++ "\E" ++ b) = a ++ process_quotes escape b.
Proof.
  intros Ha Hea.
  rewrite (process_quotes_prefix escape a _ Ha Hea).
  now rewrite (process_quotes_after escape "\E" b []).
Qed.

Lemma stray_end_mark_dropped_witness :
  process_quotes Host.regex_escape ("ab" ++ "\E" ++ "cd")
  = "ab" ++ process_quotes Host.regex_escape "cd".
Proof.
  apply (stray_end_mark_dropped Host.regex_escape "ab" "cd"); reflexivity.
Defined.

End QuotePassFacts.

(** ** Templates without group references *)

Module PieceFacts.
Import Replace Shapes Forms StringFacts SearchFacts TemplateFacts.

Section Compiler.
Variable binary : bool.
Variable use_format : bool.
Variable unicodedata_lookup : string -> option Z.

Abbreviation cst full idx ef gs ls res sp stk sl ma au ai :=
  (mkCompiler (Replace.mkTokens full idx) ef gs ls res sp stk sl ma au ai).
Abbreviation next_ := (next binary use_format).
Abbreviation parse_loop_ := (parse_loop binary use_format unicodedata_lookup).
Abbreviation parse_token_ := (parse_token binary use_format unicodedata_lookup).
Abbreviation span_loop_ := (span_loop binary use_format unicodedata_lookup).
Abbreviation span_case_ := (span_case binary use_format unicodedata_lookup).
Abbreviation single_case_ := (single_case binary use_format unicodedata_lookup).

(** What [span_case] and [span_loop] do with the next token. *)
Abbreviation span_rest f case s :=
  (match next_ s with
   | Ok t s' => span_loop_ f case t s'
   | Raise StopIteration s' => Ok tt s'
   | Raise e s' => Raise e s'
   | OutOfFuel => OutOfFuel
   end).

Lemma mark_cases (c : ascii) :
  in_chars "CLE" c = true -> c = "C"%char \/ c = "L"%char \/ c = "E"%char.
Proof.
  unfold in_chars. cbn [list_ascii_of_string existsb]. intros H.
  repeat (apply orb_true_iff in H; destruct H as [H|H];
          [apply Ascii.eqb_eq in H; auto|]).
  discriminate.
Qed.

Lemma mark_ref (c : ascii) (rest : string) :
  in_chars "CLE" c = true ->
  _replace_ref binary use_format (String c rest) = Some (only2 (str c)).
Proof.
  intros Hc. unfold _replace_ref.
  destruct (mark_cases c Hc) as [-> | [-> | ->]]; destruct use_format;
    reflexivity.
Qed.

(** The tokenizer at a span mark or an end mark. *)
Lemma next_mark (c : ascii) (full : string) (idx : nat) (rest : string)
    ef gs ls res sp stk sl ma au ai :
  in_chars "CLE" c = true ->
  drop idx full = String "\" (String c rest) ->
  next_ (cst full idx ef gs ls res sp stk sl ma au ai)
  = Ok (String "\" (str c)) (cst full (idx + 2) ef gs ls res sp stk sl ma au ai).
Proof.
  intros Hc Hd. unfold next, iternext. cbn [i Replace.tok_string Replace.index].
  rewrite get_drop, Hd. change (Ascii.eqb "\" "\") with true. cbv iota.
  rewrite (drop_succ _ _ _ _ Hd), (mark_ref c rest Hc).
  cbn [group0 group1 group2 group3 group4 only2 truthy text_of].
  rewrite andb_false_r, orb_true_r.
  destruct (mark_cases c Hc) as [-> | [-> | ->]]; cbn; rewrite Nat.sub_0_r;
    reflexivity.
Qed.

Lemma literal_not_backslash (a : ascii) :
  literal_char use_format a = true -> Ascii.eqb a "\" = false.
Proof.
  unfold literal_char. intros H. apply andb_true_iff in H.
  now apply negb_true_iff.
Qed.

(** The span loop at a literal character. *)
Lemma span_loop_literal (a : ascii) (f : nat) (case : Z) (full : string)
    (idx : nat) gs ls res sp sl ma au ai :
  literal_char use_format a = true ->
  span_loop_ (S f) case (str a) (cst full idx false gs ls res sp [] sl ma au ai)
  = span_rest f case
      (cst full idx false gs ls
         (res ++ [convert_case binary (str a) (Some case)]) sp [] sl ma au ai).
Proof.
  intros Ha. cbn [span_loop]. unfold str at 1. cbn [String.eqb].
  rewrite (literal_not_backslash a Ha).
  cbn [str String.length Nat.ltb Nat.leb].
  unfold bind, result_append, modify, set_result;
    cbn [i end_found group_slots literal_slots result span_stack
           single_stack slot manual auto auto_index].
  reflexivity.
Qed.

Abbreviation cased case text :=
  (map (fun t => convert_case binary t (Some case)) (Search.chars text)).

(** The span loop over literal text up to the end mark. *)
Lemma span_run (text : string) :
  forall (f : nat) (case : Z) (full : string) (idx : nat) (rest : string)
         gs ls res sp sl ma au ai,
    all (literal_char use_format) text = true ->
    drop idx full = text ++ "\E" ++ rest ->
    span_rest (String.length text + S f) case
      (cst full idx false gs ls res sp [] sl ma au ai)
    = Ok tt
        (cst full (idx + String.length text + 2) false gs ls
           (res ++ cased case text) sp [] sl ma au ai).
Proof.
  induction text as [|a text IH];
    intros f case full idx rest gs ls res sp sl ma au ai Hl Hd.
  - cbn [String.length Nat.add Search.chars map].
    rewrite (next_mark "E" full idx rest _ _ _ _ _ _ _ _ _ _ eq_refl Hd).
    rewrite Nat.add_0_r, List.app_nil_r. reflexivity.
  - cbn [all] in Hl. apply andb_true_iff in Hl. destruct Hl as [Ha Hl].
    cbn [String.length Nat.add].
    rewrite (next_literal binary use_format a full idx _ _ _ _ _ _ _ _ _ _ _ Ha Hd).
    rewrite span_loop_literal by exact Ha.
    rewrite (IH f case full (idx + 1)%nat rest _ _ _ _ _ _ _ _ Hl).
    + cbn [Search.chars map]. rewrite <- List.app_assoc. cbn [List.app].
      replace (idx + 1 + String.length text + 2)%nat
        with (idx + S (String.length text) + 2)%nat by lia.
      reflexivity.
    + rewrite Nat.add_1_r. apply (drop_succ _ _ _ _ Hd).
Qed.

(** The span loop over literal text that runs to the end of the
    template. *)
Lemma span_run_open (text : string) :
  forall (f : nat) (case : Z) (full : string) (idx : nat)
         gs ls res sp sl ma au ai,
    all (literal_char use_format) text = true ->
    drop idx full = text ->
    span_rest (String.length text + S f) case
      (cst full idx false gs ls res sp [] sl ma au ai)
    = Ok tt
        (cst full (idx + String.length text) false gs ls
           (res ++ cased case text) sp [] sl ma au ai).
Proof.
  induction text as [|a text IH];
    intros f case full idx gs ls res sp sl ma au ai Hl Hd.
  - cbn [String.length Nat.add Search.chars map].
    rewrite (next_at_end binary use_format full idx _ _ _ _ _ _ _ _ _ _ Hd).
    rewrite Nat.add_0_r, List.app_nil_r. reflexivity.
  - cbn [all] in Hl. apply andb_true_iff in Hl. destruct Hl as [Ha Hl].
    cbn [String.length Nat.add].
    rewrite (next_literal binary use_format a full idx _ _ _ _ _ _ _ _ _ _ _ Ha Hd).
    rewrite span_loop_literal by exact Ha.
    rewrite (IH f case full (idx + 1)%nat _ _ _ _ _ _ _ _ Hl).
    + cbn [Search.chars map]. rewrite <- List.app_assoc. cbn [List.app].
      replace (idx + 1 + String.length text)%nat
        with (idx + S (String.length text))%nat by lia.
      reflexivity.
    + rewrite Nat.add_1_r. apply (drop_succ _ _ _ _ Hd).
Qed.

Lemma span_case_S (f : nat) (case : Z) (s : compiler) :
  span_case_ (S f) case s
  = (push_span case ;;;
     (fun s => span_rest f case s) ;;;
     pop_span) s.
Proof. reflexivity. Qed.

(** The main loop of the compiler at each kind of piece. *)
Lemma parse_loop_lit (a : ascii) (f : nat) (full : string) (idx : nat)
    (rest : string) ef gs ls res sp stk sl ma au ai :
  literal_char use_format a = true ->
  drop idx full = String a rest ->
  parse_loop_ (S f) (cst full idx ef gs ls res sp stk sl ma au ai)
  = parse_loop_ f (cst full (idx + 1) ef gs ls (res ++ [str a]) sp stk sl ma au ai).
Proof.
  intros Ha Hd. rewrite parse_loop_S.
  rewrite (next_literal binary use_format a full idx _ _ _ _ _ _ _ _ _ _ _ Ha Hd).
  reflexivity.
Qed.

Lemma parse_loop_stray (f : nat) (full : string) (idx : nat) (rest : string)
    ef gs ls res sp stk sl ma au ai :
  drop idx full = "\E" ++ rest ->
  parse_loop_ (S f) (cst full idx ef gs ls res sp stk sl ma au ai)
  = parse_loop_ f (cst full (idx + 2) ef gs ls res sp stk sl ma au ai).
Proof.
  intros Hd. rewrite parse_loop_S.
  rewrite (next_mark "E" full idx rest _ _ _ _ _ _ _ _ _ _ eq_refl Hd).
  destruct use_format; reflexivity.
Qed.

Lemma parse_loop_single (d : directive) (a : ascii) (f : nat) (full : string)
    (idx : nat) (rest : string) ef gs ls res sp sl ma au ai :
  literal_char use_format a = true ->
  drop idx full = directive_text d ++ String a rest ->
  parse_loop_ (S f) (cst full idx ef gs ls res sp [] sl ma au ai)
  = parse_loop_ f
      (cst full (idx + 3) ef gs ls
         (res ++ [convert_case binary (str a) (Some (case_of d))])
         sp [] sl ma au ai).
Proof.
  intros Ha Hd. rewrite parse_loop_S.
  rewrite (next_directive binary use_format d full idx _ _ _ _ _ _ _ _ _ _ _ Hd).
  unfold bind at 1. rewrite parse_token_directive.
  destruct f as [|f]; [reflexivity|].
  rewrite (single_at_literal binary use_format unicodedata_lookup a f (case_of d)
             full (idx + 2) rest _ _ _ _ _ _ _ _ _ _ Ha).
  - replace (idx + 2 + 1)%nat with (idx + 3)%nat by lia. reflexivity.
  - apply (drop_add 2 idx full (directive_text d) _ Hd). destruct d; reflexivity.
Qed.

Lemma parse_loop_span (lower : bool) (text : string) (f : nat) (full : string)
    (idx : nat) (rest : string) gs ls res sp sl ma au ai :
  all (literal_char use_format) text = true ->
  drop idx full = span_mark lower ++ text ++ "\E" ++ rest ->
  (String.length text + 2 <= f)%nat ->
  parse_loop_ (S f) (cst full idx false gs ls res sp [] sl ma au ai)
  = parse_loop_ f
      (cst full (idx + (String.length text + 4)) false gs ls
         (res ++ cased (span_case_of lower) text) sp [] sl ma au ai).
Proof.
  intros Hl Hd Hf. rewrite parse_loop_S.
  assert (Hd' : drop idx full
                = String "\" (String (if lower then "L" else "C")%char
                                (text ++ "\E" ++ rest)))
    by (rewrite Hd; destruct lower; reflexivity).
  rewrite (next_mark _ full idx _ _ _ _ _ _ _ _ _ _ _
             (if lower as b return in_chars "CLE" (if b then "L" else "C")%char = true
              then eq_refl else eq_refl) Hd').
  unfold bind at 1.
  assert (Ht : parse_token_ f (String "\" (str (if lower then "L" else "C")%char))
               = span_case_ f (span_case_of lower))
    by (destruct lower, use_format; reflexivity).
  rewrite Ht.
  replace f with (S (String.length text + S (f - String.length text - 2))) at 1
    by lia.
  rewrite span_case_S. unfold bind, push_span, pop_span, modify, set_span_stack;
    cbn [i end_found group_slots literal_slots result span_stack
           single_stack slot manual auto auto_index].
  rewrite (span_run text _ _ full (idx + 2) rest _ _ _ _ _ _ _ _ Hl).
  - cbn [i end_found group_slots literal_slots result span_stack
           single_stack slot manual auto auto_index].
    rewrite removelast_last.
    replace (idx + 2 + String.length text + 2)%nat
      with (idx + (String.length text + 4))%nat by lia.
    reflexivity.
  - replace (idx + 2)%nat with (S (S idx)) by lia.
    apply (drop_succ _ _ _ _ (drop_succ _ _ _ _ Hd')).
Qed.

(** The tokenizer and the main loop at a doubled brace, in format
    mode. *)
Lemma parse_loop_brace (closing : bool) (f : nat) (full : string) (idx : nat)
    (rest : string) ef gs ls res sp stk sl ma au ai :
  use_format = true ->
  drop idx full = (if closing then "}}" else "{{") ++ rest ->
  parse_loop_ (S f) (cst full idx ef gs ls res sp stk sl ma au ai)
  = parse_loop_ f
      (cst full (idx + 2) ef gs ls (res ++ [if closing then "}" else "{"])
         sp stk sl ma au ai).
Proof.
  intros Hu Hd. rewrite parse_loop_S.
  unfold next, iternext. cbn [i Replace.tok_string Replace.index].
  rewrite get_drop, Hd, Hu.
  replace (idx + 1 + 1)%nat with (idx + 2)%nat by lia.
  destruct closing; reflexivity.
Qed.

Lemma join_cased (case : Z) (text : string) :
  join (cased case text) = convert_case binary text (Some case).
Proof.
  induction text as [|a text IH]; [unfold convert_case; destruct binary, (case =? _LOWER)%Z; reflexivity|].
  cbn [Search.chars map]. rewrite join_cons, IH.
  unfold convert_case. destruct binary, (case =? _LOWER)%Z; reflexivity.
Qed.

(** The main loop over a run of pieces. *)
Lemma parse_loop_pieces (ps : list piece) :
  forall (f : nat) (full : string) (idx : nat) (rest : string)
         gs ls res sp sl ma au ai,
    forallb (piece_ok use_format) ps = true ->
    drop idx full = pieces_text ps ++ rest ->
    (String.length (pieces_text ps) <= f)%nat ->
    exists toks : list string,
      parse_loop_ (List.length ps + f)
        (cst full idx false gs ls res sp [] sl ma au ai)
      = parse_loop_ f
          (cst full (idx + String.length (pieces_text ps)) false gs ls
             (res ++ toks) sp [] sl ma au ai)
      /\ join toks = pieces_out binary ps.
Proof.
  induction ps as [|p ps IH];
    intros f full idx rest gs ls res sp sl ma au ai Hok Hd Hf.
  - exists []. cbn. now rewrite Nat.add_0_r, List.app_nil_r.
  - cbn [forallb] in Hok. apply andb_true_iff in Hok. destruct Hok as [Hp Hok].
    cbn [pieces_text] in Hd, Hf |- *. rewrite app_assoc in Hd.
    rewrite length_app in Hf |- *.
    cbn [List.length Nat.add pieces_out].
    assert (Hnext : drop (idx + String.length (piece_text p)) full
                    = pieces_text ps ++ rest)
      by (apply (drop_add _ idx full (piece_text p) _ Hd); reflexivity).
    destruct p as [a| |d a|lower text|closing]; cbn [piece_ok] in Hp;
      cbn [piece_text piece_out] in *.
    + rewrite (parse_loop_lit a _ full idx _ _ _ _ _ _ _ _ _ _ _ Hp Hd).
      destruct (IH f full (idx + 1)%nat rest gs ls (res ++ [str a])%list
                  sp sl ma au ai Hok Hnext) as (toks & Hl & Hj); [lia|].
      exists (str a :: toks). rewrite Hl. split.
      * rewrite <- List.app_assoc. cbn [List.app String.length str].
        now rewrite Nat.add_assoc.
      * now rewrite join_cons, Hj.
    + rewrite (parse_loop_stray _ full idx _ _ _ _ _ _ _ _ _ _ _ Hd).
      destruct (IH f full (idx + 2)%nat rest gs ls res
                  sp sl ma au ai Hok Hnext) as (toks & Hl & Hj); [lia|].
      exists toks. rewrite Hl. split; [|exact Hj].
      cbn [String.length]. now rewrite Nat.add_assoc.
    + rewrite app_assoc in Hd.
      rewrite (parse_loop_single d a _ full idx _ _ _ _ _ _ _ _ _ _ Hp Hd).
      assert (Hlen : String.length (directive_text d ++ str a) = 3%nat)
        by (destruct d; reflexivity).
      rewrite Hlen in *.
      destruct (IH f full (idx + 3)%nat rest gs ls
                  (res ++ [convert_case binary (str a) (Some (case_of d))])%list
                  sp sl ma au ai Hok Hnext) as (toks & Hl & Hj); [lia|].
      exists (convert_case binary (str a) (Some (case_of d)) :: toks).
      rewrite Hl. split.
      * rewrite <- List.app_assoc. cbn [List.app].
        now rewrite Nat.add_assoc.
      * now rewrite join_cons, Hj.
    + rewrite !app_assoc in Hd.
      assert (Hlen : String.length (span_mark lower ++ text ++ "\E")
                     = (String.length text + 4)%nat).
      { rewrite !length_app. destruct lower; simpl; lia. }
      rewrite Hlen in *.
      rewrite (parse_loop_span lower text _ full idx _ _ _ _ _ _ _ _ _ Hp Hd)
        by lia.
      destruct (IH f full (idx + (String.length text + 4))%nat rest gs ls
                  (res ++ cased (span_case_of lower) text)%list
                  sp sl ma au ai Hok Hnext) as (toks & Hl & Hj); [lia|].
      exists (cased (span_case_of lower) text ++ toks)%list.
      rewrite Hl. split.
      * rewrite <- List.app_assoc.
        now rewrite (Nat.add_assoc idx (String.length text + 4)).
      * now rewrite join_app, join_cased, Hj.
    + rewrite (parse_loop_brace closing _ full idx _ _ _ _ _ _ _ _ _ _ _ Hp Hd).
      assert (Hlen : String.length (if closing then "}}" else "{{") = 2%nat)
        by (destruct closing; reflexivity).
      rewrite Hlen in *.
      destruct (IH f full (idx + 2)%nat rest gs ls
                  (res ++ [if closing then "}" else "{"])%list
                  sp sl ma au ai Hok Hnext) as (toks & Hl & Hj); [lia|].
      exists ((if closing then "}" else "{") :: toks).
      rewrite Hl. split.
      * rewrite <- List.app_assoc. cbn [List.app].
        now rewrite Nat.add_assoc.
      * now rewrite join_cons, Hj.
Qed.

(** A whole template of pieces: one literal, no group. *)
Lemma parse_tokens_pieces (ps : list piece) (fuel : nat) :
  forallb (piece_ok use_format) ps = true ->
  (List.length ps + String.length (pieces_text ps) + 1 <= fuel)%nat ->
  exists s,
    parse_tokens binary use_format unicodedata_lookup fuel (pieces_text ps)
    = Ok tt s
    /\ join (literal_slots s) = pieces_out binary ps
    /\ group_slots s = [].
Proof.
  intros Hok Hfuel. unfold parse_tokens, initial.
  set (n := String.length (pieces_text ps)) in *.
  replace fuel with (List.length ps + (n + S (fuel - List.length ps - n - 1)))%nat
    by lia.
  destruct (parse_loop_pieces ps (n + S (fuel - List.length ps - n - 1))
              (pieces_text ps) 0 "" [] [] [EmptyString] [] 0%Z false false 0%Z
              Hok) as (toks & Hl & Hj); [now rewrite app_nil_r | fold n; lia |].
  unfold bind at 1. rewrite Hl. fold n.
  replace (n + S (fuel - List.length ps - n - 1))%nat
    with (S (n + (fuel - List.length ps - n - 1)))%nat by lia.
  rewrite parse_loop_S, next_at_end.
  2:{ cbn [Nat.add]. unfold n.
      assert (H : forall a, drop (String.length a) a = "")
        by (induction a; [reflexivity | assumption]).
      apply H. }
  unfold modify. cbn [result List.length List.app].
  destruct toks as [|t toks].
  - cbn. eexists. split; [reflexivity|]. split; [|reflexivity].
    cbn. exact Hj.
  - cbn [List.length Nat.ltb Nat.leb]. eexists. split; [reflexivity|].
    unfold set_slot, set_result, set_literal_slots;
      cbn [i end_found group_slots literal_slots result span_stack
             single_stack slot manual auto auto_index List.app].
    split; [|reflexivity].
    change (join [join ("" :: t :: toks)]) with (join ("" :: t :: toks)).
    rewrite (join_cons "" (t :: toks)). exact Hj.
Qed.

(** The main loop at a span that no end mark closes. *)
Lemma parse_loop_open_span (lower : bool) (text : string) (f : nat)
    (full : string) (idx : nat) gs ls res sp sl ma au ai :
  all (literal_char use_format) text = true ->
  drop idx full = span_mark lower ++ text ->
  (String.length text + 2 <= f)%nat ->
  parse_loop_ (S f) (cst full idx false gs ls res sp [] sl ma au ai)
  = parse_loop_ f
      (cst full (idx + (String.length text + 2)) false gs ls
         (res ++ cased (span_case_of lower) text) sp [] sl ma au ai).
Proof.
  intros Hl Hd Hf. rewrite parse_loop_S.
  assert (Hd' : drop idx full
                = String "\" (String (if lower then "L" else "C")%char text))
    by (rewrite Hd; destruct lower; reflexivity).
  rewrite (next_mark _ full idx _ _ _ _ _ _ _ _ _ _ _
             (if lower as b return in_chars "CLE" (if b then "L" else "C")%char = true
              then eq_refl else eq_refl) Hd').
  unfold bind at 1.
  assert (Ht : parse_token_ f (String "\" (str (if lower then "L" else "C")%char))
               = span_case_ f (span_case_of lower))
    by (destruct lower, use_format; reflexivity).
  rewrite Ht.
  replace f with (S (String.length text + S (f - String.length text - 2))) at 1
    by lia.
  rewrite span_case_S. unfold bind, push_span, pop_span, modify, set_span_stack;
    cbn [i end_found group_slots literal_slots result span_stack
           single_stack slot manual auto auto_index].
  rewrite (span_run_open text _ _ full (idx + 2) _ _ _ _ _ _ _ _ Hl).
  - cbn [i end_found group_slots literal_slots result span_stack
           single_stack slot manual auto auto_index].
    rewrite removelast_last.
    replace (idx + 2 + String.length text)%nat
      with (idx + (String.length text + 2))%nat by lia.
    reflexivity.
  - replace (idx + 2)%nat with (S (S idx)) by lia.
    apply (drop_succ _ _ _ _ (drop_succ _ _ _ _ Hd')).
Qed.

(** A template of pieces that ends in such a span. *)
Lemma parse_tokens_open (ps : list piece) (lower : bool) (text : string)
    (fuel : nat) :
  forallb (piece_ok use_format) ps = true ->
  all (literal_char use_format) text = true ->
  (List.length ps + String.length (pieces_text ps) + String.length text + 4
   <= fuel)%nat ->
  exists s,
    parse_tokens binary use_format unicodedata_lookup fuel
      (pieces_text ps ++ span_mark lower ++ text)
    = Ok tt s
    /\ join (literal_slots s)
       = pieces_out binary ps
         ++ convert_case binary text (Some (span_case_of lower))
    /\ group_slots s = []
    /\ span_stack s = [].
Proof.
  intros Hok Hl Hfuel. unfold parse_tokens, initial.
  set (full := pieces_text ps ++ span_mark lower ++ text).
  set (n := String.length (pieces_text ps)) in *.
  set (k := String.length text) in *.
  replace fuel
    with (List.length ps + S (S (n + k + 2 + (fuel - List.length ps - n - k - 4))))%nat
    by lia.
  destruct (parse_loop_pieces ps
              (S (S (n + k + 2 + (fuel - List.length ps - n - k - 4))))
              full 0 (span_mark lower ++ text) [] [] [EmptyString] [] 0%Z
              false false 0%Z Hok eq_refl) as (toks & Hp & Hj); [fold n; lia|].
  unfold bind at 1. rewrite Hp. fold n. cbn [Nat.add].
  assert (Hd : drop n full = span_mark lower ++ text).
  { apply (drop_add n 0 full (pieces_text ps) _ eq_refl). reflexivity. }
  rewrite (parse_loop_open_span lower text _ full n _ _ _ _ _ _ _ _ Hl Hd)
    by (fold k; lia).
  fold k. rewrite parse_loop_S, next_at_end.
  2:{ apply (drop_add (k + 2) n full (span_mark lower ++ text) "").
      - now rewrite app_nil_r.
      - rewrite length_app. fold k. destruct lower; simpl; lia. }
  unfold modify. cbn [result].
  assert (Hout : join (([EmptyString] ++ toks)
                       ++ cased (span_case_of lower) text)
                 = pieces_out binary ps
                   ++ convert_case binary text (Some (span_case_of lower))).
  { rewrite !join_app, join_cased, Hj. reflexivity. }
  destruct (1 <? List.length (([EmptyString] ++ toks)
                              ++ cased (span_case_of lower) text))%nat eqn:E.
  - eexists. split; [reflexivity|].
    unfold set_slot, set_result, set_literal_slots;
      cbn [i end_found group_slots literal_slots result span_stack
             single_stack slot manual auto auto_index List.app].
    repeat split. exact Hout.
  - eexists. split; [reflexivity|].
    cbn [i end_found group_slots literal_slots result span_stack
           single_stack slot manual auto auto_index].
    repeat split.
    apply Nat.ltb_ge in E. rewrite <- Hout.
    destruct toks as [|t toks]; cbn [List.app List.length] in E |- *.
    + destruct (cased (span_case_of lower) text); [reflexivity|].
      cbn in E. lia.
    + cbn in E. lia.
Qed.

End Compiler.

Lemma split_parts_literals (lits : list string) : forall count : Z,
  split_parts (map (@inr Z string) lits) count = ([], map Some lits).
Proof.
  induction lits as [|l lits IH]; intros count; [reflexivity|].
  cbn [map split_parts]. now rewrite IH.
Qed.

(** A template whose parts are all literal expands to their
    concatenation, whatever the match. *)
Lemma expand_loop_literals (m : Match) (t : ReplaceTemplate)
    (lits : list string) : forall (x : Z) (acc : list string),
  expand_loop m t (map Some lits) x acc = Returns (join (acc ++ lits)).
Proof.
  induction lits as [|l lits IH]; intros x acc.
  - cbn. now rewrite List.app_nil_r.
  - cbn [map expand_loop]. rewrite IH, <- List.app_assoc. reflexivity.
Qed.

Section Host.
Variable helper : RegexPattern -> string -> exn + list (Z + string).
Variable unicodedata_lookup : string -> option Z.

Lemma pieces_expand (binary use_format : bool) (m : Match) (ps : list piece)
    (lits : list string) (fuel : nat) :
  forallb (piece_ok use_format) ps = true ->
  helper (m_re m) (pieces_out binary ps) = inr (map (@inr Z string) lits) ->
  join lits = pieces_out binary ps ->
  (List.length ps + String.length (pieces_text ps) + 1 <= fuel)%nat ->
  match new_template helper unicodedata_lookup fuel (m_re m) binary
          (pieces_text ps) use_format with
  | Returns t => expander_expand m t = Returns (pieces_out binary ps)
  | _ => False
  end.
Proof.
  intros Hok Hh Hj Hfuel. unfold new_template.
  destruct (parse_tokens_pieces binary use_format unicodedata_lookup ps fuel
              Hok Hfuel) as (s & Hp & Hl & Hg).
  rewrite Hp, Hl. unfold regex_parse_template. rewrite Hh.
  rewrite split_parts_literals. unfold expander_expand. cbn [rt_literals].
  rewrite expand_loop_literals. cbn [List.app]. now rewrite Hj.
Qed.

End Host.





End PieceFacts.

(** ** Compiled replacements *)

Module CompileFacts.
Import Replace Shapes Forms StringFacts.



Section Tokens.
Variable binary : bool.
Variable use_format : bool.
Variable unicodedata_lookup : string -> option Z.

Abbreviation cst full idx ef gs ls res sp stk sl ma au ai :=
  (mkCompiler (Replace.mkTokens full idx) ef gs ls res sp stk sl ma au ai).

(** The main loop of the compiler over literal text. *)
Lemma parse_loop_text (a : string) :
  forall (f : nat) (full : string) (idx : nat) (rest : string)
         ef gs ls res sp stk sl ma au ai,
    all (literal_char use_format) a = true ->
    drop idx full = a ++ rest ->
    parse_loop binary use_format unicodedata_lookup (String.length a + f)
      (cst full idx ef gs ls res sp stk sl ma au ai)
    = parse_loop binary use_format unicodedata_lookup f
        (cst full (idx + String.length a) ef gs ls (res ++ Search.chars a)
           sp stk sl ma au ai).
Proof.
  induction a as [|c a IH];
    intros f full idx rest ef gs ls res sp stk sl ma au ai Hl Hd.
  - cbn. now rewrite Nat.add_0_r, List.app_nil_r.
  - cbn [all] in Hl. apply andb_true_iff in Hl. destruct Hl as [Hc Hl].
    cbn [String.length Nat.add].
    rewrite (PieceFacts.parse_loop_lit binary use_format unicodedata_lookup c _
               full idx (a ++ rest) _ _ _ _ _ _ _ _ _ _ Hc Hd).
    rewrite (IH f full (idx + 1)%nat rest _ _ _ _ _ _ _ _ _ _ Hl).
    + cbn [Search.chars]. rewrite <- List.app_assoc. cbn [List.app].
      now rewrite <- Nat.add_assoc.
    + rewrite Nat.add_1_r. apply (SearchFacts.drop_succ _ _ _ _ Hd).
Qed.

Lemma exactly_head (n : nat) (p : ascii -> bool) (c : ascii) (rest : string) :
  p c = false -> exactly (S n) p (String c rest) = None.
Proof. intros H. cbn [exactly]. now rewrite H. Qed.

Ltac decide_chars :=
  repeat match goal with
         | |- context [is_octal ?c] =>
             let v := eval vm_compute in (is_octal c) in
             change (is_octal c) with v
         | |- context [is_nonzero_digit ?c] =>
             let v := eval vm_compute in (is_nonzero_digit c) in
             change (is_nonzero_digit c) with v
         | |- context [in_chars ?s ?c] =>
             let v := eval vm_compute in (in_chars s c) in
             change (in_chars s c) with v
         | |- context [Ascii.eqb ?a ?b] =>
             let v := eval vm_compute in (Ascii.eqb a b) in
             change (Ascii.eqb a b) with v
         end;
  cbv iota beta; cbn [andb orb negb].

Lemma long_ref_match (r : long_ref) (rest : string) :
  long_argument r rest = None ->
  (text_only r = true -> binary = false) ->
  exists m,
    _replace_ref binary use_format (String (long_letter r) rest) = Some m
    /\ group0 m = str (long_letter r).
Proof.
  intros Ha Ht. unfold _replace_ref.
  destruct r; cbn [long_argument long_letter text_only] in *;
    try (rewrite (Ht eq_refl));
    destruct use_format; try destruct binary;
    unfold replace_group_ref, format_replace_ref;
    rewrite ?exactly_head by reflexivity;
    decide_chars; rewrite Ha;
    eexists; (split; [reflexivity | reflexivity]).
Qed.

(** The tokenizer at a reference whose argument is missing. *)
Lemma next_incomplete (r : long_ref) (full : string) (idx : nat) (rest : string)
    ef gs ls res sp stk sl ma au ai :
  long_argument r rest = None ->
  (text_only r = true -> binary = false) ->
  drop idx full = String "\" (String (long_letter r) rest) ->
  next binary use_format (cst full idx ef gs ls res sp stk sl ma au ai)
  = Raise (SyntaxError (long_message r))
      (cst full idx ef gs ls res sp stk sl ma au ai).
Proof.
  intros Ha Ht Hd. unfold next, iternext.
  cbn [i Replace.tok_string Replace.index].
  rewrite SearchFacts.get_drop, Hd. change (Ascii.eqb "\" "\") with true.
  cbv iota. rewrite (SearchFacts.drop_succ _ _ _ _ Hd).
  destruct (long_ref_match r rest Ha Ht) as (m & Hm & Hg).
  rewrite Hm, Hg. destruct r; reflexivity.
Qed.

Lemma parse_tokens_incomplete (r : long_ref) (a rest : string) (fuel : nat) :
  all (literal_char use_format) a = true ->
  long_argument r rest = None ->
  (text_only r = true -> binary = false) ->
  (String.length a + 1 <= fuel)%nat ->
  exists s,
    parse_tokens binary use_format unicodedata_lookup fuel
      (a ++ String "\" (String (long_letter r) rest))
    = Raise (SyntaxError (long_message r)) s.
Proof.
  intros Hl Ha Ht Hfuel. unfold parse_tokens, initial.
  replace fuel with (String.length a + S (fuel - String.length a - 1))%nat
    by lia.
  unfold bind at 1.
  rewrite (parse_loop_text a _ _ 0 _ _ _ _ _ _ _ _ _ _ _ Hl eq_refl).
  rewrite TemplateFacts.parse_loop_S.
  rewrite (next_incomplete r _ _ rest _ _ _ _ _ _ _ _ _ _ Ha Ht).
  - eexists. reflexivity.
  - apply (SearchFacts.drop_add (String.length a) 0 _ a _ eq_refl eq_refl).
Qed.

End Tokens.

(** A reference that takes an argument and comes without one, [\x]
    with no two hexadecimal digits behind it, [\g] with no group in angle
    brackets, and in text templates [\N], [\u] and [\U] alike, makes
    the template fail to compile with the [SyntaxError] of that
    reference, in format mode or not, whatever literal text precedes
    it. *)
Theorem incomplete_reference
    (helper : RegexPattern -> string -> exn + list (Z + string))
    (unicodedata_lookup : string -> option Z) (p : RegexPattern)
    (binary format : bool) (r : long_ref) (a rest : string) (fuel : nat) :
  all (literal_char format) a = true ->
  long_argument r rest = None ->
  (text_only r = true -> binary = false) ->
  (String.length a + 1 <= fuel)%nat ->
  compile_replace helper unicodedata_lookup fuel (PatternObj p)
    ((if binary then Bytes else Str)
       (a ++ String "\" (String (long_letter r) rest)))
    (if format then FORMAT else 0)
  = Raises (SyntaxError (long_message r)).
Proof.
  intros Hl Ha Ht Hfuel.
  destruct (parse_tokens_incomplete binary format unicodedata_lookup r a rest
              fuel Hl Ha Ht Hfuel) as (s & Hs).
  unfold compile_replace, new_template.
  assert (Hf : negb (Z.land (if format then FORMAT else 0) FORMAT =? 0)%Z = format)
    by (destruct format; reflexivity).
  rewrite Hf. destruct binary; rewrite Hs; reflexivity.
Qed.

Lemma incomplete_reference_witness :
  compile_replace Host.numbered_helper Host.no_names 8
    (PatternObj (mkPattern "(a)" 0 1)) (Str ("ab" ++ "\x" ++ "4g")) 0
  = Raises (SyntaxError "Format for byte is \xXX!").
Proof.
  apply (incomplete_reference Host.numbered_helper Host.no_names
           (mkPattern "(a)" 0 1) false false ByteRef "ab" "4g" 8);
    [reflexivity | reflexivity | discriminate | simpl; lia].
Defined.

(** *** Braces in format mode *)

Lemma span_rest_all (P p : ascii -> bool) (s : string) :
  all P s = true -> all P (snd (span p s)) = true.
Proof.
  induction s as [|c s IH]; intros H; [reflexivity|].
  cbn [span]. destruct (p c); [|exact H].
  cbn [all] in H. apply andb_true_iff in H.
  destruct (span p s) as [m r]. apply IH, H.
Qed.

Lemma field_name_rest_all (P : ascii -> bool) (s : string) :
  all P s = true -> all P (snd (field_name s)) = true.
Proof.
  intros H. unfold field_name. destruct s as [|c r]; [reflexivity|].
  destruct (is_alpha c).
  - pose proof (span_rest_all P is_word r) as Hs.
    destruct (span is_word r) as [w r1]. apply Hs.
    cbn [all] in H. apply andb_true_iff in H. apply H.
  - pose proof (span_rest_all P is_zero (String c r) H) as Hs.
    destruct (span is_zero (String c r)) as [z r1]. cbn [snd] in Hs.
    destruct r1 as [|d r2]; [reflexivity|].
    destruct (is_nonzero_digit d); [|exact Hs].
    cbn [all] in Hs. apply andb_true_iff in Hs. destruct Hs as [_ Hs].
    destruct r2 as [|e r3]; [reflexivity|].
    destruct (is_digit e); [|exact Hs].
    cbn [all] in Hs. apply andb_true_iff in Hs. apply Hs.
Qed.

Lemma subscript_rest_all (P : ascii -> bool) (s : string) :
  all P s = true -> all P (snd (subscript s)) = true.
Proof.
  intros H. unfold subscript. destruct s as [|c r]; [reflexivity|].
  destruct (Ascii.eqb c "[") eqn:E.
  - apply Ascii.eqb_eq in E. subst c.
    pose proof (span_rest_all P (fun c => negb (Ascii.eqb c "]")) r) as Hs.
    destruct (span (fun c => negb (Ascii.eqb c "]")) r) as [body r1].
    cbn [all] in H. apply andb_true_iff in H. specialize (Hs (proj2 H)).
    cbn [snd] in Hs.
    destruct body; [now apply andb_true_iff|].
    destruct r1 as [|d r2]; [now apply andb_true_iff|].
    cbn [all] in Hs. apply andb_true_iff in Hs. apply Hs.
  - assert (Hs : subscript (String c r) = (EmptyString, String c r)).
    { unfold subscript.
      destruct c as [[] [] [] [] [] [] [] []]; try reflexivity; discriminate. }
    unfold subscript in Hs. rewrite Hs. exact H.
Qed.

(** No field starts at an opening brace that brace-free text follows. *)
Lemma no_field (b : string) :
  all (literal_char true) b = true ->
  _format_replace_group (String "{" b) = None.
Proof.
  intros H.
  assert (Hb : match b with
               | String "{" _ => False
               | _ => True
               end).
  { destruct b as [|c b]; [exact I|].
    cbn [all] in H. apply andb_true_iff in H. destruct H as [H _].
    destruct c as [[] [] [] [] [] [] [] []]; try exact I; discriminate. }
  assert (Hg : _format_replace_group (String "{" b)
               = let (name, r1) := field_name b in
                 let (sub, r2) := subscript r1 in
                 match r2 with
                 | String "}" _ => Some (None, Some ("{" ++ name ++ sub ++ "}"))
                 | _ => None
                 end).
  { destruct b as [|c b]; [reflexivity|].
    destruct c as [[] [] [] [] [] [] [] []]; try reflexivity; contradiction. }
  rewrite Hg.
  pose proof (field_name_rest_all _ b H) as H1.
  destruct (field_name b) as [name r1]. cbn [snd] in H1.
  pose proof (subscript_rest_all _ r1 H1) as H2.
  destruct (subscript r1) as [sub r2]. cbn [snd] in H2.
  destruct r2 as [|c r2]; [reflexivity|].
  cbn [all] in H2. apply andb_true_iff in H2. destruct H2 as [H2 _].
  destruct c as [[] [] [] [] [] [] [] []]; try reflexivity; discriminate.
Qed.

(** Nor at a closing brace that no second one follows. *)
Lemma no_closing (rest : string) :
  startswith "}" rest = false ->
  _format_replace_group (String "}" rest) = None.
Proof.
  intros H. destruct rest as [|c rest]; [reflexivity|].
  cbn [startswith] in H. rewrite andb_true_r in H.
  destruct c as [[] [] [] [] [] [] [] []]; try reflexivity; discriminate.
Qed.

Lemma parse_tokens_brace (binary : bool) (unicodedata_lookup : string -> option Z)
    (c : ascii) (a rest : string) (fuel : nat) :
  all (literal_char true) a = true ->
  (c = "{"%char \/ c = "}"%char) ->
  _format_replace_group (String c rest) = None ->
  (String.length a + 1 <= fuel)%nat ->
  exists s,
    parse_tokens binary true unicodedata_lookup fuel (a ++ String c rest)
    = Raise (ValueError "Single unmatched curly bracket!") s.
Proof.
  intros Hl Hc Hg Hfuel. unfold parse_tokens, initial.
  replace fuel with (String.length a + S (fuel - String.length a - 1))%nat
    by lia.
  unfold bind at 1.
  rewrite (parse_loop_text binary true unicodedata_lookup a _ _ 0 _ _ _ _ _ _ _
             _ _ _ _ Hl eq_refl).
  rewrite TemplateFacts.parse_loop_S.
  unfold next, iternext. cbn [i Replace.tok_string Replace.index].
  rewrite SearchFacts.get_drop.
  rewrite (SearchFacts.drop_add (String.length a) 0 _ a _ eq_refl eq_refl).
  rewrite Hg. destruct Hc as [-> | ->]; eexists; reflexivity.
Qed.

(** In format mode a brace that is neither doubled nor part of a field
    makes the template fail to compile: a closing brace that no second
    one follows, and an opening brace followed by text with no brace in
    it. *)
Theorem unmatched_brace
    (helper : RegexPattern -> string -> exn + list (Z + string))
    (unicodedata_lookup : string -> option Z) (p : RegexPattern)
    (binary : bool) (a b rest : string) (fuel : nat) :
  all (literal_char true) a = true ->
  all (literal_char true) b = true ->
  startswith "}" rest = false ->
  (String.length a + 1 <= fuel)%nat ->
  compile_replace helper unicodedata_lookup fuel (PatternObj p)
    ((if binary then Bytes else Str) (a ++ "}" ++ rest)) FORMAT
  = Raises (ValueError "Single unmatched curly bracket!")
  /\ compile_replace helper unicodedata_lookup fuel (PatternObj p)
       ((if binary then Bytes else Str) (a ++ "{" ++ b)) FORMAT
     = Raises (ValueError "Single unmatched curly bracket!").
Proof.
  intros Ha Hb Hr Hfuel.
  destruct (parse_tokens_brace binary unicodedata_lookup "}" a rest fuel Ha
              (or_intror eq_refl) (no_closing rest Hr) Hfuel) as (s1 & H1).
  destruct (parse_tokens_brace binary unicodedata_lookup "{" a b fuel Ha
              (or_introl eq_refl) (no_field b Hb) Hfuel) as (s2 & H2).
  unfold compile_replace, new_template.
  change (negb (Z.land FORMAT FORMAT =? 0)%Z) with true.
  change ("}" ++ rest) with (String "}" rest).
  change ("{" ++ b) with (String "{" b).
  destruct binary; rewrite H1, H2; split; reflexivity.
Qed.

Lemma unmatched_brace_witness :
  compile_replace Host.numbered_helper Host.no_names 8
    (PatternObj (mkPattern "(a)" 0 1)) (Str ("ab" ++ "}" ++ "c}}")) FORMAT
  = Raises (ValueError "Single unmatched curly bracket!")
  /\ compile_replace Host.numbered_helper Host.no_names 8
       (PatternObj (mkPattern "(a)" 0 1)) (Str ("ab" ++ "{" ++ "1[0]")) FORMAT
     = Raises (ValueError "Single unmatched curly bracket!").
Proof.
  apply (unmatched_brace Host.numbered_helper Host.no_names
           (mkPattern "(a)" 0 1) false "ab" "1[0]" "c}}" 8);
    [reflexivity | reflexivity | reflexivity | simpl; lia].
Defined.

End CompileFacts.

(** ** Octal escapes *)

Module OctalFacts.
Import Replace Shapes Forms StringFacts.

(** Outside spans and directives an octal escape of three digits is
    kept as it is when its value is at most [0o377]; above that a text
    template gets the [\uXXXX] escape of the value and a byte template
    fails to compile. *)
Theorem octal_escape_range (unicodedata_lookup : string -> option Z)
    (n : Z) (fuel : nat) :
  (0 <= n < 512)%Z ->
  (2 <= fuel)%nat ->
  (exists s,
     parse_tokens false false unicodedata_lookup fuel ("\" ++ zero_padded 3 8 n)
     = Ok tt s
     /\ literal_slots s
        = [if (n <=? 255)%Z then "\" ++ zero_padded 3 8 n
           else "\u" ++ zero_padded 4 16 n]
     /\ group_slots s = [])
  /\ (exists s,
        parse_tokens true false unicodedata_lookup fuel ("\" ++ zero_padded 3 8 n)
        = (if (n <=? 255)%Z then Ok tt s
           else Raise (ValueError "octal escape value outside of range 0-0o377!") s)
        /\ ((n <=? 255)%Z = true ->
            literal_slots s = ["\" ++ zero_padded 3 8 n] /\ group_slots s = [])).
Proof.
  intros Hn Hfuel.
  replace fuel with (2 + (fuel - 2))%nat by lia.
  set (f := (fuel - 2)%nat). clearbody f. clear Hfuel fuel.
  pose (check := fun k : nat =>
    let n := Z.of_nat k in
    let template := "\" ++ zero_padded 3 8 n in
    match parse_tokens false false unicodedata_lookup (2 + f) template with
    | Ok _ s =>
        match literal_slots s, group_slots s with
        | [x], [] =>
            x =? (if (n <=? 255)%Z then template else "\u" ++ zero_padded 4 16 n)
        | _, _ => false
        end
    | _ => false
    end
    && match parse_tokens true false unicodedata_lookup (2 + f) template with
       | Ok _ s =>
           (n <=? 255)%Z
           && match literal_slots s, group_slots s with
              | [x], [] => x =? template
              | _, _ => false
              end
       | Raise (ValueError msg) _ =>
           negb (n <=? 255)%Z
           && (msg =? "octal escape value outside of range 0-0o377!")
       | _ => false
       end).
  assert (Hall : forallb check (seq 0 512) = true) by (vm_compute; reflexivity).
  rewrite forallb_forall in Hall.
  assert (Hk : In (Z.to_nat n) (seq 0 512)) by (apply in_seq; lia).
  specialize (Hall _ Hk). unfold check in Hall. clear check Hk.
  rewrite Z2Nat.id in Hall by lia. cbv zeta in Hall.
  apply andb_true_iff in Hall. destruct Hall as [H1 H2]. split.
  - destruct (parse_tokens false false _ _ _) as [[] s|e s|]; try discriminate.
    exists s. split; [reflexivity|].
    destruct (literal_slots s) as [|x [|y l]]; try discriminate.
    destruct (group_slots s); try discriminate.
    apply String.eqb_eq in H1. now subst x.
  - destruct (parse_tokens true false _ _ _) as [[] s|e s|]; try discriminate.
    + apply andb_true_iff in H2. destruct H2 as [Hle H2]. rewrite Hle.
      exists s. split; [reflexivity|]. intros _.
      destruct (literal_slots s) as [|x [|y l]]; try discriminate.
      destruct (group_slots s); try discriminate.
      apply String.eqb_eq in H2. now subst x.
    + destruct e; try discriminate.
      apply andb_true_iff in H2. destruct H2 as [Hle H2].
      apply negb_true_iff in Hle. rewrite Hle.
      apply String.eqb_eq in H2. subst msg.
      exists s. split; [reflexivity | discriminate].
Qed.

Lemma octal_escape_range_witness :
  (exists s,
     parse_tokens false false Host.no_names 4 ("\" ++ zero_padded 3 8 321)
     = Ok tt s
     /\ literal_slots s
        = [if (321 <=? 255)%Z then "\" ++ zero_padded 3 8 321
           else "\u" ++ zero_padded 4 16 321]
     /\ group_slots s = [])
  /\ (exists s,
        parse_tokens true false Host.no_names 4 ("\" ++ zero_padded 3 8 321)
        = (if (321 <=? 255)%Z then Ok tt s
           else Raise (ValueError "octal escape value outside of range 0-0o377!") s)
        /\ ((321 <=? 255)%Z = true ->
            literal_slots s = ["\" ++ zero_padded 3 8 321] /\ group_slots s = [])).
Proof.
  apply (octal_escape_range Host.no_names 321 4); lia.
Defined.



End OctalFacts.

(** ** A group reference among literal text *)

Module GroupFacts.
Import Replace Shapes Forms StringFacts SearchFacts TemplateFacts.

Section Compiler.
Variable binary : bool.
Variable unicodedata_lookup : string -> option Z.

Abbreviation cst full idx ef gs ls res sp stk sl ma au ai :=
  (mkCompiler (Replace.mkTokens full idx) ef gs ls res sp stk sl ma au ai).
Abbreviation parse_loop_ := (parse_loop binary false unicodedata_lookup).

Lemma octal_is_digit (c : ascii) : is_octal c = true -> is_digit c = true.
Proof.
  unfold is_octal, is_digit. intros H. apply andb_true_iff in H.
  destruct H as [H1 H2]. rewrite H1. cbn [andb].
  apply Nat.leb_le in H2. apply Nat.leb_le. lia.
Qed.

(** The reference pattern at a digit that no digit follows. *)
Lemma group_ref_then (g : ascii) (b : string) :
  is_nonzero_digit g = true ->
  starts_with_digit b = false ->
  replace_group_ref binary (String g b) = Some (only2 (str g)).
Proof.
  intros Hg Hb.
  assert (H3 : exactly 3 is_octal (String g b) = None).
  { cbn [exactly]. destruct (is_octal g); [|reflexivity].
    destruct b as [|c b]; [reflexivity|]. cbn [starts_with_digit] in Hb.
    destruct (is_octal c) eqn:Ec; [|reflexivity].
    apply octal_is_digit in Ec. congruence. }
  assert (H1 : at_most 1 is_digit b = "").
  { destruct b as [|c b]; [reflexivity|]. cbn [starts_with_digit] in Hb.
    cbn [at_most]. now rewrite Hb. }
  unfold replace_group_ref. rewrite H3, Hg, H1.
  destruct (Ascii.eqb g "\") eqn:E; [|reflexivity].
  apply Ascii.eqb_eq in E. subst g. discriminate.
Qed.

Lemma next_group_then (g : ascii) (full : string) (idx : nat) (b : string)
    ef gs ls res sp stk sl ma au ai :
  is_nonzero_digit g = true ->
  starts_with_digit b = false ->
  drop idx full = String "\" (String g b) ->
  next binary false (cst full idx ef gs ls res sp stk sl ma au ai)
  = Ok (String "\" (str g))
       (cst full (idx + 2) ef gs ls res sp stk sl ma au ai).
Proof.
  intros Hg Hb Hd. unfold next, iternext.
  cbn [i Replace.tok_string Replace.index].
  rewrite get_drop, Hd. change (Ascii.eqb "\" "\") with true. cbv iota.
  rewrite (drop_succ _ _ _ _ Hd). unfold _replace_ref.
  rewrite (group_ref_then g b Hg Hb).
  cbn [group0 group1 group2 group3 group4 only2 truthy text_of str
       String.length Nat.eqb andb negb orb append].
  fold (str g). rewrite (proj2 (group_ref binary g Hg)).
  unfold set_i. cbn [i end_found group_slots literal_slots result span_stack
                       single_stack slot manual auto auto_index
                       String.length str Nat.add].
  rewrite Nat.sub_0_r. reflexivity.
Qed.

(** What [handle_group] does to the compiler. *)
Lemma handle_group_at (text : string) (full : string) (idx : nat)
    ef gs ls res sp stk sl ma au ai :
  handle_group text (cst full idx ef gs ls res sp stk sl ma au ai)
  = Ok tt
      (if (1 <? List.length res)%nat then
         cst full idx ef
           (gs ++ [((sl + 1)%Z, (top sp, hd_error stk, (-1)%Z))])
           (ls ++ [join res; text]) [EmptyString] sp [] (sl + 1 + 1)%Z ma au ai
       else
         cst full idx ef
           (gs ++ [(sl, (top sp, hd_error stk, (-1)%Z))])
           (ls ++ [text]) res sp [] (sl + 1)%Z ma au ai).
Proof.
  unfold handle_group, bind, modify, get_single_stack.
  cbn [result]. destruct (1 <? List.length res)%nat;
    unfold set_slot, set_result, set_literal_slots, set_single_stack,
      set_group_slots;
    cbn [i end_found group_slots literal_slots result span_stack
           single_stack slot manual auto auto_index];
    now rewrite last_popped.
Qed.

Lemma parse_token_group (g : ascii) (f : nat) :
  is_nonzero_digit g = true ->
  parse_token binary false unicodedata_lookup f (String "\" (str g))
  = handle_group (String "\" (str g)).
Proof.
  intros Hg. unfold parse_token.
  cbn [str String.length Nat.ltb Nat.leb andb negb drop first_char take
       starts_with_digit Nat.eqb orb].
  now rewrite (nonzero_digit_is_digit g Hg).
Qed.

(** The main loop at a group reference, alone or under a directive. *)
Lemma parse_loop_group (od : option directive) (g : ascii) (f : nat)
    (full : string) (idx : nat) (b : string) ef gs ls res sp sl ma au ai :
  is_nonzero_digit g = true ->
  starts_with_digit b = false ->
  drop idx full = optional_directive od ++ String "\" (String g b) ->
  parse_loop_ (S (S f)) (cst full idx ef gs ls res sp [] sl ma au ai)
  = parse_loop_ (S f)
      (if (1 <? List.length res)%nat then
         cst full (idx + String.length (optional_directive od) + 2) ef
           (gs ++ [((sl + 1)%Z, (top sp, option_map case_of od, (-1)%Z))])
           (ls ++ [join res; String "\" (str g)]) [EmptyString] sp []
           (sl + 1 + 1)%Z ma au ai
       else
         cst full (idx + String.length (optional_directive od) + 2) ef
           (gs ++ [(sl, (top sp, option_map case_of od, (-1)%Z))])
           (ls ++ [String "\" (str g)]) res sp [] (sl + 1)%Z ma au ai).
Proof.
  intros Hg Hb Hd. rewrite parse_loop_S.
  remember (1 <? List.length res)%nat as r eqn:Hr.
  destruct od as [d|]; cbn [optional_directive option_map] in *.
  - rewrite (next_directive binary false d full idx _ _ _ _ _ _ _ _ _ _ _ Hd).
    unfold bind at 1. rewrite parse_token_directive.
    cbn [single_case]. unfold bind at 1, push_single, modify, set_single_stack.
    cbn [i end_found group_slots literal_slots result span_stack
           single_stack slot manual auto auto_index List.app].
    assert (Hd2 : drop (idx + 2) full = String "\" (String g b)).
    { apply (drop_add 2 idx full (directive_text d) _ Hd). destruct d; reflexivity. }
    unfold bind at 1.
    rewrite (next_group_then g full (idx + 2) b _ _ _ _ _ _ _ _ _ _ Hg Hb Hd2).
    cbn [str String.length Nat.ltb Nat.leb andb negb drop first_char take
         starts_with_digit Nat.eqb orb].
    rewrite (nonzero_digit_is_digit g Hg). cbn [andb orb].
    fold (str g). rewrite handle_group_at. cbn [hd_error].
    assert (Hlen : String.length (directive_text d) = 2%nat)
      by (destruct d; reflexivity).
    rewrite Hlen, <- Hr. destruct r; reflexivity.
  - rewrite (next_group_then g full idx b _ _ _ _ _ _ _ _ _ _ Hg Hb Hd).
    unfold bind at 1. rewrite (parse_token_group g _ Hg), handle_group_at.
    cbn [hd_error String.length]. rewrite Nat.add_0_r, <- Hr.
    destruct r; reflexivity.
Qed.

(** A template that is literal text, a group reference, alone or under
    a directive, and literal text again. *)
Lemma parse_tokens_group (od : option directive) (g : ascii) (a b : string)
    (fuel : nat) :
  all (literal_char false) a = true ->
  all (literal_char false) b = true ->
  is_nonzero_digit g = true ->
  starts_with_digit b = false ->
  (String.length a + String.length b + 2 <= fuel)%nat ->
  exists s,
    parse_tokens binary false unicodedata_lookup fuel
      (a ++ optional_directive od ++ String "\" (String g b))
    = Ok tt s
    /\ join (literal_slots s) = a ++ String "\" (String g b)
    /\ group_slots s
       = [(match a with EmptyString => 0%Z | _ => 1%Z end,
           (None, option_map case_of od, (-1)%Z))].
Proof.
  intros Ha Hb Hg Hbd Hfuel. unfold parse_tokens, initial.
  set (full := a ++ optional_directive od ++ String "\" (String g b)).
  set (na := String.length a) in *. set (nb := String.length b) in *.
  set (nd := String.length (optional_directive od)).
  replace fuel with (na + S (S (nb + (fuel - na - nb - 2))))%nat by lia.
  unfold bind at 1.
  rewrite (CompileFacts.parse_loop_text binary false unicodedata_lookup a _ full
             0 _ _ _ _ _ _ _ _ _ _ _ Ha eq_refl).
  fold na. cbn [Nat.add].
  assert (D1 : drop na full = optional_directive od ++ String "\" (String g b))
    by (apply (drop_add na 0 full a _ eq_refl eq_refl)).
  rewrite (parse_loop_group od g _ full na b _ _ _ _ _ _ _ _ _ Hg Hbd D1).
  fold nd.
  assert (D2 : drop (na + nd + 2) full = b ++ "").
  { rewrite app_nil_r.
    apply (drop_add 2 (na + nd) full (String "\" (str g)) b); [|reflexivity].
    apply (drop_add nd na full (optional_directive od) _ D1 eq_refl). }
  assert (D3 : drop (na + nd + 2 + nb) full = "")
    by (apply (drop_add nb _ full b "" D2 eq_refl)).
  replace (S (nb + (fuel - na - nb - 2)))
    with (nb + S (fuel - na - nb - 2))%nat by lia.
  assert (Hj : forall x, join ("" :: Search.chars x) = x).
  { intros x. rewrite (join_cons ""), join_chars. reflexivity. }
  destruct a as [|ca a].
  - change (1 <? List.length ([EmptyString] ++ Search.chars ""))%nat with false.
    cbv iota. change ([EmptyString] ++ Search.chars "")%list with [EmptyString].
    rewrite (CompileFacts.parse_loop_text binary false unicodedata_lookup b _
               full _ _ _ _ _ _ _ _ _ _ _ _ Hb D2).
    fold nb. rewrite parse_loop_S, next_at_end by exact D3.
    unfold modify. cbn [result].
    destruct (1 <? List.length ([EmptyString] ++ Search.chars b))%nat eqn:E;
      eexists; (split; [reflexivity|]); (split; [|reflexivity]).
    + unfold set_slot, set_result, set_literal_slots;
        cbn [i end_found group_slots literal_slots result span_stack
               single_stack slot manual auto auto_index List.app].
      rewrite Hj. reflexivity.
    + cbn [literal_slots List.app].
      destruct b as [|cb b]; [reflexivity | discriminate E].
  - assert (Hlen : (1 <? List.length ([EmptyString] ++ Search.chars (String ca a)))%nat
                   = true) by reflexivity.
    rewrite Hlen.
    rewrite (CompileFacts.parse_loop_text binary false unicodedata_lookup b _
               full _ _ _ _ _ _ _ _ _ _ _ _ Hb D2).
    fold nb. rewrite parse_loop_S, next_at_end by exact D3.
    unfold modify. cbn [result].
    destruct (1 <? List.length ([EmptyString] ++ Search.chars b))%nat eqn:E;
      eexists; (split; [reflexivity|]); (split; [|reflexivity]).
    + unfold set_slot, set_result, set_literal_slots;
        cbn [i end_found group_slots literal_slots result span_stack
               single_stack slot manual auto auto_index].
      change ([EmptyString] ++ Search.chars (String ca a))%list
        with ("" :: Search.chars (String ca a)).
      change ([EmptyString] ++ Search.chars b)%list with ("" :: Search.chars b).
      rewrite !Hj. reflexivity.
    + cbn [literal_slots].
      change ([EmptyString] ++ Search.chars (String ca a))%list
        with ("" :: Search.chars (String ca a)).
      rewrite Hj.
      destruct b as [|cb b]; [reflexivity | discriminate E].
Qed.

End Compiler.



End GroupFacts.

(** ** Replacement fields of format templates *)

Module FormatFacts.
Import Replace Shapes Forms StringFacts SearchFacts TemplateFacts.

Lemma digit_cases (g : ascii) :
  is_digit g = true ->
  In g ["0"; "1"; "2"; "3"; "4"; "5"; "6"; "7"; "8"; "9"]%char.
Proof.
  destruct g as [[] [] [] [] [] [] [] []]; intros H;
    try discriminate H; cbn; tauto.
Qed.

Ltac each_digit g H :=
  apply digit_cases in H; cbn [In] in H;
  repeat (destruct H as [H|H]; [subst g|]); [..|contradiction].

(** The field pattern at a field. *)
Lemma field_match (fd : field) (rest : string) :
  field_ok fd = true ->
  _format_replace_group (field_text fd ++ rest)
  = Some (None, Some (field_text fd)).
Proof.
  destruct fd as [|g]; cbn [field_ok field_text]; intros H; [reflexivity|].
  each_digit g H; reflexivity.
Qed.

Lemma field_name_of (fd : field) :
  field_ok fd = true ->
  strip (slice_to_last 1 (field_text fd))
  = match fd with
    | AutoField => EmptyString
    | ManualField g => str g
    end.
Proof.
  destruct fd as [|g]; cbn [field_ok field_text]; intros H; [reflexivity|].
  each_digit g H; reflexivity.
Qed.

Lemma field_length (fd : field) :
  String.length (field_text fd)
  = match fd with AutoField => 2%nat | ManualField _ => 3%nat end.
Proof. destruct fd; reflexivity. Qed.

Section Compiler.
Variable binary : bool.
Variable unicodedata_lookup : string -> option Z.

Abbreviation cst full idx ef gs ls res sp stk sl ma au ai :=
  (mkCompiler (Replace.mkTokens full idx) ef gs ls res sp stk sl ma au ai).
Abbreviation parse_loop_ := (parse_loop binary true unicodedata_lookup).

(** The tokenizer at a field. *)
Lemma next_field (fd : field) (full : string) (idx : nat) (rest : string)
    ef gs ls res sp stk sl ma au ai :
  field_ok fd = true ->
  drop idx full = field_text fd ++ rest ->
  next binary true (cst full idx ef gs ls res sp stk sl ma au ai)
  = Ok (field_text fd)
       (cst full (idx + String.length (field_text fd)) ef gs ls res sp stk sl
          ma au ai).
Proof.
  intros Hok Hd. unfold next, iternext.
  cbn [i Replace.tok_string Replace.index].
  rewrite get_drop, Hd, (field_match fd rest Hok).
  destruct fd as [|g]; cbn [field_text append]; cbn; rewrite Nat.sub_0_r;
    reflexivity.
Qed.

(** The compiler after a field named [name] has been placed. *)
#[warnings="-inconsistent-scopes"]
Abbreviation placed name full idx ef gs ls res sp sl ma au ai :=
  (if (1 <? List.length res)%nat then
     cst full idx ef (gs ++ [((sl + 1)%Z, (top sp, None, (-1)%Z))])
       (ls ++ [join res; "\g<"; name; ">"]) [EmptyString] sp []
       (sl + 1 + 1)%Z ma au ai
   else
     cst full idx ef (gs ++ [(sl, (top sp, None, (-1)%Z))])
       (ls ++ ["\g<"; name; ">"]) res sp [] (sl + 1)%Z ma au ai).

(** What [handle_format_group] does with a field. *)
Lemma handle_field_at (fd : field) (full : string) (idx : nat)
    ef gs ls res sp sl ma au ai :
  field_ok fd = true ->
  handle_format_group (strip (slice_to_last 1 (field_text fd)))
    (cst full idx ef gs ls res sp [] sl ma au ai)
  = match fd with
    | AutoField =>
        if au || negb ma then
          Ok tt (placed (int2str ai) full idx ef gs ls res sp sl ma true
                   (ai + 1)%Z)
        else
          Raise (ValueError "Cannot switch to auto format during manual format!")
            (cst full idx ef gs ls res sp [] sl ma au ai)
    | ManualField g =>
        if negb ma && au then
          Raise (ValueError "Cannot switch to manual format during auto format!")
            (cst full idx ef gs ls res sp [] sl ma au ai)
        else
          Ok tt (placed (str g) full idx ef gs ls res sp sl true au ai)
    end.
Proof.
  intros Hok. rewrite (field_name_of fd Hok).
  destruct fd as [|g]; cbn [field_ok] in Hok.
  - destruct au, ma; destruct res as [|x [|y res]]; reflexivity.
  - each_digit g Hok;
      destruct au, ma; destruct res as [|x [|y res]]; reflexivity.
Qed.

Lemma parse_token_field (fd : field) (f : nat) :
  parse_token binary true unicodedata_lookup f (field_text fd)
  = handle_format_group (strip (slice_to_last 1 (field_text fd))).
Proof. destruct fd; reflexivity. Qed.

(** The main loop at a field. *)
Lemma parse_loop_field (fd : field) (f : nat) (full : string) (idx : nat)
    (rest : string) ef gs ls res sp sl ma au ai :
  field_ok fd = true ->
  drop idx full = field_text fd ++ rest ->
  parse_loop_ (S f) (cst full idx ef gs ls res sp [] sl ma au ai)
  = match fd with
    | AutoField =>
        if au || negb ma then
          parse_loop_ f
            (placed (int2str ai) full (idx + 2) ef gs ls res sp sl ma true
               (ai + 1)%Z)
        else
          Raise (ValueError "Cannot switch to auto format during manual format!")
            (cst full (idx + 2) ef gs ls res sp [] sl ma au ai)
    | ManualField g =>
        if negb ma && au then
          Raise (ValueError "Cannot switch to manual format during auto format!")
            (cst full (idx + 3) ef gs ls res sp [] sl ma au ai)
        else
          parse_loop_ f (placed (str g) full (idx + 3) ef gs ls res sp sl true au ai)
    end.
Proof.
  intros Hok Hd. rewrite parse_loop_S.
  rewrite (next_field fd full idx rest _ _ _ _ _ _ _ _ _ _ Hok Hd).
  unfold bind at 1. rewrite parse_token_field, (handle_field_at fd) by exact Hok.
  rewrite field_length.
  destruct fd as [|g]; [destruct (au || negb ma) | destruct (negb ma && au)];
    reflexivity.
Qed.

Ltac decide_flush :=
  repeat match goal with
         | |- context [(1 <? List.length ?l)%nat] =>
             let v := eval cbv in (1 <? List.length l)%nat in
             change (1 <? List.length l)%nat with v
         end;
  cbv iota.

(** The main loop up to a second field: literal text, a first field
    and literal text again. *)
Lemma parse_loop_first_field (fd : field) (a b rest : string) (f : nat) :
  field_ok fd = true ->
  all (literal_char true) a = true ->
  all (literal_char true) b = true ->
  exists gs ls res sl,
    parse_loop_ (String.length a + S (String.length b + f))
      (initial (a ++ field_text fd ++ b ++ rest))
    = parse_loop_ f
        (cst (a ++ field_text fd ++ b ++ rest)
           (String.length a + String.length (field_text fd) + String.length b)
           false gs ls res [] [] sl
           (match fd with AutoField => false | ManualField _ => true end)
           (match fd with AutoField => true | ManualField _ => false end)
           (match fd with AutoField => 1%Z | ManualField _ => 0%Z end))
    /\ join ls
       = a ++ "\g<" ++ match fd with
                       | AutoField => "0"
                       | ManualField g => str g
                       end ++ ">"
    /\ gs = [(match a with EmptyString => 0%Z | _ => 1%Z end,
              (None, None, (-1)%Z))]
    /\ sl = (match a with EmptyString => 1%Z | _ => 2%Z end)
    /\ res = ([EmptyString] ++ Search.chars b)%list.
Proof.
  intros Hok Ha Hb. unfold initial.
  set (full := a ++ field_text fd ++ b ++ rest).
  rewrite (CompileFacts.parse_loop_text binary true unicodedata_lookup a _ full
             0 _ _ _ _ _ _ _ _ _ _ _ Ha eq_refl).
  assert (D1 : drop (String.length a) full = field_text fd ++ b ++ rest)
    by (apply (drop_add _ 0 full a _ eq_refl eq_refl)).
  cbn [Nat.add].
  rewrite (parse_loop_field fd _ full _ _ _ _ _ _ _ _ _ _ _ Hok D1).
  assert (D2 : drop (String.length a + String.length (field_text fd)) full
               = b ++ rest)
    by (apply (drop_add _ _ full (field_text fd) _ D1 eq_refl)).
  assert (Hj : forall x, join ("" :: Search.chars x) = x).
  { intros x. rewrite (join_cons ""), join_chars. reflexivity. }
  rewrite field_length in *.
  destruct fd as [|g]; cbn [orb negb andb]; destruct a as [|ca a];
    decide_flush;
    (rewrite (CompileFacts.parse_loop_text binary true unicodedata_lookup b _
                full _ _ _ _ _ _ _ _ _ _ _ _ Hb D2));
    do 4 eexists; (split; [reflexivity|]);
    (split; [|repeat split]);
    change (int2str 0) with "0"; cbn [Search.chars List.app];
    rewrite ?join_app, ?join_cons, ?join_chars;
    change (join []) with ""; rewrite ?app_nil_r, ?app_assoc;
    cbn [append str]; reflexivity.
Qed.

(** A second field of the other kind is refused. *)
Lemma parse_tokens_mixed (f1 f2 : field) (a b rest : string) (fuel : nat) :
  field_ok f1 = true ->
  field_ok f2 = true ->
  field_names f1 f2 = None ->
  all (literal_char true) a = true ->
  all (literal_char true) b = true ->
  (String.length a + String.length b + 2 <= fuel)%nat ->
  exists s,
    parse_tokens binary true unicodedata_lookup fuel
      (a ++ field_text f1 ++ b ++ field_text f2 ++ rest)
    = Raise (ValueError
               (match f2 with
                | AutoField =>
                    "Cannot switch to auto format during manual format!"
                | ManualField _ =>
                    "Cannot switch to manual format during auto format!"
                end)) s.
Proof.
  intros H1 H2 Hn Ha Hb Hfuel. unfold parse_tokens.
  replace fuel
    with (String.length a
          + S (String.length b + S (fuel - String.length a - String.length b - 2)))%nat
    by lia.
  destruct (parse_loop_first_field f1 a b (field_text f2 ++ rest)
              (S (fuel - String.length a - String.length b - 2)) H1 Ha Hb)
    as (gs & ls & res & sl & Hp & _ & _ & _ & ->).
  unfold bind at 1. rewrite Hp.
  assert (D3 : drop (String.length a + String.length (field_text f1)
                     + String.length b)
                 (a ++ field_text f1 ++ b ++ field_text f2 ++ rest)
               = field_text f2 ++ rest).
  { apply (drop_add _ _ _ b _); [|reflexivity].
    apply (drop_add _ _ _ (field_text f1) _); [|reflexivity].
    apply (drop_add _ 0 _ a _ eq_refl eq_refl). }
  rewrite (parse_loop_field f2 _ _ _ _ _ _ _ _ _ _ _ _ _ H2 D3).
  destruct f1, f2; try discriminate Hn; cbn [orb negb andb]; eexists;
    reflexivity.
Qed.

(** Two fields of one kind among literal text. *)
Lemma parse_tokens_two_fields (f1 f2 : field) (n1 n2 : string)
    (a b c : string) (fuel : nat) :
  field_ok f1 = true ->
  field_ok f2 = true ->
  field_names f1 f2 = Some (n1, n2) ->
  all (literal_char true) a = true ->
  all (literal_char true) b = true ->
  all (literal_char true) c = true ->
  (String.length a + String.length b + String.length c + 3 <= fuel)%nat ->
  exists s,
    parse_tokens binary true unicodedata_lookup fuel
      (a ++ field_text f1 ++ b ++ field_text f2 ++ c)
    = Ok tt s
    /\ join (literal_slots s)
       = a ++ "\g<" ++ n1 ++ ">" ++ b ++ "\g<" ++ n2 ++ ">" ++ c
    /\ exists k1 k2,
         group_slots s
         = [(k1, (None, None, (-1)%Z)); (k2, (None, None, (-1)%Z))].
Proof.
  intros H1 H2 Hn Ha Hb Hc Hfuel. unfold parse_tokens.
  set (full := a ++ field_text f1 ++ b ++ field_text f2 ++ c).
  set (na := String.length a) in *. set (nb := String.length b) in *.
  set (nc := String.length c) in *.
  replace fuel with (na + S (nb + S (nc + S (fuel - na - nb - nc - 3))))%nat
    by lia.
  destruct (parse_loop_first_field f1 a b (field_text f2 ++ c)
              (S (nc + S (fuel - na - nb - nc - 3))) H1 Ha Hb)
    as (gs & ls & res & sl & Hp & Hj1 & -> & _ & ->).
  unfold bind at 1. fold full na nb in Hp. rewrite Hp.
  assert (D3 : drop (na + String.length (field_text f1) + nb) full
               = field_text f2 ++ c).
  { apply (drop_add _ _ _ b _); [|reflexivity].
    apply (drop_add _ _ _ (field_text f1) _); [|reflexivity].
    apply (drop_add _ 0 _ a _ eq_refl eq_refl). }
  rewrite (parse_loop_field f2 _ _ _ _ _ _ _ _ _ _ _ _ _ H2 D3).
  assert (D4 : drop (na + String.length (field_text f1) + nb
                     + String.length (field_text f2)) full = c ++ "").
  { rewrite app_nil_r. apply (drop_add _ _ _ (field_text f2) _ D3 eq_refl). }
  assert (D5 : drop (na + String.length (field_text f1) + nb
                     + String.length (field_text f2) + nc) full = "")
    by (apply (drop_add _ _ _ c _ D4 eq_refl)).
  assert (Hj : forall x, join ("" :: Search.chars x) = x).
  { intros x. rewrite (join_cons ""), join_chars. reflexivity. }
  rewrite !field_length in *.
  destruct f1 as [|g1], f2 as [|g2]; try discriminate Hn;
    injection Hn as <- <-; cbn [orb negb andb];
    destruct b as [|cb b]; decide_flush;
    (rewrite (CompileFacts.parse_loop_text binary true unicodedata_lookup c _
                full _ _ _ _ _ _ _ _ _ _ _ _ Hc D4));
    fold nc; rewrite parse_loop_S, next_at_end by exact D5;
    unfold modify; cbn [result];
    destruct c as [|cc c]; decide_flush;
    eexists; (split; [reflexivity|]);
    (split; [|do 2 eexists; reflexivity]);
    unfold set_slot, set_result, set_literal_slots;
    cbn [i end_found group_slots literal_slots result span_stack
           single_stack slot manual auto auto_index].
  all: cbn [Search.chars List.app].
  all: rewrite ?join_app, ?join_cons, ?join_chars, Hj1.
  all: change (join []) with ""; change (int2str 1) with "1".
  all: rewrite ?app_nil_r, ?app_assoc; cbn [append str]; reflexivity.
Qed.

End Compiler.

(** In a format template the empty field and the numbered field do
    not mix: after a field of one kind, a field of the other kind makes
    the template fail to compile, whatever literal text stands between
    them and whatever follows. *)
Theorem field_kinds_do_not_mix
    (helper : RegexPattern -> string -> exn + list (Z + string))
    (unicodedata_lookup : string -> option Z) (p : RegexPattern)
    (binary : bool) (g : ascii) (a b rest : string) (fuel : nat) :
  is_digit g = true ->
  all (literal_char true) a = true ->
  all (literal_char true) b = true ->
  (String.length a + String.length b + 2 <= fuel)%nat ->
  compile_replace helper unicodedata_lookup fuel (PatternObj p)
    ((if binary then Bytes else Str)
       (a ++ "{}" ++ b ++ String "{" (String g "}") ++ rest)) FORMAT
  = Raises (ValueError "Cannot switch to manual format during auto format!")
  /\ compile_replace helper unicodedata_lookup fuel (PatternObj p)
       ((if binary then Bytes else Str)
          (a ++ String "{" (String g "}") ++ b ++ "{}" ++ rest)) FORMAT
     = Raises (ValueError "Cannot switch to auto format during manual format!").
Proof.
  intros Hg Ha Hb Hfuel.
  destruct (parse_tokens_mixed binary unicodedata_lookup AutoField
              (ManualField g) a b rest fuel eq_refl Hg eq_refl Ha Hb Hfuel)
    as (s1 & E1).
  destruct (parse_tokens_mixed binary unicodedata_lookup (ManualField g)
              AutoField a b rest fuel Hg eq_refl eq_refl Ha Hb Hfuel)
    as (s2 & E2).
  cbn [field_text] in E1, E2.
  unfold compile_replace, new_template.
  change (negb (Z.land FORMAT FORMAT =? 0)%Z) with true.
  destruct binary; rewrite E1, E2; split; reflexivity.
Qed.

Lemma field_kinds_do_not_mix_witness :
  compile_replace Host.numbered_helper Host.no_names 12
    (PatternObj (mkPattern "(a)(b)" 0 1))
    (Str ("x" ++ "{}" ++ "-" ++ String "{" (String "1" "}") ++ "y")) FORMAT
  = Raises (ValueError "Cannot switch to manual format during auto format!")
  /\ compile_replace Host.numbered_helper Host.no_names 12
       (PatternObj (mkPattern "(a)(b)" 0 1))
       (Str ("x" ++ String "{" (String "1" "}") ++ "-" ++ "{}" ++ "y")) FORMAT
     = Raises (ValueError "Cannot switch to auto format during manual format!").
Proof.
  apply (field_kinds_do_not_mix Host.numbered_helper Host.no_names
           (mkPattern "(a)(b)" 0 1) false "1" "x" "-" "y" 12);
    [reflexivity | reflexivity | reflexivity | simpl; lia].
Defined.

Lemma plain_attributes (k1 k2 x : Z) :
  get_group_attributes
    [(k1, (None, None, (-1)%Z)); (k2, (None, None, (-1)%Z))] x
  = (None, None, (-1)%Z).
Proof.
  cbn [get_group_attributes].
  destruct (k1 =? x)%Z, (k2 =? x)%Z; reflexivity.
Qed.

(** Two fields of one kind among literal text, both empty (numbered
    zero and one by the template) or both numbered by a digit: the text
    around them is kept and each field is replaced by the last capture
    of its group. The host engine's template grammar is assumed to
    split the compiled template at its two group references. *)
Theorem fields_expand
    (helper : RegexPattern -> string -> exn + list (Z + string))
    (unicodedata_lookup : string -> option Z) (m : Match)
    (f1 f2 : field) (n1 n2 : string) (G1 G2 : Z) (a b c : string)
    (e1 e2 : list string) (c1 c2 : string) (fuel : nat) :
  field_ok f1 = true ->
  field_ok f2 = true ->
  field_names f1 f2 = Some (n1, n2) ->
  all (literal_char true) a = true ->
  all (literal_char true) b = true ->
  all (literal_char true) c = true ->
  helper (m_re m) (a ++ "\g<" ++ n1 ++ ">" ++ b ++ "\g<" ++ n2 ++ ">" ++ c)
  = inr (literal_part a ++ [inl G1] ++ literal_part b ++ [inl G2]
         ++ literal_part c)%list ->
  m_captures m (Some G1) = inr (e1 ++ [c1])%list ->
  m_captures m (Some G2) = inr (e2 ++ [c2])%list ->
  (String.length a + String.length b + String.length c + 3 <= fuel)%nat ->
  expandf helper unicodedata_lookup fuel (Some m)
    (Str (a ++ field_text f1 ++ b ++ field_text f2 ++ c))
  = Returns (Some (a ++ c1 ++ b ++ c2 ++ c)).
Proof.
  intros H1 H2 Hn Ha Hb Hc Hh Hc1 Hc2 Hfuel.
  destruct (parse_tokens_two_fields false unicodedata_lookup f1 f2 n1 n2 a b c
              fuel H1 H2 Hn Ha Hb Hc Hfuel)
    as (s & Hp & Hl & k1 & k2 & Hgs).
  unfold expandf, _apply_replace_backrefs, new_template.
  change (negb (Z.land FORMAT FORMAT =? 0)%Z) with true.
  rewrite Hp, Hl, Hgs. unfold regex_parse_template. rewrite Hh.
  unfold expander_expand.
  assert (Hg1 : getitem (e1 ++ [c1])%list (-1) = Some c1)
    by apply ExpandFacts.getitem_last.
  assert (Hg2 : getitem (e2 ++ [c2])%list (-1) = Some c2)
    by apply ExpandFacts.getitem_last.
  destruct a as [|ca a], b as [|cb b], c as [|cc c];
    cbn [literal_part List.app split_parts rt_literals expand_loop];
    unfold expand_group;
    cbn [rt_groups rt_group_slots get_group_index Z.eqb Z.add Pos.eqb Pos.add];
    rewrite !plain_attributes, ?Hc1, ?Hg1;
    cbn [expand_loop List.app];
    cbn [rt_groups rt_group_slots get_group_index Z.eqb Z.add Pos.eqb Pos.add
         Pos.succ];
    rewrite ?plain_attributes, ?Hc2, ?Hg2;
    cbn [expand_loop List.app]; unfold join; cbn [String.concat];
    rewrite ?app_nil_r; reflexivity.
Qed.

Lemma fields_expand_witness :
  let m :=
    mkMatch "ab" (mkPattern "(a)(b)" 0 1)
      (fun g => if (text_of (option_map int2str g) =? "1")%string
                then inr ["a"] else inr ["x"; "b"]) in
  expandf Host.numbered_helper Host.no_names 16 (Some m)
    (Str ("<" ++ field_text (ManualField "2") ++ "-"
          ++ field_text (ManualField "1") ++ ">"))
  = Returns (Some ("<" ++ "b" ++ "-" ++ "a" ++ ">")).
Proof.
  intros m.
  apply (fields_expand Host.numbered_helper Host.no_names m
           (ManualField "2") (ManualField "1") "2" "1" 2 1
           "<" "-" ">" ["x"] [] "b" "a" 16);
    [reflexivity | reflexivity | reflexivity | reflexivity | reflexivity
    | reflexivity | reflexivity | reflexivity | reflexivity | simpl; lia].
Defined.

End FormatFacts.

(** ** Inline comments and the end of the pattern *)

Module CommentFacts.
Import Search Shapes Forms StringFacts SearchFacts.

(** Members with no quote mark among them are transparent to
    [quote_free]. *)
Lemma quote_free_after (P : member -> bool) (ms : list member) (r : string) :
  (forall m, P m = true ->
     match m with
     | Plain c => Ascii.eqb c "\" = false
     | Esc c => Ascii.eqb c "Q" = false /\ Ascii.eqb c "E" = false
     end) ->
  forallb P ms = true ->
  quote_free false (members_text ms ++ r) = quote_free false r.
Proof.
  intros HP. induction ms as [|m ms IH]; intros Hm; [reflexivity|].
  cbn [forallb] in Hm. apply andb_true_iff in Hm. destruct Hm as [H1 Hm].
  specialize (HP m H1). cbn [members_text]. rewrite app_assoc.
  destruct m as [c|c]; cbn [member_text append str quote_free].
  - rewrite HP. now apply IH.
  - change (Ascii.eqb "\" "\") with true. cbv iota.
    destruct HP as [HQ HE]. rewrite HQ, HE. now apply IH.
Qed.

Lemma pattern_member_marks (v : bool) (m : member) :
  pattern_member v m = true ->
  match m with
  | Plain c => Ascii.eqb c "\" = false
  | Esc c => Ascii.eqb c "Q" = false /\ Ascii.eqb c "E" = false
  end.
Proof.
  destruct m as [c|c]; cbn [pattern_member]; intros H.
  - unfold plainb in H. apply negb_true_iff in H.
    repeat (apply orb_false_iff in H; destruct H as [H ?]). exact H.
  - apply negb_true_iff, orb_false_iff in H. exact H.
Qed.

Lemma comment_member_marks (m : member) :
  comment_member m = true ->
  match m with
  | Plain c => Ascii.eqb c "\" = false
  | Esc c => Ascii.eqb c "Q" = false /\ Ascii.eqb c "E" = false
  end.
Proof.
  destruct m as [c|c]; cbn [comment_member]; intros H;
    apply negb_true_iff in H;
    repeat (apply orb_false_iff in H; destruct H as [H ?]); auto.
Qed.

(** A backslash that ends the pattern is kept: the members before it
    are handled as everywhere, and the lone backslash is put out as it
    is. *)
Theorem trailing_backslash_kept (escape : string -> string) (binary : bool)
    (re_verbose : bool) (re_version : Z) (ms : list member) (fuel : nat) :
  forallb (pattern_member re_verbose) ms = true ->
  (List.length ms + 3 <= fuel)%nat ->
  apply escape binary fuel re_verbose re_version (members_text ms ++ "\")
  = Returns (join (expansion_tokens binary ms) ++ "\").
Proof.
  intros Hp Hfuel. unfold apply.
  rewrite process_quotes_quote_free.
  2:{ rewrite (quote_free_after _ ms "\" (pattern_member_marks re_verbose) Hp).
      reflexivity. }
  set (s := members_text ms ++ "\").
  replace fuel with (S (List.length ms + S (S (fuel - List.length ms - 3))))
    by lia.
  rewrite apply_loop_S. unfold main_group.
  rewrite (PreprocessFacts.main_loop_members binary ms _ [] s 0 _ _ "\" Hp eq_refl).
  cbn [Nat.add List.app].
  assert (D : drop (String.length (members_text ms)) s = "\")
    by (apply (drop_add _ 0 s (members_text ms) _ eq_refl eq_refl)).
  rewrite main_group_loop_S, (next_char _ _ _ _ _ _ D).
  cbn [normal]. change (str "\" =? "\") with true. cbv iota.
  unfold reference.
  rewrite (next_stop _ _ _ _ (drop_succ _ _ _ _ D)).
  rewrite main_loop_end by (apply (drop_succ _ _ _ _ D)).
  now rewrite join_snoc.
Qed.

Lemma trailing_backslash_kept_witness :
  apply Host.regex_escape false 8 false 0
    (members_text [Plain "a"; Esc "<"; Plain "b"] ++ "\")
  = Returns (join (expansion_tokens false [Plain "a"; Esc "<"; Plain "b"]) ++ "\").
Proof.
  apply (trailing_backslash_kept Host.regex_escape false false 0
           [Plain "a"; Esc "<"; Plain "b"] 8); [reflexivity | simpl; lia].
Defined.

(** *** Inline comments *)

Lemma until_paren_members (cms : list member) (rest : string) :
  forallb comment_member cms = true ->
  until_paren (members_text cms ++ String ")" rest)
  = (members_text cms, String ")" rest).
Proof.
  induction cms as [|m cms IH]; intros H; [reflexivity|].
  cbn [forallb] in H. apply andb_true_iff in H. destruct H as [Hm H].
  cbn [members_text]. rewrite app_assoc.
  destruct m as [c|c]; cbn [comment_member] in Hm; apply negb_true_iff in Hm;
    repeat (apply orb_false_iff in Hm; destruct Hm as [Hm ?]);
    cbn [member_text append str until_paren].
  - rewrite H0, (IH H). reflexivity.
  - change (Ascii.eqb "\" ")") with false. cbv iota.
    rewrite H0, (IH H). reflexivity.
Qed.

Lemma no_flags_at_comment (globals dash : bool) (close : ascii) (r : string) :
  match_flag_group globals dash close (String "(" (String "?" (String "#" r)))
  = None.
Proof.
  unfold match_flag_group. cbn [flag_items].
  change (in_chars "Laberup" "#") with false.
  change (in_chars "imsfwx" "#") with false.
  rewrite andb_false_r. cbv iota.
  destruct r as [|d r]; [reflexivity|].
  change (Ascii.eqb "#" "V") with false. change (Ascii.eqb "#" "-") with false.
  rewrite !andb_false_r. reflexivity.
Qed.

Section Main.
Variable binary : bool.

(** The main loop at an inline comment. *)
Lemma main_loop_inline_comment (cms : list member) (f : nat)
    (cur : list string) (s : string) (n : nat) (v : bool) (ver : Z)
    (rest : string) :
  forallb comment_member cms = true ->
  drop n s = "(?#" ++ members_text cms ++ String ")" rest ->
  main_group_loop binary (S (S (S f))) cur (at_ s n v ver)
  = main_group_loop binary (S (S f))
      (cur ++ ["(?#" ++ members_text cms ++ ")"])
      (at_ s (n + (String.length (members_text cms) + 4)) v ver).
Proof.
  intros Hc Hd. rewrite main_group_loop_S.
  rewrite (next_char s n v ver "(" _ Hd).
  change (str "(") with "(". rewrite SafetyFacts.normal_S.
  change ("(" =? "\") with false. change ("(" =? "(") with true. cbv iota.
  rewrite SafetyFacts.subgroup_S. cbn [version].
  unfold get_flags.
  rewrite (get_lexeme_none _ s n v ver).
  2:{ rewrite Hd. destruct (negb (ver =? VERSION0)%Z);
        apply no_flags_at_comment. }
  unfold get_comments.
  rewrite (get_lexeme_some _re_comments s n v ver
             ("(?#" ++ members_text cms ++ ")")).
  2:{ rewrite Hd. unfold _re_comments. cbn [append].
      now rewrite (until_paren_members cms rest Hc). }
  f_equal. f_equal. f_equal. rewrite !length_app. cbn [String.length]. lia.
Qed.

End Main.

(** An inline comment [(?#...)] is copied as it stands: shorthands
    in its body are not expanded, and the members before and after it
    are handled as everywhere. *)
Theorem inline_comment_verbatim (escape : string -> string) (binary : bool)
    (re_verbose : bool) (re_version : Z) (ms1 cms ms2 : list member)
    (fuel : nat) :
  forallb (pattern_member re_verbose) ms1 = true ->
  forallb comment_member cms = true ->
  forallb (pattern_member re_verbose) ms2 = true ->
  (List.length ms1 + List.length ms2 + 5 <= fuel)%nat ->
  apply escape binary fuel re_verbose re_version
    (members_text ms1 ++ "(?#" ++ members_text cms ++ ")" ++ members_text ms2)
  = Returns (join (expansion_tokens binary ms1)
             ++ "(?#" ++ members_text cms ++ ")"
             ++ join (expansion_tokens binary ms2)).
Proof.
  intros H1 Hc H2 Hfuel. unfold apply.
  set (s := members_text ms1 ++ "(?#" ++ members_text cms ++ ")"
            ++ members_text ms2).
  rewrite process_quotes_quote_free.
  2:{ unfold s.
      rewrite (quote_free_after _ ms1 _ (pattern_member_marks re_verbose) H1).
      cbn [append quote_free].
      change (Ascii.eqb "(" "\") with false. change (Ascii.eqb "?" "\") with false.
      change (Ascii.eqb "#" "\") with false. cbv iota.
      rewrite (quote_free_after _ cms _ comment_member_marks Hc).
      cbn [append quote_free]. change (Ascii.eqb ")" "\") with false. cbv iota.
      apply (PreprocessFacts.quote_free_pattern_members _ _ H2). }
  set (ver := if (re_version =? 0)%Z then DEFAULT_VERSION else re_version).
  set (n1 := String.length (members_text ms1)).
  set (nc := String.length (members_text cms)).
  replace fuel
    with (S (List.length ms1
             + S (S (S (List.length ms2
                        + (fuel - List.length ms1 - List.length ms2 - 4))))))
    by lia.
  rewrite apply_loop_S. unfold main_group.
  rewrite (PreprocessFacts.main_loop_members binary ms1 _ [] s 0 _ _ _ H1 eq_refl).
  cbn [Nat.add List.app]. fold n1.
  assert (D1 : drop n1 s
               = "(?#" ++ members_text cms ++ String ")" (members_text ms2))
    by (apply (drop_add _ 0 s (members_text ms1) _ eq_refl eq_refl)).
  rewrite (main_loop_inline_comment binary cms _ _ s n1 _ _ _ Hc D1).
  fold nc.
  assert (D2 : drop (n1 + (nc + 4)) s = members_text ms2 ++ "").
  { rewrite app_nil_r.
    apply (drop_add _ n1 s ("(?#" ++ members_text cms ++ ")") _).
    - rewrite D1. now rewrite !app_assoc.
    - rewrite !length_app. cbn [String.length]. fold nc. lia. }
  replace (S (S (List.length ms2
                 + (fuel - List.length ms1 - List.length ms2 - 4))))
    with (List.length ms2
          + S (S (fuel - List.length ms1 - List.length ms2 - 4)))%nat by lia.
  rewrite (PreprocessFacts.main_loop_members binary ms2 _ _ s _ _ _ "" H2 D2).
  rewrite main_loop_end.
  - f_equal. rewrite !join_app. cbn [join String.concat].
    now rewrite !app_assoc.
  - apply (drop_add _ _ s (members_text ms2) "" D2 eq_refl).
Qed.

Lemma inline_comment_verbatim_witness :
  apply Host.regex_escape false 12 true 0
    (members_text [Plain "a"; Esc "<"] ++ "(?#" ++ members_text [Plain "#"; Esc "<"]
     ++ ")" ++ members_text [Esc ">"; Plain "b"])
  = Returns (join (expansion_tokens false [Plain "a"; Esc "<"])
             ++ "(?#" ++ members_text [Plain "#"; Esc "<"] ++ ")"
             ++ join (expansion_tokens false [Esc ">"; Plain "b"])).
Proof.
  apply (inline_comment_verbatim Host.regex_escape false true 0
           [Plain "a"; Esc "<"] [Plain "#"; Esc "<"] [Esc ">"; Plain "b"] 12);
    [reflexivity | reflexivity | reflexivity | simpl; lia].
Defined.

End CommentFacts.

(** ** The scope of a scoped verbose flag *)

Module ScopeFacts.
Import Search Shapes Forms StringFacts SearchFacts.

Section Scope.
Variable binary : bool.

(** [normal] at a comment that its line break ends, in verbose mode. *)
Lemma normal_comment_line (c : string) (f : nat) (s : string) (n : nat)
    (ver : Z) (rest : string) :
  all comment_char c = true ->
  drop n s = c ++ String "010" rest ->
  normal binary (S (S (String.length c) + S f)) "#" (at_ s n true ver)
  = Ok (chars ("#" ++ c) ++ [NL])%list
       (at_ s (n + String.length c + 1) true ver).
Proof.
  intros Hc Hd. rewrite normal_hash_verbose. unfold verbose_comment, bind.
  change "#" with (str "#") at 1.
  change (S (String.length c) + S f)%nat
    with (String.length (String "#" c) + S f)%nat.
  rewrite (comment_loop_run (String "#" c) (S f) "#" (c ++ String "010" rest)
             [] s n true ver "010" rest);
    [| cbn [all]; rewrite Hc; reflexivity | reflexivity | exact Hd].
  rewrite verbose_comment_loop_S.
  change (str "010" =? NL) with true. cbv iota. unfold ret.
  change (str "010" =? NL) with true. cbv iota.
  cbn [List.app String.length].
  replace (n + S (String.length c))%nat with (n + String.length c + 1)%nat by lia.
  reflexivity.
Qed.

Lemma scoped_lexemes (version0 : bool) (r : string) :
  (if negb version0 then _regex_flags else _regex_flags_v0)
    (String "(" (String "?" (String "x" (String ":" r)))) = None
  /\ _re_comments (String "(" (String "?" (String "x" (String ":" r)))) = None
  /\ (if negb version0 then _scoped_regex_flags else _scoped_regex_flags_v0)
       (String "(" (String "?" (String "x" (String ":" r)))) = Some "(?x:".
Proof.
  destruct version0, r as [|d r]; repeat split; reflexivity.
Qed.

(** [subgroup] at a group that a scoped verbose flag opens and whose
    body is one comment line: the body is read in verbose mode, and the
    mode the group was entered in is restored at its end. *)
Lemma subgroup_scoped_verbose (c : string) (f : nat) (s : string) (n : nat)
    (ver : Z) (rest : string) :
  all comment_char c = true ->
  drop n s = "(?x:#" ++ c ++ String "010" (String ")" rest) ->
  subgroup binary (S (S (S (S (S (S (String.length c) + S f)))))) "("
    (at_ s (S n) false ver)
  = Ok (["(?x:"] ++ chars ("#" ++ c) ++ [NL; ")"])%list
       (at_ s (n + String.length c + 7) false ver).
Proof.
  intros Hc Hd.
  assert (Hd' : drop n s
                = String "(" (String "?" (String "x" (String ":"
                    ("#" ++ c ++ String "010" (String ")" rest)))))) by exact Hd.
  destruct (scoped_lexemes (ver =? VERSION0)%Z
              ("#" ++ c ++ String "010" (String ")" rest))) as (L1 & L2 & L3).
  rewrite SafetyFacts.subgroup_S. cbn [version]. unfold get_flags.
  rewrite (get_lexeme_none _ s n false ver) by (rewrite Hd'; exact L1).
  unfold get_comments.
  rewrite (get_lexeme_none _ s n false ver) by (rewrite Hd'; exact L2).
  cbv zeta. cbn [version verbose]. unfold get_scoped_flags.
  rewrite (get_lexeme_some _ s n false ver "(?x:") by (rewrite Hd'; exact L3).
  change (slice_to_last 2 "(?x:") with "x". rewrite flags_x_off.
  cbn [i index String.length].
  rewrite SafetyFacts.subgroup_retry_S, SafetyFacts.subgroup_body_S.
  change ("(?x:" =? ")") with false. cbv iota zeta.
  assert (D4 : drop (n + 4) s = "#" ++ c ++ String "010" (String ")" rest))
    by (apply (drop_add 4 n s "(?x:" _ Hd eq_refl)).
  rewrite (next_char s (n + 4) true ver "#" _ D4).
  rewrite SafetyFacts.subgroup_body_S.
  change (str "#" =? ")") with false. cbv iota zeta.
  change (str "#") with "#".
  rewrite (normal_comment_line c f s (S (n + 4)) ver (String ")" rest) Hc
             (drop_succ _ _ _ _ D4)).
  assert (D5 : drop (S (n + 4) + String.length c + 1) s = String ")" rest).
  { apply (drop_add 1 _ s (str "010") _); [|reflexivity].
    apply (drop_add _ _ s c _ (drop_succ _ _ _ _ D4) eq_refl). }
  rewrite (next_char s _ true ver ")" rest D5).
  rewrite SafetyFacts.subgroup_body_S.
  change (str ")" =? ")") with true. cbv iota.
  unfold set_verbose. cbn [i verbose version].
  f_equal.
  - rewrite <- !List.app_assoc. reflexivity.
  - f_equal. f_equal. lia.
Qed.

(** The main loop at such a group, entered with verbose mode off. *)
Lemma main_loop_scoped_verbose (c : string) (f : nat) (cur : list string)
    (s : string) (n : nat) (ver : Z) (rest : string) :
  all comment_char c = true ->
  drop n s = "(?x:#" ++ c ++ String "010" (String ")" rest) ->
  main_group_loop binary
    (S (S (S (S (S (S (S (S (String.length c) + S f)))))))) cur
    (at_ s n false ver)
  = main_group_loop binary
      (S (S (S (S (S (S (S (String.length c) + S f)))))))
      (cur ++ ["(?x:"] ++ chars ("#" ++ c) ++ [NL; ")"])
      (at_ s (n + String.length c + 7) false ver).
Proof.
  intros Hc Hd. rewrite main_group_loop_S.
  rewrite (next_char s n false ver "(" _ Hd).
  change (str "(") with "(". rewrite SafetyFacts.normal_S.
  change ("(" =? "\") with false. change ("(" =? "(") with true. cbv iota.
  now rewrite (subgroup_scoped_verbose c f s n ver rest Hc Hd).
Qed.

End Scope.

(** A scoped verbose flag ends with its group. With verbose mode off,
    in [(?x:#...<newline>)] the [#] starts a comment that runs to the
    line break; behind the closing parenthesis verbose mode is off
    again, so a [#] there is an ordinary character and shorthands are
    expanded as everywhere. *)
Theorem scoped_verbose_ends_with_group (escape : string -> string)
    (binary : bool) (re_version : Z) (c : string) (ms : list member)
    (fuel : nat) :
  all comment_char c = true ->
  forallb (pattern_member false) ms = true ->
  (String.length c + List.length ms + 12 <= fuel)%nat ->
  apply escape binary fuel false re_version
    ("(?x:#" ++ c ++ NL ++ ")" ++ members_text ms)
  = Returns ("(?x:#" ++ c ++ NL ++ ")" ++ join (expansion_tokens binary ms)).
Proof.
  intros Hc Hm Hfuel. unfold apply.
  set (s := "(?x:#" ++ c ++ NL ++ ")" ++ members_text ms).
  rewrite process_quotes_quote_free.
  2:{ unfold s. cbn [append quote_free NL str].
      change (Ascii.eqb "(" "\") with false. change (Ascii.eqb "?" "\") with false.
      change (Ascii.eqb "x" "\") with false. change (Ascii.eqb ":" "\") with false.
      change (Ascii.eqb "#" "\") with false. cbv iota.
      rewrite (quote_free_skip c _ (comment_no_backslash c Hc)).
      cbn [append quote_free].
      change (Ascii.eqb "010" "\") with false. change (Ascii.eqb ")" "\") with false.
      cbv iota. apply (PreprocessFacts.quote_free_pattern_members _ _ Hm). }
  set (ver := if (re_version =? 0)%Z then DEFAULT_VERSION else re_version).
  destruct (Nat.le_exists_sub (String.length c + 10) fuel) as (k & Hk & _);
    [lia|].
  replace fuel
    with (S (S (S (S (S (S (S (S (S (String.length c) + S k)))))))))
    by lia.
  rewrite apply_loop_S. unfold main_group.
  assert (D0 : drop 0 s = "(?x:#" ++ c ++ String "010" (String ")" (members_text ms)))
    by reflexivity.
  rewrite (main_loop_scoped_verbose binary c k [] s 0 ver _ Hc D0).
  cbn [Nat.add List.app].
  replace (S (S (S (S (S (S (S (String.length c + S k))))))))
    with (List.length ms + S (String.length c + k + 7 - List.length ms))%nat
    by lia.
  assert (D1 : drop (String.length c + 7) s = members_text ms ++ "").
  { rewrite app_nil_r.
    apply (drop_add (String.length c + 7) 0 s ("(?x:#" ++ c ++ NL ++ ")") _).
    - unfold s. rewrite !app_assoc. reflexivity.
    - rewrite !length_app. unfold NL, str. cbn [String.length]. lia. }
  rewrite (PreprocessFacts.main_loop_members binary ms _ _ s _ _ _ "" Hm D1).
  rewrite main_loop_end.
  - f_equal. rewrite join_app.
    change ("(?x:" :: chars ("#" ++ c) ++ [NL; ")"])%list
      with (["(?x:"] ++ chars ("#" ++ c) ++ [NL; ")"])%list.
    rewrite !join_app, join_chars. cbn [join String.concat].
    rewrite !app_assoc. reflexivity.
  - apply (drop_add _ _ s (members_text ms) "" D1 eq_refl).
Qed.

Lemma scoped_verbose_ends_with_group_witness :
  apply Host.regex_escape false 20 false 0
    ("(?x:#" ++ "note" ++ NL ++ ")" ++ members_text [Plain "#"; Esc "<"; Plain "a"])
  = Returns ("(?x:#" ++ "note" ++ NL ++ ")"
             ++ join (expansion_tokens false [Plain "#"; Esc "<"; Plain "a"])).
Proof.
  apply (scoped_verbose_ends_with_group Host.regex_escape false 0 "note"
           [Plain "#"; Esc "<"; Plain "a"] 20);
    [reflexivity | reflexivity | simpl; lia].
Defined.

End ScopeFacts.

(** ** The edges of a character class *)

Module BracketFacts.
Import Search Shapes Forms StringFacts SearchFacts ClassFacts PreprocessFacts
  CommentFacts.

Lemma members_text_nil (ms : list member) :
  members_text ms = "" -> ms = [].
Proof. destruct ms as [|[c|c] ms]; [reflexivity | discriminate | discriminate]. Qed.

Lemma class_member_marks (m : member) :
  class_member m = true ->
  match m with
  | Plain c => Ascii.eqb c "\" = false
  | Esc c => Ascii.eqb c "Q" = false /\ Ascii.eqb c "E" = false
  end.
Proof.
  destruct m as [c|c]; cbn [class_member]; intros H;
    apply negb_true_iff in H;
    repeat (apply orb_false_iff in H; destruct H as [H ?]); auto.
Qed.

Lemma no_caret_cases (ms : list member) :
  no_caret ms = true -> ms = [] \/ leading ms = true.
Proof. destruct ms as [|[c|c] ms]; cbn; auto. Qed.

Section Class.
Variable binary : bool.

(** A closing bracket right behind the start of the class is a member
    of the class. *)
Lemma step_close_first (cur : list string) (p : Z) (sf : option Z)
    (st : state) :
  char_groups_step binary "]" (mkClass cur (p + 1)%Z 1 sf false (Some p)) st
  = Ok (Continue (mkClass (cur ++ ["]"]) (p + 1)%Z 1 sf false (Some p))) st.
Proof.
  unfold char_groups_step. cbn [negb andb].
  change ("]" =? "\") with false. change ("]" =? "[") with false.
  change ("]" =? "^") with false. change ("]" =? "]") with true.
  change (1 =? 1)%Z with true. change (1 <? 1)%Z with false.
  destruct (version st =? V1)%Z; cbn [andb ne_succ option_map];
    rewrite Z.eqb_refl; reflexivity.
Qed.

(** The members of a class and the bracket that closes it, away from
    the start of the class. *)
Lemma class_body_far (ms : list member) (f : nat) (h : ascii) (tl : string)
    (cur : list string) (pos p : Z) (sf : option Z) (s : string) (n : nat)
    (v : bool) (ver : Z) (rest : string) :
  forallb class_member ms = true ->
  (p + 1 < pos)%Z ->
  members_text ms ++ String "]" rest = String h tl ->
  drop n s = tl ->
  char_groups_loop binary (String.length (members_text ms) + S f) (str h)
    (mkClass cur pos 1 sf false (Some p)) (at_ s n v ver)
  = Ok (cur ++ member_tokens ms ++ ["]"])%list
       (at_ s (n + String.length (members_text ms)) v ver).
Proof.
  intros Hm Hp He Hd.
  rewrite (class_loop_run binary ms (S f) h tl cur pos p sf s n v ver "]" rest Hm);
    [| lia | left; exact Hp | exact He | exact Hd].
  rewrite char_groups_loop_S. change (str "]") with "]".
  rewrite step_close by lia.
  unfold char_groups_finish. cbn [cg_escaped cg_current].
  now rewrite <- List.app_assoc.
Qed.

(** The main loop at a class whose first member is a closing bracket. *)
Lemma main_loop_bracket_class (negated : bool) (ms : list member) (k : nat)
    (cur : list string) (s : string) (n : nat) (v : bool) (ver : Z)
    (rest : string) :
  forallb class_member ms = true ->
  drop n s
  = "[" ++ (if negated then "^" else "") ++ "]" ++ members_text ms ++ "]"
    ++ rest ->
  (String.length (members_text ms) + 4 <= k)%nat ->
  main_group_loop binary (S (S k)) cur (at_ s n v ver)
  = main_group_loop binary (S k)
      (cur ++ "[" :: (if negated then ["^"] else []) ++ "]"
           :: member_tokens ms ++ ["]"])
      (at_ s (n + ((if negated then 1 else 0)
                   + String.length (members_text ms) + 3)) v ver).
Proof.
  intros Hm Hd Hk.
  rewrite main_group_loop_S.
  rewrite (next_char s n v ver "[" _ Hd).
  change (str "[") with "[". rewrite normal_bracket.
  unfold char_groups. cbn [i index].
  set (p := (Z.of_nat (S n) - 1)%Z).
  assert (Hd1 : drop (S n) s
                = (if negated then "^" else "") ++ "]" ++ members_text ms
                  ++ "]" ++ rest)
    by (apply (drop_succ _ _ _ _ Hd)).
  destruct (members_text ms ++ String "]" rest) as [|h tl] eqn:E.
  { destruct (members_text ms); discriminate. }
  destruct negated.
  - replace k with (S (S (S (String.length (members_text ms)
                             + S (k - String.length (members_text ms) - 4)))))
      at 1 by lia.
    rewrite char_groups_loop_S, step_open. cbv zeta.
    unfold advance;
      cbn [cg_current cg_pos cg_found cg_sub_first cg_escaped cg_first].
    rewrite (next_char s (S n) v ver "^" _ Hd1).
    rewrite char_groups_loop_S. change (str "^") with "^". rewrite step_caret.
    cbv zeta.
    unfold advance;
      cbn [cg_current cg_pos cg_found cg_sub_first cg_escaped cg_first].
    assert (Hd2 : drop (S (S n)) s = "]" ++ String h tl).
    { rewrite <- E. apply (drop_succ _ _ _ _ Hd1). }
    rewrite (next_char s (S (S n)) v ver "]" _ Hd2).
    rewrite char_groups_loop_S. change (str "]") with "]".
    rewrite step_close_first. cbv zeta.
    unfold advance;
      cbn [cg_current cg_pos cg_found cg_sub_first cg_escaped cg_first].
    assert (Hd3 : drop (S (S (S n))) s = String h tl)
      by (apply (drop_succ _ _ _ _ Hd2)).
    rewrite (next_char s (S (S (S n))) v ver h tl Hd3).
    rewrite (class_body_far ms _ h tl _ _ (p + 1)%Z None s (S (S (S (S n))))
               v ver rest Hm); [| lia | exact E | apply (drop_succ _ _ _ _ Hd3)].
    f_equal. f_equal. f_equal. lia.
  - replace k with (S (S (String.length (members_text ms)
                          + S (k - String.length (members_text ms) - 3))))
      at 1 by lia.
    rewrite char_groups_loop_S, step_open. cbv zeta.
    unfold advance;
      cbn [cg_current cg_pos cg_found cg_sub_first cg_escaped cg_first].
    assert (Hd2 : drop (S n) s = "]" ++ String h tl).
    { rewrite <- E. exact Hd1. }
    rewrite (next_char s (S n) v ver "]" _ Hd2).
    rewrite char_groups_loop_S. change (str "]") with "]".
    rewrite step_close_first. cbv zeta.
    unfold advance;
      cbn [cg_current cg_pos cg_found cg_sub_first cg_escaped cg_first].
    assert (Hd3 : drop (S (S n)) s = String h tl)
      by (apply (drop_succ _ _ _ _ Hd2)).
    rewrite (next_char s (S (S n)) v ver h tl Hd3).
    rewrite (class_body_far ms _ h tl _ _ p None s (S (S (S n)))
               v ver rest Hm); [| lia | exact E | apply (drop_succ _ _ _ _ Hd3)].
    f_equal. f_equal. f_equal. lia.
Qed.

(** The class loop over members that reach the end of the pattern. *)
Lemma class_loop_stop (ms : list member) :
  forall (f : nat) (h : ascii) (tl : string) (cur : list string) (pos p : Z)
         (sf : option Z) (s : string) (n : nat) (v : bool) (ver : Z),
    forallb class_member ms = true ->
    (p < pos)%Z ->
    (p + 1 < pos)%Z \/ leading ms = true ->
    members_text ms = String h tl ->
    drop n s = tl ->
    char_groups_loop binary (String.length (members_text ms) + f) (str h)
      (mkClass cur pos 1 sf false (Some p)) (at_ s n v ver)
    = Ok (cur ++ member_tokens ms)%list (at_ s (n + String.length tl) v ver).
Proof.
  induction ms as [|m ms IH];
    intros f h tl cur pos p sf s n v ver Hm Hp Hl He Hd.
  - discriminate.
  - cbn [forallb] in Hm. apply andb_true_iff in Hm. destruct Hm as [Hm Hms].
    destruct m as [c|c].
    + cbn [members_text member_text str append] in He.
      injection He as Hh Ht. subst h. rewrite <- Ht in *. clear Ht.
      cbn [members_text member_text str append String.length Nat.add].
      rewrite char_groups_loop_S, step_plain; [|exact Hm|].
      2:{ destruct Hl as [Hl|Hl]; [right; lia|].
          left. simpl in Hl. apply negb_true_iff in Hl.
          now apply Ascii.eqb_neq. }
      cbv zeta. unfold advance;
        cbn [cg_current cg_pos cg_found cg_sub_first cg_escaped cg_first].
      destruct (members_text ms) as [|h' tl'] eqn:E.
      * rewrite (next_stop s n v ver Hd).
        rewrite (members_text_nil ms E).
        unfold char_groups_finish. cbn [cg_escaped cg_current member_tokens].
        cbn [String.length]. now rewrite Nat.add_0_r.
      * rewrite (next_char s n v ver h' tl' Hd).
        rewrite (IH f h' tl' _ (pos + 1)%Z p sf s (S n) v ver Hms);
          [| lia | left; lia | reflexivity | apply (drop_succ _ _ _ _ Hd)].
        rewrite <- List.app_assoc. cbn [member_tokens List.app String.length].
        f_equal. f_equal. f_equal. lia.
    + cbn [members_text member_text str append] in He.
      injection He as Hh Ht. subst h. rewrite <- Ht in *. clear Ht.
      cbn [members_text member_text str append String.length Nat.add].
      rewrite char_groups_loop_S.
      change (str "\") with "\". rewrite step_backslash.
      cbv zeta. unfold advance;
        cbn [cg_current cg_pos cg_found cg_sub_first cg_escaped cg_first].
      rewrite (next_char s n v ver c _ Hd).
      rewrite char_groups_loop_S, step_escaped by exact Hm.
      cbv zeta. unfold advance;
        cbn [cg_current cg_pos cg_found cg_sub_first cg_escaped cg_first].
      pose proof (drop_succ _ _ _ _ Hd) as Hd1.
      destruct (members_text ms) as [|h' tl'] eqn:E.
      * rewrite (next_stop s (S n) v ver Hd1).
        rewrite (members_text_nil ms E).
        unfold char_groups_finish. cbn [cg_escaped cg_current member_tokens].
        cbn [String.length]. f_equal. f_equal. f_equal. lia.
      * rewrite (next_char s (S n) v ver h' tl' Hd1).
        rewrite (IH f h' tl' _ (pos + 1 + 1)%Z p sf s (S (S n)) v ver Hms);
          [| lia | left; lia | reflexivity | apply (drop_succ _ _ _ _ Hd1)].
        rewrite <- List.app_assoc. cbn [member_tokens List.app String.length].
        f_equal. f_equal. f_equal. lia.
Qed.

(** The class loop from a turn that goes on, over members that reach
    the end of the pattern, with or without a backslash behind them. *)
Lemma class_rest (ms : list member) (bs : bool) (F : nat) (t0 : string)
    (v0 v1 : class_vars) (st0 : state) (cur : list string) (pos p : Z)
    (sf : option Z) (s : string) (n : nat) (v : bool) (ver : Z) :
  char_groups_step binary t0 v0 st0 = Ok (Continue v1) (at_ s n v ver) ->
  advance v1 = mkClass cur pos 1 sf false (Some p) ->
  forallb class_member ms = true ->
  (p < pos)%Z ->
  ms = [] \/ leading ms = true ->
  drop n s = members_text ms ++ (if bs then "\" else "") ->
  (String.length (members_text ms) + 1 <= F)%nat ->
  char_groups_loop binary (S F) t0 v0 st0
  = Ok (cur ++ member_tokens ms ++ (if bs then ["\"] else []))%list
       (at_ s (n + String.length (members_text ms) + (if bs then 1 else 0))
          v ver).
Proof.
  intros Hstep Hadv Hm Hp Hl Hd HF.
  rewrite char_groups_loop_S, Hstep. cbv zeta. rewrite Hadv.
  destruct (members_text ms) as [|h tl] eqn:E.
  - rewrite (members_text_nil ms E). cbn [member_tokens List.app String.length].
    rewrite Nat.add_0_r. cbn [append] in Hd. destruct bs.
    + rewrite (next_char s n v ver "\" "" Hd).
      destruct F as [|F]; [lia|].
      rewrite char_groups_loop_S. change (str "\") with "\".
      rewrite step_backslash. cbv zeta.
      unfold advance;
        cbn [cg_current cg_pos cg_found cg_sub_first cg_escaped cg_first].
      rewrite (next_stop s (S n) v ver (drop_succ _ _ _ _ Hd)).
      unfold char_groups_finish. cbn [cg_escaped cg_current].
      now rewrite Nat.add_1_r.
    + rewrite (next_stop s n v ver Hd).
      unfold char_groups_finish. cbn [cg_escaped cg_current].
      now rewrite List.app_nil_r, Nat.add_0_r.
  - destruct Hl as [Hl|Hl]; [subst ms; discriminate|].
    cbn [append] in Hd. rewrite (next_char s n v ver h _ Hd).
    pose proof (drop_succ _ _ _ _ Hd) as Hd1.
    destruct bs.
    + destruct (Nat.le_exists_sub (String.length (members_text ms) + 1) F)
        as (f & Hf & _); [rewrite E; exact HF|].
      rewrite Hf, (Nat.add_comm f), <- Nat.add_assoc.
      rewrite (class_loop_run binary ms (1 + f) h (tl ++ "\") cur pos p sf s
                 (S n) v ver "\" "" Hm Hp);
        [| right; exact Hl | rewrite E; reflexivity | exact Hd1].
      cbn [Nat.add]. rewrite char_groups_loop_S. change (str "\") with "\".
      rewrite step_backslash. cbv zeta.
      unfold advance;
        cbn [cg_current cg_pos cg_found cg_sub_first cg_escaped cg_first].
      rewrite next_stop.
      2:{ apply drop_succ with "\"%char.
          apply (drop_add _ n s (members_text ms) "\");
            [rewrite E; exact Hd | reflexivity]. }
      unfold char_groups_finish. cbn [cg_escaped cg_current].
      rewrite <- List.app_assoc, E. f_equal. f_equal. f_equal.
      cbn [String.length]. lia.
    + rewrite app_nil_r in Hd, Hd1.
      destruct (Nat.le_exists_sub (String.length (members_text ms)) F)
        as (f & Hf & _); [rewrite E; lia|].
      rewrite Hf, (Nat.add_comm f).
      rewrite (class_loop_stop ms f h tl cur pos p sf s (S n) v ver Hm Hp);
        [| right; exact Hl | exact E | exact Hd1].
      rewrite List.app_nil_r. f_equal. f_equal. f_equal.
      cbn [String.length]. lia.
Qed.

(** The main loop at a class that nothing closes. *)
Lemma main_loop_open_class (negated bs : bool) (ms : list member) (k : nat)
    (cur : list string) (s : string) (n : nat) (v : bool) (ver : Z) :
  forallb class_member ms = true ->
  ms = [] \/ leading ms = true ->
  drop n s
  = "[" ++ (if negated then "^" else "") ++ members_text ms
    ++ (if bs then "\" else "") ->
  (String.length (members_text ms) + 4 <= k)%nat ->
  main_group_loop binary (S (S k)) cur (at_ s n v ver)
  = Ok (cur ++ "[" :: (if negated then ["^"] else []) ++ member_tokens ms
            ++ (if bs then ["\"] else []))%list
       (at_ s (n + 1 + (if negated then 1 else 0)
               + String.length (members_text ms) + (if bs then 1 else 0))
          v ver).
Proof.
  intros Hm Hl Hd Hk.
  assert (Hend : drop (n + 1 + (if negated then 1 else 0)
                       + String.length (members_text ms)
                       + (if bs then 1 else 0)) s = "").
  { rewrite <- !Nat.add_assoc.
    apply (drop_add _ n s
             ("[" ++ (if negated then "^" else "") ++ members_text ms
              ++ (if bs then "\" else "")) "").
    - rewrite Hd. now rewrite app_nil_r.
    - rewrite !length_app. destruct negated, bs; cbn [String.length]; lia. }
  rewrite main_group_loop_S.
  rewrite (next_char s n v ver "[" _ Hd).
  change (str "[") with "[". rewrite normal_bracket.
  unfold char_groups. cbn [i index].
  set (p := (Z.of_nat (S n) - 1)%Z).
  pose proof (drop_succ _ _ _ _ Hd) as Hd1.
  destruct negated.
  - replace k with (S (S (k - 2))) at 1 by lia.
    rewrite char_groups_loop_S, step_open. cbv zeta.
    unfold advance;
      cbn [cg_current cg_pos cg_found cg_sub_first cg_escaped cg_first].
    cbn [append] in Hd1.
    rewrite (next_char s (S n) v ver "^" _ Hd1).
    change (str "^") with "^".
    rewrite (class_rest ms bs (k - 2) "^" _ _ _ ["["; "^"] (p + 1 + 1)%Z
               (p + 1)%Z None s (S (S n)) v ver
               (step_caret binary ["["] p None _) eq_refl Hm);
      [| lia | exact Hl | apply (drop_succ _ _ _ _ Hd1) | lia].
    replace (S (S n) + String.length (members_text ms) + (if bs then 1 else 0))%nat
      with (n + 1 + 1 + String.length (members_text ms) + (if bs then 1 else 0))%nat
      by lia.
    rewrite (main_loop_end binary _ _ s _ v ver Hend). reflexivity.
  - replace k with (S (k - 1)) at 1 by lia.
    cbn [append] in Hd1.
    rewrite (class_rest ms bs (k - 1) "[" _ _ _ ["["] (p + 1)%Z p None s (S n)
               v ver (step_open binary p _) eq_refl Hm);
      [| lia | exact Hl | exact Hd1 | lia].
    replace (S n + String.length (members_text ms) + (if bs then 1 else 0))%nat
      with (n + 1 + 0 + String.length (members_text ms) + (if bs then 1 else 0))%nat
      by lia.
    rewrite (main_loop_end binary _ _ s _ v ver Hend). reflexivity.
Qed.

End Class.

(** A closing bracket right behind the opening bracket of a character
    class, or right behind the caret that negates the class, does not
    close the class: it is a member, the class runs to the next closing
    bracket, shorthands in it are kept, and behind it the pattern is
    handled as everywhere. *)
Theorem leading_bracket_is_member (escape : string -> string) (binary : bool)
    (re_verbose : bool) (re_version : Z) (negated : bool)
    (cs ms : list member) (fuel : nat) :
  forallb class_member cs = true ->
  forallb (pattern_member re_verbose) ms = true ->
  (String.length (members_text cs) + List.length ms + 8 <= fuel)%nat ->
  apply escape binary fuel re_verbose re_version
    ("[" ++ (if negated then "^" else "") ++ "]" ++ members_text cs ++ "]"
     ++ members_text ms)
  = Returns ("[" ++ (if negated then "^" else "") ++ "]" ++ members_text cs
             ++ "]" ++ join (expansion_tokens binary ms)).
Proof.
  intros Hc Hm Hfuel. unfold apply.
  set (s := "[" ++ (if negated then "^" else "") ++ "]" ++ members_text cs
            ++ "]" ++ members_text ms).
  rewrite process_quotes_quote_free.
  2:{ unfold s. destruct negated; cbn [append quote_free];
        change (Ascii.eqb "[" "\") with false;
        change (Ascii.eqb "^" "\") with false;
        change (Ascii.eqb "]" "\") with false; cbv iota;
        rewrite (quote_free_after _ cs _ class_member_marks Hc);
        cbn [append quote_free];
        change (Ascii.eqb "]" "\") with false; cbv iota;
        apply (quote_free_pattern_members re_verbose ms Hm). }
  set (ver := if (re_version =? 0)%Z then DEFAULT_VERSION else re_version).
  set (l := String.length (members_text cs)) in *.
  assert (D0 : drop 0 s
               = "[" ++ (if negated then "^" else "") ++ "]"
                 ++ members_text cs ++ "]" ++ members_text ms) by reflexivity.
  destruct (Nat.le_exists_sub (l + List.length ms + 8) fuel)
    as (k & Hk & _); [exact Hfuel|].
  replace fuel with (S (S (S (List.length ms + S (k + l + 4))))) by lia.
  rewrite apply_loop_S. unfold main_group.
  rewrite (main_loop_bracket_class binary negated cs _ [] s 0 re_verbose ver
             (members_text ms) Hc D0) by (fold l; lia).
  fold l.
  assert (D1 : drop (0 + ((if negated then 1 else 0) + l + 3)) s
               = members_text ms ++ "").
  { rewrite app_nil_r.
    apply (drop_add ((if negated then 1 else 0) + l + 3) 0 s
             ("[" ++ (if negated then "^" else "") ++ "]" ++ members_text cs
              ++ "]") _).
    - rewrite D0. rewrite !app_assoc. reflexivity.
    - rewrite !length_app. destruct negated; cbn [String.length]; fold l; lia. }
  change (S (List.length ms + S (k + l + 4)))
    with (S (List.length ms) + S (k + l + 4))%nat.
  replace (S (List.length ms) + S (k + l + 4))%nat
    with (List.length ms + S (S (k + l + 4)))%nat by lia.
  rewrite (main_loop_members binary ms _ _ s _ re_verbose ver "" Hm D1).
  rewrite (main_loop_end binary _ _ s _ re_verbose ver).
  2:{ apply (drop_add _ _ s (members_text ms) "" D1 eq_refl). }
  f_equal.
  destruct negated; cbn [List.app];
    repeat (first [rewrite join_cons | rewrite join_app]);
    rewrite join_member_tokens;
    cbn [join String.concat append];
    rewrite ?app_assoc, ?app_nil_r; cbn [append]; reflexivity.
Qed.

Lemma leading_bracket_is_member_witness :
  apply Host.regex_escape false 40 true 0
    ("[" ++ "^" ++ "]" ++ members_text [Esc "<"; Plain "^"; Plain "#"] ++ "]"
     ++ members_text [Plain "a"; Esc "<"])
  = Returns ("[" ++ "^" ++ "]" ++ members_text [Esc "<"; Plain "^"; Plain "#"]
             ++ "]" ++ join (expansion_tokens false [Plain "a"; Esc "<"])).
Proof.
  apply (leading_bracket_is_member Host.regex_escape false true 0 true
           [Esc "<"; Plain "^"; Plain "#"] [Plain "a"; Esc "<"] 40);
    try reflexivity.
  simpl. lia.
Defined.

(** A character class that nothing closes runs to the end of the
    pattern: everything behind its opening bracket is a member, so no
    shorthand is expanded, a backslash that ends the pattern is kept,
    and no error is raised. *)
Theorem open_class_runs_to_end (escape : string -> string) (binary : bool)
    (re_verbose : bool) (re_version : Z) (negated bs : bool)
    (ms : list member) (fuel : nat) :
  forallb class_member ms = true ->
  no_caret ms = true ->
  (String.length (members_text ms) + 7 <= fuel)%nat ->
  apply escape binary fuel re_verbose re_version
    ("[" ++ (if negated then "^" else "") ++ members_text ms
     ++ (if bs then "\" else ""))
  = Returns ("[" ++ (if negated then "^" else "") ++ members_text ms
             ++ (if bs then "\" else "")).
Proof.
  intros Hm Hl Hfuel. apply no_caret_cases in Hl. unfold apply.
  set (s := "[" ++ (if negated then "^" else "") ++ members_text ms
            ++ (if bs then "\" else "")).
  rewrite process_quotes_quote_free.
  2:{ unfold s. destruct negated; cbn [append quote_free];
        change (Ascii.eqb "[" "\") with false;
        change (Ascii.eqb "^" "\") with false; cbv iota;
        rewrite (quote_free_after _ ms _ class_member_marks Hm);
        destruct bs; reflexivity. }
  set (ver := if (re_version =? 0)%Z then DEFAULT_VERSION else re_version).
  replace fuel with (S (S (S (fuel - 3)))) by lia.
  rewrite apply_loop_S. unfold main_group.
  rewrite (main_loop_open_class binary negated bs ms _ [] s 0 re_verbose ver
             Hm Hl eq_refl) by lia.
  f_equal. unfold s.
  destruct negated, bs; cbn [List.app];
    repeat (first [rewrite join_cons | rewrite join_app]);
    rewrite join_member_tokens;
    cbn [join String.concat append];
    rewrite ?app_assoc, ?app_nil_r; cbn [append]; reflexivity.
Qed.

Lemma open_class_runs_to_end_witness :
  apply Host.regex_escape false 30 true 0
    ("[" ++ "^" ++ members_text [Esc "<"; Plain "a"; Esc "R"; Plain "(";
                                 Plain "#"] ++ "\")
  = Returns ("[" ++ "^" ++ members_text [Esc "<"; Plain "a"; Esc "R";
                                         Plain "("; Plain "#"] ++ "\").
Proof.
  apply (open_class_runs_to_end Host.regex_escape false true 0 true true
           [Esc "<"; Plain "a"; Esc "R"; Plain "("; Plain "#"] 30).
  - reflexivity.
  - reflexivity.
  - simpl. lia.
Defined.

End BracketFacts.

(** ** Nested sets and POSIX classes *)

Module NestedFacts.
Import Search Shapes Forms StringFacts SearchFacts ClassFacts PreprocessFacts
  CommentFacts BracketFacts.

(** *** The lexeme of a POSIX class *)

Lemma posix_items_name (name rest : string) :
  all name_char name = true ->
  posix_items (name ++ String ":" rest) = (name, String ":" rest).
Proof.
  induction name as [|c name IH]; intros Hn; [reflexivity|].
  cbn [all] in Hn. apply andb_true_iff in Hn. destruct Hn as [Hc Hn].
  cbn [append posix_items]. unfold name_char in Hc.
  apply negb_true_iff in Hc.
  assert (Hb : Ascii.eqb c "\" = false).
  { cbn [in_chars existsb list_ascii_of_string] in Hc.
    now apply orb_false_iff in Hc. }
  assert (Hi : in_chars ":}" c = false).
  { cbn [in_chars existsb list_ascii_of_string] in Hc |- *.
    apply orb_false_iff in Hc. exact (proj2 Hc). }
  rewrite Hb, Hi. now rewrite (IH Hn).
Qed.

Lemma re_posix_name (name rest : string) :
  name <> "" ->
  all name_char name = true ->
  _re_posix ("[:" ++ name ++ ":]" ++ rest) = Some ("[:" ++ name ++ ":]").
Proof.
  intros Hne Hn. unfold _re_posix. cbn [append].
  rewrite (posix_items_name name _ Hn).
  destruct name; [contradiction|]. reflexivity.
Qed.

Lemma re_posix_members (ms : list member) (rest : string) :
  no_colon ms = true ->
  _re_posix ("[" ++ members_text ms ++ "]" ++ rest) = None.
Proof.
  destruct ms as [|[c|c] ms]; intros H; cbn; try reflexivity.
  cbn in H. apply negb_true_iff in H.
  destruct c as [[] [] [] [] [] [] [] []]; try discriminate; reflexivity.
Qed.

Section Class.
Variable binary : bool.

(** The class loop over members that may be none. *)
Lemma class_loop_some (ms : list member)
    (f : nat) (h : ascii) (tl : string) (cur : list string) (pos p : Z)
    (sf : option Z) (s : string) (n : nat) (v : bool) (ver : Z)
    (x : ascii) (rest : string) :
  forallb class_member ms = true ->
  (p < pos)%Z ->
  no_caret ms = true ->
  members_text ms ++ String x rest = String h tl ->
  drop n s = tl ->
  char_groups_loop binary (String.length (members_text ms) + f) (str h)
    (mkClass cur pos 1 sf false (Some p)) (at_ s n v ver)
  = char_groups_loop binary f (str x)
      (mkClass (cur ++ member_tokens ms)
         (pos + Z.of_nat (String.length (members_text ms))) 1 sf false (Some p))
      (at_ s (n + String.length (members_text ms)) v ver).
Proof.
  intros Hm Hp Hl He Hd.
  destruct (no_caret_cases ms Hl) as [H0|H1].
  - subst ms. cbn in He. injection He as Hh Ht. subst h. cbn.
    now rewrite Nat.add_0_r, List.app_nil_r, Z.add_0_r.
  - apply (class_loop_run binary ms f h tl cur pos p sf s n v ver x rest Hm Hp);
      [right; exact H1 | exact He | exact Hd].
Qed.

(** **** Inside a nested set, under [V1] *)

Lemma step_plain_sub (c : ascii) (cur : list string) (pos q : Z)
    (fi : option Z) (s : string) (n : nat) (v : bool) :
  class_member (Plain c) = true ->
  (c <> "^"%char \/ pos <> q + 1)%Z ->
  char_groups_step binary (str c) (mkClass cur pos 2 (Some q) false fi)
    (at_ s n v V1)
  = Ok (Continue (mkClass (cur ++ [str c]) pos 2 (Some q) false fi))
       (at_ s n v V1).
Proof.
  intros Hm Hc. unfold class_member in Hm. apply negb_true_iff in Hm.
  apply orb_false_iff in Hm. destruct Hm as [Hm H3].
  apply orb_false_iff in Hm. destruct Hm as [H1 H2].
  unfold char_groups_step. cbn [version].
  change (str c =? "\") with (str c =? str "\").
  change (str c =? "[") with (str c =? str "[").
  change (str c =? "]") with (str c =? str "]").
  change (str c =? "^") with (str c =? str "^").
  rewrite !str_eqb, H1, H2, H3. cbn [negb andb].
  change (2 =? 1)%Z with false. change (1 <? 2)%Z with true.
  change (V1 =? V1)%Z with true. rewrite !andb_false_r. cbn [andb].
  destruct (Ascii.eqb c "^") eqn:E; cbn [andb eq_succ option_map];
    [ apply Ascii.eqb_eq in E;
      assert (Hne : (pos =? q + 1)%Z = false)
        by (apply Z.eqb_neq; destruct Hc as [Hc|Hc]; [contradiction | exact Hc]);
      rewrite Hne; reflexivity
    | reflexivity ].
Qed.

Lemma step_close_sub (cur : list string) (pos q : Z) (fi : option Z)
    (s : string) (n : nat) (v : bool) :
  (pos <> q + 1)%Z ->
  char_groups_step binary "]" (mkClass cur pos 2 (Some q) false fi)
    (at_ s n v V1)
  = Ok (Continue (mkClass (cur ++ ["]"]) pos 1 (Some q) false fi))
       (at_ s n v V1).
Proof.
  intros Hne. apply Z.eqb_neq in Hne.
  unfold char_groups_step. cbn [version negb andb].
  change ("]" =? "\") with false. change ("]" =? "[") with false.
  change ("]" =? "^") with false. change ("]" =? "]") with true.
  change (2 =? 1)%Z with false. change (1 <? 2)%Z with true.
  change (V1 =? V1)%Z with true.
  cbn [andb ne_succ option_map]. rewrite Hne. reflexivity.
Qed.

(** The class loop over the members of a nested set. *)
Lemma sub_loop_run (ms : list member) :
  forall (f : nat) (h : ascii) (tl : string) (cur : list string) (pos q : Z)
         (fi : option Z) (s : string) (n : nat) (v : bool)
         (x : ascii) (rest : string),
    forallb class_member ms = true ->
    (q < pos)%Z ->
    (q + 1 < pos)%Z \/ leading ms = true ->
    members_text ms ++ String x rest = String h tl ->
    drop n s = tl ->
    char_groups_loop binary (String.length (members_text ms) + f) (str h)
      (mkClass cur pos 2 (Some q) false fi) (at_ s n v V1)
    = char_groups_loop binary f (str x)
        (mkClass (cur ++ member_tokens ms)
           (pos + Z.of_nat (String.length (members_text ms))) 2 (Some q) false fi)
        (at_ s (n + String.length (members_text ms)) v V1).
Proof.
  induction ms as [|m ms IH];
    intros f h tl cur pos q fi s n v x rest Hm Hp Hl He Hd.
  - simpl in He. injection He as Hh Ht. subst h. simpl.
    now rewrite Nat.add_0_r, List.app_nil_r, Z.add_0_r.
  - cbn [forallb] in Hm. apply andb_true_iff in Hm. destruct Hm as [Hm Hms].
    destruct (members_text ms ++ String x rest) as [|h' tl'] eqn:E.
    { destruct (members_text ms); discriminate. }
    destruct m as [c|c].
    + cbn [members_text member_text str append] in He.
      rewrite E in He. injection He as Hh Ht. subst h. rewrite <- Ht in Hd.
      cbn [members_text member_text str append String.length Nat.add].
      rewrite char_groups_loop_S, step_plain_sub; [|exact Hm|].
      2:{ destruct Hl as [Hl|Hl]; [right; lia|].
          left. simpl in Hl. apply negb_true_iff in Hl.
          now apply Ascii.eqb_neq. }
      cbv zeta. unfold advance;
        cbn [cg_current cg_pos cg_found cg_sub_first cg_escaped cg_first].
      rewrite (next_char s n v V1 h' tl' Hd).
      rewrite (IH f h' tl' _ (pos + 1)%Z q fi s (S n) v x rest Hms);
        [| lia | left; lia | exact E | apply (drop_succ _ _ _ _ Hd)].
      rewrite <- List.app_assoc. cbn [member_tokens List.app].
      replace (pos + Z.of_nat (S (String.length (members_text ms))))%Z
        with (pos + 1 + Z.of_nat (String.length (members_text ms)))%Z by lia.
      replace (n + S (String.length (members_text ms)))%nat
        with (S n + String.length (members_text ms))%nat by lia.
      reflexivity.
    + cbn [members_text member_text str append] in He.
      rewrite E in He. injection He as Hh Ht. subst h. rewrite <- Ht in Hd.
      cbn [members_text member_text str append String.length Nat.add].
      rewrite char_groups_loop_S.
      change (str "\") with "\". rewrite step_backslash.
      cbv zeta. unfold advance;
        cbn [cg_current cg_pos cg_found cg_sub_first cg_escaped cg_first].
      rewrite (next_char s n v V1 c (String h' tl') Hd).
      rewrite char_groups_loop_S, step_escaped by exact Hm.
      cbv zeta. unfold advance;
        cbn [cg_current cg_pos cg_found cg_sub_first cg_escaped cg_first].
      rewrite (next_char s (S n) v V1 h' tl' (drop_succ _ _ _ _ Hd)).
      rewrite (IH f h' tl' _ (pos + 1 + 1)%Z q fi s (S (S n)) v x rest Hms);
        [| lia | left; lia | exact E |].
      2:{ apply drop_succ with h'. apply (drop_succ _ _ _ _ Hd). }
      rewrite <- List.app_assoc. cbn [member_tokens List.app].
      replace (pos + Z.of_nat (S (S (String.length (members_text ms)))))%Z
        with (pos + 1 + 1 + Z.of_nat (String.length (members_text ms)))%Z by lia.
      replace (n + S (S (String.length (members_text ms))))%nat
        with (S (S n) + String.length (members_text ms))%nat by lia.
      reflexivity.
Qed.

(** **** The bracket inside a class *)

Lemma class_posix_none (s : string) (n : nat) (v : bool) (ver : Z) :
  binary = true \/ _re_posix (drop n s) = None ->
  class_posix binary (at_ s (S n) v ver) = Ok None (at_ s (S n) v ver).
Proof.
  unfold class_posix. destruct binary; [reflexivity|].
  intros [H|H]; [discriminate|].
  apply (get_lexeme_none _re_posix s n v ver H).
Qed.

(** Under [V1] a bracket inside the class opens a nested set. *)
Lemma step_open_sub (cur : list string) (pos p : Z) (sf : option Z)
    (s : string) (n : nat) (v : bool) :
  binary = true \/ _re_posix (drop n s) = None ->
  char_groups_step binary "[" (mkClass cur pos 1 sf false (Some p))
    (at_ s (S n) v V1)
  = Ok (Continue (mkClass (cur ++ ["["]) pos 2 (Some pos) false (Some p)))
       (at_ s (S n) v V1).
Proof.
  intros H. unfold char_groups_step. cbn [version negb andb].
  change ("[" =? "\") with false. change ("[" =? "[") with true.
  change (1 =? 0)%Z with false. change (V1 =? V1)%Z with true.
  cbn [negb andb]. rewrite (class_posix_none s n v V1 H). reflexivity.
Qed.

(** In the other dialect it is a member. *)
Lemma step_open_flat (cur : list string) (pos p : Z) (sf : option Z)
    (s : string) (n : nat) (v : bool) (ver : Z) :
  ver <> V1 ->
  binary = true \/ _re_posix (drop n s) = None ->
  char_groups_step binary "[" (mkClass cur pos 1 sf false (Some p))
    (at_ s (S n) v ver)
  = Ok (Continue (mkClass (cur ++ ["["]) pos 1 sf false (Some p)))
       (at_ s (S n) v ver).
Proof.
  intros Hv H. apply Z.eqb_neq in Hv.
  unfold char_groups_step. cbn [version negb andb].
  change ("[" =? "\") with false. change ("[" =? "[") with true.
  change (1 =? 0)%Z with false. rewrite Hv.
  cbn [negb andb]. rewrite (class_posix_none s n v ver H). reflexivity.
Qed.

End Class.

(** In a text pattern a POSIX class is taken whole, in either
    dialect. *)
Lemma step_posix (cur : list string) (pos p : Z) (sf : option Z)
    (s : string) (n : nat) (v : bool) (ver : Z) (text : string) :
  _re_posix (drop n s) = Some text ->
  char_groups_step false "[" (mkClass cur pos 1 sf false (Some p))
    (at_ s (S n) v ver)
  = Ok (Continue (mkClass (cur ++ [text])
                    (Z.of_nat (n + String.length text) - 2)%Z 1 sf false
                    (Some p)))
       (at_ s (n + String.length text) v ver).
Proof.
  intros H. unfold char_groups_step. cbn [version negb andb].
  change ("[" =? "\") with false. change ("[" =? "[") with true.
  change (1 =? 0)%Z with false. cbn [negb andb].
  unfold class_posix, get_posix.
  rewrite (get_lexeme_some _re_posix s n v ver text H).
  destruct (ver =? V1)%Z; reflexivity.
Qed.

Lemma name_no_backslash (name : string) :
  all name_char name = true -> all no_backslash name = true.
Proof.
  apply all_impl. intros c H. unfold name_char in H. unfold no_backslash.
  apply negb_true_iff in H.
  cbn [in_chars existsb list_ascii_of_string] in H.
  apply orb_false_iff in H. destruct H as [H _]. now rewrite H.
Qed.

Section Sets.
Variable binary : bool.

(** The main loop at a class, given what [char_groups] makes of it. *)
Lemma main_loop_at_class (f : nat) (cur : list string) (s : string) (n : nat)
    (v : bool) (ver : Z) (rest : string) (out : list string) (st' : state) :
  drop n s = "[" ++ rest ->
  char_groups binary f "[" (at_ s (S n) v ver) = Ok out st' ->
  main_group_loop binary (S (S f)) cur (at_ s n v ver)
  = main_group_loop binary (S f) (cur ++ out) st'.
Proof.
  intros Hd H. rewrite main_group_loop_S.
  rewrite (next_char s n v ver "[" _ Hd).
  change (str "[") with "[". rewrite normal_bracket, H. reflexivity.
Qed.

(** From the opening bracket of a class to a bracket inside it. *)
Lemma class_to_inner (a : list member) (f : nat) (s : string) (n : nat)
    (v : bool) (ver : Z) (rest : string) :
  forallb class_member a = true ->
  no_caret a = true ->
  drop n s = "[" ++ members_text a ++ "[" ++ rest ->
  char_groups binary (S (String.length (members_text a) + f)) "["
    (at_ s (S n) v ver)
  = char_groups_loop binary f "["
      (mkClass ("[" :: member_tokens a)
         (Z.of_nat n + 1 + Z.of_nat (String.length (members_text a)))%Z 1
         None false (Some (Z.of_nat n)))
      (at_ s (S (S n) + String.length (members_text a)) v ver).
Proof.
  intros Ha Hl Hd. unfold char_groups. cbn [i index].
  replace (Z.of_nat (S n) - 1)%Z with (Z.of_nat n) by lia.
  rewrite char_groups_loop_S, step_open. cbv zeta.
  unfold advance;
    cbn [cg_current cg_pos cg_found cg_sub_first cg_escaped cg_first].
  pose proof (drop_succ _ _ _ _ Hd) as Hd1.
  destruct (members_text a ++ String "[" rest) as [|h tl] eqn:E.
  { destruct (members_text a); discriminate. }
  change ("[" ++ rest) with (String "[" rest) in Hd1. rewrite E in Hd1.
  rewrite (next_char s (S n) v ver h tl Hd1).
  rewrite (class_loop_some binary a f h tl ["["] (Z.of_nat n + 1)%Z
             (Z.of_nat n) None s (S (S n)) v ver "[" rest Ha);
    [| lia | exact Hl | exact E | apply (drop_succ _ _ _ _ Hd1)].
  reflexivity.
Qed.

(** Under [V1] the bracket opens a nested set, which its own closing
    bracket ends; the class goes on to the next one. *)
Lemma inner_nested (b c : list member) (f : nat) (cur : list string)
    (pos p : Z) (s : string) (m : nat) (v : bool) (rest : string) :
  forallb class_member b = true ->
  forallb class_member c = true ->
  leading b = true ->
  binary = true \/ no_colon b = true ->
  (p < pos)%Z ->
  drop m s = "[" ++ members_text b ++ "]" ++ members_text c ++ "]" ++ rest ->
  char_groups_loop binary
    (S (String.length (members_text b)
        + S (String.length (members_text c) + S f))) "["
    (mkClass cur pos 1 None false (Some p)) (at_ s (S m) v V1)
  = Ok (cur ++ "[" :: member_tokens b ++ "]" :: member_tokens c ++ ["]"])%list
       (at_ s (m + String.length (members_text b)
               + String.length (members_text c) + 3) v V1).
Proof.
  intros Hb Hc Hl Hp Hpos Hd.
  set (lb := String.length (members_text b)).
  set (lc := String.length (members_text c)).
  assert (Hposix : binary = true \/ _re_posix (drop m s) = None).
  { destruct Hp as [Hp|Hp]; [left; exact Hp|right].
    rewrite Hd. apply (re_posix_members b _ Hp). }
  rewrite char_groups_loop_S, (step_open_sub binary _ _ _ _ s m v Hposix).
  cbv zeta. unfold advance;
    cbn [cg_current cg_pos cg_found cg_sub_first cg_escaped cg_first].
  pose proof (drop_succ _ _ _ _ Hd) as Hd1.
  destruct (members_text b
            ++ String "]" (members_text c ++ "]" ++ rest)) as [|hb tlb] eqn:Eb.
  { destruct (members_text b); discriminate. }
  change ("]" ++ members_text c ++ "]" ++ rest)
    with (String "]" (members_text c ++ "]" ++ rest)) in Hd1.
  pose proof Hd1 as Hd1'. rewrite Eb in Hd1'.
  rewrite (next_char s (S m) v V1 hb tlb Hd1').
  rewrite (sub_loop_run binary b (S (lc + S f)) hb tlb _ (pos + 1)%Z pos
             (Some p) s (S (S m)) v "]" (members_text c ++ "]" ++ rest) Hb);
    [| lia | right; exact Hl | exact Eb | apply (drop_succ _ _ _ _ Hd1')].
  fold lb.
  rewrite char_groups_loop_S. change (str "]") with "]".
  rewrite step_close_sub.
  2:{ pose proof (leading_length b Hl). fold lb in H. lia. }
  cbv zeta. unfold advance;
    cbn [cg_current cg_pos cg_found cg_sub_first cg_escaped cg_first].
  assert (Hd2 : drop (S m + lb) s
                = String "]" (members_text c ++ "]" ++ rest))
    by (apply (drop_add lb (S m) s (members_text b) _ Hd1 eq_refl)).
  assert (Hd3 : drop (S (S m) + lb) s = members_text c ++ String "]" rest)
    by (apply (drop_succ _ _ _ _ Hd2)).
  destruct (members_text c ++ String "]" rest) as [|hc tlc] eqn:Ec.
  { destruct (members_text c); discriminate. }
  rewrite (next_char s (S (S m) + lb) v V1 hc tlc Hd3).
  rewrite (class_body_far binary c f hc tlc _ _ p (Some pos) s
             (S (S (S m) + lb)) v V1 rest Hc);
    [| lia | exact Ec | apply (drop_succ _ _ _ _ Hd3)].
  fold lc. f_equal.
  - rewrite <- !List.app_assoc. reflexivity.
  - f_equal. f_equal. lia.
Qed.

(** In the other dialect the bracket is a member and the first closing
    bracket ends the class. *)
Lemma inner_flat (b : list member) (f : nat) (cur : list string)
    (pos p : Z) (s : string) (m : nat) (v : bool) (ver : Z) (rest : string) :
  ver <> V1 ->
  forallb class_member b = true ->
  binary = true \/ no_colon b = true ->
  (p < pos)%Z ->
  drop m s = "[" ++ members_text b ++ "]" ++ rest ->
  char_groups_loop binary (S (String.length (members_text b) + S f)) "["
    (mkClass cur pos 1 None false (Some p)) (at_ s (S m) v ver)
  = Ok (cur ++ "[" :: member_tokens b ++ ["]"])%list
       (at_ s (m + String.length (members_text b) + 2) v ver).
Proof.
  intros Hv Hb Hp Hpos Hd.
  set (lb := String.length (members_text b)).
  assert (Hposix : binary = true \/ _re_posix (drop m s) = None).
  { destruct Hp as [Hp|Hp]; [left; exact Hp|right].
    rewrite Hd. apply (re_posix_members b _ Hp). }
  rewrite char_groups_loop_S, (step_open_flat binary _ _ _ _ s m v ver Hv Hposix).
  cbv zeta. unfold advance;
    cbn [cg_current cg_pos cg_found cg_sub_first cg_escaped cg_first].
  pose proof (drop_succ _ _ _ _ Hd) as Hd1.
  change ("]" ++ rest) with (String "]" rest) in Hd1.
  destruct (members_text b ++ String "]" rest) as [|hb tlb] eqn:Eb.
  { destruct (members_text b); discriminate. }
  rewrite (next_char s (S m) v ver hb tlb Hd1).
  rewrite (class_body_far binary b f hb tlb _ _ p None s (S (S m)) v ver
             rest Hb);
    [| lia | exact Eb | apply (drop_succ _ _ _ _ Hd1)].
  fold lb. f_equal.
  - rewrite <- !List.app_assoc. reflexivity.
  - f_equal. f_equal. lia.
Qed.

End Sets.

(** In a text pattern a POSIX class inside the class is one member. *)
Lemma inner_posix (name : string) (c : list member) (f : nat)
    (cur : list string) (pos p : Z) (s : string) (m : nat) (v : bool)
    (ver : Z) (rest : string) :
  name <> "" ->
  all name_char name = true ->
  forallb class_member c = true ->
  (p <= Z.of_nat m)%Z ->
  drop m s = "[:" ++ name ++ ":]" ++ members_text c ++ "]" ++ rest ->
  char_groups_loop false (S (String.length (members_text c) + S f)) "["
    (mkClass cur pos 1 None false (Some p)) (at_ s (S m) v ver)
  = Ok (cur ++ ("[:" ++ name ++ ":]")%string :: member_tokens c ++ ["]"])%list
       (at_ s (m + String.length name + String.length (members_text c) + 5)
          v ver).
Proof.
  intros Hne Hn Hc Hp Hd.
  set (lc := String.length (members_text c)).
  set (px := "[:" ++ name ++ ":]").
  assert (Hd' : drop m s = px ++ members_text c ++ "]" ++ rest).
  { rewrite Hd. unfold px. now rewrite !app_assoc. }
  assert (Hpx : String.length px = (String.length name + 4)%nat).
  { unfold px. rewrite !length_app. cbn [String.length]. lia. }
  assert (Hposix : _re_posix (drop m s) = Some px)
    by (rewrite Hd; apply (re_posix_name name _ Hne Hn)).
  rewrite char_groups_loop_S, (step_posix _ _ _ _ s m v ver px Hposix).
  cbv zeta. unfold advance;
    cbn [cg_current cg_pos cg_found cg_sub_first cg_escaped cg_first].
  assert (Hd1 : drop (m + String.length px) s
                = members_text c ++ String "]" rest)
    by (apply (drop_add _ m s px _ Hd' eq_refl)).
  destruct (members_text c ++ String "]" rest) as [|hc tlc] eqn:Ec.
  { destruct (members_text c); discriminate. }
  rewrite (next_char s (m + String.length px) v ver hc tlc Hd1).
  rewrite (class_body_far false c f hc tlc _ _ p None s
             (S (m + String.length px)) v ver rest Hc);
    [| lia | exact Ec | apply (drop_succ _ _ _ _ Hd1)].
  fold lc. f_equal.
  - rewrite <- !List.app_assoc. reflexivity.
  - f_equal. f_equal. lia.
Qed.

Lemma members_count (ms : list member) :
  (List.length ms <= String.length (members_text ms))%nat.
Proof.
  induction ms as [|[c|c] ms IH]; cbn [List.length members_text member_text];
    rewrite ?length_app; cbn [String.length str]; lia.
Qed.

Lemma quote_free_char (c : ascii) (r : string) :
  Ascii.eqb c "\" = false ->
  quote_free false (String c r) = quote_free false r.
Proof. intros H. cbn [quote_free]. now rewrite H. Qed.

Lemma quote_free_nested (a b c : list member) :
  forallb class_member a = true ->
  forallb class_member b = true ->
  forallb class_member c = true ->
  quote_free false
    ("[" ++ members_text a ++ "[" ++ members_text b ++ "]" ++ members_text c
     ++ "]") = true.
Proof.
  intros Ha Hb Hc.
  change ("[" ++ members_text a ++ "[" ++ members_text b ++ "]"
          ++ members_text c ++ "]")
    with (String "[" (members_text a ++ String "[" (members_text b
            ++ String "]" (members_text c ++ "]")))).
  rewrite quote_free_char by reflexivity.
  rewrite (quote_free_after _ a _ class_member_marks Ha).
  rewrite quote_free_char by reflexivity.
  rewrite (quote_free_after _ b _ class_member_marks Hb).
  rewrite quote_free_char by reflexivity.
  rewrite (quote_free_after _ c _ class_member_marks Hc).
  reflexivity.
Qed.

(** A bracket inside a character class is read by dialect. Under [V1]
    it opens a nested set: the class goes on behind the closing bracket
    of the set, to the next closing bracket, and all of it is kept as it
    is. In the other dialect the first closing bracket ends the class,
    and what follows is handled as pattern text, shorthands expanded. *)
Theorem nested_set_by_dialect (escape : string -> string) (binary : bool)
    (re_verbose : bool) (re_version : Z) (a b c : list member) (fuel : nat) :
  forallb class_member a = true ->
  forallb class_member b = true ->
  forallb class_member c = true ->
  no_caret a = true ->
  leading b = true ->
  binary = true \/ no_colon b = true ->
  (String.length (members_text a) + String.length (members_text b)
   + String.length (members_text c) + 10 <= fuel)%nat ->
  (re_version = V1 ->
   apply escape binary fuel re_verbose re_version
     ("[" ++ members_text a ++ "[" ++ members_text b ++ "]"
      ++ members_text c ++ "]")
   = Returns ("[" ++ members_text a ++ "[" ++ members_text b ++ "]"
              ++ members_text c ++ "]"))
  /\ (re_version <> V1 ->
      forallb (pattern_member re_verbose) c = true ->
      apply escape binary fuel re_verbose re_version
        ("[" ++ members_text a ++ "[" ++ members_text b ++ "]"
         ++ members_text c ++ "]")
      = Returns ("[" ++ members_text a ++ "[" ++ members_text b ++ "]"
                 ++ join (expansion_tokens binary c) ++ "]")).
Proof.
  intros Ha Hb Hc Hla Hlb Hp Hfuel.
  set (la := String.length (members_text a)) in *.
  set (lb := String.length (members_text b)) in *.
  set (lc := String.length (members_text c)) in *.
  set (s := "[" ++ members_text a ++ "[" ++ members_text b ++ "]"
            ++ members_text c ++ "]").
  assert (D0 : drop 0 s
               = "[" ++ members_text a ++ "[" ++ members_text b ++ "]"
                 ++ members_text c ++ "]" ++ "") by reflexivity.
  assert (Dm : drop (0 + (1 + la)) s
               = "[" ++ members_text b ++ "]" ++ members_text c ++ "]" ++ "").
  { apply (drop_add (1 + la) 0 s ("[" ++ members_text a) _).
    - rewrite D0. now rewrite !app_assoc.
    - reflexivity. }
  cbn [Nat.add] in Dm.
  destruct (Nat.le_exists_sub (la + lb + lc + 7) fuel)
    as (k & Hk & _); [lia|].
  split.
  - intros Hv. subst re_version. unfold apply. fold s.
    rewrite process_quotes_quote_free
      by (apply (quote_free_nested a b c Ha Hb Hc)).
    change (if (V1 =? 0)%Z then DEFAULT_VERSION else V1) with V1.
    assert (H : char_groups binary (S (la + S (lb + S (lc + S k)))) "["
                  (at_ s 1 re_verbose V1)
                = Ok ("[" :: member_tokens a ++ "[" :: member_tokens b
                          ++ "]" :: member_tokens c ++ ["]"])%list
                     (at_ s (la + lb + lc + 4) re_verbose V1)).
    { unfold la at 1.
      rewrite (class_to_inner binary a _ s 0 re_verbose V1 _ Ha Hla D0).
      fold la. change (2 + la)%nat with (S (S la)).
      unfold lb at 1, lc at 1.
      rewrite (inner_nested binary b c k _ _ 0%Z s (S la) re_verbose ""
                 Hb Hc Hlb Hp); [| lia | exact Dm].
      fold lb lc. f_equal. f_equal. f_equal. lia. }
    replace fuel with (S (S (S (S (la + S (lb + S (lc + S k))))))) by lia.
    rewrite apply_loop_S. unfold main_group.
    rewrite (main_loop_at_class binary _ [] s 0 re_verbose V1 _ _ _ D0 H).
    rewrite (main_loop_end binary _ _ s _ re_verbose V1).
    2:{ replace (la + lb + lc + 4)%nat with (0 + (la + lb + lc + 4))%nat by lia.
        apply (drop_add _ 0 s s "").
        - now rewrite app_nil_r.
        - unfold s. rewrite !length_app. cbn [String.length].
          fold la lb lc. lia. }
    f_equal. unfold s. cbn [List.app].
    repeat (first [rewrite join_cons | rewrite join_app]).
    rewrite !join_member_tokens. cbn [join String.concat append].
    rewrite ?app_assoc, ?app_nil_r. reflexivity.
  - intros Hv Hpc. unfold apply. fold s.
    rewrite process_quotes_quote_free
      by (apply (quote_free_nested a b c Ha Hb Hc)).
    set (ver := if (re_version =? 0)%Z then DEFAULT_VERSION else re_version).
    assert (Hver : ver <> V1).
    { unfold ver. destruct (re_version =? 0)%Z; [discriminate | exact Hv]. }
    pose proof (members_count c) as Hcount. fold lc in Hcount.
    assert (H : char_groups binary (S (la + S (lb + S (lc + S k)))) "["
                  (at_ s 1 re_verbose ver)
                = Ok ("[" :: member_tokens a ++ "[" :: member_tokens b
                          ++ ["]"])%list
                     (at_ s (la + lb + 3) re_verbose ver)).
    { unfold la at 1.
      rewrite (class_to_inner binary a _ s 0 re_verbose ver _ Ha Hla D0).
      fold la. change (2 + la)%nat with (S (S la)).
      unfold lb at 1.
      rewrite (inner_flat binary b (lc + S k) _ _ 0%Z s (S la) re_verbose ver
                 (members_text c ++ "]" ++ "") Hver Hb Hp);
        [| lia | exact Dm].
      fold lb. f_equal. f_equal. f_equal. lia. }
    replace fuel with (S (S (S (S (la + S (lb + S (lc + S k))))))) by lia.
    rewrite apply_loop_S. unfold main_group.
    rewrite (main_loop_at_class binary _ [] s 0 re_verbose ver _ _ _ D0 H).
    assert (D1 : drop (la + lb + 3) s = members_text c ++ "]").
    { replace (la + lb + 3)%nat with (0 + (la + lb + 3))%nat by lia.
      apply (drop_add _ 0 s
               ("[" ++ members_text a ++ "[" ++ members_text b ++ "]") _).
      - rewrite D0. rewrite !app_assoc. reflexivity.
      - rewrite !length_app. cbn [String.length]. fold la lb. lia. }
    replace (S (S (la + S (lb + S (lc + S k)))))
      with (List.length c + S (S (la + lb + (lc - List.length c) + k + 3)))%nat
      by lia.
    rewrite (main_loop_members binary c _ _ s _ re_verbose ver "]" Hpc D1).
    assert (D2 : drop (la + lb + 3 + lc) s = String "]" "")
      by (apply (drop_add _ _ s (members_text c) _ D1 eq_refl)).
    rewrite (main_loop_char binary _ _ s _ re_verbose ver "]" "");
      [| destruct re_verbose; reflexivity | exact D2].
    rewrite (main_loop_end binary _ _ s _ re_verbose ver
               (drop_succ _ _ _ _ D2)).
    f_equal. cbn [List.app].
    repeat (first [rewrite join_cons | rewrite join_app]).
    rewrite !join_member_tokens. cbn [join String.concat append str].
    repeat (first [rewrite app_assoc | rewrite app_nil_r
                  | progress cbn [append]]).
    reflexivity.
Qed.

Lemma nested_set_by_dialect_witness :
  apply Host.regex_escape false 40 false V1
    ("[" ++ members_text [Plain "a"] ++ "[" ++ members_text [Plain "b"] ++ "]"
     ++ members_text [Esc "<"; Plain "c"] ++ "]")
  = Returns ("[" ++ members_text [Plain "a"] ++ "["
             ++ members_text [Plain "b"] ++ "]"
             ++ members_text [Esc "<"; Plain "c"] ++ "]")
  /\ apply Host.regex_escape false 40 false 0
       ("[" ++ members_text [Plain "a"] ++ "[" ++ members_text [Plain "b"]
        ++ "]" ++ members_text [Esc "<"; Plain "c"] ++ "]")
     = Returns ("[" ++ members_text [Plain "a"] ++ "["
                ++ members_text [Plain "b"] ++ "]"
                ++ join (expansion_tokens false [Esc "<"; Plain "c"]) ++ "]").
Proof.
  assert (L : (String.length (members_text [Plain "a"])
               + String.length (members_text [Plain "b"])
               + String.length (members_text [Esc "<"; Plain "c"]) + 10
               <= 40)%nat) by (simpl; lia).
  split.
  - apply (proj1 (nested_set_by_dialect Host.regex_escape false false V1
                    [Plain "a"] [Plain "b"] [Esc "<"; Plain "c"] 40
                    eq_refl eq_refl eq_refl eq_refl eq_refl
                    (or_intror eq_refl) L)).
    reflexivity.
  - apply (proj2 (nested_set_by_dialect Host.regex_escape false false 0
                    [Plain "a"] [Plain "b"] [Esc "<"; Plain "c"] 40
                    eq_refl eq_refl eq_refl eq_refl eq_refl
                    (or_intror eq_refl) L)).
    + discriminate.
    + reflexivity.
Defined.

(** In a text pattern a POSIX class [[:name:]] inside a character class
    is one member of it, in either dialect: its closing bracket does not
    end the class, which goes on to the next closing bracket with its
    shorthands kept. *)
Theorem posix_class_is_one_member (escape : string -> string)
    (re_verbose : bool) (re_version : Z) (a c : list member) (name : string)
    (fuel : nat) :
  forallb class_member a = true ->
  forallb class_member c = true ->
  no_caret a = true ->
  name <> "" ->
  all name_char name = true ->
  (String.length (members_text a) + String.length (members_text c) + 8
   <= fuel)%nat ->
  apply escape false fuel re_verbose re_version
    ("[" ++ members_text a ++ "[:" ++ name ++ ":]" ++ members_text c ++ "]")
  = Returns ("[" ++ members_text a ++ "[:" ++ name ++ ":]"
             ++ members_text c ++ "]").
Proof.
  intros Ha Hc Hla Hne Hn Hfuel.
  set (la := String.length (members_text a)) in *.
  set (lc := String.length (members_text c)) in *.
  unfold apply.
  set (s := "[" ++ members_text a ++ "[:" ++ name ++ ":]" ++ members_text c
            ++ "]").
  assert (D0 : drop 0 s
               = "[" ++ members_text a ++ "[" ++ ":" ++ name ++ ":]"
                 ++ members_text c ++ "]" ++ "") by reflexivity.
  assert (Dm : drop (0 + (1 + la)) s
               = "[:" ++ name ++ ":]" ++ members_text c ++ "]" ++ "").
  { apply (drop_add (1 + la) 0 s ("[" ++ members_text a) _).
    - rewrite D0. now rewrite !app_assoc.
    - reflexivity. }
  cbn [Nat.add] in Dm.
  rewrite process_quotes_quote_free.
  2:{ unfold s.
      change ("[" ++ members_text a ++ "[:" ++ name ++ ":]" ++ members_text c
              ++ "]")
        with (String "[" (members_text a ++ String "[" (String ":" (name
                ++ String ":" (String "]" (members_text c ++ "]")))))).
      rewrite quote_free_char by reflexivity.
      rewrite (quote_free_after _ a _ class_member_marks Ha).
      rewrite !quote_free_char by reflexivity.
      rewrite (quote_free_skip name _ (name_no_backslash name Hn)).
      rewrite !quote_free_char by reflexivity.
      rewrite (quote_free_after _ c _ class_member_marks Hc).
      reflexivity. }
  set (ver := if (re_version =? 0)%Z then DEFAULT_VERSION else re_version).
  destruct (Nat.le_exists_sub (la + lc + 6) fuel)
    as (k & Hk & _); [lia|].
  assert (H : char_groups false (S (la + S (lc + S k))) "["
                (at_ s 1 re_verbose ver)
              = Ok ("[" :: member_tokens a
                        ++ ("[:" ++ name ++ ":]")%string :: member_tokens c
                        ++ ["]"])%list
                   (at_ s (la + String.length name + lc + 6) re_verbose ver)).
  { unfold la at 1.
    rewrite (class_to_inner false a _ s 0 re_verbose ver _ Ha Hla D0).
    fold la. change (2 + la)%nat with (S (S la)).
    unfold lc at 1.
    rewrite (inner_posix name c k _ _ 0%Z s (S la) re_verbose ver ""
               Hne Hn Hc); [| lia | exact Dm].
    fold lc. f_equal. f_equal. f_equal. lia. }
  replace fuel with (S (S (S (S (la + S (lc + S k)))))) by lia.
  rewrite apply_loop_S. unfold main_group.
  rewrite (main_loop_at_class false _ [] s 0 re_verbose ver _ _ _ D0 H).
  rewrite (main_loop_end false _ _ s _ re_verbose ver).
  2:{ replace (la + String.length name + lc + 6)%nat
        with (0 + (la + String.length name + lc + 6))%nat by lia.
      apply (drop_add _ 0 s s "").
      - now rewrite app_nil_r.
      - unfold s. rewrite !length_app. cbn [String.length].
        fold la lc. lia. }
  f_equal. unfold s. cbn [List.app].
  repeat (first [rewrite join_cons | rewrite join_app]).
  rewrite !join_member_tokens. cbn [join String.concat append].
  rewrite ?app_assoc, ?app_nil_r. reflexivity.
Qed.

Lemma posix_class_is_one_member_witness :
  apply Host.regex_escape false 40 true 0
    ("[" ++ members_text [Plain "a"] ++ "[:" ++ "alpha" ++ ":]"
     ++ members_text [Esc "<"; Plain "c"] ++ "]")
  = Returns ("[" ++ members_text [Plain "a"] ++ "[:" ++ "alpha" ++ ":]"
             ++ members_text [Esc "<"; Plain "c"] ++ "]").
Proof.
  apply (posix_class_is_one_member Host.regex_escape true 0
           [Plain "a"] [Esc "<"; Plain "c"] "alpha" 40);
    try reflexivity.
  - discriminate.
  - simpl. lia.
Defined.

End NestedFacts.

(** ** Verbose comments *)

Module RemarkFacts.
Import Search Shapes Forms StringFacts SearchFacts PreprocessFacts CommentFacts.

Lemma remark_member_marks (m : member) :
  remark_member m = true ->
  match m with
  | Plain c => Ascii.eqb c "\" = false
  | Esc c => Ascii.eqb c "Q" = false /\ Ascii.eqb c "E" = false
  end.
Proof.
  destruct m as [c|c]; cbn [remark_member]; intros H.
  - unfold comment_char in H. apply andb_true_iff in H. destruct H as [_ H].
    now apply negb_true_iff in H.
  - apply negb_true_iff in H.
    repeat (apply orb_false_iff in H; destruct H as [H ?]); auto.
Qed.

(** The comment loop over the members of a comment, up to the token
    [x] after them; the current token is the head of the text. *)
Lemma remark_loop_run (ms : list member) :
  forall (f : nat) (h : ascii) (tl : string) (cur : list string) (s : string)
         (n : nat) (v : bool) (ver : Z) (x : ascii) (rest : string),
    forallb remark_member ms = true ->
    members_text ms ++ String x rest = String h tl ->
    drop n s = tl ->
    verbose_comment_loop (String.length (members_text ms) + f) (str h) false
      cur (at_ s n v ver)
    = verbose_comment_loop f (str x) false (cur ++ remark_tokens ms)
        (at_ s (n + String.length (members_text ms)) v ver).
Proof.
  induction ms as [|m ms IH]; intros f h tl cur s n v ver x rest Hm He Hd.
  - simpl in He. injection He as Hh Ht. subst h. simpl.
    now rewrite Nat.add_0_r, List.app_nil_r.
  - cbn [forallb] in Hm. apply andb_true_iff in Hm. destruct Hm as [Hm Hms].
    destruct (members_text ms ++ String x rest) as [|h' tl'] eqn:E.
    { destruct (members_text ms); discriminate. }
    destruct m as [c|c].
    + cbn [members_text member_text str append] in He.
      rewrite E in He. injection He as Hh Ht. subst h. rewrite <- Ht in Hd.
      cbn [members_text member_text str append String.length Nat.add].
      cbn [remark_member] in Hm.
      destruct (comment_char_step c Hm) as [E1 E2].
      rewrite verbose_comment_loop_S, E1, E2. cbn [negb andb].
      rewrite (next_char s n v ver h' tl' Hd).
      rewrite (IH f h' tl' _ s (S n) v ver x rest Hms E
                 (drop_succ _ _ _ _ Hd)).
      rewrite <- List.app_assoc. cbn [remark_tokens List.app].
      now rewrite Nat.add_succ_r.
    + cbn [members_text member_text str append] in He.
      rewrite E in He. injection He as Hh Ht. subst h. rewrite <- Ht in Hd.
      cbn [members_text member_text str append String.length Nat.add].
      cbn [remark_member] in Hm. apply negb_true_iff in Hm.
      apply orb_false_iff in Hm. destruct Hm as [Hm _].
      apply orb_false_iff in Hm. destruct Hm as [Hnl _].
      rewrite verbose_comment_loop_S.
      change (str "\" =? NL) with false. change (str "\" =? "\") with true.
      cbn [negb andb].
      rewrite (next_char s n v ver c (String h' tl') Hd).
      rewrite verbose_comment_loop_S.
      change (str c =? NL) with (str c =? str "010").
      rewrite str_eqb, Hnl. cbn [negb andb].
      rewrite (next_char s (S n) v ver h' tl' (drop_succ _ _ _ _ Hd)).
      rewrite (IH f h' tl' _ s (S (S n)) v ver x rest Hms E).
      2:{ apply drop_succ with h'. apply (drop_succ _ _ _ _ Hd). }
      f_equal.
      * cbn [remark_tokens].
        destruct (in_list (str c) _new_refs);
          rewrite <- !List.app_assoc; reflexivity.
      * f_equal. f_equal. lia.
Qed.

Section Main.
Variable binary : bool.

(** The main loop, in verbose mode, at a comment that its line break
    ends. *)
Lemma main_loop_remark (cm : list member) (k : nat) (cur : list string)
    (s : string) (n : nat) (ver : Z) (rest : string) :
  forallb remark_member cm = true ->
  drop n s = "#" ++ members_text cm ++ String "010" rest ->
  (String.length (members_text cm) + 3 <= k)%nat ->
  main_group_loop binary (S (S k)) cur (at_ s n true ver)
  = main_group_loop binary (S k)
      (cur ++ "#" :: remark_tokens cm ++ [NL])
      (at_ s (n + (String.length (members_text cm) + 2)) true ver).
Proof.
  intros Hm Hd Hk.
  rewrite main_group_loop_S.
  rewrite (next_char s n true ver "#" _ Hd).
  destruct (Nat.le_exists_sub (String.length (members_text cm) + 3) k)
    as (f & Hf & _); [exact Hk|].
  replace k with (S (String.length (members_text cm)) + S (S f))%nat at 1
    by lia.
  rewrite normal_hash_verbose. unfold verbose_comment, bind.
  change "#" with (str "#") at 1.
  change (S (String.length (members_text cm)))
    with (String.length (members_text (Plain "#" :: cm))).
  rewrite (remark_loop_run (Plain "#" :: cm) (S (S f)) "#"
             (members_text cm ++ String "010" rest) [] s (S n) true ver
             "010" rest);
    [| cbn [forallb remark_member]; rewrite Hm; reflexivity
     | reflexivity | apply (drop_succ _ _ _ _ Hd)].
  rewrite verbose_comment_loop_S.
  change (str "010" =? NL) with true. cbv iota. unfold ret.
  change (str "010" =? NL) with true. cbv iota.
  cbn [List.app remark_tokens members_text member_text String.length str
       append].
  f_equal. f_equal. f_equal. lia.
Qed.

End Main.

(** In verbose mode a comment runs from [#] to its line break. It is
    kept, and no shorthand in it is expanded; instead the backslash of
    [\<], [\>], [\R] and [\e] is put out twice, while any other escaped
    character is copied with its one backslash. Behind the line break
    the pattern is handled as everywhere. *)
Theorem verbose_comment_defuses (escape : string -> string) (binary : bool)
    (re_version : Z) (cm ms : list member) (fuel : nat) :
  forallb remark_member cm = true ->
  forallb (pattern_member true) ms = true ->
  (String.length (members_text cm) + List.length ms + 8 <= fuel)%nat ->
  apply escape binary fuel true re_version
    ("#" ++ members_text cm ++ NL ++ members_text ms)
  = Returns ("#" ++ join (remark_tokens cm) ++ NL
             ++ join (expansion_tokens binary ms)).
Proof.
  intros Hc Hm Hfuel. unfold apply.
  set (lc := String.length (members_text cm)) in *.
  set (s := "#" ++ members_text cm ++ NL ++ members_text ms).
  assert (D0 : drop 0 s
               = "#" ++ members_text cm ++ String "010" (members_text ms))
    by reflexivity.
  rewrite process_quotes_quote_free.
  2:{ unfold s.
      change ("#" ++ members_text cm ++ NL ++ members_text ms)
        with (String "#" (members_text cm ++ String "010" (members_text ms))).
      cbn [quote_free]. change (Ascii.eqb "#" "\") with false. cbv iota.
      rewrite (quote_free_after _ cm _ remark_member_marks Hc).
      cbn [quote_free]. change (Ascii.eqb "010" "\") with false. cbv iota.
      apply (quote_free_pattern_members true ms Hm). }
  set (ver := if (re_version =? 0)%Z then DEFAULT_VERSION else re_version).
  destruct (Nat.le_exists_sub (lc + List.length ms + 8) fuel)
    as (k & Hk & _); [exact Hfuel|].
  replace fuel with (S (S (S (List.length ms + S (k + lc + 4))))) by lia.
  rewrite apply_loop_S. unfold main_group.
  rewrite (main_loop_remark binary cm _ [] s 0 ver _ Hc D0) by (fold lc; lia).
  fold lc.
  assert (D1 : drop (0 + (lc + 2)) s = members_text ms ++ "").
  { rewrite app_nil_r.
    apply (drop_add (lc + 2) 0 s ("#" ++ members_text cm ++ NL) _).
    - rewrite D0. rewrite !app_assoc. reflexivity.
    - rewrite !length_app. unfold NL, str. cbn [String.length].
      fold lc. lia. }
  replace (S (List.length ms + S (k + lc + 4)))
    with (List.length ms + S (S (k + lc + 4)))%nat by lia.
  rewrite (main_loop_members binary ms _ _ s _ true ver "" Hm D1).
  rewrite (main_loop_end binary _ _ s _ true ver).
  2:{ apply (drop_add _ _ s (members_text ms) "" D1 eq_refl). }
  f_equal. cbn [List.app].
  repeat (first [rewrite join_cons | rewrite join_app]).
  change (join []) with "".
  repeat (first [rewrite app_assoc | rewrite app_nil_r
                | progress cbn [append]]).
  reflexivity.
Qed.

Lemma verbose_comment_defuses_witness :
  apply Host.regex_escape false 40 true 0
    ("#" ++ members_text [Plain "a"; Esc "<"; Esc "d"; Plain "("; Esc "R"]
     ++ NL ++ members_text [Plain "b"; Esc "<"])
  = Returns ("#" ++ join (remark_tokens [Plain "a"; Esc "<"; Esc "d";
                                         Plain "("; Esc "R"])
             ++ NL ++ join (expansion_tokens false [Plain "b"; Esc "<"])).
Proof.
  apply (verbose_comment_defuses Host.regex_escape false 0
           [Plain "a"; Esc "<"; Esc "d"; Plain "("; Esc "R"]
           [Plain "b"; Esc "<"] 40);
    try reflexivity.
  simpl. lia.
Defined.

End RemarkFacts.

(** ** The dialect flag inside a pattern *)

Module DialectFacts.
Import Search Shapes Forms StringFacts SearchFacts ClassFacts PreprocessFacts
  CommentFacts BracketFacts NestedFacts.

Lemma get_flags_V1 (version0 : bool) (s : string) (n : nat) (v : bool)
    (ver : Z) (rest : string) :
  drop n s = "(?V1)[" ++ rest ->
  get_flags version0 (at_ s (S n) v ver)
  = Ok (Some "(?V1)") (at_ s (n + 5) v ver).
Proof.
  intros Hd. unfold get_flags.
  apply (get_lexeme_some _ s n v ver "(?V1)").
  rewrite Hd. destruct version0; reflexivity.
Qed.

(** [flags("V1")]: in the other dialect it switches and asks for the
    whole pattern to be read again; under [V1] it does nothing. *)
Lemma flags_V1_switch (s : string) (n : nat) (v : bool) :
  flags "V1" (at_ s n v V0) = Raise GlobalRetryException (at_ s n v V1).
Proof. destruct v; reflexivity. Qed.

Lemma flags_V1_keep (s : string) (n : nat) (v : bool) :
  flags "V1" (at_ s n v V1) = Ok tt (at_ s n v V1).
Proof. destruct v; reflexivity. Qed.

Section Restart.
Variable binary : bool.

Lemma main_loop_V1_switch (f : nat) (cur : list string) (s : string) (n : nat)
    (v : bool) (rest : string) :
  drop n s = "(?V1)[" ++ rest ->
  main_group_loop binary (S (S (S f))) cur (at_ s n v V0)
  = Raise GlobalRetryException (at_ s (n + 5) v V1).
Proof.
  intros Hd. cbn [main_group_loop].
  rewrite (next_char s n v V0 "(" ("?V1)[" ++ rest) Hd).
  cbn [normal]. change (str "(" =? "\") with false.
  change (str "(" =? "(") with true. cbv iota.
  cbn [subgroup]. cbn [version].
  rewrite (get_flags_V1 _ s n v V0 rest Hd).
  unfold bind. change (slice_to_last 2 "(?V1)") with "V1".
  rewrite flags_V1_switch. reflexivity.
Qed.

Lemma main_loop_V1_keep (f : nat) (cur : list string) (s : string) (n : nat)
    (v : bool) (rest : string) :
  drop n s = "(?V1)[" ++ rest ->
  main_group_loop binary (S (S (S f))) cur (at_ s n v V1)
  = main_group_loop binary (S (S f)) (cur ++ ["(?V1)"]) (at_ s (n + 5) v V1).
Proof.
  intros Hd. cbn [main_group_loop].
  rewrite (next_char s n v V1 "(" ("?V1)[" ++ rest) Hd).
  cbn [normal]. change (str "(" =? "\") with false.
  change (str "(" =? "(") with true. cbv iota.
  cbn [subgroup]. cbn [version].
  rewrite (get_flags_V1 _ s n v V1 rest Hd).
  unfold bind. change (slice_to_last 2 "(?V1)") with "V1".
  rewrite flags_V1_keep. reflexivity.
Qed.

End Restart.

(** The flag group [(?V1)] at the head of a pattern that is read in the
    other dialect switches the dialect for the whole pattern: the pattern
    is read again from its start, and a bracket inside the character
    class behind the flag opens a nested set, so the class goes on to its
    second closing bracket and all of it is kept as it is. *)
Theorem version_flag_switches_dialect (escape : string -> string)
    (binary : bool) (re_verbose : bool) (re_version : Z)
    (a b c : list member) (fuel : nat) :
  re_version = 0%Z \/ re_version = V0 ->
  forallb class_member a = true ->
  forallb class_member b = true ->
  forallb class_member c = true ->
  no_caret a = true ->
  leading b = true ->
  binary = true \/ no_colon b = true ->
  (String.length (members_text a) + String.length (members_text b)
   + String.length (members_text c) + 14 <= fuel)%nat ->
  apply escape binary fuel re_verbose re_version
    ("(?V1)" ++ "[" ++ members_text a ++ "[" ++ members_text b ++ "]"
     ++ members_text c ++ "]")
  = Returns ("(?V1)" ++ "[" ++ members_text a ++ "[" ++ members_text b ++ "]"
             ++ members_text c ++ "]").
Proof.
  intros Hv Ha Hb Hc Hla Hlb Hp Hfuel.
  set (la := String.length (members_text a)) in *.
  set (lb := String.length (members_text b)) in *.
  set (lc := String.length (members_text c)) in *.
  unfold apply.
  set (s := "(?V1)" ++ "[" ++ members_text a ++ "[" ++ members_text b ++ "]"
            ++ members_text c ++ "]").
  rewrite process_quotes_quote_free.
  2:{ unfold s. rewrite (quote_free_skip "(?V1)" _ eq_refl).
      apply (quote_free_nested a b c Ha Hb Hc). }
  replace (if (re_version =? 0)%Z then DEFAULT_VERSION else re_version)
    with V0 by (destruct Hv as [Hv|Hv]; subst re_version; reflexivity).
  assert (D0 : drop 0 s
               = "(?V1)[" ++ members_text a ++ "[" ++ members_text b ++ "]"
                 ++ members_text c ++ "]" ++ "") by reflexivity.
  assert (D5 : drop 5 s
               = "[" ++ members_text a ++ "[" ++ members_text b ++ "]"
                 ++ members_text c ++ "]" ++ "") by reflexivity.
  assert (Dm : drop (5 + (1 + la)) s
               = "[" ++ members_text b ++ "]" ++ members_text c ++ "]" ++ "").
  { apply (drop_add (1 + la) 5 s ("[" ++ members_text a) _).
    - rewrite D5. now rewrite !app_assoc.
    - reflexivity. }
  cbn [Nat.add] in Dm.
  destruct (Nat.le_exists_sub (la + lb + lc + 9) fuel)
    as (k & Hk & _); [lia|].
  assert (H : char_groups binary (S (la + S (lb + S (lc + S k)))) "["
                (at_ s 6 re_verbose V1)
              = Ok ("[" :: member_tokens a ++ "[" :: member_tokens b
                        ++ "]" :: member_tokens c ++ ["]"])%list
                   (at_ s (la + lb + lc + 9) re_verbose V1)).
  { unfold la at 1.
    rewrite (class_to_inner binary a _ s 5 re_verbose V1 _ Ha Hla D5).
    fold la. change (7 + la)%nat with (S (6 + la)).
    unfold lb at 1, lc at 1.
    rewrite (inner_nested binary b c k _ _ 5%Z s (6 + la) re_verbose ""
               Hb Hc Hlb Hp); [| lia | exact Dm].
    fold lb lc. f_equal. f_equal. f_equal. lia. }
  replace fuel
    with (S (S (S (S (S (S (la + S (lb + S (lc + S k)))))))))
    by lia.
  rewrite apply_loop_S. unfold main_group.
  rewrite (main_loop_V1_switch binary _ [] s 0 re_verbose _ D0).
  change (set_index 0 (at_ s (0 + 5) re_verbose V1))
    with (at_ s 0 re_verbose V1).
  rewrite apply_loop_S. unfold main_group.
  rewrite (main_loop_V1_keep binary _ [] s 0 re_verbose _ D0).
  change (0 + 5)%nat with 5%nat.
  rewrite (main_loop_at_class binary _ _ s 5 re_verbose V1 _ _ _ D5 H).
  rewrite (main_loop_end binary _ _ s _ re_verbose V1).
  2:{ replace (la + lb + lc + 9)%nat with (0 + (la + lb + lc + 9))%nat by lia.
      apply (drop_add _ 0 s s "").
      - now rewrite app_nil_r.
      - unfold s. rewrite !length_app. cbn [String.length].
        fold la lb lc. lia. }
  f_equal. unfold s. cbn [List.app].
  repeat (first [rewrite join_cons | rewrite join_app]).
  rewrite !join_member_tokens. cbn [join String.concat append].
  repeat (first [rewrite app_assoc | rewrite app_nil_r
                | progress cbn [append]]).
  reflexivity.
Qed.

Lemma version_flag_switches_dialect_witness :
  apply Host.regex_escape false 40 false 0
    ("(?V1)" ++ "[" ++ members_text [Plain "a"] ++ "["
     ++ members_text [Plain "b"] ++ "]"
     ++ members_text [Esc "<"; Plain "c"] ++ "]")
  = Returns ("(?V1)" ++ "[" ++ members_text [Plain "a"] ++ "["
             ++ members_text [Plain "b"] ++ "]"
             ++ members_text [Esc "<"; Plain "c"] ++ "]").
Proof.
  apply (version_flag_switches_dialect Host.regex_escape false false 0
           [Plain "a"] [Plain "b"] [Esc "<"; Plain "c"] 40);
    try reflexivity.
  - left. reflexivity.
  - right. reflexivity.
  - simpl. lia.
Defined.

End DialectFacts.

(** ** Group references inside a case span *)

Module SpanGroupFacts.
Import Replace Shapes Forms StringFacts SearchFacts TemplateFacts.

Lemma group_token_not_end (g : ascii) :
  is_nonzero_digit g = true -> (String "\" (str g) =? "\E") = false.
Proof.
  intros Hg. unfold str. cbn [String.eqb].
  change (Ascii.eqb "\" "\") with true. cbv iota.
  destruct (Ascii.eqb g "E") eqn:E; [|reflexivity].
  apply Ascii.eqb_eq in E. subst g. discriminate.
Qed.

Lemma starts_with_digit_app (y r : string) :
  starts_with_digit y = false ->
  starts_with_digit (y ++ "\E" ++ r) = false.
Proof. destruct y; [reflexivity | intros H; exact H]. Qed.

Section Compiler.
Variable unicodedata_lookup : string -> option Z.

Abbreviation cst full idx ef gs ls res sp stk sl ma au ai :=
  (mkCompiler (Replace.mkTokens full idx) ef gs ls res sp stk sl ma au ai).
Abbreviation next_ := (next false false).
Abbreviation parse_loop_ := (parse_loop false false unicodedata_lookup).
Abbreviation span_loop_ := (span_loop false false unicodedata_lookup).
Abbreviation span_case_ := (span_case false false unicodedata_lookup).

Abbreviation span_rest f case s :=
  (match next_ s with
   | Ok t s' => span_loop_ f case t s'
   | Raise StopIteration s' => Ok tt s'
   | Raise e s' => Raise e s'
   | OutOfFuel => OutOfFuel
   end).

Abbreviation cased case text :=
  (map (fun t => convert_case false t (Some case)) (Search.chars text)).

(** The span loop over literal text, up to what follows it. *)
Lemma span_lits (x : string) :
  forall (f : nat) (case : Z) (full : string) (idx : nat) (rest : string)
         gs ls res sp sl ma au ai,
    all (literal_char false) x = true ->
    drop idx full = x ++ rest ->
    span_rest (String.length x + f) case
      (cst full idx false gs ls res sp [] sl ma au ai)
    = span_rest f case
        (cst full (idx + String.length x) false gs ls
           (res ++ cased case x) sp [] sl ma au ai).
Proof.
  induction x as [|a x IH];
    intros f case full idx rest gs ls res sp sl ma au ai Hl Hd.
  - cbn [String.length Nat.add Search.chars map].
    now rewrite Nat.add_0_r, List.app_nil_r.
  - cbn [all] in Hl. apply andb_true_iff in Hl. destruct Hl as [Ha Hl].
    cbn [String.length Nat.add].
    rewrite (next_literal false false a full idx _ _ _ _ _ _ _ _ _ _ _ Ha Hd).
    rewrite (PieceFacts.span_loop_literal false false unicodedata_lookup)
      by exact Ha.
    rewrite (IH f case full (idx + 1)%nat rest _ _ _ _ _ _ _ _ Hl).
    + cbn [Search.chars map]. rewrite <- List.app_assoc. cbn [List.app].
      replace (idx + 1 + String.length x)%nat
        with (idx + S (String.length x))%nat by lia.
      reflexivity.
    + rewrite Nat.add_1_r. apply (drop_succ _ _ _ _ Hd).
Qed.

(** The span loop at a group reference, alone or under a directive:
    the slot of the group records the case of the span and the
    directive. *)
Lemma span_loop_group (od : option directive) (g : ascii) (f : nat)
    (case : Z) (full : string) (idx : nat) (b : string)
    gs ls res sp sl ma au ai :
  is_nonzero_digit g = true ->
  starts_with_digit b = false ->
  drop idx full = optional_directive od ++ String "\" (String g b) ->
  span_rest (S (S f)) case (cst full idx false gs ls res sp [] sl ma au ai)
  = span_rest (S f) case
      (if (1 <? List.length res)%nat then
         cst full (idx + String.length (optional_directive od) + 2) false
           (gs ++ [((sl + 1)%Z, (top sp, option_map case_of od, (-1)%Z))])
           (ls ++ [join res; String "\" (str g)]) [EmptyString] sp []
           (sl + 1 + 1)%Z ma au ai
       else
         cst full (idx + String.length (optional_directive od) + 2) false
           (gs ++ [(sl, (top sp, option_map case_of od, (-1)%Z))])
           (ls ++ [String "\" (str g)]) res sp [] (sl + 1)%Z ma au ai).
Proof.
  intros Hg Hb Hd.
  remember (1 <? List.length res)%nat as r eqn:Hr.
  destruct od as [d|]; cbn [optional_directive option_map] in *.
  - rewrite (next_directive false false d full idx _ _ _ _ _ _ _ _ _ _ _ Hd).
    assert (Hd2 : drop (idx + 2) full = String "\" (String g b)).
    { apply (drop_add 2 idx full (directive_text d) _ Hd).
      destruct d; reflexivity. }
    assert (Ht : span_loop_ (S (S f)) case (directive_text d)
                   (cst full (idx + 2) false gs ls res sp [] sl ma au ai)
                 = (single_case false false unicodedata_lookup (S f) (case_of d)
                    ;;; (fun s => if end_found s
                                  then Ok tt (set_end_found false s)
                                  else span_rest (S f) case s))
                     (cst full (idx + 2) false gs ls res sp [] sl ma au ai))
      by (destruct d; reflexivity).
    rewrite Ht. clear Ht.
    unfold bind at 1. cbn [single_case].
    unfold bind at 1, push_single, modify, set_single_stack.
    cbn [i end_found group_slots literal_slots result span_stack
           single_stack slot manual auto auto_index List.app].
    unfold bind at 1.
    rewrite (GroupFacts.next_group_then false g full (idx + 2) b
               _ _ _ _ _ _ _ _ _ _ Hg Hb Hd2).
    cbn [str String.length Nat.ltb Nat.leb andb negb drop first_char take
         starts_with_digit Nat.eqb orb].
    rewrite (nonzero_digit_is_digit g Hg). cbn [andb orb].
    fold (str g). rewrite GroupFacts.handle_group_at. cbn [hd_error].
    assert (Hlen : String.length (directive_text d) = 2%nat)
      by (destruct d; reflexivity).
    rewrite Hlen, <- Hr. destruct r; reflexivity.
  - rewrite (GroupFacts.next_group_then false g full idx b
               _ _ _ _ _ _ _ _ _ _ Hg Hb Hd).
    cbn [span_loop]. rewrite (group_token_not_end g Hg).
    cbn [str String.length Nat.ltb Nat.leb andb negb drop first_char take
         starts_with_digit Nat.eqb orb].
    rewrite (nonzero_digit_is_digit g Hg). cbn [andb orb].
    fold (str g). unfold bind at 1.
    rewrite GroupFacts.handle_group_at. cbn [hd_error String.length].
    rewrite Nat.add_0_r, <- Hr. destruct r; reflexivity.
Qed.

(** The main loop at a span that holds literal text, a group reference,
    alone or under a directive, and literal text again. *)
Lemma parse_loop_span_group (lower : bool) (od : option directive) (g : ascii)
    (x y : string) (f : nat) (full : string) (idx : nat) (rest : string)
    gs ls res sl ma au ai :
  all (literal_char false) x = true ->
  all (literal_char false) y = true ->
  is_nonzero_digit g = true ->
  starts_with_digit y = false ->
  drop idx full
  = span_mark lower ++ x ++ optional_directive od
    ++ String "\" (String g (y ++ "\E" ++ rest)) ->
  (String.length x + String.length y + 4 <= f)%nat ->
  parse_loop_ (S f) (cst full idx false gs ls res [] [] sl ma au ai)
  = parse_loop_ f
      (if (1 <? List.length (res ++ cased (span_case_of lower) x))%nat then
         cst full (idx + String.length x
                   + String.length (optional_directive od)
                   + String.length y + 6) false
           (gs ++ [((sl + 1)%Z,
                    (Some (span_case_of lower), option_map case_of od,
                     (-1)%Z))])
           (ls ++ [join (res ++ cased (span_case_of lower) x);
                   String "\" (str g)])
           ([EmptyString] ++ cased (span_case_of lower) y) [] []
           (sl + 1 + 1)%Z ma au ai
       else
         cst full (idx + String.length x
                   + String.length (optional_directive od)
                   + String.length y + 6) false
           (gs ++ [(sl, (Some (span_case_of lower), option_map case_of od,
                         (-1)%Z))])
           (ls ++ [String "\" (str g)])
           ((res ++ cased (span_case_of lower) x)
            ++ cased (span_case_of lower) y) [] []
           (sl + 1)%Z ma au ai).
Proof.
  intros Hx Hy Hg Hyd Hd Hf.
  set (case := span_case_of lower).
  set (nx := String.length x) in *. set (ny := String.length y) in *.
  set (nd := String.length (optional_directive od)).
  rewrite parse_loop_S.
  assert (Hd' : drop idx full
                = String "\" (String (if lower then "L" else "C")%char
                    (x ++ optional_directive od
                     ++ String "\" (String g (y ++ "\E" ++ rest)))))
    by (rewrite Hd; destruct lower; reflexivity).
  rewrite (PieceFacts.next_mark false false _ full idx _ _ _ _ _ _ _ _ _ _ _
             (if lower as b
                 return in_chars "CLE" (if b then "L" else "C")%char = true
              then eq_refl else eq_refl) Hd').
  unfold bind at 1.
  assert (Ht : parse_token false false unicodedata_lookup f
                 (String "\" (str (if lower then "L" else "C")%char))
               = span_case_ f case)
    by (destruct lower; reflexivity).
  rewrite Ht. clear Ht.
  destruct (Nat.le_exists_sub (nx + ny + 4) f) as (k & Hk & _); [exact Hf|].
  replace f with (S (nx + S (S (ny + S k)))) at 1 by lia.
  rewrite (PieceFacts.span_case_S false false unicodedata_lookup).
  unfold bind at 1, push_span, modify, set_span_stack.
  cbn [i end_found group_slots literal_slots result span_stack
         single_stack slot manual auto auto_index List.app].
  unfold bind at 1.
  assert (D1 : drop (idx + 2) full
               = x ++ optional_directive od
                 ++ String "\" (String g (y ++ "\E" ++ rest))).
  { replace (idx + 2)%nat with (S (S idx)) by lia.
    apply (drop_succ _ _ _ _ (drop_succ _ _ _ _ Hd')). }
  unfold nx at 1.
  rewrite (span_lits x _ case full (idx + 2) _ _ _ _ _ _ _ _ _ Hx D1).
  fold nx.
  assert (D2 : drop (idx + 2 + nx) full
               = optional_directive od
                 ++ String "\" (String g (y ++ "\E" ++ rest)))
    by (apply (drop_add nx _ full x _ D1 eq_refl)).
  rewrite (span_loop_group od g _ case full (idx + 2 + nx) _ _ _ _ _ _ _ _ _
             Hg (starts_with_digit_app y rest Hyd) D2).
  fold nd.
  assert (D3 : drop (idx + 2 + nx + nd + 2) full = y ++ "\E" ++ rest).
  { apply (drop_add 2 _ full (String "\" (str g)) _); [|reflexivity].
    apply (drop_add nd _ full (optional_directive od) _ D2 eq_refl). }
  replace (S (ny + S k)) with (ny + S (S k))%nat by lia.
  unfold ny at 1 2.
  destruct (1 <? List.length (res ++ cased case x))%nat;
    rewrite (PieceFacts.span_run false false unicodedata_lookup y _ case full
               _ rest _ _ _ _ _ _ _ _ Hy D3);
    unfold pop_span, modify, set_span_stack;
    cbn [i end_found group_slots literal_slots result span_stack
           single_stack slot manual auto auto_index removelast top List.last
           map];
    fold ny;
    replace (idx + 2 + nx + nd + 2 + ny + 2)%nat
      with (idx + nx + nd + ny + 6)%nat by lia;
    reflexivity.
Qed.

(** The last flush of [result], which always begins with the empty
    string. *)
Lemma last_flush (full : string) (idx : nat) (r : list string)
    gs ls sl ma au ai :
  exists s,
    modify (fun s =>
      if (1 <? List.length (result s))%nat then
        set_slot (slot s + 1)%Z
          (set_result [EmptyString]
             (set_literal_slots (literal_slots s ++ [join (result s)])%list s))
      else s) (cst full idx false gs ls (EmptyString :: r) [] [] sl ma au ai)
    = Ok tt s
    /\ join (literal_slots s) = join ls ++ join r
    /\ group_slots s = gs.
Proof.
  unfold modify. cbn [result].
  destruct r as [|t r]; cbn [List.length Nat.ltb Nat.leb].
  - eexists. split; [reflexivity|]. split; [|reflexivity].
    cbn [literal_slots]. now rewrite app_nil_r.
  - eexists. split; [reflexivity|]. split; [|reflexivity].
    unfold set_slot, set_result, set_literal_slots;
      cbn [i end_found group_slots literal_slots result span_stack
             single_stack slot manual auto auto_index].
    rewrite join_snoc, (join_cons ""). reflexivity.
Qed.

Lemma join_cased_chars (case : Z) (y b : string) :
  join (cased case y ++ Search.chars b)
  = convert_case false y (Some case) ++ b.
Proof.
  rewrite join_app, join_chars.
  now rewrite (PieceFacts.join_cased false case y).
Qed.

Lemma convert_case_nil (case : Z) :
  convert_case false "" (Some case) = "".
Proof. unfold convert_case. destruct (case =? _LOWER)%Z; reflexivity. Qed.

(** A template that is literal text, a span that holds literal text, a
    group reference, alone or under a directive, and literal text, and
    literal text behind the span. *)
Lemma parse_tokens_span_group (lower : bool) (od : option directive)
    (g : ascii) (a x y b : string) (fuel : nat) :
  all (literal_char false) a = true ->
  all (literal_char false) x = true ->
  all (literal_char false) y = true ->
  all (literal_char false) b = true ->
  is_nonzero_digit g = true ->
  starts_with_digit y = false ->
  (String.length a + String.length x + String.length y + String.length b + 6
   <= fuel)%nat ->
  exists s,
    parse_tokens false false unicodedata_lookup fuel
      (a ++ span_mark lower ++ x ++ optional_directive od
       ++ String "\" (String g (y ++ "\E" ++ b)))
    = Ok tt s
    /\ join (literal_slots s)
       = (a ++ convert_case false x (Some (span_case_of lower)))
         ++ String "\" (String g
              (convert_case false y (Some (span_case_of lower)) ++ b))
    /\ group_slots s
       = [(match a ++ convert_case false x (Some (span_case_of lower)) with
           | EmptyString => 0%Z
           | _ => 1%Z
           end,
           (Some (span_case_of lower), option_map case_of od, (-1)%Z))].
Proof.
  intros Ha Hx Hy Hb Hg Hyd Hfuel. unfold parse_tokens, initial.
  set (case := span_case_of lower).
  set (full := a ++ span_mark lower ++ x ++ optional_directive od
               ++ String "\" (String g (y ++ "\E" ++ b))).
  set (na := String.length a) in *. set (nx := String.length x) in *.
  set (ny := String.length y) in *. set (nb := String.length b) in *.
  set (nd := String.length (optional_directive od)).
  destruct (Nat.le_exists_sub (na + nx + ny + nb + 6) fuel)
    as (k & Hk & _); [exact Hfuel|].
  replace fuel with (na + S (nb + S (k + nx + ny + 4)))%nat by lia.
  unfold bind at 1.
  rewrite (CompileFacts.parse_loop_text false false unicodedata_lookup a _ full
             0 _ _ _ _ _ _ _ _ _ _ _ Ha eq_refl).
  fold na. cbn [Nat.add].
  assert (D1 : drop na full
               = span_mark lower ++ x ++ optional_directive od
                 ++ String "\" (String g (y ++ "\E" ++ b)))
    by (apply (drop_add na 0 full a _ eq_refl eq_refl)).
  rewrite (parse_loop_span_group lower od g x y _ full na b _ _ _ _ _ _ _
             Hx Hy Hg Hyd D1) by (fold nx ny; lia).
  fold case nx ny nd.
  assert (D2 : drop (na + nx + nd + ny + 6) full = b ++ "").
  { rewrite app_nil_r.
    replace (na + nx + nd + ny + 6)%nat
      with (na + String.length
                   (span_mark lower ++ x ++ optional_directive od
                    ++ String "\" (String g (y ++ "\E"))))%nat.
    - apply (drop_add _ na full
               (span_mark lower ++ x ++ optional_directive od
                ++ String "\" (String g (y ++ "\E"))) b); [|reflexivity].
      rewrite D1. rewrite !app_assoc. cbn [append].
      now rewrite !app_assoc.
    - rewrite !length_app. cbn [String.length]. rewrite length_app.
      fold nx nd ny. destruct lower; cbn [span_mark String.length]; lia. }
  assert (D3 : drop (na + nx + nd + ny + 6 + nb) full = "")
    by (apply (drop_add nb _ full b "" D2 eq_refl)).
  assert (Hj : forall l, join (EmptyString :: l) = join l)
    by (intros l; now rewrite (join_cons "")).
  destruct a as [|ca a]; [destruct x as [|cx x]|].
  - (* nothing before the reference *)
    cbn [Search.chars map List.app List.length Nat.ltb Nat.leb].
    rewrite (CompileFacts.parse_loop_text false false unicodedata_lookup b _
               full _ _ _ _ _ _ _ _ _ _ _ _ Hb D2).
    fold nb. rewrite parse_loop_S, next_at_end by exact D3.
    cbn [List.app].
    destruct (last_flush full (na + nx + nd + ny + 6 + nb)
                (cased case y ++ Search.chars b)
                [(0%Z, (Some case, option_map case_of od, (-1)%Z))]
                [String "\" (str g)] (0 + 1)%Z false false 0%Z)
      as (s & Hs & Hl & Hgs).
    exists s. split; [exact Hs|]. split.
    + rewrite Hl, join_cased_chars, convert_case_nil. reflexivity.
    + rewrite Hgs, convert_case_nil. reflexivity.
  - (* cased text before the reference *)
    match goal with
    | |- context [if ?t then _ else _] =>
        assert (E : t = true) by reflexivity; rewrite E; clear E
    end.
    rewrite (CompileFacts.parse_loop_text false false unicodedata_lookup b _
               full _ _ _ _ _ _ _ _ _ _ _ _ Hb D2).
    fold nb. rewrite parse_loop_S, next_at_end by exact D3.
    cbn [List.app].
    destruct (last_flush full (na + nx + nd + ny + 6 + nb)
                (cased case y ++ Search.chars b)
                [((0 + 1)%Z, (Some case, option_map case_of od, (-1)%Z))]
                [join (EmptyString :: cased case (String cx x));
                 String "\" (str g)] (0 + 1 + 1)%Z false false 0%Z)
      as (s & Hs & Hl & Hgs).
    exists s. split; [exact Hs|]. split.
    + rewrite Hl, join_cased_chars, Hj.
      rewrite (PieceFacts.join_cased false case (String cx x)).
      cbn [join String.concat append].
      rewrite ?app_assoc, ?app_nil_r. reflexivity.
    + rewrite Hgs. unfold convert_case.
      destruct (case =? _LOWER)%Z; reflexivity.
  - (* literal text before the span *)
    match goal with
    | |- context [if ?t then _ else _] =>
        assert (E : t = true) by reflexivity; rewrite E; clear E
    end.
    rewrite (CompileFacts.parse_loop_text false false unicodedata_lookup b _
               full _ _ _ _ _ _ _ _ _ _ _ _ Hb D2).
    fold nb. rewrite parse_loop_S, next_at_end by exact D3.
    cbn [List.app].
    destruct (last_flush full (na + nx + nd + ny + 6 + nb)
                (cased case y ++ Search.chars b)
                [((0 + 1)%Z, (Some case, option_map case_of od, (-1)%Z))]
                [join (EmptyString :: Search.chars (String ca a)
                       ++ cased case x);
                 String "\" (str g)] (0 + 1 + 1)%Z false false 0%Z)
      as (s & Hs & Hl & Hgs).
    exists s. split; [exact Hs|]. split.
    + rewrite Hl, join_cased_chars, Hj, join_app, join_chars.
      rewrite (PieceFacts.join_cased false case x).
      cbn [join String.concat append].
      rewrite ?app_assoc, ?app_nil_r. reflexivity.
    + rewrite Hgs. reflexivity.
Qed.

End Compiler.



End SpanGroupFacts.

(** ** A directive before a case span *)

Module TitleFacts.
Import Replace Shapes Forms StringFacts SearchFacts TemplateFacts.

Section Compiler.
Variable unicodedata_lookup : string -> option Z.

Abbreviation cst full idx ef gs ls res sp stk sl ma au ai :=
  (mkCompiler (Replace.mkTokens full idx) ef gs ls res sp stk sl ma au ai).
Abbreviation next_ := (next false false).
Abbreviation parse_loop_ := (parse_loop false false unicodedata_lookup).
Abbreviation span_loop_ := (span_loop false false unicodedata_lookup).
Abbreviation span_case_ := (span_case false false unicodedata_lookup).
Abbreviation single_case_ := (single_case false false unicodedata_lookup).

Abbreviation span_rest f case s :=
  (match next_ s with
   | Ok t s' => span_loop_ f case t s'
   | Raise StopIteration s' => Ok tt s'
   | Raise e s' => Raise e s'
   | OutOfFuel => OutOfFuel
   end).

Abbreviation cased case text :=
  (map (fun t => convert_case false t (Some case)) (Search.chars text)).

(** The span loop at a literal character while a directive is
    pending: the character is cased by the span and then by the
    directive. *)
Lemma span_loop_pending (c : ascii) (f : nat) (case dcase : Z) (full : string)
    (idx : nat) gs ls res sp sl ma au ai :
  literal_char false c = true ->
  span_loop_ (S f) case (str c)
    (cst full idx false gs ls res sp [dcase] sl ma au ai)
  = span_rest f case
      (cst full idx false gs ls
         (res ++ [convert_case false
                    (first_char (convert_case false (str c) (Some case)))
                    (Some dcase)
                  ++ drop 1 (convert_case false (str c) (Some case))])
         sp [] sl ma au ai).
Proof.
  intros Hc. cbn [span_loop]. unfold str at 1. cbn [String.eqb].
  rewrite (PieceFacts.literal_not_backslash false c Hc).
  cbn [str String.length Nat.ltb Nat.leb].
  unfold bind, get_single_stack, result_append, modify, set_result,
    set_single_stack;
    cbn [i end_found group_slots literal_slots result span_stack
           single_stack slot manual auto auto_index rev List.app fold_left].
  reflexivity.
Qed.

(** [single_case] before a span mark starts the span with the
    directive pending. *)
Lemma single_to_span (lower : bool) (f : nat) (dcase : Z) (full : string)
    (idx : nat) (rest : string) gs ls res sp stk sl ma au ai :
  drop idx full = span_mark lower ++ rest ->
  single_case_ (S f) dcase (cst full idx false gs ls res sp stk sl ma au ai)
  = span_case_ f (span_case_of lower)
      (cst full (idx + 2) false gs ls res sp (stk ++ [dcase]) sl ma au ai).
Proof.
  intros Hd.
  assert (Hd' : drop idx full
                = String "\" (String (if lower then "L" else "C")%char rest))
    by (rewrite Hd; destruct lower; reflexivity).
  cbn [single_case]. unfold bind at 1, push_single, modify, set_single_stack.
  cbn [i end_found group_slots literal_slots result span_stack
         single_stack slot manual auto auto_index].
  rewrite (PieceFacts.next_mark false false _ full idx _ _ _ _ _ _ _ _ _ _ _
             (if lower as b
                 return in_chars "CLE" (if b then "L" else "C")%char = true
              then eq_refl else eq_refl) Hd').
  destruct lower; reflexivity.
Qed.

(** [single_case] at a span of literal text that is not empty. *)
Lemma single_at_span (lower : bool) (c : ascii) (x : string) (f : nat)
    (dcase : Z) (full : string) (idx : nat) (rest : string)
    gs ls res sl ma au ai :
  literal_char false c = true ->
  all (literal_char false) x = true ->
  drop idx full = span_mark lower ++ String c (x ++ "\E" ++ rest) ->
  single_case_ (S (S (S (String.length x + S f)))) dcase
    (cst full idx false gs ls res [] [] sl ma au ai)
  = Ok tt
      (cst full (idx + String.length x + 5) false gs ls
         ((res ++ [convert_case false
                     (first_char
                        (convert_case false (str c)
                           (Some (span_case_of lower))))
                     (Some dcase)
                   ++ drop 1 (convert_case false (str c)
                                (Some (span_case_of lower)))])
          ++ cased (span_case_of lower) x) [] [] sl ma au ai).
Proof.
  intros Hc Hx Hd.
  set (case := span_case_of lower).
  rewrite (single_to_span lower _ dcase full idx _ _ _ _ _ _ _ _ _ _ Hd).
  fold case. cbn [List.app].
  assert (D1 : drop (idx + 2) full = String c (x ++ "\E" ++ rest)).
  { apply (drop_add 2 idx full (span_mark lower) _ Hd).
    destruct lower; reflexivity. }
  assert (D2 : drop (idx + 2 + 1) full = x ++ "\E" ++ rest).
  { rewrite Nat.add_1_r. apply (drop_succ _ _ _ _ D1). }
  rewrite (PieceFacts.span_case_S false false unicodedata_lookup).
  unfold bind at 1, push_span, modify, set_span_stack.
  cbn [i end_found group_slots literal_slots result span_stack
         single_stack slot manual auto auto_index List.app].
  unfold bind at 1.
  rewrite (next_literal false false c full (idx + 2) _ _ _ _ _ _ _ _ _ _ _
             Hc D1).
  rewrite (span_loop_pending c _ _ dcase full _ _ _ _ _ _ _ _ _ Hc).
  rewrite (PieceFacts.span_run false false unicodedata_lookup x _ _ full
             _ rest _ _ _ _ _ _ _ _ Hx D2).
  unfold pop_span, modify, set_span_stack.
  cbn [i end_found group_slots literal_slots result span_stack
         single_stack slot manual auto auto_index removelast].
  replace (idx + 2 + 1 + String.length x + 2)%nat
    with (idx + String.length x + 5)%nat by lia.
  reflexivity.
Qed.

(** The first character cased by the span and then by the directive,
    and the rest cased by the span, is the cased text with its first
    character under the directive. *)
Lemma title_first (d : directive) (case : Z) (c : ascii) (x : string) :
  (convert_case false (first_char (convert_case false (str c) (Some case)))
     (Some (case_of d))
   ++ drop 1 (convert_case false (str c) (Some case)))
  ++ convert_case false x (Some case)
  = first_cased (Some d) (convert_case false (String c x) (Some case)).
Proof.
  unfold convert_case. destruct d; destruct (case =? _LOWER)%Z; reflexivity.
Qed.

(** A template that is literal text, a directive right before a span of
    literal text, and literal text again. *)
Lemma parse_tokens_title (d : directive) (lower : bool) (c : ascii)
    (x a b : string) (fuel : nat) :
  all (literal_char false) a = true ->
  literal_char false c = true ->
  all (literal_char false) x = true ->
  all (literal_char false) b = true ->
  (String.length a + String.length x + String.length b + 7 <= fuel)%nat ->
  exists s,
    parse_tokens false false unicodedata_lookup fuel
      (a ++ directive_text d ++ span_mark lower
       ++ String c (x ++ "\E" ++ b))
    = Ok tt s
    /\ join (literal_slots s)
       = a ++ first_cased (Some d)
                (convert_case false (String c x) (Some (span_case_of lower)))
         ++ b
    /\ group_slots s = [].
Proof.
  intros Ha Hc Hx Hb Hfuel. unfold parse_tokens, initial.
  set (case := span_case_of lower).
  set (full := a ++ directive_text d ++ span_mark lower
               ++ String c (x ++ "\E" ++ b)).
  set (na := String.length a) in *. set (nx := String.length x) in *.
  set (nb := String.length b) in *.
  destruct (Nat.le_exists_sub (na + nx + nb + 6) fuel)
    as (k & Hk & _); [lia|].
  replace fuel with (na + S (S (S (S (nx + S (nb + S k))))))%nat by lia.
  unfold bind at 1.
  rewrite (CompileFacts.parse_loop_text false false unicodedata_lookup a _ full
             0 _ _ _ _ _ _ _ _ _ _ _ Ha eq_refl).
  fold na. cbn [Nat.add].
  assert (D1 : drop na full
               = directive_text d ++ span_mark lower
                 ++ String c (x ++ "\E" ++ b))
    by (apply (drop_add na 0 full a _ eq_refl eq_refl)).
  rewrite parse_loop_S.
  rewrite (next_directive false false d full na _ _ _ _ _ _ _ _ _ _ _ D1).
  unfold bind at 1. rewrite parse_token_directive.
  assert (D2 : drop (na + 2) full
               = span_mark lower ++ String c (x ++ "\E" ++ b)).
  { apply (drop_add 2 na full (directive_text d) _ D1).
    destruct d; reflexivity. }
  unfold nx at 1.
  rewrite (single_at_span lower c x _ (case_of d) full (na + 2) b
             _ _ _ _ _ _ _ Hc Hx D2).
  fold nx case.
  assert (D3 : drop (na + 2 + nx + 5) full = b ++ "").
  { rewrite app_nil_r.
    replace (na + 2 + nx + 5)%nat
      with (na + 2 + String.length
                       (span_mark lower ++ String c (x ++ "\E")))%nat.
    - apply (drop_add _ (na + 2) full
               (span_mark lower ++ String c (x ++ "\E")) b); [|reflexivity].
      rewrite D2. rewrite !app_assoc. cbn [append].
      now rewrite !app_assoc.
    - rewrite !length_app. cbn [String.length]. rewrite length_app.
      fold nx. destruct lower; cbn [span_mark String.length]; lia. }
  assert (D4 : drop (na + 2 + nx + 5 + nb) full = "")
    by (apply (drop_add nb _ full b "" D3 eq_refl)).
  replace (S (S (S (nx + S (nb + S k)))))
    with (nb + S (nx + k + 4))%nat by lia.
  rewrite (CompileFacts.parse_loop_text false false unicodedata_lookup b _
             full _ _ _ _ _ _ _ _ _ _ _ _ Hb D3).
  fold nb. rewrite parse_loop_S, next_at_end by exact D4.
  cbn [List.app].
  match goal with
  | |- context [cst _ _ _ _ _ (EmptyString :: ?r) _ _ _ _ _ _] =>
      destruct (SpanGroupFacts.last_flush full (na + 2 + nx + 5 + nb) r
                  [] [] 0%Z false false 0%Z) as (s & Hs & Hl & Hgs)
  end.
  exists s. split; [exact Hs|]. split; [|exact Hgs].
  rewrite Hl. change (join []) with "". cbn [append].
  rewrite !join_app, !join_chars.
  rewrite (PieceFacts.join_cased false case x).
  cbn [join String.concat].
  rewrite <- (title_first d case c x).
  rewrite ?app_assoc, ?app_nil_r. reflexivity.
Qed.

End Compiler.



End TitleFacts.

(** ** Subscripts of format fields *)

Module SubscriptFacts.
Import Replace Shapes Forms StringFacts SearchFacts TemplateFacts FormatFacts.

(** The field pattern at a field with a subscript. *)
Lemma indexed_match (g k : ascii) (back : bool) (rest : string) :
  is_digit g = true ->
  is_digit k = true ->
  _format_replace_group (indexed_field g back k ++ rest)
  = Some (None, Some (indexed_field g back k)).
Proof.
  intros Hg Hk. each_digit g Hg; each_digit k Hk; destruct back; reflexivity.
Qed.

Lemma indexed_name (g k : ascii) (back : bool) :
  is_digit g = true ->
  is_digit k = true ->
  split_subscript (strip (slice_to_last 1 (indexed_field g back k)))
  = (str g, Some ((if back then "-" else "") ++ str k), 10%Z).
Proof.
  intros Hg Hk. each_digit g Hg; each_digit k Hk; destruct back; reflexivity.
Qed.

Lemma int_indexed (k : ascii) (back : bool) :
  is_digit k = true ->
  Py.int ((if back then "-" else "") ++ str k) 10
  = Some (index_value back k).
Proof. intros Hk. each_digit k Hk; destruct back; reflexivity. Qed.

Lemma indexed_length (g k : ascii) (back : bool) :
  String.length (indexed_field g back k)
  = if back then 7%nat else 6%nat.
Proof. destruct back; reflexivity. Qed.

Section Compiler.
Variable binary : bool.
Variable unicodedata_lookup : string -> option Z.

Abbreviation cst full idx ef gs ls res sp stk sl ma au ai :=
  (mkCompiler (Replace.mkTokens full idx) ef gs ls res sp stk sl ma au ai).
Abbreviation parse_loop_ := (parse_loop binary true unicodedata_lookup).

(** The tokenizer at such a field. *)
Lemma next_indexed (g k : ascii) (back : bool) (full : string) (idx : nat)
    (rest : string) ef gs ls res sp stk sl ma au ai :
  is_digit g = true ->
  is_digit k = true ->
  drop idx full = indexed_field g back k ++ rest ->
  next binary true (cst full idx ef gs ls res sp stk sl ma au ai)
  = Ok (indexed_field g back k)
       (cst full (idx + String.length (indexed_field g back k)) ef gs ls res
          sp stk sl ma au ai).
Proof.
  intros Hg Hk Hd. unfold next, iternext.
  cbn [i Replace.tok_string Replace.index].
  rewrite get_drop, Hd, (indexed_match g k back rest Hg Hk).
  destruct back; cbn [indexed_field append]; cbn; rewrite Nat.sub_0_r;
    reflexivity.
Qed.

(** What [handle_format_group] does with the first field of a
    template when it has a subscript. *)
Lemma handle_indexed_at (g k : ascii) (back : bool) (full : string)
    (idx : nat) ef gs ls res sp sl ai :
  is_digit g = true ->
  is_digit k = true ->
  handle_format_group (strip (slice_to_last 1 (indexed_field g back k)))
    (cst full idx ef gs ls res sp [] sl false false ai)
  = Ok tt
      (if (1 <? List.length res)%nat then
         cst full idx ef
           (gs ++ [((sl + 1)%Z, (top sp, None, index_value back k))])
           (ls ++ [join res; "\g<"; str g; ">"]) [EmptyString] sp []
           (sl + 1 + 1)%Z true false ai
       else
         cst full idx ef
           (gs ++ [(sl, (top sp, None, index_value back k))])
           (ls ++ ["\g<"; str g; ">"]) res sp [] (sl + 1)%Z true false ai).
Proof.
  intros Hg Hk. unfold handle_format_group.
  rewrite (indexed_name g k back Hg Hk), (int_indexed k back Hk).
  destruct res as [|x [|y res]]; reflexivity.
Qed.

Lemma parse_token_indexed (g k : ascii) (back : bool) (f : nat) :
  parse_token binary true unicodedata_lookup f (indexed_field g back k)
  = handle_format_group (strip (slice_to_last 1 (indexed_field g back k))).
Proof. destruct back; reflexivity. Qed.

(** A template that is literal text, a field with a subscript and
    literal text again. *)
Lemma parse_tokens_indexed (g k : ascii) (back : bool) (a b : string)
    (fuel : nat) :
  is_digit g = true ->
  is_digit k = true ->
  all (literal_char true) a = true ->
  all (literal_char true) b = true ->
  (String.length a + String.length b + 2 <= fuel)%nat ->
  exists s,
    parse_tokens binary true unicodedata_lookup fuel
      (a ++ indexed_field g back k ++ b)
    = Ok tt s
    /\ join (literal_slots s) = a ++ "\g<" ++ str g ++ ">" ++ b
    /\ group_slots s
       = [(match a with EmptyString => 0%Z | _ => 1%Z end,
           (None, None, index_value back k))].
Proof.
  intros Hg Hk Ha Hb Hfuel. unfold parse_tokens, initial.
  set (full := a ++ indexed_field g back k ++ b).
  set (na := String.length a) in *. set (nb := String.length b) in *.
  set (nf := String.length (indexed_field g back k)).
  replace fuel with (na + S (nb + S (fuel - na - nb - 2)))%nat by lia.
  unfold bind at 1.
  rewrite (CompileFacts.parse_loop_text binary true unicodedata_lookup a _ full
             0 _ _ _ _ _ _ _ _ _ _ _ Ha eq_refl).
  fold na. cbn [Nat.add].
  assert (D1 : drop na full = indexed_field g back k ++ b)
    by (apply (drop_add na 0 full a _ eq_refl eq_refl)).
  rewrite parse_loop_S.
  rewrite (next_indexed g k back full na b _ _ _ _ _ _ _ _ _ _ Hg Hk D1).
  unfold bind at 1.
  rewrite parse_token_indexed, (handle_indexed_at g k back) by assumption.
  fold nf.
  assert (D2 : drop (na + nf) full = b ++ "").
  { rewrite app_nil_r.
    apply (drop_add nf na full (indexed_field g back k) b D1 eq_refl). }
  assert (D3 : drop (na + nf + nb) full = "")
    by (apply (drop_add nb _ full b "" D2 eq_refl)).
  assert (Hj : forall x, join ("" :: Search.chars x) = x).
  { intros x. rewrite (join_cons ""), join_chars. reflexivity. }
  destruct a as [|ca a].
  - change (1 <? List.length ([EmptyString] ++ Search.chars ""))%nat with false.
    cbv iota. change ([EmptyString] ++ Search.chars "")%list with [EmptyString].
    rewrite (CompileFacts.parse_loop_text binary true unicodedata_lookup b _
               full _ _ _ _ _ _ _ _ _ _ _ _ Hb D2).
    fold nb. rewrite parse_loop_S, next_at_end by exact D3.
    cbn [List.app].
    destruct (SpanGroupFacts.last_flush full (na + nf + nb) (Search.chars b)
                [(0%Z, (None, None, index_value back k))]
                ["\g<"; str g; ">"] (0 + 1)%Z true false 0%Z)
      as (s & Hs & Hl & Hgs).
    exists s. split; [exact Hs|]. split; [|exact Hgs].
    rewrite Hl, join_chars. reflexivity.
  - assert (Hlen : (1 <? List.length ([EmptyString]
                                      ++ Search.chars (String ca a)))%nat
                   = true) by reflexivity.
    rewrite Hlen.
    rewrite (CompileFacts.parse_loop_text binary true unicodedata_lookup b _
               full _ _ _ _ _ _ _ _ _ _ _ _ Hb D2).
    fold nb. rewrite parse_loop_S, next_at_end by exact D3.
    cbn [List.app].
    destruct (SpanGroupFacts.last_flush full (na + nf + nb) (Search.chars b)
                [((0 + 1)%Z, (None, None, index_value back k))]
                [join ("" :: Search.chars (String ca a)); "\g<"; str g; ">"]
                (0 + 1 + 1)%Z true false 0%Z)
      as (s & Hs & Hl & Hgs).
    exists s. split; [exact Hs|]. split; [|exact Hgs].
    rewrite Hl, !join_cons, !join_chars.
    change (join []) with "".
    repeat (first [rewrite app_assoc | rewrite app_nil_r
                  | progress cbn [append str]]).
    reflexivity.
Qed.

End Compiler.

(** In a format template a numbered field with a subscript, [{g[k]}]
    or [{g[-k]}], stands for one capture of its group: the capture
    number [k] counted from the first, or with the minus sign from the
    last. The text around the field is kept. When the group has no such
    capture the expansion raises the out-of-range error that names the
    index. The host engine's template grammar is assumed to split the
    compiled template at its group reference. *)
Theorem subscript_selects_capture
    (helper : RegexPattern -> string -> exn + list (Z + string))
    (unicodedata_lookup : string -> option Z) (m : Match)
    (g k : ascii) (back : bool) (G : Z) (a b : string)
    (caps : list string) (fuel : nat) :
  is_digit g = true ->
  is_digit k = true ->
  all (literal_char true) a = true ->
  all (literal_char true) b = true ->
  helper (m_re m) (a ++ "\g<" ++ str g ++ ">" ++ b)
  = inr (literal_part a ++ [inl G] ++ literal_part b)%list ->
  m_captures m (Some G) = inr caps ->
  (String.length a + String.length b + 2 <= fuel)%nat ->
  expandf helper unicodedata_lookup fuel (Some m)
    (Str (a ++ indexed_field g back k ++ b))
  = match getitem caps (index_value back k) with
    | Some cap => Returns (Some (a ++ cap ++ b))
    | None =>
        Raises (IndexError ("'" ++ int2str (index_value back k)
                            ++ "' is out of range!"))
    end.
Proof.
  intros Hg Hk Ha Hb Hh Hc Hfuel.
  destruct (parse_tokens_indexed false unicodedata_lookup g k back a b fuel
              Hg Hk Ha Hb Hfuel) as (s & Hp & Hl & Hgs).
  unfold expandf, _apply_replace_backrefs, new_template.
  change (negb (Z.land FORMAT FORMAT =? 0)%Z) with true.
  rewrite Hp, Hl, Hgs. unfold regex_parse_template. rewrite Hh.
  unfold expander_expand.
  destruct a as [|ca a], b as [|cb b];
    cbn [literal_part List.app split_parts rt_literals expand_loop];
    unfold expand_group;
    cbn [rt_groups rt_group_slots get_group_index get_group_attributes
         Z.eqb Z.add Pos.eqb Pos.add];
    rewrite Hc;
    destruct (getitem caps (index_value back k)) as [cap|];
    cbn [expand_loop List.app]; unfold join; cbn [String.concat];
    rewrite ?app_nil_r; reflexivity.
Qed.

Lemma subscript_selects_capture_witness :
  let m :=
    mkMatch "xyz" (mkPattern "(?:(.))+" 0 1) (fun _ => inr ["x"; "y"; "z"]) in
  expandf Host.numbered_helper Host.no_names 16 (Some m)
    (Str ("<" ++ indexed_field "1" true "2" ++ ">"))
  = Returns (Some "<y>")
  /\ expandf Host.numbered_helper Host.no_names 16 (Some m)
       (Str ("<" ++ indexed_field "1" false "3" ++ ">"))
     = Raises (IndexError "'3' is out of range!").
Proof.
  intros m. split.
  2:{ apply (subscript_selects_capture Host.numbered_helper Host.no_names m
               "1" "3" false 1 "<" ">" ["x"; "y"; "z"] 16);
        [reflexivity | reflexivity | reflexivity | reflexivity | reflexivity
        | reflexivity | simpl; lia]. }
  apply (subscript_selects_capture Host.numbered_helper Host.no_names m
           "1" "2" true 1 "<" ">" ["x"; "y"; "z"] 16);
    [reflexivity | reflexivity | reflexivity | reflexivity | reflexivity
    | reflexivity | simpl; lia].
Defined.

End SubscriptFacts.

(** ** Groups *)

Module GroupBodyFacts.
Import Search Shapes Forms StringFacts SearchFacts PreprocessFacts CommentFacts.

(** *** A group that is no flag group and no comment *)

Lemma plain_group_lexemes (c : ascii) (r : string) :
  Ascii.eqb c "?" = false ->
  (forall globals dash close,
     match_flag_group globals dash close (String "(" (String c r)) = None)
  /\ _re_comments (String "(" (String c r)) = None.
Proof.
  intros H.
  destruct c as [[] [] [] [] [] [] [] []]; try discriminate H;
    split; reflexivity.
Qed.

Lemma marked_group_lexemes (c : ascii) (r : string) :
  in_chars ":=!<>P|" c = true ->
  (forall globals dash close,
     match_flag_group globals dash close
       (String "(" (String "?" (String c r))) = None)
  /\ _re_comments (String "(" (String "?" (String c r))) = None.
Proof.
  unfold in_chars. cbn [list_ascii_of_string existsb]. intros H.
  repeat (apply orb_true_iff in H; destruct H as [H|H];
          [apply Ascii.eqb_eq in H; subst c;
           split; [intros [] [] close; destruct r; reflexivity | reflexivity]
          |]).
  discriminate.
Qed.

Lemma group_lexemes (v : bool) (ms : list member) (rest : string) :
  group_opening ms = true ->
  (forall globals dash close,
     match_flag_group globals dash close
       ("(" ++ members_text ms ++ String ")" rest) = None)
  /\ _re_comments ("(" ++ members_text ms ++ String ")" rest) = None.
Proof.
  intros Ho. destruct ms as [|[c|c] ms].
  - split; reflexivity.
  - cbn [group_opening] in Ho. cbn [members_text member_text append str].
    destruct (Ascii.eqb c "?") eqn:E.
    + apply Ascii.eqb_eq in E. subst c. cbn [negb orb] in Ho.
      destruct ms as [|[c2|c2] ms]; try discriminate Ho.
      cbn [members_text member_text append str].
      apply (marked_group_lexemes c2 _ Ho).
    + apply (plain_group_lexemes c _ E).
  - cbn [members_text member_text append str].
    apply (plain_group_lexemes "\" _ eq_refl).
Qed.

Lemma group_member_marks (v : bool) (m : member) :
  group_member v m = true ->
  match m with
  | Plain c => Ascii.eqb c "\" = false
  | Esc c => Ascii.eqb c "Q" = false /\ Ascii.eqb c "E" = false
  end.
Proof.
  unfold group_member. intros H. apply andb_true_iff in H.
  apply (pattern_member_marks v m (proj1 H)).
Qed.

Section Body.
Variable binary : bool.

Lemma normal_plain_at (k f : nat) (c : ascii) (st : state) :
  plainb (verbose st) c = true ->
  normal binary (k + S f) (str c) st = Ok [str c] st.
Proof.
  intros H. rewrite Nat.add_succ_r. apply (normal_plain binary _ c st H).
Qed.

Lemma normal_escape_at (k f : nat) (s : string) (n : nat) (v : bool) (ver : Z)
    (c : ascii) (rest : string) :
  drop n s = String c rest ->
  normal binary (k + S f) "\" (at_ s n v ver)
  = Ok (reference_tokens binary c) (at_ s (S n) v ver).
Proof.
  intros Hd. rewrite Nat.add_succ_r, SafetyFacts.normal_S.
  change ("\" =? "\") with true. cbv iota. unfold reference.
  rewrite (next_char s n v ver c rest Hd).
  change (str c =? "<") with (str c =? str "<").
  change (str c =? ">") with (str c =? str ">").
  change (str c =? "R") with (str c =? str "R").
  change (str c =? "e") with (str c =? str "e").
  rewrite !str_eqb. reflexivity.
Qed.

(** The body loop over members, up to the token [x] after them; the
    current token is the head of the text. *)
Lemma body_members (ms : list member) :
  forall (f : nat) (h : ascii) (tl : string) (c0 : string)
         (cur : list string) (s : string) (n : nat) (v : bool) (ver : Z)
         (x : ascii) (rest : string),
    forallb (group_member v) ms = true ->
    members_text ms ++ String x rest = String h tl ->
    drop n s = tl ->
    subgroup_body binary (List.length ms + S f) (str h) (c0 :: cur)
      (at_ s n v ver)
    = subgroup_body binary (S f) (str x)
        ((c0 :: cur) ++ expansion_tokens binary ms)
        (at_ s (n + String.length (members_text ms)) v ver).
Proof.
  induction ms as [|m ms IH];
    intros f h tl c0 cur s n v ver x rest Hm He Hd.
  - cbn in He. injection He as Hh Ht. subst h. cbn.
    now rewrite Nat.add_0_r, List.app_nil_r.
  - cbn [forallb] in Hm. apply andb_true_iff in Hm. destruct Hm as [Hm Hms].
    unfold group_member in Hm. apply andb_true_iff in Hm.
    destruct Hm as [Hp Hc].
    destruct (members_text ms ++ String x rest) as [|h' tl'] eqn:E.
    { destruct (members_text ms); discriminate. }
    cbn [List.length Nat.add]. destruct m as [c|c].
    + cbn [members_text member_text str append] in He.
      rewrite E in He. injection He as Hh Ht. subst h. rewrite <- Ht in Hd.
      cbn [members_text member_text str append String.length Nat.add].
      apply negb_true_iff in Hc.
      rewrite SafetyFacts.subgroup_body_S.
      change (str c =? ")") with (str c =? str ")"). rewrite str_eqb, Hc.
      cbv iota zeta.
      rewrite (normal_plain_at _ _ c (at_ s n v ver) Hp).
      rewrite (next_char s n v ver h' tl' Hd).
      cbn [List.app].
      rewrite (IH f h' tl' c0 _ s (S n) v ver x rest Hms E
                 (drop_succ _ _ _ _ Hd)).
      cbn [expansion_tokens]. f_equal.
      * cbn [List.app]. rewrite <- !List.app_assoc. reflexivity.
      * f_equal. f_equal. lia.
    + cbn [members_text member_text str append] in He.
      rewrite E in He. injection He as Hh Ht. subst h. rewrite <- Ht in Hd.
      cbn [members_text member_text str append String.length Nat.add].
      rewrite SafetyFacts.subgroup_body_S.
      change (str "\" =? ")") with false. cbv iota zeta.
      change (str "\") with "\".
      rewrite (normal_escape_at _ _ s n v ver c _ Hd).
      rewrite (next_char s (S n) v ver h' tl' (drop_succ _ _ _ _ Hd)).
      cbn [List.app].
      rewrite (IH f h' tl' c0 _ s (S (S n)) v ver x rest Hms E).
      2:{ apply drop_succ with h'. apply (drop_succ _ _ _ _ Hd). }
      cbn [expansion_tokens]. f_equal.
      * cbn [List.app]. rewrite <- !List.app_assoc. reflexivity.
      * f_equal. f_equal. lia.
Qed.

(** The main loop at a group. *)
Lemma main_loop_group (ms : list member) (f : nat) (cur : list string)
    (s : string) (n : nat) (v : bool) (ver : Z) (rest : string) :
  forallb (group_member v) ms = true ->
  group_opening ms = true ->
  drop n s = "(" ++ members_text ms ++ String ")" rest ->
  main_group_loop binary (S (S (S (S (S (List.length ms + S f)))))) cur
    (at_ s n v ver)
  = main_group_loop binary (S (S (S (S (List.length ms + S f)))))
      (cur ++ "(" :: expansion_tokens binary ms ++ [")"])
      (at_ s (n + String.length (members_text ms) + 2) v ver).
Proof.
  intros Hm Ho Hd.
  destruct (group_lexemes v ms rest Ho) as (L1 & L2).
  rewrite main_group_loop_S.
  rewrite (next_char s n v ver "(" _ Hd).
  change (str "(") with "(". rewrite SafetyFacts.normal_S.
  change ("(" =? "\") with false. change ("(" =? "(") with true. cbv iota.
  rewrite SafetyFacts.subgroup_S. cbn [version]. unfold get_flags.
  rewrite (get_lexeme_none _ s n v ver).
  2:{ rewrite Hd. destruct (negb (ver =? VERSION0)%Z); apply L1. }
  unfold get_comments.
  rewrite (get_lexeme_none _ s n v ver) by (rewrite Hd; exact L2).
  cbv zeta. cbn [version verbose]. unfold get_scoped_flags.
  rewrite (get_lexeme_none _ s n v ver).
  2:{ rewrite Hd. destruct (negb (ver =? VERSION0)%Z); apply L1. }
  cbn [i index].
  rewrite SafetyFacts.subgroup_retry_S, SafetyFacts.subgroup_body_S.
  change ("(" =? ")") with false. cbv iota zeta.
  pose proof (drop_succ _ _ _ _ Hd) as Hd1.
  destruct (members_text ms ++ String ")" rest) as [|h tl] eqn:E.
  { destruct (members_text ms); discriminate. }
  rewrite (next_char s (S n) v ver h tl Hd1).
  rewrite (body_members ms f h tl "(" [] s (S (S n)) v ver ")" rest Hm E
             (drop_succ _ _ _ _ Hd1)).
  rewrite SafetyFacts.subgroup_body_S.
  change (str ")" =? ")") with true. cbv iota.
  unfold set_verbose. cbn [i verbose version].
  change (str ")") with ")".
  replace (S (S n) + String.length (members_text ms))%nat
    with (n + String.length (members_text ms) + 2)%nat by lia.
  rewrite <- List.app_assoc. reflexivity.
Qed.

End Body.

(** Inside a group that is no flag group and no comment the pattern is
    handled as outside: plain characters are copied, shorthands are
    expanded, other escaped characters are copied with their backslash;
    the group ends at its closing parenthesis, and the pattern behind it
    is handled alike. *)
Theorem group_body_expands (escape : string -> string) (binary : bool)
    (re_verbose : bool) (re_version : Z) (ms ms2 : list member) (fuel : nat) :
  forallb (group_member re_verbose) ms = true ->
  group_opening ms = true ->
  forallb (pattern_member re_verbose) ms2 = true ->
  (List.length ms + List.length ms2 + 8 <= fuel)%nat ->
  apply escape binary fuel re_verbose re_version
    ("(" ++ members_text ms ++ ")" ++ members_text ms2)
  = Returns ("(" ++ join (expansion_tokens binary ms) ++ ")"
             ++ join (expansion_tokens binary ms2)).
Proof.
  intros Hm Ho Hm2 Hfuel. unfold apply.
  set (s := "(" ++ members_text ms ++ ")" ++ members_text ms2).
  assert (D0 : drop 0 s
               = "(" ++ members_text ms ++ String ")" (members_text ms2))
    by reflexivity.
  rewrite process_quotes_quote_free.
  2:{ unfold s.
      change ("(" ++ members_text ms ++ ")" ++ members_text ms2)
        with (String "(" (members_text ms ++ String ")" (members_text ms2))).
      cbn [quote_free]. change (Ascii.eqb "(" "\") with false. cbv iota.
      rewrite (quote_free_after _ ms _ (group_member_marks re_verbose) Hm).
      cbn [quote_free]. change (Ascii.eqb ")" "\") with false. cbv iota.
      apply (quote_free_pattern_members re_verbose ms2 Hm2). }
  set (ver := if (re_version =? 0)%Z then DEFAULT_VERSION else re_version).
  destruct (Nat.le_exists_sub (List.length ms + List.length ms2 + 7) fuel)
    as (k & Hk & _); [lia|].
  replace fuel
    with (S (S (S (S (S (S (List.length ms + S (List.length ms2 + k))))))))
    by lia.
  rewrite apply_loop_S. unfold main_group.
  rewrite (main_loop_group binary ms _ [] s 0 re_verbose ver _ Hm Ho D0).
  assert (D1 : drop (0 + String.length (members_text ms) + 2) s
               = members_text ms2 ++ "").
  { rewrite app_nil_r.
    replace (0 + String.length (members_text ms) + 2)%nat
      with (0 + String.length ("(" ++ members_text ms ++ ")"))%nat
      by (rewrite !length_app; cbn [String.length]; lia).
    apply (drop_add _ 0 s ("(" ++ members_text ms ++ ")") _);
      [|reflexivity].
    unfold s. now rewrite !app_assoc. }
  replace (S (S (S (S (List.length ms + S (List.length ms2 + k))))))
    with (List.length ms2 + S (List.length ms + k + 4))%nat by lia.
  rewrite (main_loop_members binary ms2 _ _ s _ re_verbose ver "" Hm2 D1).
  rewrite (main_loop_end binary _ _ s _ re_verbose ver).
  2:{ apply (drop_add _ _ s (members_text ms2) "" D1 eq_refl). }
  f_equal. cbn [List.app].
  repeat (first [rewrite join_cons | rewrite join_app]).
  change (join []) with "".
  repeat (first [rewrite app_assoc | rewrite app_nil_r
                | progress cbn [append]]).
  reflexivity.
Qed.

Lemma group_body_expands_witness :
  apply Host.regex_escape false 40 true 0
    ("(" ++ members_text [Plain "?"; Plain ":"; Esc "<"; Plain "a"; Esc "d";
                          Esc ")"] ++ ")"
     ++ members_text [Esc "R"; Plain "b"])
  = Returns ("(" ++ join (expansion_tokens false
                            [Plain "?"; Plain ":"; Esc "<"; Plain "a";
                             Esc "d"; Esc ")"]) ++ ")"
             ++ join (expansion_tokens false [Esc "R"; Plain "b"])).
Proof.
  apply (group_body_expands Host.regex_escape false true 0
           [Plain "?"; Plain ":"; Esc "<"; Plain "a"; Esc "d"; Esc ")"]
           [Esc "R"; Plain "b"] 40);
    try reflexivity.
  simpl. lia.
Defined.

End GroupBodyFacts.
